(** * binjgb: a shallow embedding of the emulator core of [src/main.c]

    The C program is a cycle-counting emulator of the monochrome handheld
    console: an LR35902 CPU, its memory map and cartridge bank controllers,
    the LCD controller, the sound unit, the timer, OAM DMA and the interrupt
    controller.  This file embeds the emulator state ([struct Emulator]) as
    Rocq records and every function of the core as a Rocq function of the same
    name, in explicit state-passing style, and proves properties of them.

    Conventions of the embedding.
    - A C unsigned integer of width w is a [Z]; every place where the C code
      stores into a narrower object carries the wrap-around explicitly
      ([u8], [u16], [u32]).  [int8_t] casts are [s8].
    - [enum Bool] is [bool]; other enums that the code fills from bit fields
      of registers are kept as the numbers the C enum assigns.
    - A C array is a total map from the index to the element ([Z -> A]), with
      [aset] for an assignment to one cell.  All indices the code computes are
      masked into range by the code itself.
    - The function pointers of [struct MemoryMap] are tags naming the function
      they point to.
    - [exit(1)] (the [UNREACHABLE] macro) is the [None] of [option].
    - Logging macros ([INFO], [DEBUG], [VERBOSE]) and [assert] have no effect
      on the state and are left out.
    - The two host-facing output sinks are left out: the pixels that
      [render_line] stores in [frame_buffer] (with the decoded tile caches
      [vram.tile] and [vram.map] that only the renderer reads), and the mixed
      samples that [update_sound_cycles] appends to the host's [SoundBuffer].
      The core never reads either of them back. *)

From Stdlib Require Import ZArith Bool List Lia.
Import ListNotations.
Local Open Scope Z_scope.

(** ** Machine integers *)

Definition u8 (x : Z) : Z := x mod 0x100.
Definition u16 (x : Z) : Z := x mod 0x10000.
Definition u32 (x : Z) : Z := x mod 0x100000000.

(** [(int8_t)x] for a byte [x]. *)
Definition s8 (x : Z) : Z := if u8 x <? 0x80 then u8 x else u8 x - 0x100.

(** [enum Bool] to [int] and back. *)
Definition b2z (b : bool) : Z := if b then 1 else 0.
Definition z2b (x : Z) : bool := negb (x =? 0).

(** [#define BITS_MASK(HI, LO) ((1 << ((HI) - (LO) + 1)) - 1)] *)
Definition BITS_MASK (hi lo : Z) : Z := Z.shiftl 1 (hi - lo + 1) - 1.
(** [#define ENCODE(X, HI, LO) (((X) & BITS_MASK(HI, LO)) << (LO))] *)
Definition ENCODE (x hi lo : Z) : Z := Z.shiftl (Z.land x (BITS_MASK hi lo)) lo.
(** [#define DECODE(X, HI, LO) (((X) >> (LO)) & BITS_MASK(HI, LO))] *)
Definition DECODE (x hi lo : Z) : Z := Z.land (Z.shiftr x lo) (BITS_MASK hi lo).

(** [READ_REG(X, F)] and [WRITE_REG(X, F)] for a field [F] declared with
    [BITS(X, OP, HI, LO)] or [BIT(X, OP, B)]. *)
Definition READ_BITS (x hi lo : Z) : Z := ENCODE x hi lo.
Definition READ_BIT (x : bool) (b : Z) : Z := ENCODE (b2z x) b b.
Definition WRITE_BITS (x hi lo : Z) : Z := DECODE x hi lo.
Definition WRITE_BIT (x b : Z) : bool := z2b (DECODE x b b).

(** [a[i] = v] on an array modelled as a total map. *)
Definition aset {A : Type} (a : Z -> A) (i : Z) (v : A) : Z -> A :=
  fun j => if j =? i then v else a j.

(** [#define VALUE_WRAPPED(X, MAX) ((X) >= (MAX) ? ((X) -= (MAX), TRUE) : FALSE)]:
    the new value of [X] and the result. *)
Definition VALUE_WRAPPED (x max : Z) : Z * bool :=
  if max <=? x then (x - max, true) else (x, false).

(** ** Constants *)

Definition INVALID_READ_BYTE : Z := 0xff.

Definition ROM_BANK_SHIFT : Z := 14.
Definition EXTERNAL_RAM_BANK_SHIFT : Z := 13.

Definition FRAME_CYCLES : Z := 70224.
Definition LINE_CYCLES : Z := 456.
Definition HBLANK_CYCLES : Z := 204.
Definition VBLANK_CYCLES : Z := 4560.
Definition USING_OAM_CYCLES : Z := 80.
Definition USING_OAM_VRAM_CYCLES : Z := 172.
Definition DMA_CYCLES : Z := 648.
Definition APU_CYCLES : Z := 2.

Definition ADDR_MASK_1K : Z := 0x03ff.
Definition ADDR_MASK_4K : Z := 0x0fff.
Definition ADDR_MASK_8K : Z := 0x1fff.
Definition ADDR_MASK_16K : Z := 0x3fff.

Definition MBC_RAM_ENABLED_MASK : Z := 0xf.
Definition MBC_RAM_ENABLED_VALUE : Z := 0xa.
Definition MBC1_ROM_BANK_LO_SELECT_MASK : Z := 0x1f.
Definition MBC1_BANK_HI_SELECT_MASK : Z := 0x3.
Definition MBC1_BANK_HI_SHIFT : Z := 5.
Definition MBC2_RAM_ADDR_MASK : Z := 0x1ff.
Definition MBC2_RAM_VALUE_MASK : Z := 0xf.
Definition MBC2_ADDR_SELECT_BIT_MASK : Z := 0x100.
Definition MBC2_ROM_BANK_SELECT_MASK : Z := 0xf.
Definition MBC3_ROM_BANK_SELECT_MASK : Z := 0x7f.
Definition MBC3_RAM_BANK_SELECT_MASK : Z := 0x7.

Definition OAM_START_ADDR : Z := 0xfe00.
Definition OAM_END_ADDR : Z := 0xfe9f.
Definition UNUSED_START_ADDR : Z := 0xfea0.
Definition UNUSED_END_ADDR : Z := 0xfeff.
Definition IO_START_ADDR : Z := 0xff00.
Definition APU_START_ADDR : Z := 0xff10.
Definition APU_END_ADDR : Z := 0xff2f.
Definition WAVE_RAM_START_ADDR : Z := 0xff30.
Definition WAVE_RAM_END_ADDR : Z := 0xff3f.
Definition IO_END_ADDR : Z := 0xff7f.
Definition HIGH_RAM_START_ADDR : Z := 0xff80.
Definition HIGH_RAM_END_ADDR : Z := 0xfffe.
Definition OAM_TRANSFER_SIZE : Z := OAM_END_ADDR - OAM_START_ADDR + 1.

Definition SCREEN_WIDTH : Z := 160.
Definition SCREEN_HEIGHT : Z := 144.
Definition SCREEN_HEIGHT_WITH_VBLANK : Z := 154.
Definition WINDOW_MAX_X : Z := 166.
Definition OBJ_COUNT : Z := 40.
Definition OBJ_Y_OFFSET : Z := 16.
Definition OBJ_X_OFFSET : Z := 8.

Definition NRX1_MAX_LENGTH : Z := 64.
Definition NR31_MAX_LENGTH : Z := 256.
Definition SWEEP_MAX_PERIOD : Z := 8.
Definition SOUND_MAX_FREQUENCY : Z := 2047.
Definition WAVE_SAMPLE_COUNT : Z := 32.
Definition NOISE_MAX_CLOCK_SHIFT : Z := 13.
Definition ENVELOPE_MAX_PERIOD : Z := 8.
Definition ENVELOPE_MAX_VOLUME : Z := 15.
Definition DUTY_CYCLE_COUNT : Z := 8.

Definition WAVE_SAMPLE_TRIGGER_OFFSET_CYCLES : Z := 2.
Definition WAVE_SAMPLE_READ_OFFSET_CYCLES : Z := 0.
Definition WAVE_SAMPLE_WRITE_OFFSET_CYCLES : Z := 0.

Definition FRAME_SEQUENCER_COUNT : Z := 8.
Definition FRAME_SEQUENCER_CYCLES : Z := 8192.
Definition FRAME_SEQUENCER_UPDATE_ENVELOPE_FRAME : Z := 7.

(** [FOREACH_IO_REG]: addresses relative to [IO_START_ADDR]. *)
Definition IO_JOYP_ADDR : Z := 0x00.
Definition IO_SB_ADDR : Z := 0x01.
Definition IO_SC_ADDR : Z := 0x02.
Definition IO_DIV_ADDR : Z := 0x04.
Definition IO_TIMA_ADDR : Z := 0x05.
Definition IO_TMA_ADDR : Z := 0x06.
Definition IO_TAC_ADDR : Z := 0x07.
Definition IO_IF_ADDR : Z := 0x0f.
Definition IO_LCDC_ADDR : Z := 0x40.
Definition IO_STAT_ADDR : Z := 0x41.
Definition IO_SCY_ADDR : Z := 0x42.
Definition IO_SCX_ADDR : Z := 0x43.
Definition IO_LY_ADDR : Z := 0x44.
Definition IO_LYC_ADDR : Z := 0x45.
Definition IO_DMA_ADDR : Z := 0x46.
Definition IO_BGP_ADDR : Z := 0x47.
Definition IO_OBP0_ADDR : Z := 0x48.
Definition IO_OBP1_ADDR : Z := 0x49.
Definition IO_WY_ADDR : Z := 0x4a.
Definition IO_WX_ADDR : Z := 0x4b.
Definition IO_IE_ADDR : Z := 0xff.

(** [FOREACH_APU_REG]: addresses relative to [APU_START_ADDR]. *)
Definition APU_NR10_ADDR : Z := 0x0.
Definition APU_NR11_ADDR : Z := 0x1.
Definition APU_NR12_ADDR : Z := 0x2.
Definition APU_NR13_ADDR : Z := 0x3.
Definition APU_NR14_ADDR : Z := 0x4.
Definition APU_NR21_ADDR : Z := 0x6.
Definition APU_NR22_ADDR : Z := 0x7.
Definition APU_NR23_ADDR : Z := 0x8.
Definition APU_NR24_ADDR : Z := 0x9.
Definition APU_NR30_ADDR : Z := 0xa.
Definition APU_NR31_ADDR : Z := 0xb.
Definition APU_NR32_ADDR : Z := 0xc.
Definition APU_NR33_ADDR : Z := 0xd.
Definition APU_NR34_ADDR : Z := 0xe.
Definition APU_NR41_ADDR : Z := 0x10.
Definition APU_NR42_ADDR : Z := 0x11.
Definition APU_NR43_ADDR : Z := 0x12.
Definition APU_NR44_ADDR : Z := 0x13.
Definition APU_NR50_ADDR : Z := 0x14.
Definition APU_NR51_ADDR : Z := 0x15.
Definition APU_NR52_ADDR : Z := 0x16.
(** The enumerator that [DEFINE_NAMED_REG] appends after [APU_NR52_ADDR]. *)
Definition APU_REG_COUNT : Z := 0x17.

Definition INTERRUPT_VBLANK_MASK : Z := 0x01.
Definition INTERRUPT_LCD_STAT_MASK : Z := 0x02.
Definition INTERRUPT_TIMER_MASK : Z := 0x04.
Definition INTERRUPT_SERIAL_MASK : Z := 0x08.
Definition INTERRUPT_JOYPAD_MASK : Z := 0x10.
Definition INTERRUPT_UNUSED : Z := 0xe0.

Definition JOYP_UNUSED : Z := 0xc0.
Definition JOYP_RESULT_MASK : Z := 0x0f.
Definition SC_UNUSED : Z := 0x7e.
Definition TAC_UNUSED : Z := 0xf8.
Definition STAT_UNUSED : Z := 0x80.

(** [enum BankMode], [enum JoypadSelect], and the other enums whose values
    the code decodes from register bits. *)
Definition BANK_MODE_ROM : Z := 0.
Definition BANK_MODE_RAM : Z := 1.
Definition JOYPAD_SELECT_BOTH : Z := 0.
Definition JOYPAD_SELECT_BUTTONS : Z := 1.
Definition JOYPAD_SELECT_DPAD : Z := 2.
Definition JOYPAD_SELECT_NONE : Z := 3.
Definition SWEEP_DIRECTION_ADDITION : Z := 0.
Definition SWEEP_DIRECTION_SUBTRACTION : Z := 1.
Definition ENVELOPE_ATTENUATE : Z := 0.
Definition ENVELOPE_AMPLIFY : Z := 1.
Definition LFSR_WIDTH_15 : Z := 0.
Definition LFSR_WIDTH_7 : Z := 1.
Definition CHANNEL1 : Z := 0.
Definition CHANNEL2 : Z := 1.
Definition CHANNEL3 : Z := 2.
Definition CHANNEL4 : Z := 3.
Definition SOUND1 : Z := 0.
Definition SOUND2 : Z := 1.
Definition SOUND3 : Z := 2.
Definition SOUND4 : Z := 3.
Definition VIN : Z := 4.

(** [static const uint16_t s_tima_mask[]]: TIMA is incremented when the given
    bit of [div_counter] changes from 1 to 0. *)
Definition s_tima_mask (clock : Z) : Z :=
  match clock with
  | 0 => Z.shiftl 1 9
  | 1 => Z.shiftl 1 3
  | 2 => Z.shiftl 1 5
  | _ => Z.shiftl 1 7
  end.

(** [enum MemoryMapType] *)
Inductive MemoryMapType : Type :=
| MEMORY_MAP_ROM
| MEMORY_MAP_ROM_BANK_SWITCH
| MEMORY_MAP_VRAM
| MEMORY_MAP_EXTERNAL_RAM
| MEMORY_MAP_WORK_RAM
| MEMORY_MAP_WORK_RAM_BANK_SWITCH
| MEMORY_MAP_OAM
| MEMORY_MAP_UNUSED
| MEMORY_MAP_IO
| MEMORY_MAP_APU
| MEMORY_MAP_WAVE_RAM
| MEMORY_MAP_HIGH_RAM.

Definition MemoryMapType_eqb (a b : MemoryMapType) : bool :=
  match a, b with
  | MEMORY_MAP_ROM, MEMORY_MAP_ROM
  | MEMORY_MAP_ROM_BANK_SWITCH, MEMORY_MAP_ROM_BANK_SWITCH
  | MEMORY_MAP_VRAM, MEMORY_MAP_VRAM
  | MEMORY_MAP_EXTERNAL_RAM, MEMORY_MAP_EXTERNAL_RAM
  | MEMORY_MAP_WORK_RAM, MEMORY_MAP_WORK_RAM
  | MEMORY_MAP_WORK_RAM_BANK_SWITCH, MEMORY_MAP_WORK_RAM_BANK_SWITCH
  | MEMORY_MAP_OAM, MEMORY_MAP_OAM
  | MEMORY_MAP_UNUSED, MEMORY_MAP_UNUSED
  | MEMORY_MAP_IO, MEMORY_MAP_IO
  | MEMORY_MAP_APU, MEMORY_MAP_APU
  | MEMORY_MAP_WAVE_RAM, MEMORY_MAP_WAVE_RAM
  | MEMORY_MAP_HIGH_RAM, MEMORY_MAP_HIGH_RAM => true
  | _, _ => false
  end.

(** [enum LCDMode], with the number the enum assigns (the STAT mode bits). *)
Inductive LCDMode : Type :=
| LCD_MODE_HBLANK
| LCD_MODE_VBLANK
| LCD_MODE_USING_OAM
| LCD_MODE_USING_OAM_VRAM.

Definition LCDMode_value (m : LCDMode) : Z :=
  match m with
  | LCD_MODE_HBLANK => 0
  | LCD_MODE_VBLANK => 1
  | LCD_MODE_USING_OAM => 2
  | LCD_MODE_USING_OAM_VRAM => 3
  end.

(** The functions [init_memory_map] stores in [memory_map.read_external_ram]. *)
Inductive ReadExternalRam : Type :=
| Gb_read_external_ram
| Dummy_read_external_ram
| Mbc2_read_ram.

(** The functions [init_memory_map] stores in [memory_map.write_rom]. *)
Inductive WriteRom : Type :=
| Rom_only_write_rom
| Mbc1_write_rom
| Mbc2_write_rom
| Mbc3_write_rom.

(** The functions [init_memory_map] stores in [memory_map.write_external_ram]. *)
Inductive WriteExternalRam : Type :=
| Gb_write_external_ram
| Dummy_write_external_ram
| Mbc2_write_ram.

(** ** The emulator state

    Each record is followed by one setter per field; [upd_f g r] applies [g]
    to field [f]. *)

(** [struct MemoryTypeAddressPair]. *)
Record MemoryTypeAddressPair : Type := Build_MemoryTypeAddressPair {
  pair_type : MemoryMapType;  (* type *)
  pair_addr : Z  (* addr *)
}.

Definition set_pair_type (v : MemoryMapType) (r : MemoryTypeAddressPair) : MemoryTypeAddressPair :=
  Build_MemoryTypeAddressPair v (pair_addr r).
Definition set_pair_addr (v : Z) (r : MemoryTypeAddressPair) : MemoryTypeAddressPair :=
  Build_MemoryTypeAddressPair (pair_type r) v.

(** [struct MBC1]. *)
Record MBC1 : Type := Build_MBC1 {
  byte_2000_3fff : Z;
  byte_4000_5fff : Z;
  bank_mode : Z  (* enum BankMode *)
}.

Definition set_byte_2000_3fff (v : Z) (r : MBC1) : MBC1 :=
  Build_MBC1 v (byte_4000_5fff r) (bank_mode r).
Definition set_byte_4000_5fff (v : Z) (r : MBC1) : MBC1 :=
  Build_MBC1 (byte_2000_3fff r) v (bank_mode r).
Definition set_bank_mode (v : Z) (r : MBC1) : MBC1 :=
  Build_MBC1 (byte_2000_3fff r) (byte_4000_5fff r) v.

(** [struct MemoryMap]. *)
Record MemoryMap : Type := Build_MemoryMap {
  rom_bank : Z;
  ext_ram_bank : Z;
  ext_ram_enabled : bool;
  mbc1 : MBC1;
  read_external_ram : ReadExternalRam;  (* function pointer *)
  write_rom : WriteRom;  (* function pointer *)
  write_external_ram : WriteExternalRam  (* function pointer *)
}.

Definition set_rom_bank (v : Z) (r : MemoryMap) : MemoryMap :=
  Build_MemoryMap v (ext_ram_bank r) (ext_ram_enabled r) (mbc1 r) (read_external_ram r) (write_rom r) (write_external_ram r).
Definition set_ext_ram_bank (v : Z) (r : MemoryMap) : MemoryMap :=
  Build_MemoryMap (rom_bank r) v (ext_ram_enabled r) (mbc1 r) (read_external_ram r) (write_rom r) (write_external_ram r).
Definition set_ext_ram_enabled (v : bool) (r : MemoryMap) : MemoryMap :=
  Build_MemoryMap (rom_bank r) (ext_ram_bank r) v (mbc1 r) (read_external_ram r) (write_rom r) (write_external_ram r).
Definition set_mbc1 (v : MBC1) (r : MemoryMap) : MemoryMap :=
  Build_MemoryMap (rom_bank r) (ext_ram_bank r) (ext_ram_enabled r) v (read_external_ram r) (write_rom r) (write_external_ram r).
Definition set_read_external_ram (v : ReadExternalRam) (r : MemoryMap) : MemoryMap :=
  Build_MemoryMap (rom_bank r) (ext_ram_bank r) (ext_ram_enabled r) (mbc1 r) v (write_rom r) (write_external_ram r).
Definition set_write_rom (v : WriteRom) (r : MemoryMap) : MemoryMap :=
  Build_MemoryMap (rom_bank r) (ext_ram_bank r) (ext_ram_enabled r) (mbc1 r) (read_external_ram r) v (write_external_ram r).
Definition set_write_external_ram (v : WriteExternalRam) (r : MemoryMap) : MemoryMap :=
  Build_MemoryMap (rom_bank r) (ext_ram_bank r) (ext_ram_enabled r) (mbc1 r) (read_external_ram r) (write_rom r) v.

(** [the anonymous struct F of struct Registers]. *)
Record Flags : Type := Build_Flags {
  F_Z : bool;  (* F.Z *)
  F_N : bool;  (* F.N *)
  F_H : bool;  (* F.H *)
  F_C : bool  (* F.C *)
}.

Definition set_F_Z (v : bool) (r : Flags) : Flags :=
  Build_Flags v (F_N r) (F_H r) (F_C r).
Definition set_F_N (v : bool) (r : Flags) : Flags :=
  Build_Flags (F_Z r) v (F_H r) (F_C r).
Definition set_F_H (v : bool) (r : Flags) : Flags :=
  Build_Flags (F_Z r) (F_N r) v (F_C r).
Definition set_F_C (v : bool) (r : Flags) : Flags :=
  Build_Flags (F_Z r) (F_N r) (F_H r) v.

(** [struct Registers]. *)
Record Registers : Type := Build_Registers {
  reg_A : Z;  (* A *)
  reg_B : Z;  (* B *)
  reg_C : Z;  (* C *)
  reg_D : Z;  (* D *)
  reg_E : Z;  (* E *)
  reg_H : Z;  (* H *)
  reg_L : Z;  (* L *)
  reg_SP : Z;  (* SP *)
  reg_PC : Z;  (* PC *)
  reg_F : Flags  (* F *)
}.

Definition set_reg_A (v : Z) (r : Registers) : Registers :=
  Build_Registers v (reg_B r) (reg_C r) (reg_D r) (reg_E r) (reg_H r) (reg_L r) (reg_SP r) (reg_PC r) (reg_F r).
Definition set_reg_B (v : Z) (r : Registers) : Registers :=
  Build_Registers (reg_A r) v (reg_C r) (reg_D r) (reg_E r) (reg_H r) (reg_L r) (reg_SP r) (reg_PC r) (reg_F r).
Definition set_reg_C (v : Z) (r : Registers) : Registers :=
  Build_Registers (reg_A r) (reg_B r) v (reg_D r) (reg_E r) (reg_H r) (reg_L r) (reg_SP r) (reg_PC r) (reg_F r).
Definition set_reg_D (v : Z) (r : Registers) : Registers :=
  Build_Registers (reg_A r) (reg_B r) (reg_C r) v (reg_E r) (reg_H r) (reg_L r) (reg_SP r) (reg_PC r) (reg_F r).
Definition set_reg_E (v : Z) (r : Registers) : Registers :=
  Build_Registers (reg_A r) (reg_B r) (reg_C r) (reg_D r) v (reg_H r) (reg_L r) (reg_SP r) (reg_PC r) (reg_F r).
Definition set_reg_H (v : Z) (r : Registers) : Registers :=
  Build_Registers (reg_A r) (reg_B r) (reg_C r) (reg_D r) (reg_E r) v (reg_L r) (reg_SP r) (reg_PC r) (reg_F r).
Definition set_reg_L (v : Z) (r : Registers) : Registers :=
  Build_Registers (reg_A r) (reg_B r) (reg_C r) (reg_D r) (reg_E r) (reg_H r) v (reg_SP r) (reg_PC r) (reg_F r).
Definition set_reg_SP (v : Z) (r : Registers) : Registers :=
  Build_Registers (reg_A r) (reg_B r) (reg_C r) (reg_D r) (reg_E r) (reg_H r) (reg_L r) v (reg_PC r) (reg_F r).
Definition set_reg_PC (v : Z) (r : Registers) : Registers :=
  Build_Registers (reg_A r) (reg_B r) (reg_C r) (reg_D r) (reg_E r) (reg_H r) (reg_L r) (reg_SP r) v (reg_F r).
Definition set_reg_F (v : Flags) (r : Registers) : Registers :=
  Build_Registers (reg_A r) (reg_B r) (reg_C r) (reg_D r) (reg_E r) (reg_H r) (reg_L r) (reg_SP r) (reg_PC r) v.

(** [struct Palette]. *)
Record Palette : Type := Build_Palette {
  color : Z -> Z  (* color[PALETTE_COLOR_COUNT] *)
}.

Definition set_color (v : (Z -> Z)) (r : Palette) : Palette :=
  Build_Palette v.

(** [struct Obj]. *)
Record Obj : Type := Build_Obj {
  obj_y : Z;  (* y *)
  obj_x : Z;  (* x *)
  obj_tile : Z;  (* tile *)
  obj_byte3 : Z;  (* byte3 *)
  obj_priority : Z;  (* priority *)
  obj_yflip : bool;  (* yflip *)
  obj_xflip : bool;  (* xflip *)
  obj_palette : Z  (* palette *)
}.

Definition set_obj_y (v : Z) (r : Obj) : Obj :=
  Build_Obj v (obj_x r) (obj_tile r) (obj_byte3 r) (obj_priority r) (obj_yflip r) (obj_xflip r) (obj_palette r).
Definition set_obj_x (v : Z) (r : Obj) : Obj :=
  Build_Obj (obj_y r) v (obj_tile r) (obj_byte3 r) (obj_priority r) (obj_yflip r) (obj_xflip r) (obj_palette r).
Definition set_obj_tile (v : Z) (r : Obj) : Obj :=
  Build_Obj (obj_y r) (obj_x r) v (obj_byte3 r) (obj_priority r) (obj_yflip r) (obj_xflip r) (obj_palette r).
Definition set_obj_byte3 (v : Z) (r : Obj) : Obj :=
  Build_Obj (obj_y r) (obj_x r) (obj_tile r) v (obj_priority r) (obj_yflip r) (obj_xflip r) (obj_palette r).
Definition set_obj_priority (v : Z) (r : Obj) : Obj :=
  Build_Obj (obj_y r) (obj_x r) (obj_tile r) (obj_byte3 r) v (obj_yflip r) (obj_xflip r) (obj_palette r).
Definition set_obj_yflip (v : bool) (r : Obj) : Obj :=
  Build_Obj (obj_y r) (obj_x r) (obj_tile r) (obj_byte3 r) (obj_priority r) v (obj_xflip r) (obj_palette r).
Definition set_obj_xflip (v : bool) (r : Obj) : Obj :=
  Build_Obj (obj_y r) (obj_x r) (obj_tile r) (obj_byte3 r) (obj_priority r) (obj_yflip r) v (obj_palette r).
Definition set_obj_palette (v : Z) (r : Obj) : Obj :=
  Build_Obj (obj_y r) (obj_x r) (obj_tile r) (obj_byte3 r) (obj_priority r) (obj_yflip r) (obj_xflip r) v.

(** [struct OAM]. *)
Record OAM : Type := Build_OAM {
  objs : Z -> Obj;  (* objs[OBJ_COUNT] *)
  obp : Z -> Palette  (* obp[OBJ_PALETTE_COUNT] *)
}.

Definition set_objs (v : (Z -> Obj)) (r : OAM) : OAM :=
  Build_OAM v (obp r).
Definition set_obp (v : (Z -> Palette)) (r : OAM) : OAM :=
  Build_OAM (objs r) v.

(** [struct Joypad]. *)
Record Joypad : Type := Build_Joypad {
  joy_down : bool;  (* down *)
  joy_up : bool;  (* up *)
  joy_left : bool;  (* left *)
  joy_right : bool;  (* right *)
  joy_start : bool;  (* start *)
  joy_select : bool;  (* select *)
  joy_B : bool;  (* B *)
  joy_A : bool;  (* A *)
  joypad_select : Z  (* enum JoypadSelect *)
}.

Definition set_joy_down (v : bool) (r : Joypad) : Joypad :=
  Build_Joypad v (joy_up r) (joy_left r) (joy_right r) (joy_start r) (joy_select r) (joy_B r) (joy_A r) (joypad_select r).
Definition set_joy_up (v : bool) (r : Joypad) : Joypad :=
  Build_Joypad (joy_down r) v (joy_left r) (joy_right r) (joy_start r) (joy_select r) (joy_B r) (joy_A r) (joypad_select r).
Definition set_joy_left (v : bool) (r : Joypad) : Joypad :=
  Build_Joypad (joy_down r) (joy_up r) v (joy_right r) (joy_start r) (joy_select r) (joy_B r) (joy_A r) (joypad_select r).
Definition set_joy_right (v : bool) (r : Joypad) : Joypad :=
  Build_Joypad (joy_down r) (joy_up r) (joy_left r) v (joy_start r) (joy_select r) (joy_B r) (joy_A r) (joypad_select r).
Definition set_joy_start (v : bool) (r : Joypad) : Joypad :=
  Build_Joypad (joy_down r) (joy_up r) (joy_left r) (joy_right r) v (joy_select r) (joy_B r) (joy_A r) (joypad_select r).
Definition set_joy_select (v : bool) (r : Joypad) : Joypad :=
  Build_Joypad (joy_down r) (joy_up r) (joy_left r) (joy_right r) (joy_start r) v (joy_B r) (joy_A r) (joypad_select r).
Definition set_joy_B (v : bool) (r : Joypad) : Joypad :=
  Build_Joypad (joy_down r) (joy_up r) (joy_left r) (joy_right r) (joy_start r) (joy_select r) v (joy_A r) (joypad_select r).
Definition set_joy_A (v : bool) (r : Joypad) : Joypad :=
  Build_Joypad (joy_down r) (joy_up r) (joy_left r) (joy_right r) (joy_start r) (joy_select r) (joy_B r) v (joypad_select r).
Definition set_joypad_select (v : Z) (r : Joypad) : Joypad :=
  Build_Joypad (joy_down r) (joy_up r) (joy_left r) (joy_right r) (joy_start r) (joy_select r) (joy_B r) (joy_A r) v.

(** [struct Interrupts]. *)
Record Interrupts : Type := Build_Interrupts {
  IME : bool;
  IE : Z;
  IF_ : Z;  (* IF *)
  enable : bool;
  halt : bool;
  halt_DI : bool
}.

Definition set_IME (v : bool) (r : Interrupts) : Interrupts :=
  Build_Interrupts v (IE r) (IF_ r) (enable r) (halt r) (halt_DI r).
Definition set_IE (v : Z) (r : Interrupts) : Interrupts :=
  Build_Interrupts (IME r) v (IF_ r) (enable r) (halt r) (halt_DI r).
Definition set_IF_ (v : Z) (r : Interrupts) : Interrupts :=
  Build_Interrupts (IME r) (IE r) v (enable r) (halt r) (halt_DI r).
Definition set_enable (v : bool) (r : Interrupts) : Interrupts :=
  Build_Interrupts (IME r) (IE r) (IF_ r) v (halt r) (halt_DI r).
Definition set_halt (v : bool) (r : Interrupts) : Interrupts :=
  Build_Interrupts (IME r) (IE r) (IF_ r) (enable r) v (halt_DI r).
Definition set_halt_DI (v : bool) (r : Interrupts) : Interrupts :=
  Build_Interrupts (IME r) (IE r) (IF_ r) (enable r) (halt r) v.

(** [struct Timer]. *)
Record Timer : Type := Build_Timer {
  TIMA : Z;
  TMA : Z;
  clock_select : Z;  (* enum TimerClock *)
  div_counter : Z;
  tima_overflow : bool;
  timer_on : bool  (* on *)
}.

Definition set_TIMA (v : Z) (r : Timer) : Timer :=
  Build_Timer v (TMA r) (clock_select r) (div_counter r) (tima_overflow r) (timer_on r).
Definition set_TMA (v : Z) (r : Timer) : Timer :=
  Build_Timer (TIMA r) v (clock_select r) (div_counter r) (tima_overflow r) (timer_on r).
Definition set_clock_select (v : Z) (r : Timer) : Timer :=
  Build_Timer (TIMA r) (TMA r) v (div_counter r) (tima_overflow r) (timer_on r).
Definition set_div_counter (v : Z) (r : Timer) : Timer :=
  Build_Timer (TIMA r) (TMA r) (clock_select r) v (tima_overflow r) (timer_on r).
Definition set_tima_overflow (v : bool) (r : Timer) : Timer :=
  Build_Timer (TIMA r) (TMA r) (clock_select r) (div_counter r) v (timer_on r).
Definition set_timer_on (v : bool) (r : Timer) : Timer :=
  Build_Timer (TIMA r) (TMA r) (clock_select r) (div_counter r) (tima_overflow r) v.

(** [struct Serial]. *)
Record Serial : Type := Build_Serial {
  transfer_start : bool;
  clock_speed : bool;
  shift_clock : bool
}.

Definition set_transfer_start (v : bool) (r : Serial) : Serial :=
  Build_Serial v (clock_speed r) (shift_clock r).
Definition set_clock_speed (v : bool) (r : Serial) : Serial :=
  Build_Serial (transfer_start r) v (shift_clock r).
Definition set_shift_clock (v : bool) (r : Serial) : Serial :=
  Build_Serial (transfer_start r) (clock_speed r) v.

(** [struct Sweep]. *)
Record Sweep : Type := Build_Sweep {
  sweep_period : Z;  (* period *)
  sweep_direction : Z;  (* direction *)
  sweep_shift : Z;  (* shift *)
  sweep_frequency : Z;  (* frequency *)
  sweep_timer : Z;  (* timer *)
  sweep_enabled : bool;  (* enabled *)
  calculated_subtract : bool
}.

Definition set_sweep_period (v : Z) (r : Sweep) : Sweep :=
  Build_Sweep v (sweep_direction r) (sweep_shift r) (sweep_frequency r) (sweep_timer r) (sweep_enabled r) (calculated_subtract r).
Definition set_sweep_direction (v : Z) (r : Sweep) : Sweep :=
  Build_Sweep (sweep_period r) v (sweep_shift r) (sweep_frequency r) (sweep_timer r) (sweep_enabled r) (calculated_subtract r).
Definition set_sweep_shift (v : Z) (r : Sweep) : Sweep :=
  Build_Sweep (sweep_period r) (sweep_direction r) v (sweep_frequency r) (sweep_timer r) (sweep_enabled r) (calculated_subtract r).
Definition set_sweep_frequency (v : Z) (r : Sweep) : Sweep :=
  Build_Sweep (sweep_period r) (sweep_direction r) (sweep_shift r) v (sweep_timer r) (sweep_enabled r) (calculated_subtract r).
Definition set_sweep_timer (v : Z) (r : Sweep) : Sweep :=
  Build_Sweep (sweep_period r) (sweep_direction r) (sweep_shift r) (sweep_frequency r) v (sweep_enabled r) (calculated_subtract r).
Definition set_sweep_enabled (v : bool) (r : Sweep) : Sweep :=
  Build_Sweep (sweep_period r) (sweep_direction r) (sweep_shift r) (sweep_frequency r) (sweep_timer r) v (calculated_subtract r).
Definition set_calculated_subtract (v : bool) (r : Sweep) : Sweep :=
  Build_Sweep (sweep_period r) (sweep_direction r) (sweep_shift r) (sweep_frequency r) (sweep_timer r) (sweep_enabled r) v.

(** [struct Envelope]. *)
Record Envelope : Type := Build_Envelope {
  initial_volume : Z;
  env_direction : Z;  (* direction *)
  env_period : Z;  (* period *)
  env_volume : Z;  (* volume *)
  env_timer : Z;  (* timer *)
  automatic : bool
}.

Definition set_initial_volume (v : Z) (r : Envelope) : Envelope :=
  Build_Envelope v (env_direction r) (env_period r) (env_volume r) (env_timer r) (automatic r).
Definition set_env_direction (v : Z) (r : Envelope) : Envelope :=
  Build_Envelope (initial_volume r) v (env_period r) (env_volume r) (env_timer r) (automatic r).
Definition set_env_period (v : Z) (r : Envelope) : Envelope :=
  Build_Envelope (initial_volume r) (env_direction r) v (env_volume r) (env_timer r) (automatic r).
Definition set_env_volume (v : Z) (r : Envelope) : Envelope :=
  Build_Envelope (initial_volume r) (env_direction r) (env_period r) v (env_timer r) (automatic r).
Definition set_env_timer (v : Z) (r : Envelope) : Envelope :=
  Build_Envelope (initial_volume r) (env_direction r) (env_period r) (env_volume r) v (automatic r).
Definition set_automatic (v : bool) (r : Envelope) : Envelope :=
  Build_Envelope (initial_volume r) (env_direction r) (env_period r) (env_volume r) (env_timer r) v.

(** [struct WaveSample]. *)
Record WaveSample : Type := Build_WaveSample {
  ws_time : Z;  (* time *)
  ws_position : Z;  (* position *)
  ws_byte : Z;  (* byte *)
  ws_data : Z  (* data *)
}.

Definition set_ws_time (v : Z) (r : WaveSample) : WaveSample :=
  Build_WaveSample v (ws_position r) (ws_byte r) (ws_data r).
Definition set_ws_position (v : Z) (r : WaveSample) : WaveSample :=
  Build_WaveSample (ws_time r) v (ws_byte r) (ws_data r).
Definition set_ws_byte (v : Z) (r : WaveSample) : WaveSample :=
  Build_WaveSample (ws_time r) (ws_position r) v (ws_data r).
Definition set_ws_data (v : Z) (r : WaveSample) : WaveSample :=
  Build_WaveSample (ws_time r) (ws_position r) (ws_byte r) v.

(** [struct SquareWave]. *)
Record SquareWave : Type := Build_SquareWave {
  duty : Z;  (* enum WaveDuty *)
  sq_sample : Z;  (* sample *)
  sq_period : Z;  (* period *)
  sq_position : Z;  (* position *)
  sq_cycles : Z  (* cycles *)
}.

Definition set_duty (v : Z) (r : SquareWave) : SquareWave :=
  Build_SquareWave v (sq_sample r) (sq_period r) (sq_position r) (sq_cycles r).
Definition set_sq_sample (v : Z) (r : SquareWave) : SquareWave :=
  Build_SquareWave (duty r) v (sq_period r) (sq_position r) (sq_cycles r).
Definition set_sq_period (v : Z) (r : SquareWave) : SquareWave :=
  Build_SquareWave (duty r) (sq_sample r) v (sq_position r) (sq_cycles r).
Definition set_sq_position (v : Z) (r : SquareWave) : SquareWave :=
  Build_SquareWave (duty r) (sq_sample r) (sq_period r) v (sq_cycles r).
Definition set_sq_cycles (v : Z) (r : SquareWave) : SquareWave :=
  Build_SquareWave (duty r) (sq_sample r) (sq_period r) (sq_position r) v.

(** [struct Wave]. *)
Record Wave : Type := Build_Wave {
  wave_volume : Z;  (* volume *)
  wave_ram : Z -> Z;  (* ram[WAVE_RAM_SIZE] *)
  wave_sample : Z -> WaveSample;  (* sample[2] *)
  wave_period : Z;  (* period *)
  wave_position : Z;  (* position *)
  wave_cycles : Z;  (* cycles *)
  playing : bool
}.

Definition set_wave_volume (v : Z) (r : Wave) : Wave :=
  Build_Wave v (wave_ram r) (wave_sample r) (wave_period r) (wave_position r) (wave_cycles r) (playing r).
Definition set_wave_ram (v : (Z -> Z)) (r : Wave) : Wave :=
  Build_Wave (wave_volume r) v (wave_sample r) (wave_period r) (wave_position r) (wave_cycles r) (playing r).
Definition set_wave_sample (v : (Z -> WaveSample)) (r : Wave) : Wave :=
  Build_Wave (wave_volume r) (wave_ram r) v (wave_period r) (wave_position r) (wave_cycles r) (playing r).
Definition set_wave_period (v : Z) (r : Wave) : Wave :=
  Build_Wave (wave_volume r) (wave_ram r) (wave_sample r) v (wave_position r) (wave_cycles r) (playing r).
Definition set_wave_position (v : Z) (r : Wave) : Wave :=
  Build_Wave (wave_volume r) (wave_ram r) (wave_sample r) (wave_period r) v (wave_cycles r) (playing r).
Definition set_wave_cycles (v : Z) (r : Wave) : Wave :=
  Build_Wave (wave_volume r) (wave_ram r) (wave_sample r) (wave_period r) (wave_position r) v (playing r).
Definition set_playing (v : bool) (r : Wave) : Wave :=
  Build_Wave (wave_volume r) (wave_ram r) (wave_sample r) (wave_period r) (wave_position r) (wave_cycles r) v.

(** [struct Noise]. *)
Record Noise : Type := Build_Noise {
  clock_shift : Z;
  lfsr_width : Z;
  divisor : Z;
  noise_sample : Z;  (* sample *)
  lfsr : Z;
  noise_period : Z;  (* period *)
  noise_cycles : Z  (* cycles *)
}.

Definition set_clock_shift (v : Z) (r : Noise) : Noise :=
  Build_Noise v (lfsr_width r) (divisor r) (noise_sample r) (lfsr r) (noise_period r) (noise_cycles r).
Definition set_lfsr_width (v : Z) (r : Noise) : Noise :=
  Build_Noise (clock_shift r) v (divisor r) (noise_sample r) (lfsr r) (noise_period r) (noise_cycles r).
Definition set_divisor (v : Z) (r : Noise) : Noise :=
  Build_Noise (clock_shift r) (lfsr_width r) v (noise_sample r) (lfsr r) (noise_period r) (noise_cycles r).
Definition set_noise_sample (v : Z) (r : Noise) : Noise :=
  Build_Noise (clock_shift r) (lfsr_width r) (divisor r) v (lfsr r) (noise_period r) (noise_cycles r).
Definition set_lfsr (v : Z) (r : Noise) : Noise :=
  Build_Noise (clock_shift r) (lfsr_width r) (divisor r) (noise_sample r) v (noise_period r) (noise_cycles r).
Definition set_noise_period (v : Z) (r : Noise) : Noise :=
  Build_Noise (clock_shift r) (lfsr_width r) (divisor r) (noise_sample r) (lfsr r) v (noise_cycles r).
Definition set_noise_cycles (v : Z) (r : Noise) : Noise :=
  Build_Noise (clock_shift r) (lfsr_width r) (divisor r) (noise_sample r) (lfsr r) (noise_period r) v.

(** [struct Channel]. *)
Record Channel : Type := Build_Channel {
  square_wave : SquareWave;
  envelope : Envelope;
  ch_frequency : Z;  (* frequency *)
  ch_length : Z;  (* length *)
  length_enabled : bool;
  dac_enabled : bool;
  status : bool
}.

Definition set_square_wave (v : SquareWave) (r : Channel) : Channel :=
  Build_Channel v (envelope r) (ch_frequency r) (ch_length r) (length_enabled r) (dac_enabled r) (status r).
Definition set_envelope (v : Envelope) (r : Channel) : Channel :=
  Build_Channel (square_wave r) v (ch_frequency r) (ch_length r) (length_enabled r) (dac_enabled r) (status r).
Definition set_ch_frequency (v : Z) (r : Channel) : Channel :=
  Build_Channel (square_wave r) (envelope r) v (ch_length r) (length_enabled r) (dac_enabled r) (status r).
Definition set_ch_length (v : Z) (r : Channel) : Channel :=
  Build_Channel (square_wave r) (envelope r) (ch_frequency r) v (length_enabled r) (dac_enabled r) (status r).
Definition set_length_enabled (v : bool) (r : Channel) : Channel :=
  Build_Channel (square_wave r) (envelope r) (ch_frequency r) (ch_length r) v (dac_enabled r) (status r).
Definition set_dac_enabled (v : bool) (r : Channel) : Channel :=
  Build_Channel (square_wave r) (envelope r) (ch_frequency r) (ch_length r) (length_enabled r) v (status r).
Definition set_status (v : bool) (r : Channel) : Channel :=
  Build_Channel (square_wave r) (envelope r) (ch_frequency r) (ch_length r) (length_enabled r) (dac_enabled r) v.
Definition upd_square_wave (f : SquareWave -> SquareWave) (r : Channel) : Channel :=
  set_square_wave (f (square_wave r)) r.
Definition upd_envelope (f : Envelope -> Envelope) (r : Channel) : Channel :=
  set_envelope (f (envelope r)) r.

(** [struct Sound]. *)
Record Sound : Type := Build_Sound {
  so2_volume : Z;
  so1_volume : Z;
  so2_output : Z -> bool;  (* so2_output[SOUND_COUNT] *)
  so1_output : Z -> bool;  (* so1_output[SOUND_COUNT] *)
  sound_enabled : bool;  (* enabled *)
  sweep : Sweep;
  wave : Wave;
  noise : Noise;
  channel : Z -> Channel;  (* channel[CHANNEL_COUNT] *)
  sound_frame : Z;  (* frame *)
  sound_frame_cycles : Z;  (* frame_cycles *)
  sound_cycles : Z  (* cycles *)
}.

Definition set_so2_volume (v : Z) (r : Sound) : Sound :=
  Build_Sound v (so1_volume r) (so2_output r) (so1_output r) (sound_enabled r) (sweep r) (wave r) (noise r) (channel r) (sound_frame r) (sound_frame_cycles r) (sound_cycles r).
Definition set_so1_volume (v : Z) (r : Sound) : Sound :=
  Build_Sound (so2_volume r) v (so2_output r) (so1_output r) (sound_enabled r) (sweep r) (wave r) (noise r) (channel r) (sound_frame r) (sound_frame_cycles r) (sound_cycles r).
Definition set_so2_output (v : (Z -> bool)) (r : Sound) : Sound :=
  Build_Sound (so2_volume r) (so1_volume r) v (so1_output r) (sound_enabled r) (sweep r) (wave r) (noise r) (channel r) (sound_frame r) (sound_frame_cycles r) (sound_cycles r).
Definition set_so1_output (v : (Z -> bool)) (r : Sound) : Sound :=
  Build_Sound (so2_volume r) (so1_volume r) (so2_output r) v (sound_enabled r) (sweep r) (wave r) (noise r) (channel r) (sound_frame r) (sound_frame_cycles r) (sound_cycles r).
Definition set_sound_enabled (v : bool) (r : Sound) : Sound :=
  Build_Sound (so2_volume r) (so1_volume r) (so2_output r) (so1_output r) v (sweep r) (wave r) (noise r) (channel r) (sound_frame r) (sound_frame_cycles r) (sound_cycles r).
Definition set_sweep (v : Sweep) (r : Sound) : Sound :=
  Build_Sound (so2_volume r) (so1_volume r) (so2_output r) (so1_output r) (sound_enabled r) v (wave r) (noise r) (channel r) (sound_frame r) (sound_frame_cycles r) (sound_cycles r).
Definition set_wave (v : Wave) (r : Sound) : Sound :=
  Build_Sound (so2_volume r) (so1_volume r) (so2_output r) (so1_output r) (sound_enabled r) (sweep r) v (noise r) (channel r) (sound_frame r) (sound_frame_cycles r) (sound_cycles r).
Definition set_noise (v : Noise) (r : Sound) : Sound :=
  Build_Sound (so2_volume r) (so1_volume r) (so2_output r) (so1_output r) (sound_enabled r) (sweep r) (wave r) v (channel r) (sound_frame r) (sound_frame_cycles r) (sound_cycles r).
Definition set_channel (v : (Z -> Channel)) (r : Sound) : Sound :=
  Build_Sound (so2_volume r) (so1_volume r) (so2_output r) (so1_output r) (sound_enabled r) (sweep r) (wave r) (noise r) v (sound_frame r) (sound_frame_cycles r) (sound_cycles r).
Definition set_sound_frame (v : Z) (r : Sound) : Sound :=
  Build_Sound (so2_volume r) (so1_volume r) (so2_output r) (so1_output r) (sound_enabled r) (sweep r) (wave r) (noise r) (channel r) v (sound_frame_cycles r) (sound_cycles r).
Definition set_sound_frame_cycles (v : Z) (r : Sound) : Sound :=
  Build_Sound (so2_volume r) (so1_volume r) (so2_output r) (so1_output r) (sound_enabled r) (sweep r) (wave r) (noise r) (channel r) (sound_frame r) v (sound_cycles r).
Definition set_sound_cycles (v : Z) (r : Sound) : Sound :=
  Build_Sound (so2_volume r) (so1_volume r) (so2_output r) (so1_output r) (sound_enabled r) (sweep r) (wave r) (noise r) (channel r) (sound_frame r) (sound_frame_cycles r) v.
Definition upd_sweep (f : Sweep -> Sweep) (r : Sound) : Sound :=
  set_sweep (f (sweep r)) r.
Definition upd_wave (f : Wave -> Wave) (r : Sound) : Sound :=
  set_wave (f (wave r)) r.
Definition upd_noise (f : Noise -> Noise) (r : Sound) : Sound :=
  set_noise (f (noise r)) r.

(** [struct LCDControl]. *)
Record LCDControl : Type := Build_LCDControl {
  display : bool;
  window_tile_map_select : Z;
  window_display : bool;
  bg_tile_data_select : Z;
  bg_tile_map_select : Z;
  obj_size : Z;
  obj_display : bool;
  bg_display : bool
}.

Definition set_display (v : bool) (r : LCDControl) : LCDControl :=
  Build_LCDControl v (window_tile_map_select r) (window_display r) (bg_tile_data_select r) (bg_tile_map_select r) (obj_size r) (obj_display r) (bg_display r).
Definition set_window_tile_map_select (v : Z) (r : LCDControl) : LCDControl :=
  Build_LCDControl (display r) v (window_display r) (bg_tile_data_select r) (bg_tile_map_select r) (obj_size r) (obj_display r) (bg_display r).
Definition set_window_display (v : bool) (r : LCDControl) : LCDControl :=
  Build_LCDControl (display r) (window_tile_map_select r) v (bg_tile_data_select r) (bg_tile_map_select r) (obj_size r) (obj_display r) (bg_display r).
Definition set_bg_tile_data_select (v : Z) (r : LCDControl) : LCDControl :=
  Build_LCDControl (display r) (window_tile_map_select r) (window_display r) v (bg_tile_map_select r) (obj_size r) (obj_display r) (bg_display r).
Definition set_bg_tile_map_select (v : Z) (r : LCDControl) : LCDControl :=
  Build_LCDControl (display r) (window_tile_map_select r) (window_display r) (bg_tile_data_select r) v (obj_size r) (obj_display r) (bg_display r).
Definition set_obj_size (v : Z) (r : LCDControl) : LCDControl :=
  Build_LCDControl (display r) (window_tile_map_select r) (window_display r) (bg_tile_data_select r) (bg_tile_map_select r) v (obj_display r) (bg_display r).
Definition set_obj_display (v : bool) (r : LCDControl) : LCDControl :=
  Build_LCDControl (display r) (window_tile_map_select r) (window_display r) (bg_tile_data_select r) (bg_tile_map_select r) (obj_size r) v (bg_display r).
Definition set_bg_display (v : bool) (r : LCDControl) : LCDControl :=
  Build_LCDControl (display r) (window_tile_map_select r) (window_display r) (bg_tile_data_select r) (bg_tile_map_select r) (obj_size r) (obj_display r) v.

(** [struct LCDStatus]. *)
Record LCDStatus : Type := Build_LCDStatus {
  y_compare_intr : bool;
  using_oam_intr : bool;
  vblank_intr : bool;
  hblank_intr : bool;
  mode : LCDMode
}.

Definition set_y_compare_intr (v : bool) (r : LCDStatus) : LCDStatus :=
  Build_LCDStatus v (using_oam_intr r) (vblank_intr r) (hblank_intr r) (mode r).
Definition set_using_oam_intr (v : bool) (r : LCDStatus) : LCDStatus :=
  Build_LCDStatus (y_compare_intr r) v (vblank_intr r) (hblank_intr r) (mode r).
Definition set_vblank_intr (v : bool) (r : LCDStatus) : LCDStatus :=
  Build_LCDStatus (y_compare_intr r) (using_oam_intr r) v (hblank_intr r) (mode r).
Definition set_hblank_intr (v : bool) (r : LCDStatus) : LCDStatus :=
  Build_LCDStatus (y_compare_intr r) (using_oam_intr r) (vblank_intr r) v (mode r).
Definition set_mode (v : LCDMode) (r : LCDStatus) : LCDStatus :=
  Build_LCDStatus (y_compare_intr r) (using_oam_intr r) (vblank_intr r) (hblank_intr r) v.

(** [struct LCD]. *)
Record LCD : Type := Build_LCD {
  lcdc : LCDControl;
  stat : LCDStatus;
  SCY : Z;
  SCX : Z;
  LY : Z;
  LYC : Z;
  WY : Z;
  WX : Z;
  bgp : Palette;
  lcd_cycles : Z;  (* cycles *)
  lcd_frame : Z;  (* frame *)
  fake_LY : Z;
  win_y : Z;
  frame_WY : Z;
  new_frame_edge : bool
}.

Definition set_lcdc (v : LCDControl) (r : LCD) : LCD :=
  Build_LCD v (stat r) (SCY r) (SCX r) (LY r) (LYC r) (WY r) (WX r) (bgp r) (lcd_cycles r) (lcd_frame r) (fake_LY r) (win_y r) (frame_WY r) (new_frame_edge r).
Definition set_stat (v : LCDStatus) (r : LCD) : LCD :=
  Build_LCD (lcdc r) v (SCY r) (SCX r) (LY r) (LYC r) (WY r) (WX r) (bgp r) (lcd_cycles r) (lcd_frame r) (fake_LY r) (win_y r) (frame_WY r) (new_frame_edge r).
Definition set_SCY (v : Z) (r : LCD) : LCD :=
  Build_LCD (lcdc r) (stat r) v (SCX r) (LY r) (LYC r) (WY r) (WX r) (bgp r) (lcd_cycles r) (lcd_frame r) (fake_LY r) (win_y r) (frame_WY r) (new_frame_edge r).
Definition set_SCX (v : Z) (r : LCD) : LCD :=
  Build_LCD (lcdc r) (stat r) (SCY r) v (LY r) (LYC r) (WY r) (WX r) (bgp r) (lcd_cycles r) (lcd_frame r) (fake_LY r) (win_y r) (frame_WY r) (new_frame_edge r).
Definition set_LY (v : Z) (r : LCD) : LCD :=
  Build_LCD (lcdc r) (stat r) (SCY r) (SCX r) v (LYC r) (WY r) (WX r) (bgp r) (lcd_cycles r) (lcd_frame r) (fake_LY r) (win_y r) (frame_WY r) (new_frame_edge r).
Definition set_LYC (v : Z) (r : LCD) : LCD :=
  Build_LCD (lcdc r) (stat r) (SCY r) (SCX r) (LY r) v (WY r) (WX r) (bgp r) (lcd_cycles r) (lcd_frame r) (fake_LY r) (win_y r) (frame_WY r) (new_frame_edge r).
Definition set_WY (v : Z) (r : LCD) : LCD :=
  Build_LCD (lcdc r) (stat r) (SCY r) (SCX r) (LY r) (LYC r) v (WX r) (bgp r) (lcd_cycles r) (lcd_frame r) (fake_LY r) (win_y r) (frame_WY r) (new_frame_edge r).
Definition set_WX (v : Z) (r : LCD) : LCD :=
  Build_LCD (lcdc r) (stat r) (SCY r) (SCX r) (LY r) (LYC r) (WY r) v (bgp r) (lcd_cycles r) (lcd_frame r) (fake_LY r) (win_y r) (frame_WY r) (new_frame_edge r).
Definition set_bgp (v : Palette) (r : LCD) : LCD :=
  Build_LCD (lcdc r) (stat r) (SCY r) (SCX r) (LY r) (LYC r) (WY r) (WX r) v (lcd_cycles r) (lcd_frame r) (fake_LY r) (win_y r) (frame_WY r) (new_frame_edge r).
Definition set_lcd_cycles (v : Z) (r : LCD) : LCD :=
  Build_LCD (lcdc r) (stat r) (SCY r) (SCX r) (LY r) (LYC r) (WY r) (WX r) (bgp r) v (lcd_frame r) (fake_LY r) (win_y r) (frame_WY r) (new_frame_edge r).
Definition set_lcd_frame (v : Z) (r : LCD) : LCD :=
  Build_LCD (lcdc r) (stat r) (SCY r) (SCX r) (LY r) (LYC r) (WY r) (WX r) (bgp r) (lcd_cycles r) v (fake_LY r) (win_y r) (frame_WY r) (new_frame_edge r).
Definition set_fake_LY (v : Z) (r : LCD) : LCD :=
  Build_LCD (lcdc r) (stat r) (SCY r) (SCX r) (LY r) (LYC r) (WY r) (WX r) (bgp r) (lcd_cycles r) (lcd_frame r) v (win_y r) (frame_WY r) (new_frame_edge r).
Definition set_win_y (v : Z) (r : LCD) : LCD :=
  Build_LCD (lcdc r) (stat r) (SCY r) (SCX r) (LY r) (LYC r) (WY r) (WX r) (bgp r) (lcd_cycles r) (lcd_frame r) (fake_LY r) v (frame_WY r) (new_frame_edge r).
Definition set_frame_WY (v : Z) (r : LCD) : LCD :=
  Build_LCD (lcdc r) (stat r) (SCY r) (SCX r) (LY r) (LYC r) (WY r) (WX r) (bgp r) (lcd_cycles r) (lcd_frame r) (fake_LY r) (win_y r) v (new_frame_edge r).
Definition set_new_frame_edge (v : bool) (r : LCD) : LCD :=
  Build_LCD (lcdc r) (stat r) (SCY r) (SCX r) (LY r) (LYC r) (WY r) (WX r) (bgp r) (lcd_cycles r) (lcd_frame r) (fake_LY r) (win_y r) (frame_WY r) v.
Definition upd_lcdc (f : LCDControl -> LCDControl) (r : LCD) : LCD :=
  set_lcdc (f (lcdc r)) r.
Definition upd_stat (f : LCDStatus -> LCDStatus) (r : LCD) : LCD :=
  set_stat (f (stat r)) r.

(** [struct DMA]. *)
Record DMA : Type := Build_DMA {
  dma_active : bool;  (* active *)
  dma_source : MemoryTypeAddressPair;  (* source *)
  dma_addr_offset : Z;  (* addr_offset *)
  dma_cycles : Z  (* cycles *)
}.

Definition set_dma_active (v : bool) (r : DMA) : DMA :=
  Build_DMA v (dma_source r) (dma_addr_offset r) (dma_cycles r).
Definition set_dma_source (v : MemoryTypeAddressPair) (r : DMA) : DMA :=
  Build_DMA (dma_active r) v (dma_addr_offset r) (dma_cycles r).
Definition set_dma_addr_offset (v : Z) (r : DMA) : DMA :=
  Build_DMA (dma_active r) (dma_source r) v (dma_cycles r).
Definition set_dma_cycles (v : Z) (r : DMA) : DMA :=
  Build_DMA (dma_active r) (dma_source r) (dma_addr_offset r) v.

(** [struct EmulatorConfig]. *)
Record EmulatorConfig : Type := Build_EmulatorConfig {
  disable_sound : Z -> bool;  (* disable_sound[CHANNEL_COUNT] *)
  disable_bg : bool;
  disable_window : bool;
  disable_obj : bool
}.

Definition set_disable_sound (v : (Z -> bool)) (r : EmulatorConfig) : EmulatorConfig :=
  Build_EmulatorConfig v (disable_bg r) (disable_window r) (disable_obj r).
Definition set_disable_bg (v : bool) (r : EmulatorConfig) : EmulatorConfig :=
  Build_EmulatorConfig (disable_sound r) v (disable_window r) (disable_obj r).
Definition set_disable_window (v : bool) (r : EmulatorConfig) : EmulatorConfig :=
  Build_EmulatorConfig (disable_sound r) (disable_bg r) v (disable_obj r).
Definition set_disable_obj (v : bool) (r : EmulatorConfig) : EmulatorConfig :=
  Build_EmulatorConfig (disable_sound r) (disable_bg r) (disable_window r) v.

(** [struct Emulator]. *)
Record Emulator : Type := Build_Emulator {
  config : EmulatorConfig;
  rom_data : Z -> Z;  (* rom_data.data *)
  rom_size : Z;  (* rom_data.size *)
  memory_map : MemoryMap;
  reg : Registers;
  vram_data : Z -> Z;  (* vram.data[VIDEO_RAM_SIZE] *)
  ext_ram_data : Z -> Z;  (* external_ram.data[EXTERNAL_RAM_MAX_SIZE] *)
  ext_ram_size : Z;  (* external_ram.size *)
  ram_data : Z -> Z;  (* ram.data[WORK_RAM_MAX_SIZE] *)
  interrupts : Interrupts;
  oam : OAM;
  joypad : Joypad;
  serial : Serial;
  timer : Timer;
  sound : Sound;
  lcd : LCD;
  dma : DMA;
  hram : Z -> Z;  (* hram[HIGH_RAM_SIZE] *)
  cycles : Z
}.

Definition set_config (v : EmulatorConfig) (r : Emulator) : Emulator :=
  Build_Emulator v (rom_data r) (rom_size r) (memory_map r) (reg r) (vram_data r) (ext_ram_data r) (ext_ram_size r) (ram_data r) (interrupts r) (oam r) (joypad r) (serial r) (timer r) (sound r) (lcd r) (dma r) (hram r) (cycles r).
Definition set_rom_data (v : (Z -> Z)) (r : Emulator) : Emulator :=
  Build_Emulator (config r) v (rom_size r) (memory_map r) (reg r) (vram_data r) (ext_ram_data r) (ext_ram_size r) (ram_data r) (interrupts r) (oam r) (joypad r) (serial r) (timer r) (sound r) (lcd r) (dma r) (hram r) (cycles r).
Definition set_rom_size (v : Z) (r : Emulator) : Emulator :=
  Build_Emulator (config r) (rom_data r) v (memory_map r) (reg r) (vram_data r) (ext_ram_data r) (ext_ram_size r) (ram_data r) (interrupts r) (oam r) (joypad r) (serial r) (timer r) (sound r) (lcd r) (dma r) (hram r) (cycles r).
Definition set_memory_map (v : MemoryMap) (r : Emulator) : Emulator :=
  Build_Emulator (config r) (rom_data r) (rom_size r) v (reg r) (vram_data r) (ext_ram_data r) (ext_ram_size r) (ram_data r) (interrupts r) (oam r) (joypad r) (serial r) (timer r) (sound r) (lcd r) (dma r) (hram r) (cycles r).
Definition set_reg (v : Registers) (r : Emulator) : Emulator :=
  Build_Emulator (config r) (rom_data r) (rom_size r) (memory_map r) v (vram_data r) (ext_ram_data r) (ext_ram_size r) (ram_data r) (interrupts r) (oam r) (joypad r) (serial r) (timer r) (sound r) (lcd r) (dma r) (hram r) (cycles r).
Definition set_vram_data (v : (Z -> Z)) (r : Emulator) : Emulator :=
  Build_Emulator (config r) (rom_data r) (rom_size r) (memory_map r) (reg r) v (ext_ram_data r) (ext_ram_size r) (ram_data r) (interrupts r) (oam r) (joypad r) (serial r) (timer r) (sound r) (lcd r) (dma r) (hram r) (cycles r).
Definition set_ext_ram_data (v : (Z -> Z)) (r : Emulator) : Emulator :=
  Build_Emulator (config r) (rom_data r) (rom_size r) (memory_map r) (reg r) (vram_data r) v (ext_ram_size r) (ram_data r) (interrupts r) (oam r) (joypad r) (serial r) (timer r) (sound r) (lcd r) (dma r) (hram r) (cycles r).
Definition set_ext_ram_size (v : Z) (r : Emulator) : Emulator :=
  Build_Emulator (config r) (rom_data r) (rom_size r) (memory_map r) (reg r) (vram_data r) (ext_ram_data r) v (ram_data r) (interrupts r) (oam r) (joypad r) (serial r) (timer r) (sound r) (lcd r) (dma r) (hram r) (cycles r).
Definition set_ram_data (v : (Z -> Z)) (r : Emulator) : Emulator :=
  Build_Emulator (config r) (rom_data r) (rom_size r) (memory_map r) (reg r) (vram_data r) (ext_ram_data r) (ext_ram_size r) v (interrupts r) (oam r) (joypad r) (serial r) (timer r) (sound r) (lcd r) (dma r) (hram r) (cycles r).
Definition set_interrupts (v : Interrupts) (r : Emulator) : Emulator :=
  Build_Emulator (config r) (rom_data r) (rom_size r) (memory_map r) (reg r) (vram_data r) (ext_ram_data r) (ext_ram_size r) (ram_data r) v (oam r) (joypad r) (serial r) (timer r) (sound r) (lcd r) (dma r) (hram r) (cycles r).
Definition set_oam (v : OAM) (r : Emulator) : Emulator :=
  Build_Emulator (config r) (rom_data r) (rom_size r) (memory_map r) (reg r) (vram_data r) (ext_ram_data r) (ext_ram_size r) (ram_data r) (interrupts r) v (joypad r) (serial r) (timer r) (sound r) (lcd r) (dma r) (hram r) (cycles r).
Definition set_joypad (v : Joypad) (r : Emulator) : Emulator :=
  Build_Emulator (config r) (rom_data r) (rom_size r) (memory_map r) (reg r) (vram_data r) (ext_ram_data r) (ext_ram_size r) (ram_data r) (interrupts r) (oam r) v (serial r) (timer r) (sound r) (lcd r) (dma r) (hram r) (cycles r).
Definition set_serial (v : Serial) (r : Emulator) : Emulator :=
  Build_Emulator (config r) (rom_data r) (rom_size r) (memory_map r) (reg r) (vram_data r) (ext_ram_data r) (ext_ram_size r) (ram_data r) (interrupts r) (oam r) (joypad r) v (timer r) (sound r) (lcd r) (dma r) (hram r) (cycles r).
Definition set_timer (v : Timer) (r : Emulator) : Emulator :=
  Build_Emulator (config r) (rom_data r) (rom_size r) (memory_map r) (reg r) (vram_data r) (ext_ram_data r) (ext_ram_size r) (ram_data r) (interrupts r) (oam r) (joypad r) (serial r) v (sound r) (lcd r) (dma r) (hram r) (cycles r).
Definition set_sound (v : Sound) (r : Emulator) : Emulator :=
  Build_Emulator (config r) (rom_data r) (rom_size r) (memory_map r) (reg r) (vram_data r) (ext_ram_data r) (ext_ram_size r) (ram_data r) (interrupts r) (oam r) (joypad r) (serial r) (timer r) v (lcd r) (dma r) (hram r) (cycles r).
Definition set_lcd (v : LCD) (r : Emulator) : Emulator :=
  Build_Emulator (config r) (rom_data r) (rom_size r) (memory_map r) (reg r) (vram_data r) (ext_ram_data r) (ext_ram_size r) (ram_data r) (interrupts r) (oam r) (joypad r) (serial r) (timer r) (sound r) v (dma r) (hram r) (cycles r).
Definition set_dma (v : DMA) (r : Emulator) : Emulator :=
  Build_Emulator (config r) (rom_data r) (rom_size r) (memory_map r) (reg r) (vram_data r) (ext_ram_data r) (ext_ram_size r) (ram_data r) (interrupts r) (oam r) (joypad r) (serial r) (timer r) (sound r) (lcd r) v (hram r) (cycles r).
Definition set_hram (v : (Z -> Z)) (r : Emulator) : Emulator :=
  Build_Emulator (config r) (rom_data r) (rom_size r) (memory_map r) (reg r) (vram_data r) (ext_ram_data r) (ext_ram_size r) (ram_data r) (interrupts r) (oam r) (joypad r) (serial r) (timer r) (sound r) (lcd r) (dma r) v (cycles r).
Definition set_cycles (v : Z) (r : Emulator) : Emulator :=
  Build_Emulator (config r) (rom_data r) (rom_size r) (memory_map r) (reg r) (vram_data r) (ext_ram_data r) (ext_ram_size r) (ram_data r) (interrupts r) (oam r) (joypad r) (serial r) (timer r) (sound r) (lcd r) (dma r) (hram r) v.
Definition upd_memory_map (f : MemoryMap -> MemoryMap) (r : Emulator) : Emulator :=
  set_memory_map (f (memory_map r)) r.
Definition upd_reg (f : Registers -> Registers) (r : Emulator) : Emulator :=
  set_reg (f (reg r)) r.
Definition upd_interrupts (f : Interrupts -> Interrupts) (r : Emulator) : Emulator :=
  set_interrupts (f (interrupts r)) r.
Definition upd_oam (f : OAM -> OAM) (r : Emulator) : Emulator :=
  set_oam (f (oam r)) r.
Definition upd_timer (f : Timer -> Timer) (r : Emulator) : Emulator :=
  set_timer (f (timer r)) r.
Definition upd_sound (f : Sound -> Sound) (r : Emulator) : Emulator :=
  set_sound (f (sound r)) r.
Definition upd_lcd (f : LCD -> LCD) (r : Emulator) : Emulator :=
  set_lcd (f (lcd r)) r.
Definition upd_dma (f : DMA -> DMA) (r : Emulator) : Emulator :=
  set_dma (f (dma r)) r.

(** A pointer into the state is embedded as an update of the object it points
    to: [upd_channel e c g] is [g] applied to [e->sound.channel[c]], and so on. *)
Definition upd_channel (c : Z) (g : Channel -> Channel) (e : Emulator) : Emulator :=
  upd_sound (fun s => set_channel (aset (channel s) c (g (channel s c))) s) e.
Definition upd_wave_e (g : Wave -> Wave) (e : Emulator) : Emulator :=
  upd_sound (upd_wave g) e.
Definition upd_sweep_e (g : Sweep -> Sweep) (e : Emulator) : Emulator :=
  upd_sound (upd_sweep g) e.
Definition upd_noise_e (g : Noise -> Noise) (e : Emulator) : Emulator :=
  upd_sound (upd_noise g) e.
Definition upd_flags (g : Flags -> Flags) (e : Emulator) : Emulator :=
  upd_reg (fun r => set_reg_F (g (reg_F r)) r) e.
Definition upd_obj (i : Z) (g : Obj -> Obj) (e : Emulator) : Emulator :=
  upd_oam (fun o => set_objs (aset (objs o) i (g (objs o i))) o) e.

Definition LCDMode_eqb (a b : LCDMode) : bool := LCDMode_value a =? LCDMode_value b.

(** ** Cartridge bank controllers *)

(** [static void rom_only_write_rom(struct Emulator* e, MaskedAddress addr, uint8_t value)] *)
Definition rom_only_write_rom (e : Emulator) (addr value : Z) : Emulator := e.

(** [static uint8_t gb_read_work_ram_bank_switch(struct Emulator* e, MaskedAddress addr)] *)
Definition gb_read_work_ram_bank_switch (e : Emulator) (addr : Z) : Z :=
  ram_data e (0x1000 + addr).

(** [static void gb_write_work_ram_bank_switch(struct Emulator* e, MaskedAddress addr, uint8_t value)] *)
Definition gb_write_work_ram_bank_switch (e : Emulator) (addr value : Z) : Emulator :=
  set_ram_data (aset (ram_data e) (0x1000 + addr) value) e.

(** [static void mbc1_write_rom(struct Emulator* e, MaskedAddress addr, uint8_t value)] *)
Definition mbc1_write_rom (e : Emulator) (addr value : Z) : option Emulator :=
  let m := memory_map e in
  let step1 : option MemoryMap :=
    match Z.shiftr addr 13 with
    | 0 => (* 0000-1fff *)
      Some (set_ext_ram_enabled
              (Z.land value MBC_RAM_ENABLED_MASK =? MBC_RAM_ENABLED_VALUE) m)
    | 1 => (* 2000-3fff *)
      Some (set_mbc1 (set_byte_2000_3fff value (mbc1 m)) m)
    | 2 => (* 4000-5fff *)
      Some (set_mbc1 (set_byte_4000_5fff value (mbc1 m)) m)
    | 3 => (* 6000-7fff *)
      Some (set_mbc1 (set_bank_mode (Z.land value 1) (mbc1 m)) m)
    | _ => None (* UNREACHABLE *)
    end in
  match step1 with
  | None => None
  | Some m =>
    let bank := Z.land (byte_2000_3fff (mbc1 m)) MBC1_ROM_BANK_LO_SELECT_MASK in
    let bank := if bank =? 0 then u8 (bank + 1) else bank in
    let m := set_rom_bank bank m in
    let m :=
      if bank_mode (mbc1 m) =? BANK_MODE_ROM then
        set_ext_ram_bank 0
          (set_rom_bank
             (u8 (Z.lor (rom_bank m)
                        (Z.shiftl (Z.land (byte_4000_5fff (mbc1 m)) MBC1_BANK_HI_SELECT_MASK)
                                  MBC1_BANK_HI_SHIFT))) m)
      else
        set_ext_ram_bank (Z.land (byte_4000_5fff (mbc1 m)) MBC1_BANK_HI_SELECT_MASK) m in
    Some (set_memory_map m e)
  end.

(** [static uint8_t dummy_read_external_ram(struct Emulator* e, MaskedAddress addr)] *)
Definition dummy_read_external_ram (e : Emulator) (addr : Z) : Z := 0.

(** [static void dummy_write_external_ram(struct Emulator* e, MaskedAddress addr, uint8_t value)] *)
Definition dummy_write_external_ram (e : Emulator) (addr value : Z) : Emulator := e.

(** [static uint32_t get_external_ram_address(struct Emulator* e, MaskedAddress addr)] *)
Definition get_external_ram_address (e : Emulator) (addr : Z) : Z :=
  let ram_bank := ext_ram_bank (memory_map e) in
  let ram_addr := Z.lor (Z.shiftl ram_bank EXTERNAL_RAM_BANK_SHIFT) addr in
  if ram_addr <? ext_ram_size e then ram_addr else 0.

(** [static uint8_t gb_read_external_ram(struct Emulator* e, MaskedAddress addr)] *)
Definition gb_read_external_ram (e : Emulator) (addr : Z) : Z :=
  if ext_ram_enabled (memory_map e) then
    ext_ram_data e (get_external_ram_address e addr)
  else
    INVALID_READ_BYTE.

(** [static void gb_write_external_ram(struct Emulator* e, MaskedAddress addr, uint8_t value)] *)
Definition gb_write_external_ram (e : Emulator) (addr value : Z) : Emulator :=
  if ext_ram_enabled (memory_map e) then
    set_ext_ram_data (aset (ext_ram_data e) (get_external_ram_address e addr) value) e
  else
    e.

(** [static void mbc2_write_rom(struct Emulator* e, MaskedAddress addr, uint8_t value)] *)
Definition mbc2_write_rom (e : Emulator) (addr value : Z) : Emulator :=
  match Z.shiftr addr 13 with
  | 0 => (* 0000-1fff *)
    if Z.land addr MBC2_ADDR_SELECT_BIT_MASK =? 0 then
      upd_memory_map
        (set_ext_ram_enabled (Z.land value MBC_RAM_ENABLED_MASK =? MBC_RAM_ENABLED_VALUE)) e
    else e
  | 1 => (* 2000-3fff *)
    if negb (Z.land addr MBC2_ADDR_SELECT_BIT_MASK =? 0) then
      upd_memory_map (set_rom_bank (Z.land value MBC2_ROM_BANK_SELECT_MASK)) e
    else e
  | _ => e
  end.

(** [static uint8_t mbc2_read_ram(struct Emulator* e, MaskedAddress addr)] *)
Definition mbc2_read_ram (e : Emulator) (addr : Z) : Z :=
  if ext_ram_enabled (memory_map e) then
    ext_ram_data e (Z.land addr MBC2_RAM_ADDR_MASK)
  else
    INVALID_READ_BYTE.

(** [static void mbc2_write_ram(struct Emulator* e, MaskedAddress addr, uint8_t value)] *)
Definition mbc2_write_ram (e : Emulator) (addr value : Z) : Emulator :=
  if ext_ram_enabled (memory_map e) then
    set_ext_ram_data
      (aset (ext_ram_data e) (Z.land addr MBC2_RAM_ADDR_MASK)
            (Z.land value MBC2_RAM_VALUE_MASK)) e
  else
    e.

(** [static void mbc3_write_rom(struct Emulator* e, MaskedAddress addr, uint8_t value)] *)
Definition mbc3_write_rom (e : Emulator) (addr value : Z) : Emulator :=
  match Z.shiftr addr 13 with
  | 0 => (* 0000-1fff *)
    upd_memory_map
      (set_ext_ram_enabled (Z.land value MBC_RAM_ENABLED_MASK =? MBC_RAM_ENABLED_VALUE)) e
  | 1 => (* 2000-3fff *)
    upd_memory_map (set_rom_bank (Z.land value MBC3_ROM_BANK_SELECT_MASK)) e
  | 2 => (* 4000-5fff *)
    upd_memory_map (set_ext_ram_bank (Z.land value MBC3_RAM_BANK_SELECT_MASK)) e
  | _ => e
  end.

(** The calls through the function pointers of [e->memory_map]. *)
Definition call_read_external_ram (e : Emulator) (addr : Z) : Z :=
  match read_external_ram (memory_map e) with
  | Gb_read_external_ram => gb_read_external_ram e addr
  | Dummy_read_external_ram => dummy_read_external_ram e addr
  | Mbc2_read_ram => mbc2_read_ram e addr
  end.

Definition call_write_external_ram (e : Emulator) (addr value : Z) : Emulator :=
  match write_external_ram (memory_map e) with
  | Gb_write_external_ram => gb_write_external_ram e addr value
  | Dummy_write_external_ram => dummy_write_external_ram e addr value
  | Mbc2_write_ram => mbc2_write_ram e addr value
  end.

Definition call_write_rom (e : Emulator) (addr value : Z) : option Emulator :=
  match write_rom (memory_map e) with
  | Rom_only_write_rom => Some (rom_only_write_rom e addr value)
  | Mbc1_write_rom => mbc1_write_rom e addr value
  | Mbc2_write_rom => Some (mbc2_write_rom e addr value)
  | Mbc3_write_rom => Some (mbc3_write_rom e addr value)
  end.

(** ** Registers *)

(** [static uint8_t get_f_reg(struct Registers* reg)] *)
Definition get_f_reg (r : Registers) : Z :=
  Z.lor (Z.lor (Z.lor (READ_BIT (F_Z (reg_F r)) 7)
                      (READ_BIT (F_N (reg_F r)) 6))
               (READ_BIT (F_H (reg_F r)) 5))
        (READ_BIT (F_C (reg_F r)) 4).

(** [static uint16_t get_af_reg(struct Registers* reg)] *)
Definition get_af_reg (r : Registers) : Z :=
  u16 (Z.lor (Z.shiftl (reg_A r) 8) (get_f_reg r)).

(** [static void set_af_reg(struct Registers* reg, uint16_t af)] *)
Definition set_af_reg (r : Registers) (af : Z) : Registers :=
  set_reg_F (Build_Flags (WRITE_BIT af 7) (WRITE_BIT af 6) (WRITE_BIT af 5) (WRITE_BIT af 4))
            (set_reg_A (u8 (Z.shiftr af 8)) r).

(** ** The address decoder *)

(** [static struct MemoryTypeAddressPair map_address(Address addr)].  [addr] is a
    [uint16_t], so the last case of the [switch] is [0xF]. *)
Definition map_address (addr : Z) : MemoryTypeAddressPair :=
  match Z.shiftr addr 12 with
  | 0x0 | 0x1 | 0x2 | 0x3 =>
    Build_MemoryTypeAddressPair MEMORY_MAP_ROM (Z.land addr ADDR_MASK_16K)
  | 0x4 | 0x5 | 0x6 | 0x7 =>
    Build_MemoryTypeAddressPair MEMORY_MAP_ROM_BANK_SWITCH (Z.land addr ADDR_MASK_16K)
  | 0x8 | 0x9 =>
    Build_MemoryTypeAddressPair MEMORY_MAP_VRAM (Z.land addr ADDR_MASK_8K)
  | 0xA | 0xB =>
    Build_MemoryTypeAddressPair MEMORY_MAP_EXTERNAL_RAM (Z.land addr ADDR_MASK_8K)
  | 0xC | 0xE => (* mirror of 0xc000..0xcfff *)
    Build_MemoryTypeAddressPair MEMORY_MAP_WORK_RAM (Z.land addr ADDR_MASK_4K)
  | 0xD =>
    Build_MemoryTypeAddressPair MEMORY_MAP_WORK_RAM_BANK_SWITCH (Z.land addr ADDR_MASK_4K)
  | _ => (* 0xF *)
    if addr <? OAM_START_ADDR then
      (* 0xf000 - 0xfdff: mirror of 0xd000-0xddff *)
      Build_MemoryTypeAddressPair MEMORY_MAP_WORK_RAM_BANK_SWITCH (Z.land addr ADDR_MASK_4K)
    else if addr <=? OAM_END_ADDR then
      Build_MemoryTypeAddressPair MEMORY_MAP_OAM (addr - OAM_START_ADDR)
    else if addr <=? UNUSED_END_ADDR then
      Build_MemoryTypeAddressPair MEMORY_MAP_UNUSED addr
    else if addr <? APU_START_ADDR then
      Build_MemoryTypeAddressPair MEMORY_MAP_IO (addr - IO_START_ADDR)
    else if addr <? WAVE_RAM_START_ADDR then
      Build_MemoryTypeAddressPair MEMORY_MAP_APU (addr - APU_START_ADDR)
    else if addr <=? WAVE_RAM_END_ADDR then
      Build_MemoryTypeAddressPair MEMORY_MAP_WAVE_RAM (addr - WAVE_RAM_START_ADDR)
    else if addr <=? IO_END_ADDR then
      Build_MemoryTypeAddressPair MEMORY_MAP_IO (addr - IO_START_ADDR)
    else if addr <=? HIGH_RAM_END_ADDR then
      Build_MemoryTypeAddressPair MEMORY_MAP_HIGH_RAM (addr - HIGH_RAM_START_ADDR)
    else (* 0xffff: IE register *)
      Build_MemoryTypeAddressPair MEMORY_MAP_IO (addr - IO_START_ADDR)
  end.

(** ** Reads *)

(** [static uint8_t read_vram(struct Emulator* e, MaskedAddress addr)] *)
Definition read_vram (e : Emulator) (addr : Z) : Z :=
  if LCDMode_eqb (mode (stat (lcd e))) LCD_MODE_USING_OAM_VRAM then
    INVALID_READ_BYTE
  else
    vram_data e addr.

(** [static enum Bool is_using_oam(struct Emulator* e)] *)
Definition is_using_oam (e : Emulator) : bool :=
  LCDMode_eqb (mode (stat (lcd e))) LCD_MODE_USING_OAM
  || LCDMode_eqb (mode (stat (lcd e))) LCD_MODE_USING_OAM_VRAM.

(** [static uint8_t read_oam(struct Emulator* e, MaskedAddress addr)].  After
    the [switch] over [addr & 3] every case has returned. *)
Definition read_oam (e : Emulator) (addr : Z) : Z :=
  if is_using_oam e then INVALID_READ_BYTE
  else
    let obj_index := u8 (Z.shiftr addr 2) in
    let obj := objs (oam e) obj_index in
    match Z.land addr 3 with
    | 0 => u8 (obj_y obj + OBJ_Y_OFFSET)
    | 1 => u8 (obj_x obj + OBJ_X_OFFSET)
    | 2 => obj_tile obj
    | _ => obj_byte3 obj
    end.

(** [READ_REG] of the four colours of a palette, as BGP, OBP0 and OBP1 read. *)
Definition read_palette (p : Palette) : Z :=
  Z.lor (Z.lor (Z.lor (READ_BITS (color p 3) 7 6) (READ_BITS (color p 2) 5 4))
               (READ_BITS (color p 1) 3 2))
        (READ_BITS (color p 0) 1 0).

(** [static uint8_t read_io(struct Emulator* e, MaskedAddress addr)] *)
Definition read_io (e : Emulator) (addr : Z) : Z :=
  if addr =? IO_JOYP_ADDR then
    let j := joypad e in
    let result := 0 in
    let result :=
      if (joypad_select j =? JOYPAD_SELECT_BUTTONS) || (joypad_select j =? JOYPAD_SELECT_BOTH)
      then Z.lor result
             (Z.lor (Z.lor (Z.lor (READ_BIT (joy_start j) 3) (READ_BIT (joy_select j) 2))
                           (READ_BIT (joy_B j) 1))
                    (READ_BIT (joy_A j) 0))
      else result in
    let result :=
      if (joypad_select j =? JOYPAD_SELECT_DPAD) || (joypad_select j =? JOYPAD_SELECT_BOTH)
      then Z.lor result
             (Z.lor (Z.lor (Z.lor (READ_BIT (joy_down j) 3) (READ_BIT (joy_up j) 2))
                           (READ_BIT (joy_left j) 1))
                    (READ_BIT (joy_right j) 0))
      else result in
    (* The bits are low when the buttons are pressed. *)
    u8 (Z.lor (Z.lor JOYP_UNUSED (READ_BITS (joypad_select j) 5 4))
              (Z.land (Z.lnot result) JOYP_RESULT_MASK))
  else if addr =? IO_SB_ADDR then 0
  else if addr =? IO_SC_ADDR then
    Z.lor (Z.lor SC_UNUSED (READ_BIT (transfer_start (serial e)) 7))
          (READ_BIT (shift_clock (serial e)) 0)
  else if addr =? IO_DIV_ADDR then u8 (Z.shiftr (div_counter (timer e)) 8)
  else if addr =? IO_TIMA_ADDR then TIMA (timer e)
  else if addr =? IO_TMA_ADDR then TMA (timer e)
  else if addr =? IO_TAC_ADDR then
    Z.lor (Z.lor TAC_UNUSED (READ_BIT (timer_on (timer e)) 2))
          (READ_BITS (clock_select (timer e)) 1 0)
  else if addr =? IO_IF_ADDR then u8 (Z.lor INTERRUPT_UNUSED (IF_ (interrupts e)))
  else if addr =? IO_LCDC_ADDR then
    let c := lcdc (lcd e) in
    Z.lor (Z.lor (Z.lor (Z.lor (Z.lor (Z.lor (Z.lor
      (READ_BIT (display c) 7)
      (READ_BITS (window_tile_map_select c) 6 6))
      (READ_BIT (window_display c) 5))
      (READ_BITS (bg_tile_data_select c) 4 4))
      (READ_BITS (bg_tile_map_select c) 3 3))
      (READ_BITS (obj_size c) 2 2))
      (READ_BIT (obj_display c) 1))
      (READ_BIT (bg_display c) 0)
  else if addr =? IO_STAT_ADDR then
    let s := stat (lcd e) in
    Z.lor (Z.lor (Z.lor (Z.lor (Z.lor (Z.lor STAT_UNUSED
      (READ_BIT (y_compare_intr s) 6))
      (READ_BIT (using_oam_intr s) 5))
      (READ_BIT (vblank_intr s) 4))
      (READ_BIT (hblank_intr s) 3))
      (READ_BIT (LY (lcd e) =? LYC (lcd e)) 2))
      (READ_BITS (LCDMode_value (mode s)) 1 0)
  else if addr =? IO_SCY_ADDR then SCY (lcd e)
  else if addr =? IO_SCX_ADDR then SCX (lcd e)
  else if addr =? IO_LY_ADDR then LY (lcd e)
  else if addr =? IO_LYC_ADDR then LYC (lcd e)
  else if addr =? IO_DMA_ADDR then INVALID_READ_BYTE (* Write only. *)
  else if addr =? IO_BGP_ADDR then read_palette (bgp (lcd e))
  else if addr =? IO_OBP0_ADDR then read_palette (obp (oam e) 0)
  else if addr =? IO_OBP1_ADDR then read_palette (obp (oam e) 1)
  else if addr =? IO_WY_ADDR then WY (lcd e)
  else if addr =? IO_WX_ADDR then WX (lcd e)
  else if addr =? IO_IE_ADDR then IE (interrupts e)
  else INVALID_READ_BYTE.

(** [static uint8_t read_nrx1_reg(struct Channel* channel)] *)
Definition read_nrx1_reg (ch : Channel) : Z := READ_BITS (duty (square_wave ch)) 7 6.

(** [static uint8_t read_nrx2_reg(struct Channel* channel)] *)
Definition read_nrx2_reg (ch : Channel) : Z :=
  u8 (Z.lor (Z.lor (READ_BITS (initial_volume (envelope ch)) 7 4)
                   (READ_BITS (env_direction (envelope ch)) 3 3))
            (READ_BITS (env_period (envelope ch)) 2 0)).

(** [static uint8_t read_nrx4_reg(struct Channel* channel)] *)
Definition read_nrx4_reg (ch : Channel) : Z := READ_BIT (length_enabled ch) 6.

(** The table [mask] of [read_apu]: the APU returns 1 for invalid bits. *)
Definition read_apu_mask : list Z :=
  [ 0x80; 0x3f; 0x00; 0xff; 0xbf;   (* NR10-NR14 *)
    0xff; 0x3f; 0x00; 0xff; 0xbf;   (* NR20-NR24 *)
    0x7f; 0xff; 0x9f; 0xff; 0xbf;   (* NR30-NR34 *)
    0xff; 0xff; 0x00; 0x00; 0xbf;   (* NR40-NR44 *)
    0x00; 0x00; 0x70;               (* NR50-NR52 *)
    0xff; 0xff; 0xff; 0xff; 0xff; 0xff; 0xff; 0xff; 0xff (* Unused. *) ].

(** [static uint8_t read_apu(struct Emulator* e, MaskedAddress addr)] *)
Definition read_apu (e : Emulator) (addr : Z) : Z :=
  let result := nth (Z.to_nat addr) read_apu_mask 0 in
  let sound := sound e in
  let channel1 := channel sound CHANNEL1 in
  let channel2 := channel sound CHANNEL2 in
  let channel3 := channel sound CHANNEL3 in
  let channel4 := channel sound CHANNEL4 in
  let sweep := sweep sound in
  let wave := wave sound in
  let noise := noise sound in
  let bits :=
    if addr =? APU_NR10_ADDR then
      Z.lor (Z.lor (READ_BITS (sweep_period sweep) 6 4) (READ_BITS (sweep_direction sweep) 3 3))
            (READ_BITS (sweep_shift sweep) 2 0)
    else if addr =? APU_NR11_ADDR then read_nrx1_reg channel1
    else if addr =? APU_NR12_ADDR then read_nrx2_reg channel1
    else if addr =? APU_NR13_ADDR then INVALID_READ_BYTE
    else if addr =? APU_NR14_ADDR then read_nrx4_reg channel1
    else if addr =? APU_NR21_ADDR then read_nrx1_reg channel2
    else if addr =? APU_NR22_ADDR then read_nrx2_reg channel2
    else if addr =? APU_NR23_ADDR then INVALID_READ_BYTE
    else if addr =? APU_NR24_ADDR then read_nrx4_reg channel2
    else if addr =? APU_NR30_ADDR then READ_BIT (dac_enabled channel3) 7
    else if addr =? APU_NR31_ADDR then INVALID_READ_BYTE
    else if addr =? APU_NR32_ADDR then READ_BITS (wave_volume wave) 6 5
    else if addr =? APU_NR33_ADDR then INVALID_READ_BYTE
    else if addr =? APU_NR34_ADDR then read_nrx4_reg channel3
    else if addr =? APU_NR41_ADDR then INVALID_READ_BYTE
    else if addr =? APU_NR42_ADDR then read_nrx2_reg channel4
    else if addr =? APU_NR43_ADDR then
      Z.lor (Z.lor (READ_BITS (clock_shift noise) 7 4) (READ_BITS (lfsr_width noise) 3 3))
            (READ_BITS (divisor noise) 2 0)
    else if addr =? APU_NR44_ADDR then read_nrx4_reg channel4
    else if addr =? APU_NR50_ADDR then
      Z.lor (Z.lor (Z.lor (READ_BIT (so2_output sound VIN) 7) (READ_BITS (so2_volume sound) 6 4))
                   (READ_BIT (so1_output sound VIN) 3))
            (READ_BITS (so1_volume sound) 2 0)
    else if addr =? APU_NR51_ADDR then
      Z.lor (Z.lor (Z.lor (Z.lor (Z.lor (Z.lor (Z.lor
        (READ_BIT (so2_output sound SOUND4) 7)
        (READ_BIT (so2_output sound SOUND3) 6))
        (READ_BIT (so2_output sound SOUND2) 5))
        (READ_BIT (so2_output sound SOUND1) 4))
        (READ_BIT (so1_output sound SOUND4) 3))
        (READ_BIT (so1_output sound SOUND3) 2))
        (READ_BIT (so1_output sound SOUND2) 1))
        (READ_BIT (so1_output sound SOUND1) 0)
    else if addr =? APU_NR52_ADDR then
      Z.lor (Z.lor (Z.lor (Z.lor
        (READ_BIT (sound_enabled sound) 7)
        (READ_BIT (status channel4) 3))
        (READ_BIT (status channel3) 2))
        (READ_BIT (status channel2) 1))
        (READ_BIT (status channel1) 0)
    else 0 in
  u8 (Z.lor result bits).

(** [static struct WaveSample* is_concurrent_wave_ram_access(struct Emulator* e,
    uint8_t offset_cycles)]: the first of the two retained samples that was
    read at cycle [e->cycles + offset_cycles], or [NULL]. *)
Definition is_concurrent_wave_ram_access (e : Emulator) (offset_cycles : Z)
  : option WaveSample :=
  let w := wave (sound e) in
  if ws_time (wave_sample w 0) =? u32 (cycles e + offset_cycles) then Some (wave_sample w 0)
  else if ws_time (wave_sample w 1) =? u32 (cycles e + offset_cycles) then Some (wave_sample w 1)
  else None.

(** [static uint8_t read_wave_ram(struct Emulator* e, MaskedAddress addr)] *)
Definition read_wave_ram (e : Emulator) (addr : Z) : Z :=
  let w := wave (sound e) in
  if status (channel (sound e) CHANNEL3) then
    match is_concurrent_wave_ram_access e WAVE_SAMPLE_READ_OFFSET_CYCLES with
    | Some sample => ws_byte sample
    | None => INVALID_READ_BYTE
    end
  else
    wave_ram w addr.

(** [static enum Bool is_dma_access_ok(struct Emulator* e, struct MemoryTypeAddressPair pair)] *)
Definition is_dma_access_ok (e : Emulator) (pair : MemoryTypeAddressPair) : bool :=
  negb (dma_active (dma e))
  || MemoryMapType_eqb (pair_type pair) MEMORY_MAP_HIGH_RAM
  || (MemoryMapType_eqb (pair_type (dma_source (dma e))) MEMORY_MAP_VRAM
      && negb (MemoryMapType_eqb (pair_type pair) MEMORY_MAP_VRAM)
      && negb (MemoryMapType_eqb (pair_type pair) MEMORY_MAP_OAM)).

(** [static uint8_t read_u8_no_dma_check(struct Emulator* e, struct MemoryTypeAddressPair pair)] *)
Definition read_u8_no_dma_check (e : Emulator) (pair : MemoryTypeAddressPair) : Z :=
  match pair_type pair with
  | MEMORY_MAP_ROM => rom_data e (pair_addr pair)
  | MEMORY_MAP_ROM_BANK_SWITCH =>
    let rom_bank := rom_bank (memory_map e) in
    let rom_addr := Z.lor (Z.shiftl rom_bank ROM_BANK_SHIFT) (pair_addr pair) in
    if rom_addr <? rom_size e then rom_data e rom_addr else INVALID_READ_BYTE
  | MEMORY_MAP_VRAM => read_vram e (pair_addr pair)
  | MEMORY_MAP_EXTERNAL_RAM => call_read_external_ram e (pair_addr pair)
  | MEMORY_MAP_WORK_RAM => ram_data e (pair_addr pair)
  | MEMORY_MAP_WORK_RAM_BANK_SWITCH => gb_read_work_ram_bank_switch e (pair_addr pair)
  | MEMORY_MAP_OAM => read_oam e (pair_addr pair)
  | MEMORY_MAP_UNUSED => 0
  | MEMORY_MAP_IO => read_io e (pair_addr pair)
  | MEMORY_MAP_APU => read_apu e (pair_addr pair)
  | MEMORY_MAP_WAVE_RAM => read_wave_ram e (pair_addr pair)
  | MEMORY_MAP_HIGH_RAM => hram e (pair_addr pair)
  end.

(** [static uint8_t read_u8(struct Emulator* e, Address addr)] *)
Definition read_u8 (e : Emulator) (addr : Z) : Z :=
  let pair := map_address addr in
  if negb (is_dma_access_ok e pair) then INVALID_READ_BYTE
  else read_u8_no_dma_check e pair.

(** [static uint16_t read_u16(struct Emulator* e, Address addr)] *)
Definition read_u16 (e : Emulator) (addr : Z) : Z :=
  Z.lor (read_u8 e addr) (Z.shiftl (read_u8 e (u16 (addr + 1))) 8).

(** ** Writes *)

(** [static void write_vram(struct Emulator* e, MaskedAddress addr, uint8_t value)].
    The raw byte is stored in [vram.data]; the decoded copies the C code keeps
    in [vram.tile] and [vram.map] for the renderer are not part of the state
    modelled here. *)
Definition write_vram (e : Emulator) (addr value : Z) : Emulator :=
  if LCDMode_eqb (mode (stat (lcd e))) LCD_MODE_USING_OAM_VRAM then e
  else set_vram_data (aset (vram_data e) addr value) e.

(** [static void write_oam_no_mode_check(struct Emulator* e, MaskedAddress addr, uint8_t value)] *)
Definition write_oam_no_mode_check (e : Emulator) (addr value : Z) : Emulator :=
  let i := Z.shiftr addr 2 in
  match Z.land addr 3 with
  | 0 => upd_obj i (set_obj_y (u8 (value - OBJ_Y_OFFSET))) e
  | 1 => upd_obj i (set_obj_x (u8 (value - OBJ_X_OFFSET))) e
  | 2 => upd_obj i (set_obj_tile value) e
  | 3 =>
    upd_obj i
      (fun obj =>
         set_obj_palette (WRITE_BITS value 4 4)
           (set_obj_xflip (WRITE_BIT value 5)
              (set_obj_yflip (WRITE_BIT value 6)
                 (set_obj_priority (WRITE_BITS value 7 7)
                    (set_obj_byte3 value obj))))) e
  | _ => e
  end.

(** [static void write_oam(struct Emulator* e, MaskedAddress addr, uint8_t value)] *)
Definition write_oam (e : Emulator) (addr value : Z) : Emulator :=
  if is_using_oam e then e
  else write_oam_no_mode_check e addr value.

(** [static void increment_tima(struct Emulator* e)] *)
Definition increment_tima (e : Emulator) : Emulator :=
  let e := upd_timer (fun t => set_TIMA (u8 (TIMA t + 1)) t) e in
  if TIMA (timer e) =? 0 then upd_timer (set_tima_overflow true) e
  else e.

(** [static void write_div_counter(struct Emulator* e, uint16_t div_counter)] *)
Definition write_div_counter (e : Emulator) (div_counter' : Z) : Emulator :=
  let e :=
    if timer_on (timer e) then
      let falling_edge :=
        u16 (Z.land (Z.lxor (div_counter (timer e)) div_counter') (Z.lnot div_counter')) in
      if negb (Z.land falling_edge (s_tima_mask (clock_select (timer e))) =? 0) then
        increment_tima e
      else e
    else e in
  upd_timer (set_div_counter div_counter') e.

(** [WRITE_REG] of the four colours of a palette, as BGP, OBP0 and OBP1 are written. *)
Definition write_palette (value : Z) (p : Palette) : Palette :=
  let c := color p in
  let c := aset c 3 (WRITE_BITS value 7 6) in
  let c := aset c 2 (WRITE_BITS value 5 4) in
  let c := aset c 1 (WRITE_BITS value 3 2) in
  let c := aset c 0 (WRITE_BITS value 1 0) in
  set_color c p.

(** [static void write_io(struct Emulator* e, MaskedAddress addr, uint8_t value)] *)
Definition write_io (e : Emulator) (addr value : Z) : Emulator :=
  if addr =? IO_JOYP_ADDR then
    set_joypad (set_joypad_select (WRITE_BITS value 5 4) (joypad e)) e
  else if addr =? IO_SB_ADDR then e
  else if addr =? IO_SC_ADDR then
    set_serial (set_shift_clock (WRITE_BIT value 0)
                  (set_transfer_start (WRITE_BIT value 7) (serial e))) e
  else if addr =? IO_DIV_ADDR then write_div_counter e 0
  else if addr =? IO_TIMA_ADDR then upd_timer (set_TIMA value) e
  else if addr =? IO_TMA_ADDR then upd_timer (set_TMA value) e
  else if addr =? IO_TAC_ADDR then
    let old_timer_on := timer_on (timer e) in
    let old_tima_mask := s_tima_mask (clock_select (timer e)) in
    let e := upd_timer (set_clock_select (WRITE_BITS value 1 0)) e in
    let e := upd_timer (set_timer_on (WRITE_BIT value 2)) e in
    (* TIMA is incremented when a specific bit of div_counter transitions
       from 1 to 0. This can happen as a result of writing to DIV, or in this
       case modifying which bit we're looking at. *)
    if negb old_timer_on then
      let tima_mask := s_tima_mask (clock_select (timer e)) in
      let tima_tick :=
        if timer_on (timer e) then
          negb (Z.land (div_counter (timer e)) old_tima_mask =? 0)
        else
          negb (Z.land (div_counter (timer e)) old_tima_mask =? 0)
          && (Z.land (div_counter (timer e)) tima_mask =? 0) in
      if tima_tick then increment_tima e else e
    else e
  else if addr =? IO_IF_ADDR then upd_interrupts (set_IF_ value) e
  else if addr =? IO_LCDC_ADDR then
    let was_enabled := display (lcdc (lcd e)) in
    let c :=
      Build_LCDControl (WRITE_BIT value 7) (WRITE_BITS value 6 6) (WRITE_BIT value 5)
                       (WRITE_BITS value 4 4) (WRITE_BITS value 3 3) (WRITE_BITS value 2 2)
                       (WRITE_BIT value 1) (WRITE_BIT value 0) in
    let e := upd_lcd (set_lcdc c) e in
    if was_enabled && negb (display c) then
      upd_lcd (fun l =>
        upd_stat (set_mode LCD_MODE_VBLANK)
          (set_fake_LY 0 (set_LY 0 (set_lcd_cycles 0 l)))) e
    else if negb was_enabled && display c then
      upd_lcd (fun l =>
        upd_stat (set_mode LCD_MODE_USING_OAM)
          (set_LY 0 (set_lcd_cycles 0 l))) e
    else e
  else if addr =? IO_STAT_ADDR then
    upd_lcd (upd_stat (fun s =>
      set_hblank_intr (WRITE_BIT value 3)
        (set_vblank_intr (WRITE_BIT value 4)
          (set_using_oam_intr (WRITE_BIT value 5)
            (set_y_compare_intr (WRITE_BIT value 6) s))))) e
  else if addr =? IO_SCY_ADDR then upd_lcd (set_SCY value) e
  else if addr =? IO_SCX_ADDR then upd_lcd (set_SCX value) e
  else if addr =? IO_LY_ADDR then e
  else if addr =? IO_LYC_ADDR then upd_lcd (set_LYC value) e
  else if addr =? IO_DMA_ADDR then
    set_dma (Build_DMA true (map_address (Z.shiftl value 8)) 0 0) e
  else if addr =? IO_BGP_ADDR then upd_lcd (fun l => set_bgp (write_palette value (bgp l)) l) e
  else if addr =? IO_OBP0_ADDR then
    upd_oam (fun o => set_obp (aset (obp o) 0 (write_palette value (obp o 0))) o) e
  else if addr =? IO_OBP1_ADDR then
    upd_oam (fun o => set_obp (aset (obp o) 1 (write_palette value (obp o 1))) o) e
  else if addr =? IO_WY_ADDR then upd_lcd (set_WY value) e
  else if addr =? IO_WX_ADDR then upd_lcd (set_WX value) e
  else if addr =? IO_IE_ADDR then upd_interrupts (set_IE value) e
  else e.

(** *** Sound registers

    A [struct Channel*] argument is the index [c] of the channel in
    [e->sound.channel]; the [struct Sweep*], [struct Wave*] and
    [struct Noise*] arguments always point to [e->sound.sweep],
    [e->sound.wave] and [e->sound.noise]. *)

(** [static void write_nrx1_reg(struct Emulator* e, struct Channel* channel, uint8_t value)] *)
Definition write_nrx1_reg (e : Emulator) (c : Z) (value : Z) : Emulator :=
  let e :=
    if sound_enabled (sound e) then
      upd_channel c (upd_square_wave (set_duty (WRITE_BITS value 7 6))) e
    else e in
  upd_channel c (set_ch_length (u16 (NRX1_MAX_LENGTH - WRITE_BITS value 5 0))) e.

(** [static void write_nrx2_reg(struct Emulator* e, struct Channel* channel, uint8_t value)] *)
Definition write_nrx2_reg (e : Emulator) (c : Z) (value : Z) : Emulator :=
  let e := upd_channel c (upd_envelope (set_initial_volume (WRITE_BITS value 7 4))) e in
  let e := upd_channel c (set_dac_enabled (negb (WRITE_BITS value 7 3 =? 0))) e in
  let e :=
    if negb (dac_enabled (channel (sound e) c)) then upd_channel c (set_status false) e
    else e in
  let e := upd_channel c (upd_envelope (set_env_direction (WRITE_BITS value 3 3))) e in
  upd_channel c (upd_envelope (set_env_period (WRITE_BITS value 2 0))) e.

(** [static void write_nrx3_reg(struct Emulator* e, struct Channel* channel, uint8_t value)] *)
Definition write_nrx3_reg (e : Emulator) (c : Z) (value : Z) : Emulator :=
  let e := upd_channel c (fun ch =>
             set_ch_frequency (u16 (Z.land (ch_frequency ch) (Z.lnot 0xff))) ch) e in
  upd_channel c (fun ch => set_ch_frequency (u16 (Z.lor (ch_frequency ch) value)) ch) e.

(** [static enum Bool write_nrx4_reg(struct Emulator* e, struct Channel* channel,
    uint8_t value, uint16_t max_length)]: returns TRUE if this channel was
    triggered. *)
Definition write_nrx4_reg (e : Emulator) (c : Z) (value max_length : Z) : Emulator * bool :=
  let trigger := WRITE_BIT value 7 in
  let was_length_enabled := length_enabled (channel (sound e) c) in
  let e := upd_channel c (set_length_enabled (WRITE_BIT value 6)) e in
  let e := upd_channel c (fun ch => set_ch_frequency (Z.land (ch_frequency ch) 0xff) ch) e in
  let e := upd_channel c (fun ch =>
             set_ch_frequency
               (u16 (Z.lor (ch_frequency ch) (Z.shiftl (WRITE_BITS value 2 0) 8))) ch) e in
  (* Extra length clocking occurs on NRX4 writes if the next APU frame isn't a
     length counter frame. This only occurs on transition from disabled to
     enabled. *)
  let next_frame_is_length := Z.land (sound_frame (sound e)) 1 =? 1 in
  let e :=
    if negb was_length_enabled && length_enabled (channel (sound e) c)
       && negb next_frame_is_length && (0 <? ch_length (channel (sound e) c)) then
      let e := upd_channel c (fun ch => set_ch_length (u16 (ch_length ch - 1)) ch) e in
      if negb trigger && (ch_length (channel (sound e) c) =? 0) then
        upd_channel c (set_status false) e
      else e
    else e in
  let e :=
    if trigger then
      let e :=
        if ch_length (channel (sound e) c) =? 0 then
          let e := upd_channel c (set_ch_length max_length) e in
          if length_enabled (channel (sound e) c) && negb next_frame_is_length then
            upd_channel c (fun ch => set_ch_length (u16 (ch_length ch - 1)) ch) e
          else e
        else e in
      if dac_enabled (channel (sound e) c) then upd_channel c (set_status true) e
      else e
    else e in
  (e, trigger).

(** [static void trigger_nrx4_envelope(struct Emulator* e, struct Envelope* envelope)],
    for the envelope of channel [c]. *)
Definition trigger_nrx4_envelope (e : Emulator) (c : Z) : Emulator :=
  let e := upd_channel c (upd_envelope (fun v => set_env_volume (initial_volume v) v)) e in
  let e := upd_channel c (upd_envelope (fun v =>
             set_env_timer (if negb (env_period v =? 0) then env_period v
                            else ENVELOPE_MAX_PERIOD) v)) e in
  let e := upd_channel c (upd_envelope (fun v =>
             set_automatic (negb (env_period v =? 0)) v)) e in
  (* If the next APU frame will update the envelope, increment the timer. *)
  if sound_frame (sound e) + 1 =? FRAME_SEQUENCER_UPDATE_ENVELOPE_FRAME then
    upd_channel c (upd_envelope (fun v => set_env_timer (u32 (env_timer v + 1)) v)) e
  else e.

(** [static uint16_t calculate_sweep_frequency(struct Sweep* sweep)]: the
    result, and the sweep with [calculated_subtract] set on a subtraction. *)
Definition calculate_sweep_frequency (sweep : Sweep) : Z * Sweep :=
  let f := sweep_frequency sweep in
  if sweep_direction sweep =? SWEEP_DIRECTION_ADDITION then
    (u16 (f + Z.shiftr f (sweep_shift sweep)), sweep)
  else
    (u16 (f - Z.shiftr f (sweep_shift sweep)), set_calculated_subtract true sweep).

(** [static void trigger_nr14_reg(struct Emulator* e, struct Channel* channel, struct Sweep* sweep)] *)
Definition trigger_nr14_reg (e : Emulator) (c : Z) : Emulator :=
  let e := upd_sweep_e (fun s =>
             set_sweep_enabled (negb (sweep_period s =? 0) || negb (sweep_shift s =? 0)) s) e in
  let e := upd_sweep_e (set_sweep_frequency (ch_frequency (channel (sound e) c))) e in
  let e := upd_sweep_e (fun s =>
             set_sweep_timer (if negb (sweep_period s =? 0) then sweep_period s
                              else SWEEP_MAX_PERIOD) s) e in
  let e := upd_sweep_e (set_calculated_subtract false) e in
  if negb (sweep_shift (sweep (sound e)) =? 0) then
    let '(f, s) := calculate_sweep_frequency (sweep (sound e)) in
    let e := upd_sweep_e (fun _ => s) e in
    if SOUND_MAX_FREQUENCY <? f then upd_channel c (set_status false) e
    else e
  else e.

(** [static void trigger_nr34_reg(struct Emulator* e, struct Channel* channel, struct Wave* wave)] *)
Definition trigger_nr34_reg (e : Emulator) (c : Z) : Emulator :=
  let e := upd_wave_e (set_wave_position 0) e in
  let e := upd_wave_e (fun w => set_wave_cycles (wave_period w) w) e in
  (* Triggering the wave channel while it is already playing will corrupt the
     wave RAM. *)
  let e :=
    if playing (wave (sound e)) then
      match is_concurrent_wave_ram_access e WAVE_SAMPLE_TRIGGER_OFFSET_CYCLES with
      | Some sample =>
        match Z.shiftr (ws_position sample) 3 with
        | 0 => upd_wave_e (fun w => set_wave_ram (aset (wave_ram w) 0 (ws_byte sample)) w) e
        | 1 | 2 | 3 =>
          (* memcpy(&wave->ram[0], &wave->ram[(sample->position >> 1) & 12], 4) *)
          let src := Z.land (Z.shiftr (ws_position sample) 1) 12 in
          upd_wave_e (fun w =>
            let r := wave_ram w in
            set_wave_ram
              (aset (aset (aset (aset r 0 (r src)) 1 (r (src + 1))) 2 (r (src + 2)))
                    3 (r (src + 3))) w) e
        | _ => e
        end
      | None => e
      end
    else e in
  upd_wave_e (set_playing true) e.

(** [static void trigger_nr44_reg(struct Emulator* e, struct Channel* channel, struct Noise* noise)] *)
Definition trigger_nr44_reg (e : Emulator) (c : Z) : Emulator :=
  upd_noise_e (set_lfsr 0x7fff) e.

(** [static void write_wave_period(struct Emulator* e, struct Channel* channel, struct Wave* wave)] *)
Definition write_wave_period (e : Emulator) (c : Z) : Emulator :=
  upd_wave_e
    (set_wave_period (u32 (((SOUND_MAX_FREQUENCY + 1) - ch_frequency (channel (sound e) c)) * 2)))
    e.

(** [static void write_square_wave_period(struct Channel* channel, struct SquareWave* wave)],
    where [wave] is [&channel->square_wave]. *)
Definition write_square_wave_period (ch : Channel) : Channel :=
  upd_square_wave
    (set_sq_period (u32 (((SOUND_MAX_FREQUENCY + 1) - ch_frequency ch) * 4))) ch.

(** The table [s_divisors] of [write_noise_period]. *)
Definition s_divisors : list Z := [8; 16; 32; 48; 64; 80; 96; 112].

(** [static void write_noise_period(struct Channel* channel, struct Noise* noise)] *)
Definition write_noise_period (noise : Noise) : Noise :=
  let divisor := nth (Z.to_nat (divisor noise)) s_divisors 0 in
  set_noise_period (u32 (Z.shiftl divisor (clock_shift noise))) noise.

(** [static void write_apu(struct Emulator* e, MaskedAddress addr, uint8_t value)].
    The function calls itself in the NR52 case, for every register but NR52;
    [self] is that call. *)
Definition write_apu_body (self : Emulator -> Z -> Z -> Emulator)
           (e : Emulator) (addr value : Z) : Emulator :=
  if negb (sound_enabled (sound e))
     && negb ((addr =? APU_NR11_ADDR) || (addr =? APU_NR21_ADDR)
              || (addr =? APU_NR31_ADDR) || (addr =? APU_NR41_ADDR))
     && negb (addr =? APU_NR52_ADDR)
  then e (* Ignore all other writes. *)
  else
  if addr =? APU_NR10_ADDR then
    let old_direction := sweep_direction (sweep (sound e)) in
    let e := upd_sweep_e (set_sweep_period (WRITE_BITS value 6 4)) e in
    let e := upd_sweep_e (set_sweep_direction (WRITE_BITS value 3 3)) e in
    let e := upd_sweep_e (set_sweep_shift (WRITE_BITS value 2 0)) e in
    if (old_direction =? SWEEP_DIRECTION_SUBTRACTION)
       && (sweep_direction (sweep (sound e)) =? SWEEP_DIRECTION_ADDITION)
       && calculated_subtract (sweep (sound e)) then
      upd_channel CHANNEL1 (set_status false) e
    else e
  else if addr =? APU_NR11_ADDR then write_nrx1_reg e CHANNEL1 value
  else if addr =? APU_NR12_ADDR then write_nrx2_reg e CHANNEL1 value
  else if addr =? APU_NR13_ADDR then
    let e := write_nrx3_reg e CHANNEL1 value in
    upd_channel CHANNEL1 write_square_wave_period e
  else if addr =? APU_NR14_ADDR then
    let '(e, trigger) := write_nrx4_reg e CHANNEL1 value NRX1_MAX_LENGTH in
    let e := upd_channel CHANNEL1 write_square_wave_period e in
    if trigger then
      let e := trigger_nrx4_envelope e CHANNEL1 in
      trigger_nr14_reg e CHANNEL1
    else e
  else if addr =? APU_NR21_ADDR then write_nrx1_reg e CHANNEL2 value
  else if addr =? APU_NR22_ADDR then write_nrx2_reg e CHANNEL2 value
  else if addr =? APU_NR23_ADDR then
    let e := write_nrx3_reg e CHANNEL2 value in
    upd_channel CHANNEL2 write_square_wave_period e
  else if addr =? APU_NR24_ADDR then
    let '(e, trigger) := write_nrx4_reg e CHANNEL2 value NRX1_MAX_LENGTH in
    let e := upd_channel CHANNEL2 write_square_wave_period e in
    if trigger then trigger_nrx4_envelope e CHANNEL2 else e
  else if addr =? APU_NR30_ADDR then
    let e := upd_channel CHANNEL3 (set_dac_enabled (WRITE_BIT value 7)) e in
    if negb (dac_enabled (channel (sound e) CHANNEL3)) then
      let e := upd_channel CHANNEL3 (set_status false) e in
      upd_wave_e (set_playing false) e
    else e
  else if addr =? APU_NR31_ADDR then
    upd_channel CHANNEL3 (set_ch_length (u16 (NR31_MAX_LENGTH - value))) e
  else if addr =? APU_NR32_ADDR then upd_wave_e (set_wave_volume (WRITE_BITS value 6 5)) e
  else if addr =? APU_NR33_ADDR then
    let e := write_nrx3_reg e CHANNEL3 value in
    write_wave_period e CHANNEL3
  else if addr =? APU_NR34_ADDR then
    let '(e, trigger) := write_nrx4_reg e CHANNEL3 value NR31_MAX_LENGTH in
    let e := write_wave_period e CHANNEL3 in
    if trigger then trigger_nr34_reg e CHANNEL3 else e
  else if addr =? APU_NR41_ADDR then write_nrx1_reg e CHANNEL4 value
  else if addr =? APU_NR42_ADDR then write_nrx2_reg e CHANNEL4 value
  else if addr =? APU_NR43_ADDR then
    let e := upd_noise_e (set_clock_shift (WRITE_BITS value 7 4)) e in
    let e := upd_noise_e (set_lfsr_width (WRITE_BITS value 3 3)) e in
    let e := upd_noise_e (set_divisor (WRITE_BITS value 2 0)) e in
    upd_noise_e write_noise_period e
  else if addr =? APU_NR44_ADDR then
    let '(e, trigger) := write_nrx4_reg e CHANNEL4 value NRX1_MAX_LENGTH in
    if trigger then
      let e := upd_noise_e write_noise_period e in
      let e := trigger_nrx4_envelope e CHANNEL4 in
      trigger_nr44_reg e CHANNEL4
    else e
  else if addr =? APU_NR50_ADDR then
    let e := upd_sound (fun s => set_so2_output (aset (so2_output s) VIN (WRITE_BIT value 7)) s) e in
    let e := upd_sound (set_so2_volume (WRITE_BITS value 6 4)) e in
    let e := upd_sound (fun s => set_so1_output (aset (so1_output s) VIN (WRITE_BIT value 3)) s) e in
    upd_sound (set_so1_volume (WRITE_BITS value 2 0)) e
  else if addr =? APU_NR51_ADDR then
    let e := upd_sound (fun s => set_so2_output (aset (so2_output s) SOUND4 (WRITE_BIT value 7)) s) e in
    let e := upd_sound (fun s => set_so2_output (aset (so2_output s) SOUND3 (WRITE_BIT value 6)) s) e in
    let e := upd_sound (fun s => set_so2_output (aset (so2_output s) SOUND2 (WRITE_BIT value 5)) s) e in
    let e := upd_sound (fun s => set_so2_output (aset (so2_output s) SOUND1 (WRITE_BIT value 4)) s) e in
    let e := upd_sound (fun s => set_so1_output (aset (so1_output s) SOUND4 (WRITE_BIT value 3)) s) e in
    let e := upd_sound (fun s => set_so1_output (aset (so1_output s) SOUND3 (WRITE_BIT value 2)) s) e in
    let e := upd_sound (fun s => set_so1_output (aset (so1_output s) SOUND2 (WRITE_BIT value 1)) s) e in
    upd_sound (fun s => set_so1_output (aset (so1_output s) SOUND1 (WRITE_BIT value 0)) s) e
  else if addr =? APU_NR52_ADDR then
    let was_enabled := sound_enabled (sound e) in
    let is_enabled := WRITE_BIT value 7 in
    let e :=
      if was_enabled && negb is_enabled then
        (* Powered down APU. Clearing registers. *)
        fold_left
          (fun e i => if i =? APU_NR52_ADDR then e (* Don't clear. *) else self e i 0)
          (map Z.of_nat (seq 0 (Z.to_nat APU_REG_COUNT))) e
      else if negb was_enabled && is_enabled then
        (* Powered up APU. Resetting frame and sweep timers. *)
        upd_sound (set_sound_frame 7) e
      else e in
    upd_sound (set_sound_enabled is_enabled) e
  else e.

(** A call of [write_apu] from its own power-down loop never reaches the NR52
    case, so it calls [write_apu] no further. *)
Definition write_apu_register : Emulator -> Z -> Z -> Emulator :=
  write_apu_body (fun e _ _ => e).

Definition write_apu : Emulator -> Z -> Z -> Emulator :=
  write_apu_body write_apu_register.

(** [static void write_wave_ram(struct Emulator* e, MaskedAddress addr, uint8_t value)] *)
Definition write_wave_ram (e : Emulator) (addr value : Z) : Emulator :=
  if status (channel (sound e) CHANNEL3) then
    match is_concurrent_wave_ram_access e WAVE_SAMPLE_WRITE_OFFSET_CYCLES with
    | Some sample =>
      upd_wave_e (fun w =>
        set_wave_ram (aset (wave_ram w) (Z.shiftr (ws_position sample) 1) value) w) e
    | None => e
    end
  else
    upd_wave_e (fun w => set_wave_ram (aset (wave_ram w) addr value) w) e.

(** [static void write_u8(struct Emulator* e, Address addr, uint8_t value)] *)
Definition write_u8 (e : Emulator) (addr value : Z) : option Emulator :=
  let pair := map_address addr in
  if negb (is_dma_access_ok e pair) then Some e
  else
    match pair_type pair with
    | MEMORY_MAP_ROM => call_write_rom e (pair_addr pair) value
    | MEMORY_MAP_ROM_BANK_SWITCH => call_write_rom e (u16 (pair_addr pair + 0x4000)) value
    | MEMORY_MAP_VRAM => Some (write_vram e (pair_addr pair) value)
    | MEMORY_MAP_EXTERNAL_RAM => Some (call_write_external_ram e (pair_addr pair) value)
    | MEMORY_MAP_WORK_RAM => Some (set_ram_data (aset (ram_data e) (pair_addr pair) value) e)
    | MEMORY_MAP_WORK_RAM_BANK_SWITCH =>
      Some (gb_write_work_ram_bank_switch e (pair_addr pair) value)
    | MEMORY_MAP_OAM => Some (write_oam e (pair_addr pair) value)
    | MEMORY_MAP_UNUSED => Some e
    | MEMORY_MAP_IO => Some (write_io e (pair_addr pair) value)
    | MEMORY_MAP_APU => Some (write_apu e (pair_addr pair) value)
    | MEMORY_MAP_WAVE_RAM => Some (write_wave_ram e (pair_addr pair) value)
    | MEMORY_MAP_HIGH_RAM => Some (set_hram (aset (hram e) (pair_addr pair) value) e)
    end.

(** [static void write_u16(struct Emulator* e, Address addr, uint16_t value)] *)
Definition write_u16 (e : Emulator) (addr value : Z) : option Emulator :=
  match write_u8 e addr (u8 value) with
  | Some e => write_u8 e (u16 (addr + 1)) (u8 (Z.shiftr value 8))
  | None => None
  end.

(** ** Advancing the subsystems *)

(** The number of iterations of [for (n = 0; n < ncycles; n += step)]; the
    parameter [cycles] of the C functions is [ncycles] here. *)
Definition iterations (ncycles step : Z) : nat := Z.to_nat ((ncycles + step - 1) / step).

(** The body of the loop of [update_dma_cycles]: one byte is copied to OAM. *)
Definition update_dma_body (e : Emulator) : Emulator :=
  let pair := dma_source (dma e) in
  let pair := set_pair_addr (u16 (pair_addr pair + dma_addr_offset (dma e))) pair in
  let value := read_u8_no_dma_check e pair in
  let e := write_oam_no_mode_check e (dma_addr_offset (dma e)) value in
  upd_dma (fun d => set_dma_addr_offset (u8 (dma_addr_offset d + 1)) d) e.

(** [for (n = 0; n < cycles && e->dma.addr_offset < OAM_TRANSFER_SIZE; n += 4)],
    with [fuel] the iterations that [n < cycles] allows. *)
Fixpoint update_dma_loop (fuel : nat) (e : Emulator) : Emulator :=
  match fuel with
  | O => e
  | S fuel =>
    if dma_addr_offset (dma e) <? OAM_TRANSFER_SIZE then
      update_dma_loop fuel (update_dma_body e)
    else e
  end.

(** [static void update_dma_cycles(struct Emulator* e, uint8_t cycles)] *)
Definition update_dma_cycles (e : Emulator) (ncycles : Z) : Emulator :=
  if negb (dma_active (dma e)) then e
  else
    let e :=
      if dma_addr_offset (dma e) <? OAM_TRANSFER_SIZE then
        update_dma_loop (iterations ncycles 4) e
      else e in
    let e := upd_dma (fun d => set_dma_cycles (u32 (dma_cycles d + ncycles)) d) e in
    let '(c, wrapped) := VALUE_WRAPPED (dma_cycles (dma e)) DMA_CYCLES in
    let e := upd_dma (set_dma_cycles c) e in
    if wrapped then upd_dma (set_dma_active false) e else e.

(** [static void render_line(struct Emulator* e, uint8_t line_y)], for its
    effect on the state other than the pixels of [frame_buffer]: the window
    line counter [win_y] advances on a line on which the window is drawn. *)
Definition render_line (e : Emulator) (line_y : Z) : Emulator :=
  if negb (display (lcdc (lcd e))) then e
  else
    if window_display (lcdc (lcd e)) && (WX (lcd e) <=? WINDOW_MAX_X)
       && (frame_WY (lcd e) <=? line_y) && negb (disable_window (config e)) then
      upd_lcd (fun l => set_win_y (u8 (win_y l + 1)) l) e
    else e.

(** [e->interrupts.IF |= mask] *)
Definition raise_interrupt (mask : Z) (e : Emulator) : Emulator :=
  upd_interrupts (fun i => set_IF_ (Z.lor (IF_ i) mask) i) e.

(** [static void update_lcd_cycles(struct Emulator* e, uint8_t cycles)] *)
Definition update_lcd_cycles (e : Emulator) (ncycles : Z) : Emulator :=
  let e := upd_lcd (fun l => set_lcd_cycles (u32 (lcd_cycles l + ncycles)) l) e in
  if display (lcdc (lcd e)) then
    let '(e, new_line_edge) :=
      match mode (stat (lcd e)) with
      | LCD_MODE_USING_OAM =>
        let '(c, wrapped) := VALUE_WRAPPED (lcd_cycles (lcd e)) USING_OAM_CYCLES in
        let e := upd_lcd (set_lcd_cycles c) e in
        if wrapped then
          let e := render_line e (LY (lcd e)) in
          (upd_lcd (upd_stat (set_mode LCD_MODE_USING_OAM_VRAM)) e, false)
        else (e, false)
      | LCD_MODE_USING_OAM_VRAM =>
        let '(c, wrapped) := VALUE_WRAPPED (lcd_cycles (lcd e)) USING_OAM_VRAM_CYCLES in
        let e := upd_lcd (set_lcd_cycles c) e in
        if wrapped then
          let e := upd_lcd (upd_stat (set_mode LCD_MODE_HBLANK)) e in
          if hblank_intr (stat (lcd e)) then (raise_interrupt INTERRUPT_LCD_STAT_MASK e, false)
          else (e, false)
        else (e, false)
      | LCD_MODE_HBLANK =>
        let '(c, wrapped) := VALUE_WRAPPED (lcd_cycles (lcd e)) HBLANK_CYCLES in
        let e := upd_lcd (set_lcd_cycles c) e in
        if wrapped then
          let e := upd_lcd (fun l => set_LY (u8 (LY l + 1)) l) e in
          if LY (lcd e) =? SCREEN_HEIGHT then
            let e := upd_lcd (upd_stat (set_mode LCD_MODE_VBLANK)) e in
            let e := raise_interrupt INTERRUPT_VBLANK_MASK e in
            if vblank_intr (stat (lcd e)) then
              (raise_interrupt INTERRUPT_LCD_STAT_MASK e, true)
            else (e, true)
          else
            let e := upd_lcd (upd_stat (set_mode LCD_MODE_USING_OAM)) e in
            if using_oam_intr (stat (lcd e)) then
              (raise_interrupt INTERRUPT_LCD_STAT_MASK e, true)
            else (e, true)
        else (e, false)
      | LCD_MODE_VBLANK =>
        let '(c, wrapped) := VALUE_WRAPPED (lcd_cycles (lcd e)) LINE_CYCLES in
        let e := upd_lcd (set_lcd_cycles c) e in
        if wrapped then
          let e := upd_lcd (fun l => set_LY (u8 (LY l + 1)) l) e in
          let '(ly, wrapped) := VALUE_WRAPPED (LY (lcd e)) SCREEN_HEIGHT_WITH_VBLANK in
          let e := upd_lcd (set_LY ly) e in
          if wrapped then
            let e := upd_lcd (set_win_y 0) e in
            let e := upd_lcd (fun l => set_frame_WY (WY l) l) e in
            let e := upd_lcd (fun l => set_lcd_frame (u32 (lcd_frame l + 1)) l) e in
            let e := upd_lcd (set_new_frame_edge true) e in
            let e := upd_lcd (upd_stat (set_mode LCD_MODE_USING_OAM)) e in
            if using_oam_intr (stat (lcd e)) then
              (raise_interrupt INTERRUPT_LCD_STAT_MASK e, true)
            else (e, true)
          else (e, true)
        else (e, false)
      end in
    if new_line_edge && y_compare_intr (stat (lcd e)) && (LY (lcd e) =? LYC (lcd e)) then
      raise_interrupt INTERRUPT_LCD_STAT_MASK e
    else e
  else
    let '(c, wrapped) := VALUE_WRAPPED (lcd_cycles (lcd e)) LINE_CYCLES in
    let e := upd_lcd (set_lcd_cycles c) e in
    if wrapped then
      let e := upd_lcd (fun l => set_fake_LY (u8 (fake_LY l + 1)) l) e in
      let '(fly, wrapped) := VALUE_WRAPPED (fake_LY (lcd e)) SCREEN_HEIGHT_WITH_VBLANK in
      let e := upd_lcd (set_fake_LY fly) e in
      let e :=
        if wrapped then
          let e := upd_lcd (set_new_frame_edge true) e in
          upd_lcd (fun l => set_lcd_frame (u32 (lcd_frame l + 1)) l) e
        else e in
      if fake_LY (lcd e) <? SCREEN_HEIGHT then render_line e (fake_LY (lcd e))
      else e
    else e.

(** The body of the loop of [update_timer_cycles]: one machine cycle (4 master
    cycles) of the timer. *)
Definition update_timer_tick (e : Emulator) : Emulator :=
  let e :=
    if timer_on (timer e) && tima_overflow (timer e) then
      let e := upd_timer (set_tima_overflow false) e in
      let e := upd_timer (fun t => set_TIMA (TMA t) t) e in
      raise_interrupt INTERRUPT_TIMER_MASK e
    else e in
  write_div_counter e (u16 (div_counter (timer e) + 4)).

(** [static void update_timer_cycles(struct Emulator* e, uint8_t cycles)] *)
Definition update_timer_cycles (e : Emulator) (ncycles : Z) : Emulator :=
  Nat.iter (iterations ncycles 4) update_timer_tick e.

(** [static void update_channel_sweep(struct Channel* channel, struct Sweep* sweep)] *)
Definition update_channel_sweep (e : Emulator) (c : Z) : Emulator :=
  if negb (sweep_enabled (sweep (sound e))) then e
  else
    let period := sweep_period (sweep (sound e)) in
    let e := upd_sweep_e (fun s => set_sweep_timer (u8 (sweep_timer s - 1)) s) e in
    if sweep_timer (sweep (sound e)) =? 0 then
      if negb (period =? 0) then
        let e := upd_sweep_e (set_sweep_timer period) e in
        let '(new_frequency, s) := calculate_sweep_frequency (sweep (sound e)) in
        let e := upd_sweep_e (fun _ => s) e in
        if SOUND_MAX_FREQUENCY <? new_frequency then
          upd_channel c (set_status false) e
        else
          let e :=
            if negb (sweep_shift (sweep (sound e)) =? 0) then
              let e := upd_channel c (set_ch_frequency new_frequency) e in
              let e := upd_sweep_e (set_sweep_frequency new_frequency) e in
              upd_channel c write_square_wave_period e
            else e in
          (* Perform another overflow check *)
          let '(f, s) := calculate_sweep_frequency (sweep (sound e)) in
          let e := upd_sweep_e (fun _ => s) e in
          if SOUND_MAX_FREQUENCY <? f then upd_channel c (set_status false) e
          else e
      else upd_sweep_e (set_sweep_timer SWEEP_MAX_PERIOD) e
    else e.

(** The table [duty] of [update_square_wave]. *)
Definition duty_table : list (list Z) :=
  [ [0; 0; 0; 0; 0; 0; 0; 1];   (* WAVE_DUTY_12_5 *)
    [1; 0; 0; 0; 0; 0; 0; 1];   (* WAVE_DUTY_25 *)
    [1; 0; 0; 0; 0; 1; 1; 1];   (* WAVE_DUTY_50 *)
    [0; 1; 1; 1; 1; 1; 1; 0] ]. (* WAVE_DUTY_75 *)

(** [static uint8_t update_square_wave(struct Channel* channel, struct SquareWave* wave)];
    the result is [wave->sample] of the new state. *)
Definition update_square_wave (w : SquareWave) : SquareWave :=
  let w :=
    if sq_cycles w <=? APU_CYCLES then
      let w := set_sq_cycles (u32 (sq_cycles w + sq_period w)) w in
      let w := set_sq_position (u8 (sq_position w + 1)) w in
      let w := set_sq_position (fst (VALUE_WRAPPED (sq_position w) DUTY_CYCLE_COUNT)) w in
      set_sq_sample
        (nth (Z.to_nat (sq_position w)) (nth (Z.to_nat (duty w)) duty_table []) 0) w
    else w in
  set_sq_cycles (u32 (sq_cycles w - APU_CYCLES)) w.

(** [static void update_channel_length(struct Channel* channel)] *)
Definition update_channel_length (ch : Channel) : Channel :=
  if length_enabled ch && (0 <? ch_length ch) then
    let ch := set_ch_length (u16 (ch_length ch - 1)) ch in
    if ch_length ch =? 0 then set_status false ch else ch
  else ch.

(** [static void update_channel_envelope(struct Emulator* e, struct Channel* channel)],
    on [envelope = &channel->envelope]. *)
Definition update_channel_envelope (v : Envelope) : Envelope :=
  if negb (env_period v =? 0) then
    if automatic v then
      let v := set_env_timer (u32 (env_timer v - 1)) v in
      if env_timer v =? 0 then
        let v := set_env_timer (env_period v) v in
        if env_direction v =? ENVELOPE_ATTENUATE then
          if 0 <? env_volume v then set_env_volume (u8 (env_volume v - 1)) v
          else set_automatic false v
        else
          if env_volume v <? ENVELOPE_MAX_VOLUME then set_env_volume (u8 (env_volume v + 1)) v
          else set_automatic false v
      else v
    else v
  else set_env_timer ENVELOPE_MAX_PERIOD v.

(** [static uint8_t update_wave(struct Sound* sound, struct Wave* wave)]; the
    result is [wave->sample[0].data] of the new state. *)
Definition update_wave (sound_cycles : Z) (w : Wave) : Wave :=
  let w :=
    if wave_cycles w <=? APU_CYCLES then
      let w := set_wave_cycles (u32 (wave_cycles w + wave_period w)) w in
      let w := set_wave_position (u8 (wave_position w + 1)) w in
      let w := set_wave_position (fst (VALUE_WRAPPED (wave_position w) WAVE_SAMPLE_COUNT)) w in
      let byte := wave_ram w (Z.shiftr (wave_position w) 1) in
      let sample :=
        Build_WaveSample
          (u32 (sound_cycles + wave_cycles w))
          (wave_position w)
          byte
          (if Z.land (wave_position w) 1 =? 0 then Z.shiftr byte 4 (* High nybble. *)
           else Z.land byte 0x0f (* Low nybble. *)) in
      let w := set_wave_sample (aset (wave_sample w) 1 (wave_sample w 0)) w in
      set_wave_sample (aset (wave_sample w) 0 sample) w
    else w in
  set_wave_cycles (u32 (wave_cycles w - APU_CYCLES)) w.

(** [static uint8_t update_noise(struct Sound* sound, struct Noise* noise)]; the
    result is [noise->sample] of the new state. *)
Definition update_noise (n : Noise) : Noise :=
  let n :=
    if (clock_shift n <=? NOISE_MAX_CLOCK_SHIFT) && (noise_cycles n <=? APU_CYCLES) then
      let n := set_noise_cycles (u32 (noise_cycles n + noise_period n)) n in
      let bit := Z.land (Z.lxor (lfsr n) (Z.shiftr (lfsr n) 1)) 1 in
      let n :=
        if lfsr_width n =? LFSR_WIDTH_7 then
          set_lfsr (u16 (Z.lor (Z.land (Z.shiftr (lfsr n) 1) (Z.lnot 0x40)) (Z.shiftl bit 6))) n
        else
          set_lfsr (u16 (Z.lor (Z.land (Z.shiftr (lfsr n) 1) (Z.lnot 0x4000)) (Z.shiftl bit 14))) n in
      set_noise_sample (u8 (Z.land (Z.lnot (lfsr n)) 1)) n
    else n in
  set_noise_cycles (u32 (noise_cycles n - APU_CYCLES)) n.

(** The body of the second loop of [update_sound_cycles]: one tick of the
    sound unit (2 master cycles).  The samples the channel updates return are
    mixed and appended to the host's buffer, which is not part of the state. *)
Definition update_sound_tick (e : Emulator) : Emulator :=
  let e := upd_sound (fun s => set_sound_cycles (u32 (sound_cycles s + APU_CYCLES)) s) e in
  let e := upd_sound (fun s =>
             set_sound_frame_cycles (u32 (sound_frame_cycles s + APU_CYCLES)) s) e in
  let '(fc, wrapped) := VALUE_WRAPPED (sound_frame_cycles (sound e)) FRAME_SEQUENCER_CYCLES in
  let e := upd_sound (set_sound_frame_cycles fc) e in
  let '(e, do_length, do_envelope, do_sweep) :=
    if wrapped then
      let e := upd_sound (fun s => set_sound_frame (u8 (sound_frame s + 1)) s) e in
      let e := upd_sound (fun s =>
                 set_sound_frame (fst (VALUE_WRAPPED (sound_frame s) FRAME_SEQUENCER_COUNT)) s) e in
      match sound_frame (sound e) with
      | 0 => (e, true, false, false)
      | 2 => (e, true, false, true)
      | 4 => (e, true, false, false)
      | 6 => (e, true, false, true)
      | 7 => (e, false, true, false)
      | _ => (e, false, false, false)
      end
    else (e, false, false, false) in
  (* Channel 1 *)
  let e :=
    if status (channel (sound e) CHANNEL1) then
      let e := if do_sweep then update_channel_sweep e CHANNEL1 else e in
      upd_channel CHANNEL1 (upd_square_wave update_square_wave) e
    else e in
  let e := if do_length then upd_channel CHANNEL1 update_channel_length e else e in
  let e :=
    if status (channel (sound e) CHANNEL1) then
      if do_envelope then upd_channel CHANNEL1 (upd_envelope update_channel_envelope) e else e
    else e in
  (* Channel 2 *)
  let e :=
    if status (channel (sound e) CHANNEL2) then
      upd_channel CHANNEL2 (upd_square_wave update_square_wave) e
    else e in
  let e := if do_length then upd_channel CHANNEL2 update_channel_length e else e in
  let e :=
    if status (channel (sound e) CHANNEL2) then
      if do_envelope then upd_channel CHANNEL2 (upd_envelope update_channel_envelope) e else e
    else e in
  (* Channel 3 *)
  let e :=
    if status (channel (sound e) CHANNEL3) then
      upd_wave_e (update_wave (sound_cycles (sound e))) e
    else e in
  let e := if do_length then upd_channel CHANNEL3 update_channel_length e else e in
  (* Channel 4 *)
  let e := if do_length then upd_channel CHANNEL4 update_channel_length e else e in
  if status (channel (sound e) CHANNEL4) then
    let e := upd_noise_e update_noise e in
    if do_envelope then upd_channel CHANNEL4 (upd_envelope update_channel_envelope) e else e
  else e.

(** [static void update_sound_cycles(struct Emulator* e, uint8_t cycles)].  With
    the sound unit powered off only silence is appended to the host's buffer.
    The loop counter is a [uint8_t] that goes up by [APU_CYCLES] = 2: for
    [cycles] from 0 to 254 the loop makes the iterations counted here, and for
    [cycles] = 255 the counter wraps from 254 to 0 and the loop does not end.
    The definition is for [ncycles] from 0 to 254; the callers pass 0, 4, 12
    and the entries of the cycle tables, which are at most 24. *)
Definition update_sound_cycles (e : Emulator) (ncycles : Z) : Emulator :=
  if negb (sound_enabled (sound e)) then e
  else
    (* Synchronize with CPU cycle counter. *)
    let e := upd_sound (set_sound_cycles (cycles e)) e in
    Nat.iter (iterations ncycles APU_CYCLES) update_sound_tick e.

(** [static void update_cycles(struct Emulator* e, uint8_t cycles)], for
    [ncycles] from 0 to 254, as [update_sound_cycles]. *)
Definition update_cycles (e : Emulator) (ncycles : Z) : Emulator :=
  let e := update_dma_cycles e ncycles in
  let e := update_lcd_cycles e ncycles in
  let e := update_timer_cycles e ncycles in
  let e := update_sound_cycles e ncycles in
  set_cycles (u32 (cycles e + ncycles)) e.

(** ** The CPU *)

(** [static uint8_t s_opcode_bytes[]] *)
Definition s_opcode_bytes_table : list Z :=
  [
    1; 3; 1; 1; 1; 1; 2; 1; 3; 1; 1; 1; 1; 1; 2; 1;
    1; 3; 1; 1; 1; 1; 2; 1; 2; 1; 1; 1; 1; 1; 2; 1;
    2; 3; 1; 1; 1; 1; 2; 1; 2; 1; 1; 1; 1; 1; 2; 1;
    2; 3; 1; 1; 1; 1; 2; 1; 2; 1; 1; 1; 1; 1; 2; 1;
    1; 1; 1; 1; 1; 1; 1; 1; 1; 1; 1; 1; 1; 1; 1; 1;
    1; 1; 1; 1; 1; 1; 1; 1; 1; 1; 1; 1; 1; 1; 1; 1;
    1; 1; 1; 1; 1; 1; 1; 1; 1; 1; 1; 1; 1; 1; 1; 1;
    1; 1; 1; 1; 1; 1; 1; 1; 1; 1; 1; 1; 1; 1; 1; 1;
    1; 1; 1; 1; 1; 1; 1; 1; 1; 1; 1; 1; 1; 1; 1; 1;
    1; 1; 1; 1; 1; 1; 1; 1; 1; 1; 1; 1; 1; 1; 1; 1;
    1; 1; 1; 1; 1; 1; 1; 1; 1; 1; 1; 1; 1; 1; 1; 1;
    1; 1; 1; 1; 1; 1; 1; 1; 1; 1; 1; 1; 1; 1; 1; 1;
    1; 1; 3; 3; 3; 1; 2; 1; 1; 1; 3; 2; 3; 3; 2; 1;
    1; 1; 3; 0; 3; 1; 2; 1; 1; 1; 3; 0; 3; 0; 2; 1;
    2; 1; 1; 0; 0; 1; 2; 1; 2; 1; 3; 0; 0; 0; 2; 1;
    2; 1; 1; 1; 0; 1; 2; 1; 2; 1; 3; 1; 0; 0; 2; 1 ].
Definition s_opcode_bytes (opcode : Z) : Z := nth (Z.to_nat opcode) s_opcode_bytes_table 0.

(** [static uint8_t s_opcode_cycles[]] *)
Definition s_opcode_cycles_table : list Z :=
  [
    4; 12; 8; 8; 4; 4; 8; 4; 20; 8; 8; 8; 4; 4; 8; 4;
    0; 12; 8; 8; 4; 4; 8; 4; 12; 8; 8; 8; 4; 4; 8; 4;
    8; 12; 8; 8; 4; 4; 8; 4; 8; 8; 8; 8; 4; 4; 8; 4;
    8; 12; 8; 8; 8; 8; 12; 4; 8; 8; 8; 8; 4; 4; 8; 4;
    4; 4; 4; 4; 4; 4; 8; 4; 4; 4; 4; 4; 4; 4; 8; 4;
    4; 4; 4; 4; 4; 4; 8; 4; 4; 4; 4; 4; 4; 4; 8; 4;
    4; 4; 4; 4; 4; 4; 8; 4; 4; 4; 4; 4; 4; 4; 8; 4;
    8; 8; 8; 8; 8; 8; 0; 8; 4; 4; 4; 4; 4; 4; 8; 4;
    4; 4; 4; 4; 4; 4; 8; 4; 4; 4; 4; 4; 4; 4; 8; 4;
    4; 4; 4; 4; 4; 4; 8; 4; 4; 4; 4; 4; 4; 4; 8; 4;
    4; 4; 4; 4; 4; 4; 8; 4; 4; 4; 4; 4; 4; 4; 8; 4;
    4; 4; 4; 4; 4; 4; 8; 4; 4; 4; 4; 4; 4; 4; 8; 4;
    8; 12; 12; 16; 12; 16; 8; 16; 8; 16; 12; 0; 12; 24; 8; 16;
    8; 12; 12; 0; 12; 16; 8; 16; 8; 16; 12; 0; 12; 0; 8; 16;
    12; 12; 8; 0; 0; 16; 8; 16; 16; 4; 16; 0; 0; 0; 8; 16;
    12; 12; 8; 4; 0; 16; 8; 16; 12; 8; 16; 4; 0; 0; 8; 16 ].
Definition s_opcode_cycles (opcode : Z) : Z := nth (Z.to_nat opcode) s_opcode_cycles_table 0.

(** [static uint8_t s_cb_opcode_cycles[]] *)
Definition s_cb_opcode_cycles_table : list Z :=
  [
    8; 8; 8; 8; 8; 8; 12; 8; 8; 8; 8; 8; 8; 8; 12; 8;
    8; 8; 8; 8; 8; 8; 12; 8; 8; 8; 8; 8; 8; 8; 12; 8;
    8; 8; 8; 8; 8; 8; 12; 8; 8; 8; 8; 8; 8; 8; 12; 8;
    8; 8; 8; 8; 8; 8; 12; 8; 8; 8; 8; 8; 8; 8; 12; 8;
    8; 8; 8; 8; 8; 8; 12; 8; 8; 8; 8; 8; 8; 8; 12; 8;
    8; 8; 8; 8; 8; 8; 12; 8; 8; 8; 8; 8; 8; 8; 12; 8;
    8; 8; 8; 8; 8; 8; 12; 8; 8; 8; 8; 8; 8; 8; 12; 8;
    8; 8; 8; 8; 8; 8; 12; 8; 8; 8; 8; 8; 8; 8; 12; 8;
    8; 8; 8; 8; 8; 8; 12; 8; 8; 8; 8; 8; 8; 8; 12; 8;
    8; 8; 8; 8; 8; 8; 12; 8; 8; 8; 8; 8; 8; 8; 12; 8;
    8; 8; 8; 8; 8; 8; 12; 8; 8; 8; 8; 8; 8; 8; 12; 8;
    8; 8; 8; 8; 8; 8; 12; 8; 8; 8; 8; 8; 8; 8; 12; 8;
    8; 8; 8; 8; 8; 8; 12; 8; 8; 8; 8; 8; 8; 8; 12; 8;
    8; 8; 8; 8; 8; 8; 12; 8; 8; 8; 8; 8; 8; 8; 12; 8;
    8; 8; 8; 8; 8; 8; 12; 8; 8; 8; 8; 8; 8; 8; 12; 8;
    8; 8; 8; 8; 8; 8; 12; 8; 8; 8; 8; 8; 8; 8; 12; 8 ].
Definition s_cb_opcode_cycles (opcode : Z) : Z := nth (Z.to_nat opcode) s_cb_opcode_cycles_table 0.

(** The operands of the instruction macros: the 8-bit registers, the 16-bit
    registers (the pairs are [union]s of two bytes and a [uint16_t], low byte
    first) and the branch conditions. *)
Inductive R8 : Type := rA | rB | rC | rD | rE | rH | rL.
Inductive R16 : Type := rBC | rDE | rHL | rSP.
Inductive Cond : Type := COND_NZ | COND_Z | COND_NC | COND_C.

(** The instruction macros that stand in a [case] of [execute_instruction]. *)
Inductive Op : Type :=
| ADC_MR (mr : R16) | ADC_N | ADC_R (r : R8)
| ADD_HL_RR (rr : R16) | ADD_MR (mr : R16) | ADD_N | ADD_R (r : R8) | ADD_SP_N
| AND_MR (mr : R16) | AND_N | AND_R (r : R8)
| BIT_MR (bit : Z) (mr : R16) | BIT_R (bit : Z) (r : R8)
| CALL (x : Z) | CALL_F_NN (cond : Cond) | CALL_NN
| CCF
| CP_MR (mr : R16) | CP_N | CP_R (r : R8)
| CPL | DAA
| DEC_MR (mr : R16) | DEC_R (r : R8) | DEC_RR (rr : R16)
| DI | EI | HALT
| INC_MR (mr : R16) | INC_R (r : R8) | INC_RR (rr : R16)
| INVALID
| JP_F_NN (cond : Cond) | JP_NN | JP_RR (rr : R16)
| JR_F_N (cond : Cond) | JR_N
| LD_HL_SP_N
| LD_MFF00_N_R (r : R8) | LD_MFF00_R_R (r1 r2 : R8)
| LD_MNN_SP | LD_MN_R (r : R8) | LD_MR_N (mr : R16) | LD_MR_R (mr : R16) (r : R8)
| LD_RR_NN (rr : R16) | LD_RR_RR (rrd rrs : R16)
| LD_R_MFF00_N (r : R8) | LD_R_MFF00_R (r1 r2 : R8)
| LD_R_MN (r : R8) | LD_R_MR (r : R8) (mr : R16) | LD_R_N (r : R8) | LD_R_R (rd rs : R8)
| NI
| OR_MR (mr : R16) | OR_N | OR_R (r : R8)
| POP_AF | POP_RR (rr : R16) | PUSH_AF | PUSH_RR (rr : R16)
| RES_MR (bit : Z) (mr : R16) | RES_R (bit : Z) (r : R8)
| RET | RETI | RET_F (cond : Cond)
| RLA | RLCA | RLC_MR (mr : R16) | RLC_R (r : R8) | RL_MR (mr : R16) | RL_R (r : R8)
| RRA | RRCA | RRC_MR (mr : R16) | RRC_R (r : R8) | RR_MR (mr : R16) | RR_R (r : R8)
| SBC_MR (mr : R16) | SBC_N | SBC_R (r : R8)
| SCF
| SET_MR (bit : Z) (mr : R16) | SET_R (bit : Z) (r : R8)
| SLA_MR (mr : R16) | SLA_R (r : R8)
| SRA_MR (mr : R16) | SRA_R (r : R8)
| SRL_MR (mr : R16) | SRL_R (r : R8)
| SUB_MR (mr : R16) | SUB_N | SUB_R (r : R8)
| SWAP_MR (mr : R16) | SWAP_R (r : R8)
| XOR_MR (mr : R16) | XOR_N | XOR_R (r : R8).

(** The [switch] of [execute_instruction] over the opcode that follows [0xcb];
    it has a case for every value of a [uint8_t] and no default. *)
Definition cb_opcode_ops (opcode : Z) : list Op :=
  match opcode with
  | 0x00 => [RLC_R rB]
  | 0x01 => [RLC_R rC]
  | 0x02 => [RLC_R rD]
  | 0x03 => [RLC_R rE]
  | 0x04 => [RLC_R rH]
  | 0x05 => [RLC_R rL]
  | 0x06 => [RLC_MR rHL]
  | 0x07 => [RLC_R rA]
  | 0x08 => [RRC_R rB]
  | 0x09 => [RRC_R rC]
  | 0x0a => [RRC_R rD]
  | 0x0b => [RRC_R rE]
  | 0x0c => [RRC_R rH]
  | 0x0d => [RRC_R rL]
  | 0x0e => [RRC_MR rHL]
  | 0x0f => [RRC_R rA]
  | 0x10 => [RL_R rB]
  | 0x11 => [RL_R rC]
  | 0x12 => [RL_R rD]
  | 0x13 => [RL_R rE]
  | 0x14 => [RL_R rH]
  | 0x15 => [RL_R rL]
  | 0x16 => [RL_MR rHL]
  | 0x17 => [RL_R rA]
  | 0x18 => [RR_R rB]
  | 0x19 => [RR_R rC]
  | 0x1a => [RR_R rD]
  | 0x1b => [RR_R rE]
  | 0x1c => [RR_R rH]
  | 0x1d => [RR_R rL]
  | 0x1e => [RR_MR rHL]
  | 0x1f => [RR_R rA]
  | 0x20 => [SLA_R rB]
  | 0x21 => [SLA_R rC]
  | 0x22 => [SLA_R rD]
  | 0x23 => [SLA_R rE]
  | 0x24 => [SLA_R rH]
  | 0x25 => [SLA_R rL]
  | 0x26 => [SLA_MR rHL]
  | 0x27 => [SLA_R rA]
  | 0x28 => [SRA_R rB]
  | 0x29 => [SRA_R rC]
  | 0x2a => [SRA_R rD]
  | 0x2b => [SRA_R rE]
  | 0x2c => [SRA_R rH]
  | 0x2d => [SRA_R rL]
  | 0x2e => [SRA_MR rHL]
  | 0x2f => [SRA_R rA]
  | 0x30 => [SWAP_R rB]
  | 0x31 => [SWAP_R rC]
  | 0x32 => [SWAP_R rD]
  | 0x33 => [SWAP_R rE]
  | 0x34 => [SWAP_R rH]
  | 0x35 => [SWAP_R rL]
  | 0x36 => [SWAP_MR rHL]
  | 0x37 => [SWAP_R rA]
  | 0x38 => [SRL_R rB]
  | 0x39 => [SRL_R rC]
  | 0x3a => [SRL_R rD]
  | 0x3b => [SRL_R rE]
  | 0x3c => [SRL_R rH]
  | 0x3d => [SRL_R rL]
  | 0x3e => [SRL_MR rHL]
  | 0x3f => [SRL_R rA]
  | 0x40 => [BIT_R 0 rB]
  | 0x41 => [BIT_R 0 rC]
  | 0x42 => [BIT_R 0 rD]
  | 0x43 => [BIT_R 0 rE]
  | 0x44 => [BIT_R 0 rH]
  | 0x45 => [BIT_R 0 rL]
  | 0x46 => [BIT_MR 0 rHL]
  | 0x47 => [BIT_R 0 rA]
  | 0x48 => [BIT_R 1 rB]
  | 0x49 => [BIT_R 1 rC]
  | 0x4a => [BIT_R 1 rD]
  | 0x4b => [BIT_R 1 rE]
  | 0x4c => [BIT_R 1 rH]
  | 0x4d => [BIT_R 1 rL]
  | 0x4e => [BIT_MR 1 rHL]
  | 0x4f => [BIT_R 1 rA]
  | 0x50 => [BIT_R 2 rB]
  | 0x51 => [BIT_R 2 rC]
  | 0x52 => [BIT_R 2 rD]
  | 0x53 => [BIT_R 2 rE]
  | 0x54 => [BIT_R 2 rH]
  | 0x55 => [BIT_R 2 rL]
  | 0x56 => [BIT_MR 2 rHL]
  | 0x57 => [BIT_R 2 rA]
  | 0x58 => [BIT_R 3 rB]
  | 0x59 => [BIT_R 3 rC]
  | 0x5a => [BIT_R 3 rD]
  | 0x5b => [BIT_R 3 rE]
  | 0x5c => [BIT_R 3 rH]
  | 0x5d => [BIT_R 3 rL]
  | 0x5e => [BIT_MR 3 rHL]
  | 0x5f => [BIT_R 3 rA]
  | 0x60 => [BIT_R 4 rB]
  | 0x61 => [BIT_R 4 rC]
  | 0x62 => [BIT_R 4 rD]
  | 0x63 => [BIT_R 4 rE]
  | 0x64 => [BIT_R 4 rH]
  | 0x65 => [BIT_R 4 rL]
  | 0x66 => [BIT_MR 4 rHL]
  | 0x67 => [BIT_R 4 rA]
  | 0x68 => [BIT_R 5 rB]
  | 0x69 => [BIT_R 5 rC]
  | 0x6a => [BIT_R 5 rD]
  | 0x6b => [BIT_R 5 rE]
  | 0x6c => [BIT_R 5 rH]
  | 0x6d => [BIT_R 5 rL]
  | 0x6e => [BIT_MR 5 rHL]
  | 0x6f => [BIT_R 5 rA]
  | 0x70 => [BIT_R 6 rB]
  | 0x71 => [BIT_R 6 rC]
  | 0x72 => [BIT_R 6 rD]
  | 0x73 => [BIT_R 6 rE]
  | 0x74 => [BIT_R 6 rH]
  | 0x75 => [BIT_R 6 rL]
  | 0x76 => [BIT_MR 6 rHL]
  | 0x77 => [BIT_R 6 rA]
  | 0x78 => [BIT_R 7 rB]
  | 0x79 => [BIT_R 7 rC]
  | 0x7a => [BIT_R 7 rD]
  | 0x7b => [BIT_R 7 rE]
  | 0x7c => [BIT_R 7 rH]
  | 0x7d => [BIT_R 7 rL]
  | 0x7e => [BIT_MR 7 rHL]
  | 0x7f => [BIT_R 7 rA]
  | 0x80 => [RES_R 0 rB]
  | 0x81 => [RES_R 0 rC]
  | 0x82 => [RES_R 0 rD]
  | 0x83 => [RES_R 0 rE]
  | 0x84 => [RES_R 0 rH]
  | 0x85 => [RES_R 0 rL]
  | 0x86 => [RES_MR 0 rHL]
  | 0x87 => [RES_R 0 rA]
  | 0x88 => [RES_R 1 rB]
  | 0x89 => [RES_R 1 rC]
  | 0x8a => [RES_R 1 rD]
  | 0x8b => [RES_R 1 rE]
  | 0x8c => [RES_R 1 rH]
  | 0x8d => [RES_R 1 rL]
  | 0x8e => [RES_MR 1 rHL]
  | 0x8f => [RES_R 1 rA]
  | 0x90 => [RES_R 2 rB]
  | 0x91 => [RES_R 2 rC]
  | 0x92 => [RES_R 2 rD]
  | 0x93 => [RES_R 2 rE]
  | 0x94 => [RES_R 2 rH]
  | 0x95 => [RES_R 2 rL]
  | 0x96 => [RES_MR 2 rHL]
  | 0x97 => [RES_R 2 rA]
  | 0x98 => [RES_R 3 rB]
  | 0x99 => [RES_R 3 rC]
  | 0x9a => [RES_R 3 rD]
  | 0x9b => [RES_R 3 rE]
  | 0x9c => [RES_R 3 rH]
  | 0x9d => [RES_R 3 rL]
  | 0x9e => [RES_MR 3 rHL]
  | 0x9f => [RES_R 3 rA]
  | 0xa0 => [RES_R 4 rB]
  | 0xa1 => [RES_R 4 rC]
  | 0xa2 => [RES_R 4 rD]
  | 0xa3 => [RES_R 4 rE]
  | 0xa4 => [RES_R 4 rH]
  | 0xa5 => [RES_R 4 rL]
  | 0xa6 => [RES_MR 4 rHL]
  | 0xa7 => [RES_R 4 rA]
  | 0xa8 => [RES_R 5 rB]
  | 0xa9 => [RES_R 5 rC]
  | 0xaa => [RES_R 5 rD]
  | 0xab => [RES_R 5 rE]
  | 0xac => [RES_R 5 rH]
  | 0xad => [RES_R 5 rL]
  | 0xae => [RES_MR 5 rHL]
  | 0xaf => [RES_R 5 rA]
  | 0xb0 => [RES_R 6 rB]
  | 0xb1 => [RES_R 6 rC]
  | 0xb2 => [RES_R 6 rD]
  | 0xb3 => [RES_R 6 rE]
  | 0xb4 => [RES_R 6 rH]
  | 0xb5 => [RES_R 6 rL]
  | 0xb6 => [RES_MR 6 rHL]
  | 0xb7 => [RES_R 6 rA]
  | 0xb8 => [RES_R 7 rB]
  | 0xb9 => [RES_R 7 rC]
  | 0xba => [RES_R 7 rD]
  | 0xbb => [RES_R 7 rE]
  | 0xbc => [RES_R 7 rH]
  | 0xbd => [RES_R 7 rL]
  | 0xbe => [RES_MR 7 rHL]
  | 0xbf => [RES_R 7 rA]
  | 0xc0 => [SET_R 0 rB]
  | 0xc1 => [SET_R 0 rC]
  | 0xc2 => [SET_R 0 rD]
  | 0xc3 => [SET_R 0 rE]
  | 0xc4 => [SET_R 0 rH]
  | 0xc5 => [SET_R 0 rL]
  | 0xc6 => [SET_MR 0 rHL]
  | 0xc7 => [SET_R 0 rA]
  | 0xc8 => [SET_R 1 rB]
  | 0xc9 => [SET_R 1 rC]
  | 0xca => [SET_R 1 rD]
  | 0xcb => [SET_R 1 rE]
  | 0xcc => [SET_R 1 rH]
  | 0xcd => [SET_R 1 rL]
  | 0xce => [SET_MR 1 rHL]
  | 0xcf => [SET_R 1 rA]
  | 0xd0 => [SET_R 2 rB]
  | 0xd1 => [SET_R 2 rC]
  | 0xd2 => [SET_R 2 rD]
  | 0xd3 => [SET_R 2 rE]
  | 0xd4 => [SET_R 2 rH]
  | 0xd5 => [SET_R 2 rL]
  | 0xd6 => [SET_MR 2 rHL]
  | 0xd7 => [SET_R 2 rA]
  | 0xd8 => [SET_R 3 rB]
  | 0xd9 => [SET_R 3 rC]
  | 0xda => [SET_R 3 rD]
  | 0xdb => [SET_R 3 rE]
  | 0xdc => [SET_R 3 rH]
  | 0xdd => [SET_R 3 rL]
  | 0xde => [SET_MR 3 rHL]
  | 0xdf => [SET_R 3 rA]
  | 0xe0 => [SET_R 4 rB]
  | 0xe1 => [SET_R 4 rC]
  | 0xe2 => [SET_R 4 rD]
  | 0xe3 => [SET_R 4 rE]
  | 0xe4 => [SET_R 4 rH]
  | 0xe5 => [SET_R 4 rL]
  | 0xe6 => [SET_MR 4 rHL]
  | 0xe7 => [SET_R 4 rA]
  | 0xe8 => [SET_R 5 rB]
  | 0xe9 => [SET_R 5 rC]
  | 0xea => [SET_R 5 rD]
  | 0xeb => [SET_R 5 rE]
  | 0xec => [SET_R 5 rH]
  | 0xed => [SET_R 5 rL]
  | 0xee => [SET_MR 5 rHL]
  | 0xef => [SET_R 5 rA]
  | 0xf0 => [SET_R 6 rB]
  | 0xf1 => [SET_R 6 rC]
  | 0xf2 => [SET_R 6 rD]
  | 0xf3 => [SET_R 6 rE]
  | 0xf4 => [SET_R 6 rH]
  | 0xf5 => [SET_R 6 rL]
  | 0xf6 => [SET_MR 6 rHL]
  | 0xf7 => [SET_R 6 rA]
  | 0xf8 => [SET_R 7 rB]
  | 0xf9 => [SET_R 7 rC]
  | 0xfa => [SET_R 7 rD]
  | 0xfb => [SET_R 7 rE]
  | 0xfc => [SET_R 7 rH]
  | 0xfd => [SET_R 7 rL]
  | 0xfe => [SET_MR 7 rHL]
  | 0xff => [SET_R 7 rA]
  | _ => []
  end.

(** The [switch] of [execute_instruction] over the opcode.  [REG(HL)++] and
    [REG(HL)--] are the expansions of [INC_RR(HL)] and [DEC_RR(HL)]. *)
Definition opcode_ops (opcode : Z) : list Op :=
  match opcode with
  | 0x00 => []
  | 0x01 => [LD_RR_NN rBC]
  | 0x02 => [LD_MR_R rBC rA]
  | 0x03 => [INC_RR rBC]
  | 0x04 => [INC_R rB]
  | 0x05 => [DEC_R rB]
  | 0x06 => [LD_R_N rB]
  | 0x07 => [RLCA]
  | 0x08 => [LD_MNN_SP]
  | 0x09 => [ADD_HL_RR rBC]
  | 0x0a => [LD_R_MR rA rBC]
  | 0x0b => [DEC_RR rBC]
  | 0x0c => [INC_R rC]
  | 0x0d => [DEC_R rC]
  | 0x0e => [LD_R_N rC]
  | 0x0f => [RRCA]
  | 0x10 => [NI]
  | 0x11 => [LD_RR_NN rDE]
  | 0x12 => [LD_MR_R rDE rA]
  | 0x13 => [INC_RR rDE]
  | 0x14 => [INC_R rD]
  | 0x15 => [DEC_R rD]
  | 0x16 => [LD_R_N rD]
  | 0x17 => [RLA]
  | 0x18 => [JR_N]
  | 0x19 => [ADD_HL_RR rDE]
  | 0x1a => [LD_R_MR rA rDE]
  | 0x1b => [DEC_RR rDE]
  | 0x1c => [INC_R rE]
  | 0x1d => [DEC_R rE]
  | 0x1e => [LD_R_N rE]
  | 0x1f => [RRA]
  | 0x20 => [JR_F_N COND_NZ]
  | 0x21 => [LD_RR_NN rHL]
  | 0x22 => [LD_MR_R rHL rA; INC_RR rHL]
  | 0x23 => [INC_RR rHL]
  | 0x24 => [INC_R rH]
  | 0x25 => [DEC_R rH]
  | 0x26 => [LD_R_N rH]
  | 0x27 => [DAA]
  | 0x28 => [JR_F_N COND_Z]
  | 0x29 => [ADD_HL_RR rHL]
  | 0x2a => [LD_R_MR rA rHL; INC_RR rHL]
  | 0x2b => [DEC_RR rHL]
  | 0x2c => [INC_R rL]
  | 0x2d => [DEC_R rL]
  | 0x2e => [LD_R_N rL]
  | 0x2f => [CPL]
  | 0x30 => [JR_F_N COND_NC]
  | 0x31 => [LD_RR_NN rSP]
  | 0x32 => [LD_MR_R rHL rA; DEC_RR rHL]
  | 0x33 => [INC_RR rSP]
  | 0x34 => [INC_MR rHL]
  | 0x35 => [DEC_MR rHL]
  | 0x36 => [LD_MR_N rHL]
  | 0x37 => [SCF]
  | 0x38 => [JR_F_N COND_C]
  | 0x39 => [ADD_HL_RR rSP]
  | 0x3a => [LD_R_MR rA rHL; DEC_RR rHL]
  | 0x3b => [DEC_RR rSP]
  | 0x3c => [INC_R rA]
  | 0x3d => [DEC_R rA]
  | 0x3e => [LD_R_N rA]
  | 0x3f => [CCF]
  | 0x40 => [LD_R_R rB rB]
  | 0x41 => [LD_R_R rB rC]
  | 0x42 => [LD_R_R rB rD]
  | 0x43 => [LD_R_R rB rE]
  | 0x44 => [LD_R_R rB rH]
  | 0x45 => [LD_R_R rB rL]
  | 0x46 => [LD_R_MR rB rHL]
  | 0x47 => [LD_R_R rB rA]
  | 0x48 => [LD_R_R rC rB]
  | 0x49 => [LD_R_R rC rC]
  | 0x4a => [LD_R_R rC rD]
  | 0x4b => [LD_R_R rC rE]
  | 0x4c => [LD_R_R rC rH]
  | 0x4d => [LD_R_R rC rL]
  | 0x4e => [LD_R_MR rC rHL]
  | 0x4f => [LD_R_R rC rA]
  | 0x50 => [LD_R_R rD rB]
  | 0x51 => [LD_R_R rD rC]
  | 0x52 => [LD_R_R rD rD]
  | 0x53 => [LD_R_R rD rE]
  | 0x54 => [LD_R_R rD rH]
  | 0x55 => [LD_R_R rD rL]
  | 0x56 => [LD_R_MR rD rHL]
  | 0x57 => [LD_R_R rD rA]
  | 0x58 => [LD_R_R rE rB]
  | 0x59 => [LD_R_R rE rC]
  | 0x5a => [LD_R_R rE rD]
  | 0x5b => [LD_R_R rE rE]
  | 0x5c => [LD_R_R rE rH]
  | 0x5d => [LD_R_R rE rL]
  | 0x5e => [LD_R_MR rE rHL]
  | 0x5f => [LD_R_R rE rA]
  | 0x60 => [LD_R_R rH rB]
  | 0x61 => [LD_R_R rH rC]
  | 0x62 => [LD_R_R rH rD]
  | 0x63 => [LD_R_R rH rE]
  | 0x64 => [LD_R_R rH rH]
  | 0x65 => [LD_R_R rH rL]
  | 0x66 => [LD_R_MR rH rHL]
  | 0x67 => [LD_R_R rH rA]
  | 0x68 => [LD_R_R rL rB]
  | 0x69 => [LD_R_R rL rC]
  | 0x6a => [LD_R_R rL rD]
  | 0x6b => [LD_R_R rL rE]
  | 0x6c => [LD_R_R rL rH]
  | 0x6d => [LD_R_R rL rL]
  | 0x6e => [LD_R_MR rL rHL]
  | 0x6f => [LD_R_R rL rA]
  | 0x70 => [LD_MR_R rHL rB]
  | 0x71 => [LD_MR_R rHL rC]
  | 0x72 => [LD_MR_R rHL rD]
  | 0x73 => [LD_MR_R rHL rE]
  | 0x74 => [LD_MR_R rHL rH]
  | 0x75 => [LD_MR_R rHL rL]
  | 0x76 => [HALT]
  | 0x77 => [LD_MR_R rHL rA]
  | 0x78 => [LD_R_R rA rB]
  | 0x79 => [LD_R_R rA rC]
  | 0x7a => [LD_R_R rA rD]
  | 0x7b => [LD_R_R rA rE]
  | 0x7c => [LD_R_R rA rH]
  | 0x7d => [LD_R_R rA rL]
  | 0x7e => [LD_R_MR rA rHL]
  | 0x7f => [LD_R_R rA rA]
  | 0x80 => [ADD_R rB]
  | 0x81 => [ADD_R rC]
  | 0x82 => [ADD_R rD]
  | 0x83 => [ADD_R rE]
  | 0x84 => [ADD_R rH]
  | 0x85 => [ADD_R rL]
  | 0x86 => [ADD_MR rHL]
  | 0x87 => [ADD_R rA]
  | 0x88 => [ADC_R rB]
  | 0x89 => [ADC_R rC]
  | 0x8a => [ADC_R rD]
  | 0x8b => [ADC_R rE]
  | 0x8c => [ADC_R rH]
  | 0x8d => [ADC_R rL]
  | 0x8e => [ADC_MR rHL]
  | 0x8f => [ADC_R rA]
  | 0x90 => [SUB_R rB]
  | 0x91 => [SUB_R rC]
  | 0x92 => [SUB_R rD]
  | 0x93 => [SUB_R rE]
  | 0x94 => [SUB_R rH]
  | 0x95 => [SUB_R rL]
  | 0x96 => [SUB_MR rHL]
  | 0x97 => [SUB_R rA]
  | 0x98 => [SBC_R rB]
  | 0x99 => [SBC_R rC]
  | 0x9a => [SBC_R rD]
  | 0x9b => [SBC_R rE]
  | 0x9c => [SBC_R rH]
  | 0x9d => [SBC_R rL]
  | 0x9e => [SBC_MR rHL]
  | 0x9f => [SBC_R rA]
  | 0xa0 => [AND_R rB]
  | 0xa1 => [AND_R rC]
  | 0xa2 => [AND_R rD]
  | 0xa3 => [AND_R rE]
  | 0xa4 => [AND_R rH]
  | 0xa5 => [AND_R rL]
  | 0xa6 => [AND_MR rHL]
  | 0xa7 => [AND_R rA]
  | 0xa8 => [XOR_R rB]
  | 0xa9 => [XOR_R rC]
  | 0xaa => [XOR_R rD]
  | 0xab => [XOR_R rE]
  | 0xac => [XOR_R rH]
  | 0xad => [XOR_R rL]
  | 0xae => [XOR_MR rHL]
  | 0xaf => [XOR_R rA]
  | 0xb0 => [OR_R rB]
  | 0xb1 => [OR_R rC]
  | 0xb2 => [OR_R rD]
  | 0xb3 => [OR_R rE]
  | 0xb4 => [OR_R rH]
  | 0xb5 => [OR_R rL]
  | 0xb6 => [OR_MR rHL]
  | 0xb7 => [OR_R rA]
  | 0xb8 => [CP_R rB]
  | 0xb9 => [CP_R rC]
  | 0xba => [CP_R rD]
  | 0xbb => [CP_R rE]
  | 0xbc => [CP_R rH]
  | 0xbd => [CP_R rL]
  | 0xbe => [CP_MR rHL]
  | 0xbf => [CP_R rA]
  | 0xc0 => [RET_F COND_NZ]
  | 0xc1 => [POP_RR rBC]
  | 0xc2 => [JP_F_NN COND_NZ]
  | 0xc3 => [JP_NN]
  | 0xc4 => [CALL_F_NN COND_NZ]
  | 0xc5 => [PUSH_RR rBC]
  | 0xc6 => [ADD_N]
  | 0xc7 => [CALL 0x00]
  | 0xc8 => [RET_F COND_Z]
  | 0xc9 => [RET]
  | 0xca => [JP_F_NN COND_Z]
  | 0xcb => [INVALID]
  | 0xcc => [CALL_F_NN COND_Z]
  | 0xcd => [CALL_NN]
  | 0xce => [ADC_N]
  | 0xcf => [CALL 0x08]
  | 0xd0 => [RET_F COND_NC]
  | 0xd1 => [POP_RR rDE]
  | 0xd2 => [JP_F_NN COND_NC]
  | 0xd3 => [INVALID]
  | 0xd4 => [CALL_F_NN COND_NC]
  | 0xd5 => [PUSH_RR rDE]
  | 0xd6 => [SUB_N]
  | 0xd7 => [CALL 0x10]
  | 0xd8 => [RET_F COND_C]
  | 0xd9 => [RETI]
  | 0xda => [JP_F_NN COND_C]
  | 0xdb => [INVALID]
  | 0xdc => [CALL_F_NN COND_C]
  | 0xdd => [INVALID]
  | 0xde => [SBC_N]
  | 0xdf => [CALL 0x18]
  | 0xe0 => [LD_MFF00_N_R rA]
  | 0xe1 => [POP_RR rHL]
  | 0xe2 => [LD_MFF00_R_R rC rA]
  | 0xe3 => [INVALID]
  | 0xe4 => [INVALID]
  | 0xe5 => [PUSH_RR rHL]
  | 0xe6 => [AND_N]
  | 0xe7 => [CALL 0x20]
  | 0xe8 => [ADD_SP_N]
  | 0xe9 => [JP_RR rHL]
  | 0xea => [LD_MN_R rA]
  | 0xeb => [INVALID]
  | 0xec => [INVALID]
  | 0xed => [INVALID]
  | 0xee => [XOR_N]
  | 0xef => [CALL 0x28]
  | 0xf0 => [LD_R_MFF00_N rA]
  | 0xf1 => [POP_AF]
  | 0xf2 => [LD_R_MFF00_R rA rC]
  | 0xf3 => [DI]
  | 0xf4 => [INVALID]
  | 0xf5 => [PUSH_AF]
  | 0xf6 => [OR_N]
  | 0xf7 => [CALL 0x30]
  | 0xf8 => [LD_HL_SP_N]
  | 0xf9 => [LD_RR_RR rSP rHL]
  | 0xfa => [LD_R_MN rA]
  | 0xfb => [EI]
  | 0xfc => [INVALID]
  | 0xfd => [INVALID]
  | 0xfe => [CP_N]
  | 0xff => [CALL 0x38]
  | _ => [INVALID] (* default *)
  end.

(** [#define REG(R) e->reg.R], read and written. *)
Definition REG (r : R8) (e : Emulator) : Z :=
  match r with
  | rA => reg_A (reg e) | rB => reg_B (reg e) | rC => reg_C (reg e) | rD => reg_D (reg e)
  | rE => reg_E (reg e) | rH => reg_H (reg e) | rL => reg_L (reg e)
  end.

Definition SET_REG (r : R8) (v : Z) (e : Emulator) : Emulator :=
  match r with
  | rA => upd_reg (set_reg_A v) e | rB => upd_reg (set_reg_B v) e
  | rC => upd_reg (set_reg_C v) e | rD => upd_reg (set_reg_D v) e
  | rE => upd_reg (set_reg_E v) e | rH => upd_reg (set_reg_H v) e
  | rL => upd_reg (set_reg_L v) e
  end.

Definition REG16 (rr : R16) (e : Emulator) : Z :=
  match rr with
  | rBC => Z.lor (Z.shiftl (reg_B (reg e)) 8) (reg_C (reg e))
  | rDE => Z.lor (Z.shiftl (reg_D (reg e)) 8) (reg_E (reg e))
  | rHL => Z.lor (Z.shiftl (reg_H (reg e)) 8) (reg_L (reg e))
  | rSP => reg_SP (reg e)
  end.

Definition SET_REG16 (rr : R16) (v : Z) (e : Emulator) : Emulator :=
  match rr with
  | rBC => upd_reg (fun r => set_reg_C (u8 v) (set_reg_B (u8 (Z.shiftr v 8)) r)) e
  | rDE => upd_reg (fun r => set_reg_E (u8 v) (set_reg_D (u8 (Z.shiftr v 8)) r)) e
  | rHL => upd_reg (fun r => set_reg_L (u8 v) (set_reg_H (u8 (Z.shiftr v 8)) r)) e
  | rSP => upd_reg (set_reg_SP v) e
  end.

Definition RA (e : Emulator) : Z := reg_A (reg e).
Definition RSP (e : Emulator) : Z := reg_SP (reg e).
Definition RPC (e : Emulator) : Z := reg_PC (reg e).
Definition set_RA (v : Z) (e : Emulator) : Emulator := upd_reg (set_reg_A v) e.
Definition set_RSP (v : Z) (e : Emulator) : Emulator := upd_reg (set_reg_SP v) e.
Definition set_RPC (v : Z) (e : Emulator) : Emulator := upd_reg (set_reg_PC v) e.

(** [#define FLAG(x) e->reg.F.x] *)
Definition FZ (e : Emulator) : bool := F_Z (reg_F (reg e)).
Definition FN (e : Emulator) : bool := F_N (reg_F (reg e)).
Definition FH (e : Emulator) : bool := F_H (reg_F (reg e)).
Definition FC (e : Emulator) : bool := F_C (reg_F (reg e)).
Definition set_FZ (b : bool) (e : Emulator) : Emulator := upd_flags (set_F_Z b) e.
Definition set_FN (b : bool) (e : Emulator) : Emulator := upd_flags (set_F_N b) e.
Definition set_FH (b : bool) (e : Emulator) : Emulator := upd_flags (set_F_H b) e.
Definition set_FC (b : bool) (e : Emulator) : Emulator := upd_flags (set_F_C b) e.

(** [#define INTR(m) e->interrupts.m] *)
Definition set_INTR_IME (b : bool) (e : Emulator) : Emulator := upd_interrupts (set_IME b) e.
Definition set_INTR_enable (b : bool) (e : Emulator) : Emulator := upd_interrupts (set_enable b) e.
Definition set_INTR_halt (b : bool) (e : Emulator) : Emulator := upd_interrupts (set_halt b) e.
Definition set_INTR_halt_DI (b : bool) (e : Emulator) : Emulator := upd_interrupts (set_halt_DI b) e.

Definition COND (c : Cond) (e : Emulator) : bool :=
  match c with
  | COND_NZ => negb (FZ e)
  | COND_Z => FZ e
  | COND_NC => negb (FC e)
  | COND_C => FC e
  end.

(** Sequencing of the statements that can reach [exit(1)]. *)
Notation "'do' x <- a ; b" :=
  (match a with Some x => b | None => None end)
    (at level 10, x pattern, a at level 100, b at level 200).

Definition CYCLES (x : Z) (e : Emulator) : Emulator := update_cycles e x.
Definition READ8 (x : Z) (e : Emulator) : Z := read_u8 e x.
Definition READ16 (x : Z) (e : Emulator) : Z := read_u16 e x.
Definition WRITE8 (x v : Z) (e : Emulator) : option Emulator := write_u8 e x v.
Definition WRITE16 (x v : Z) (e : Emulator) : option Emulator := write_u16 e x v.
Definition READ_N (e : Emulator) : Z := READ8 (u16 (RPC e + 1)) e.
Definition READ_NN (e : Emulator) : Z := READ16 (u16 (RPC e + 1)) e.
Definition READMR (mr : R16) (e : Emulator) : Z := READ8 (REG16 mr e) e.
Definition WRITEMR (mr : R16) (v : Z) (e : Emulator) : option Emulator := WRITE8 (REG16 mr e) v e.

Definition MASK8 (x : Z) : Z := Z.land x 0xf.
Definition MASK16 (x : Z) : Z := Z.land x 0xfff.

(** [#define FZ_EQ0(X) FZ = (uint8_t)(X) == 0] *)
Definition FZ_EQ0 (x : Z) (e : Emulator) : Emulator := set_FZ (u8 x =? 0) e.

(** [ADD_FLAGS(X, Y)]: [FZ_EQ0((X) + (Y)); FN = 0; FCH_ADD(X, Y)] *)
Definition ADD_FLAGS (x y : Z) (e : Emulator) : Emulator :=
  let e := FZ_EQ0 (x + y) e in
  let e := set_FN false e in
  let e := set_FC (0xff <? x + y) e in
  set_FH (0xf <? MASK8 x + MASK8 y) e.

(** [ADD_FLAGS16(X, Y)]: [FN = 0; FCH_ADD16(X, Y)] *)
Definition ADD_FLAGS16 (x y : Z) (e : Emulator) : Emulator :=
  let e := set_FN false e in
  let e := set_FC (0xffff <? x + y) e in
  set_FH (0xfff <? MASK16 x + MASK16 y) e.

(** [ADD_SP_FLAGS(Y)]: [FZ = FN = 0; FCH_ADD((uint8_t)RSP, (uint8_t)Y)] *)
Definition ADD_SP_FLAGS (y : Z) (e : Emulator) : Emulator :=
  let e := set_FN false e in
  let e := set_FZ false e in
  let e := set_FC (0xff <? u8 (RSP e) + u8 y) e in
  set_FH (0xf <? MASK8 (u8 (RSP e)) + MASK8 (u8 y)) e.

(** [ADC_FLAGS(X, Y, C)]: [FZ_EQ0((X) + (Y) + (C)); FN = 0; FCH_ADC(X, Y, C)] *)
Definition ADC_FLAGS (x y c : Z) (e : Emulator) : Emulator :=
  let e := FZ_EQ0 (x + y + c) e in
  let e := set_FN false e in
  let e := set_FC (0xff <? x + y + c) e in
  set_FH (0xf <? MASK8 x + MASK8 y + c) e.

(** [AND_FLAGS]: [FZ_EQ0(RA); FH = 1; FN = FC = 0] *)
Definition AND_FLAGS (e : Emulator) : Emulator :=
  let e := FZ_EQ0 (RA e) e in
  let e := set_FH true e in
  let e := set_FC false e in
  set_FN false e.

(** [BIT_FLAGS(BIT, X)]: [FZ_EQ0(X & (1 << BIT)); FN = 0; FH = 1] *)
Definition BIT_FLAGS (bit x : Z) (e : Emulator) : Emulator :=
  let e := FZ_EQ0 (Z.land x (Z.shiftl 1 bit)) e in
  let e := set_FN false e in
  set_FH true e.

(** [SUB_FLAGS(X, Y)] and [CP_FLAGS(X, Y)]: [FZ_EQ0((X) - (Y)); FN = 1; FCH_SUB(X, Y)] *)
Definition SUB_FLAGS (x y : Z) (e : Emulator) : Emulator :=
  let e := FZ_EQ0 (x - y) e in
  let e := set_FN true e in
  let e := set_FC (x - y <? 0) e in
  set_FH (MASK8 x - MASK8 y <? 0) e.
Definition CP_FLAGS (x y : Z) (e : Emulator) : Emulator := SUB_FLAGS x y e.

(** [SBC_FLAGS(X, Y, C)]: [FZ_EQ0((X) - (Y) - (C)); FN = 1; FCH_SBC(X, Y, C)] *)
Definition SBC_FLAGS (x y c : Z) (e : Emulator) : Emulator :=
  let e := FZ_EQ0 (x - y - c) e in
  let e := set_FN true e in
  let e := set_FC (x - y - c <? 0) e in
  set_FH (MASK8 x - MASK8 y - c <? 0) e.

(** [OR_FLAGS], [XOR_FLAGS]: [FZ_EQ0(RA); FN = FH = FC = 0] *)
Definition OR_FLAGS (e : Emulator) : Emulator :=
  let e := FZ_EQ0 (RA e) e in
  let e := set_FC false e in
  let e := set_FH false e in
  set_FN false e.
Definition XOR_FLAGS (e : Emulator) : Emulator := OR_FLAGS e.

(** [DEC_FLAGS]: [FZ_EQ0(u); FN = 1; FH = MASK8(u) == 0xf] *)
Definition DEC_FLAGS (u : Z) (e : Emulator) : Emulator :=
  let e := FZ_EQ0 u e in
  let e := set_FN true e in
  set_FH (MASK8 u =? 0xf) e.

(** [INC_FLAGS]: [FZ_EQ0(u); FN = 0; FH = MASK8(u) == 0] *)
Definition INC_FLAGS (u : Z) (e : Emulator) : Emulator :=
  let e := FZ_EQ0 u e in
  let e := set_FN false e in
  set_FH (MASK8 u =? 0) e.

(** [RL_FLAGS] and the flags of the other rotates and shifts:
    [FZ_EQ0(u); FN = FH = 0] *)
Definition ROT_FLAGS (u : Z) (e : Emulator) : Emulator :=
  let e := FZ_EQ0 u e in
  let e := set_FH false e in
  set_FN false e.

(** The flags of RLA, RLCA, RRA and RRCA: [FZ = FN = FH = 0] *)
Definition ROTA_FLAGS (e : Emulator) : Emulator :=
  let e := set_FH false e in
  let e := set_FN false e in
  set_FZ false e.

(** [SWAP_FLAGS]: [FZ_EQ0(u); FN = FH = FC = 0] *)
Definition SWAP_FLAGS (u : Z) (e : Emulator) : Emulator :=
  let e := FZ_EQ0 u e in
  let e := set_FC false e in
  let e := set_FH false e in
  set_FN false e.

(** The operations on the temporary [u] (a [uint8_t]) that [BASIC_OP_R] and
    [BASIC_OP_MR] take: the new [u] and the state (some set the carry). *)
Definition BasicOp : Type := Z -> Emulator -> Z * Emulator.

(** [#define DEC u--] and [#define INC u++] *)
Definition DEC : BasicOp := fun u e => (u8 (u - 1), e).
Definition INC : BasicOp := fun u e => (u8 (u + 1), e).
(** [#define RES(BIT) u &= ~(1 << (BIT))] and [#define SET(BIT) u |= (1 << BIT)] *)
Definition RES (bit : Z) : BasicOp := fun u e => (u8 (Z.land u (Z.lnot (Z.shiftl 1 bit))), e).
Definition SET (bit : Z) : BasicOp := fun u e => (u8 (Z.lor u (Z.shiftl 1 bit)), e).
(** [#define RL c = (u >> 7) & 1; u = (u << 1) | FC; FC = c] *)
Definition RL : BasicOp := fun u e =>
  let c := Z.land (Z.shiftr u 7) 1 in
  let u := u8 (Z.lor (Z.shiftl u 1) (b2z (FC e))) in
  (u, set_FC (z2b c) e).
(** [#define RLC c = (u >> 7) & 1; u = (u << 1) | c; FC = c] *)
Definition RLC : BasicOp := fun u e =>
  let c := Z.land (Z.shiftr u 7) 1 in
  let u := u8 (Z.lor (Z.shiftl u 1) c) in
  (u, set_FC (z2b c) e).
(** [#define RR c = u & 1; u = (FC << 7) | (u >> 1); FC = c] *)
Definition RR : BasicOp := fun u e =>
  let c := Z.land u 1 in
  let u := u8 (Z.lor (Z.shiftl (b2z (FC e)) 7) (Z.shiftr u 1)) in
  (u, set_FC (z2b c) e).
(** [#define RRC c = u & 1; u = (c << 7) | (u >> 1); FC = c] *)
Definition RRC : BasicOp := fun u e =>
  let c := Z.land u 1 in
  let u := u8 (Z.lor (Z.shiftl c 7) (Z.shiftr u 1)) in
  (u, set_FC (z2b c) e).
(** [#define SLA FC = (u >> 7) & 1; u <<= 1] *)
Definition SLA : BasicOp := fun u e =>
  let e := set_FC (z2b (Z.land (Z.shiftr u 7) 1)) e in
  (u8 (Z.shiftl u 1), e).
(** [#define SRA FC = u & 1; u = (int8_t)u >> 1] *)
Definition SRA : BasicOp := fun u e =>
  let e := set_FC (z2b (Z.land u 1)) e in
  (u8 (Z.shiftr (s8 u) 1), e).
(** [#define SRL FC = u & 1; u >>= 1] *)
Definition SRL : BasicOp := fun u e =>
  let e := set_FC (z2b (Z.land u 1)) e in
  (u8 (Z.shiftr u 1), e).
(** [#define SWAP u = (u << 4) | (u >> 4)] *)
Definition SWAP : BasicOp := fun u e =>
  (u8 (Z.lor (Z.shiftl u 4) (Z.shiftr u 4)), e).

(** [#define BASIC_OP_R(R, OP) u = REG(R); OP; REG(R) = u]: the state and [u]. *)
Definition BASIC_OP_R (r : R8) (op : BasicOp) (e : Emulator) : Emulator * Z :=
  let u := REG r e in
  let '(u, e) := op u e in
  (SET_REG r u e, u).

(** [#define BASIC_OP_MR(MR, OP) u = READMR(MR); OP; CYCLES(4); WRITEMR(MR, u)] *)
Definition BASIC_OP_MR (mr : R16) (op : BasicOp) (e : Emulator) : option (Emulator * Z) :=
  let u := READMR mr e in
  let '(u, e) := op u e in
  let e := CYCLES 4 e in
  do e <- WRITEMR mr u e;
  Some (e, u).

(** [#define CALL(X) RSP -= 2; WRITE16(RSP, new_pc); new_pc = X], with [X] an
    expression evaluated in the state after the push. *)
Definition do_CALL (x : Emulator -> Z) (e : Emulator) (new_pc : Z) : option (Emulator * Z) :=
  let e := set_RSP (u16 (RSP e - 2)) e in
  do e <- WRITE16 (RSP e) new_pc e;
  Some (e, x e).

(** [#define RET new_pc = READ16(RSP); RSP += 2] *)
Definition do_RET (e : Emulator) : Emulator * Z :=
  let new_pc := READ16 (RSP e) e in
  (set_RSP (u16 (RSP e + 2)) e, new_pc).

(** [#define JR_N new_pc += (int8_t)READ_N] *)
Definition do_JR_N (e : Emulator) (new_pc : Z) : Z := u16 (new_pc + s8 (READ_N e)).

(** [#define DAA ...] *)
Definition do_DAA (e : Emulator) : Emulator :=
  let u := 0 in
  let u := if FH e || (negb (FN e) && (9 <? Z.land (RA e) 0xf)) then 6 else u in
  let '(u, e) :=
    if FC e || (negb (FN e) && (0x99 <? RA e)) then (Z.lor u 0x60, set_FC true e)
    else (u, e) in
  let e := set_RA (u8 (RA e + (if FN e then - u else u))) e in
  let e := FZ_EQ0 (RA e) e in
  set_FH false e.

(** One instruction macro, on the state and the local [new_pc]. *)
Definition exec_op (op : Op) (e : Emulator) (new_pc : Z) : option (Emulator * Z) :=
  match op with
  | ADC_R r =>
    let u := REG r e in let c := b2z (FC e) in
    let e := ADC_FLAGS (RA e) u c e in
    Some (set_RA (u8 (RA e + (u + c))) e, new_pc)
  | ADC_MR mr =>
    let u := READMR mr e in let c := b2z (FC e) in
    let e := ADC_FLAGS (RA e) u c e in
    Some (set_RA (u8 (RA e + (u + c))) e, new_pc)
  | ADC_N =>
    let u := READ_N e in let c := b2z (FC e) in
    let e := ADC_FLAGS (RA e) u c e in
    Some (set_RA (u8 (RA e + (u + c))) e, new_pc)
  | ADD_R r =>
    let e := ADD_FLAGS (RA e) (REG r e) e in
    Some (set_RA (u8 (RA e + REG r e)) e, new_pc)
  | ADD_MR mr =>
    let u := READMR mr e in
    let e := ADD_FLAGS (RA e) u e in
    Some (set_RA (u8 (RA e + u)) e, new_pc)
  | ADD_N =>
    let u := READ_N e in
    let e := ADD_FLAGS (RA e) u e in
    Some (set_RA (u8 (RA e + u)) e, new_pc)
  | ADD_HL_RR rr =>
    let e := ADD_FLAGS16 (REG16 rHL e) (REG16 rr e) e in
    Some (SET_REG16 rHL (u16 (REG16 rHL e + REG16 rr e)) e, new_pc)
  | ADD_SP_N =>
    let s := s8 (READ_N e) in
    let e := ADD_SP_FLAGS s e in
    Some (set_RSP (u16 (RSP e + s)) e, new_pc)
  | AND_R r =>
    let e := set_RA (Z.land (RA e) (REG r e)) e in
    Some (AND_FLAGS e, new_pc)
  | AND_MR mr =>
    let e := set_RA (Z.land (RA e) (READMR mr e)) e in
    Some (AND_FLAGS e, new_pc)
  | AND_N =>
    let e := set_RA (Z.land (RA e) (READ_N e)) e in
    Some (AND_FLAGS e, new_pc)
  | BIT_R bit r =>
    let u := REG r e in
    Some (BIT_FLAGS bit u e, new_pc)
  | BIT_MR bit mr =>
    let u := READMR mr e in
    Some (BIT_FLAGS bit u e, new_pc)
  | CALL x => do_CALL (fun _ => x) e new_pc
  | CALL_NN => do_CALL READ_NN e new_pc
  | CALL_F_NN cond =>
    if COND cond e then
      do (e, new_pc) <- do_CALL READ_NN e new_pc;
      Some (CYCLES 12 e, new_pc)
    else Some (e, new_pc)
  | CCF =>
    let e := set_FC (xorb (FC e) true) e in
    let e := set_FH false e in
    Some (set_FN false e, new_pc)
  | CP_R r => Some (CP_FLAGS (RA e) (REG r e) e, new_pc)
  | CP_N =>
    let u := READ_N e in
    Some (CP_FLAGS (RA e) u e, new_pc)
  | CP_MR mr =>
    let u := READMR mr e in
    Some (CP_FLAGS (RA e) u e, new_pc)
  | CPL =>
    let e := set_RA (u8 (Z.lnot (RA e))) e in
    let e := set_FH true e in
    Some (set_FN true e, new_pc)
  | DAA => Some (do_DAA e, new_pc)
  | DEC_R r =>
    let '(e, u) := BASIC_OP_R r DEC e in
    Some (DEC_FLAGS u e, new_pc)
  | DEC_RR rr => Some (SET_REG16 rr (u16 (REG16 rr e - 1)) e, new_pc)
  | DEC_MR mr =>
    do (e, u) <- BASIC_OP_MR mr DEC e;
    Some (DEC_FLAGS u e, new_pc)
  | DI =>
    let e := set_INTR_enable false e in
    Some (set_INTR_IME false e, new_pc)
  | EI => Some (set_INTR_enable true e, new_pc)
  | HALT =>
    let e := set_INTR_halt true e in
    Some (set_INTR_halt_DI (negb (IME (interrupts e))) e, new_pc)
  | INC_R r =>
    let '(e, u) := BASIC_OP_R r INC e in
    Some (INC_FLAGS u e, new_pc)
  | INC_RR rr => Some (SET_REG16 rr (u16 (REG16 rr e + 1)) e, new_pc)
  | INC_MR mr =>
    do (e, u) <- BASIC_OP_MR mr INC e;
    Some (INC_FLAGS u e, new_pc)
  | INVALID => None
  | JP_F_NN cond =>
    if COND cond e then
      let new_pc := READ_NN e in
      Some (CYCLES 4 e, new_pc)
    else Some (e, new_pc)
  | JP_RR rr => Some (e, REG16 rr e)
  | JP_NN => Some (e, READ_NN e)
  | JR_F_N cond =>
    if COND cond e then
      let new_pc := do_JR_N e new_pc in
      Some (CYCLES 4 e, new_pc)
    else Some (e, new_pc)
  | JR_N => Some (e, do_JR_N e new_pc)
  | LD_R_R rd rs => Some (SET_REG rd (REG rs e) e, new_pc)
  | LD_R_N r => Some (SET_REG r (READ_N e) e, new_pc)
  | LD_RR_RR rrd rrs => Some (SET_REG16 rrd (REG16 rrs e) e, new_pc)
  | LD_RR_NN rr => Some (SET_REG16 rr (READ_NN e) e, new_pc)
  | LD_R_MR r mr => Some (SET_REG r (READMR mr e) e, new_pc)
  | LD_R_MN r => Some (SET_REG r (READ8 (READ_NN e) e) e, new_pc)
  | LD_MR_R mr r =>
    do e <- WRITEMR mr (REG r e) e;
    Some (e, new_pc)
  | LD_MR_N mr =>
    do e <- WRITEMR mr (READ_N e) e;
    Some (e, new_pc)
  | LD_MN_R r =>
    do e <- WRITE8 (READ_NN e) (REG r e) e;
    Some (e, new_pc)
  | LD_MFF00_N_R r =>
    (* WRITE8(0xFF00 + READ_N, RA) *)
    do e <- WRITE8 (0xFF00 + READ_N e) (RA e) e;
    Some (e, new_pc)
  | LD_MFF00_R_R r1 r2 =>
    do e <- WRITE8 (0xFF00 + REG r1 e) (REG r2 e) e;
    Some (e, new_pc)
  | LD_R_MFF00_N r => Some (SET_REG r (READ8 (0xFF00 + READ_N e) e) e, new_pc)
  | LD_R_MFF00_R r1 r2 => Some (SET_REG r1 (READ8 (0xFF00 + REG r2 e) e) e, new_pc)
  | LD_MNN_SP =>
    do e <- WRITE16 (READ_NN e) (RSP e) e;
    Some (e, new_pc)
  | LD_HL_SP_N =>
    let s := s8 (READ_N e) in
    let e := ADD_SP_FLAGS s e in
    Some (SET_REG16 rHL (u16 (RSP e + s)) e, new_pc)
  | NI => None
  | OR_R r =>
    let e := set_RA (Z.lor (RA e) (REG r e)) e in
    Some (OR_FLAGS e, new_pc)
  | OR_MR mr =>
    let e := set_RA (Z.lor (RA e) (READMR mr e)) e in
    Some (OR_FLAGS e, new_pc)
  | OR_N =>
    let e := set_RA (Z.lor (RA e) (READ_N e)) e in
    Some (OR_FLAGS e, new_pc)
  | POP_RR rr =>
    let e := SET_REG16 rr (READ16 (RSP e) e) e in
    Some (set_RSP (u16 (RSP e + 2)) e, new_pc)
  | POP_AF =>
    let e := upd_reg (fun r => set_af_reg r (READ16 (RSP e) e)) e in
    Some (set_RSP (u16 (RSP e + 2)) e, new_pc)
  | PUSH_RR rr =>
    let e := set_RSP (u16 (RSP e - 2)) e in
    do e <- WRITE16 (RSP e) (REG16 rr e) e;
    Some (e, new_pc)
  | PUSH_AF =>
    let e := set_RSP (u16 (RSP e - 2)) e in
    do e <- WRITE16 (RSP e) (get_af_reg (reg e)) e;
    Some (e, new_pc)
  | RES_R bit r => Some (fst (BASIC_OP_R r (RES bit) e), new_pc)
  | RES_MR bit mr =>
    do (e, _) <- BASIC_OP_MR mr (RES bit) e;
    Some (e, new_pc)
  | RET => Some (do_RET e)
  | RET_F cond =>
    if COND cond e then
      let '(e, new_pc) := do_RET e in
      Some (CYCLES 12 e, new_pc)
    else Some (e, new_pc)
  | RETI =>
    let e := set_INTR_enable false e in
    let e := set_INTR_IME true e in
    Some (do_RET e)
  | RLA => Some (ROTA_FLAGS (fst (BASIC_OP_R rA RL e)), new_pc)
  | RLCA => Some (ROTA_FLAGS (fst (BASIC_OP_R rA RLC e)), new_pc)
  | RRA => Some (ROTA_FLAGS (fst (BASIC_OP_R rA RR e)), new_pc)
  | RRCA => Some (ROTA_FLAGS (fst (BASIC_OP_R rA RRC e)), new_pc)
  | RL_R r => let '(e, u) := BASIC_OP_R r RL e in Some (ROT_FLAGS u e, new_pc)
  | RLC_R r => let '(e, u) := BASIC_OP_R r RLC e in Some (ROT_FLAGS u e, new_pc)
  | RR_R r => let '(e, u) := BASIC_OP_R r RR e in Some (ROT_FLAGS u e, new_pc)
  | RRC_R r => let '(e, u) := BASIC_OP_R r RRC e in Some (ROT_FLAGS u e, new_pc)
  | SLA_R r => let '(e, u) := BASIC_OP_R r SLA e in Some (ROT_FLAGS u e, new_pc)
  | SRA_R r => let '(e, u) := BASIC_OP_R r SRA e in Some (ROT_FLAGS u e, new_pc)
  | SRL_R r => let '(e, u) := BASIC_OP_R r SRL e in Some (ROT_FLAGS u e, new_pc)
  | SWAP_R r => let '(e, u) := BASIC_OP_R r SWAP e in Some (SWAP_FLAGS u e, new_pc)
  | RL_MR mr => do (e, u) <- BASIC_OP_MR mr RL e; Some (ROT_FLAGS u e, new_pc)
  | RLC_MR mr => do (e, u) <- BASIC_OP_MR mr RLC e; Some (ROT_FLAGS u e, new_pc)
  | RR_MR mr => do (e, u) <- BASIC_OP_MR mr RR e; Some (ROT_FLAGS u e, new_pc)
  | RRC_MR mr => do (e, u) <- BASIC_OP_MR mr RRC e; Some (ROT_FLAGS u e, new_pc)
  | SLA_MR mr => do (e, u) <- BASIC_OP_MR mr SLA e; Some (ROT_FLAGS u e, new_pc)
  | SRA_MR mr => do (e, u) <- BASIC_OP_MR mr SRA e; Some (ROT_FLAGS u e, new_pc)
  | SRL_MR mr => do (e, u) <- BASIC_OP_MR mr SRL e; Some (ROT_FLAGS u e, new_pc)
  | SWAP_MR mr => do (e, u) <- BASIC_OP_MR mr SWAP e; Some (SWAP_FLAGS u e, new_pc)
  | SBC_R r =>
    let u := REG r e in let c := b2z (FC e) in
    let e := SBC_FLAGS (RA e) u c e in
    Some (set_RA (u8 (RA e - (u + c))) e, new_pc)
  | SBC_MR mr =>
    let u := READMR mr e in let c := b2z (FC e) in
    let e := SBC_FLAGS (RA e) u c e in
    Some (set_RA (u8 (RA e - (u + c))) e, new_pc)
  | SBC_N =>
    let u := READ_N e in let c := b2z (FC e) in
    let e := SBC_FLAGS (RA e) u c e in
    Some (set_RA (u8 (RA e - (u + c))) e, new_pc)
  | SCF =>
    let e := set_FC true e in
    let e := set_FH false e in
    Some (set_FN false e, new_pc)
  | SET_R bit r => Some (fst (BASIC_OP_R r (SET bit) e), new_pc)
  | SET_MR bit mr =>
    do (e, _) <- BASIC_OP_MR mr (SET bit) e;
    Some (e, new_pc)
  | SUB_R r =>
    let e := SUB_FLAGS (RA e) (REG r e) e in
    Some (set_RA (u8 (RA e - REG r e)) e, new_pc)
  | SUB_MR mr =>
    let u := READMR mr e in
    let e := SUB_FLAGS (RA e) u e in
    Some (set_RA (u8 (RA e - u)) e, new_pc)
  | SUB_N =>
    let u := READ_N e in
    let e := SUB_FLAGS (RA e) u e in
    Some (set_RA (u8 (RA e - u)) e, new_pc)
  | XOR_R r =>
    let e := set_RA (Z.lxor (RA e) (REG r e)) e in
    Some (XOR_FLAGS e, new_pc)
  | XOR_MR mr =>
    let e := set_RA (Z.lxor (RA e) (READMR mr e)) e in
    Some (XOR_FLAGS e, new_pc)
  | XOR_N =>
    let e := set_RA (Z.lxor (RA e) (READ_N e)) e in
    Some (XOR_FLAGS e, new_pc)
  end.

(** The statements of one [case], in order. *)
Fixpoint exec_ops (ops : list Op) (e : Emulator) (new_pc : Z) : option (Emulator * Z) :=
  match ops with
  | [] => Some (e, new_pc)
  | op :: ops =>
    do (e, new_pc) <- exec_op op e new_pc;
    exec_ops ops e new_pc
  end.

(** [static void execute_instruction(struct Emulator* e)] *)
Definition execute_instruction (e : Emulator) : option Emulator :=
  let e :=
    if enable (interrupts e) then
      let e := set_INTR_enable false e in
      set_INTR_IME true e
    else e in
  if halt (interrupts e) then
    Some (update_cycles e 4)
  else
    let opcode := read_u8 e (reg_PC (reg e)) in
    let e :=
      if halt_DI (interrupts e) then
        (* HALT bug. When interrupts are disabled during a HALT, the following
           byte will be duplicated when decoding. *)
        let e := set_RPC (u16 (RPC e - 1)) e in
        set_INTR_halt_DI false e
      else e in
    let new_pc := u16 (reg_PC (reg e) + s_opcode_bytes opcode) in
    if opcode =? 0xcb then
      let opcode := read_u8 e (u16 (reg_PC (reg e) + 1)) in
      let e := update_cycles e (s_cb_opcode_cycles opcode) in
      do (e, new_pc) <- exec_ops (cb_opcode_ops opcode) e new_pc;
      Some (set_RPC new_pc e)
    else
      let e := update_cycles e (s_opcode_cycles opcode) in
      do (e, new_pc) <- exec_ops (opcode_ops opcode) e new_pc;
      Some (set_RPC new_pc e).

(** [static void handle_interrupts(struct Emulator* e)] *)
Definition handle_interrupts (e : Emulator) : option Emulator :=
  if negb (IME (interrupts e) || halt (interrupts e)) then Some e
  else
    let interrupts' := Z.land (IF_ (interrupts e)) (IE (interrupts e)) in
    if interrupts' =? 0 then Some e
    else
      let sel : option (Z * Z) := (* vector, mask *)
        if negb (Z.land interrupts' INTERRUPT_VBLANK_MASK =? 0) then
          Some (0x40, INTERRUPT_VBLANK_MASK)
        else if negb (Z.land interrupts' INTERRUPT_LCD_STAT_MASK =? 0) then
          Some (0x48, INTERRUPT_LCD_STAT_MASK)
        else if negb (Z.land interrupts' INTERRUPT_TIMER_MASK =? 0) then
          Some (0x50, INTERRUPT_TIMER_MASK)
        else if negb (Z.land interrupts' INTERRUPT_SERIAL_MASK =? 0) then
          Some (0x58, INTERRUPT_SERIAL_MASK)
        else if negb (Z.land interrupts' INTERRUPT_JOYPAD_MASK =? 0) then
          Some (0x60, INTERRUPT_JOYPAD_MASK)
        else None (* Unhandled interrupt! *) in
      match sel with
      | None => Some e
      | Some (vector, mask) =>
        do e <-
          (if halt_DI (interrupts e) then
             (* Interrupt fired during HALT w/ disabled interrupts. *)
             Some e
           else
             let e := upd_interrupts (fun i => set_IF_ (u8 (Z.land (IF_ i) (Z.lnot mask))) i) e in
             let new_pc := RPC e in
             do (e, new_pc) <- do_CALL (fun _ => vector) e new_pc;
             let e := set_RPC new_pc e in
             Some (set_INTR_IME false e));
        Some (set_INTR_halt false e)
      end.

(** [static void step_emulator(struct Emulator* e)] *)
Definition step_emulator (e : Emulator) : option Emulator :=
  do e <- execute_instruction e;
  handle_interrupts e.

(** ** Construction of the emulator *)

(** [enum MBCType]; the constructors carry a prefix because [MBC1] is also the
    name of a struct. *)
Inductive MBCType : Type :=
| TYPE_NO_MBC | TYPE_MBC1 | TYPE_MBC2 | TYPE_MBC3 | TYPE_MBC4 | TYPE_MBC5
| TYPE_MMM01 | TYPE_TAMA5 | TYPE_HUC3 | TYPE_HUC1.

(** [enum ExternalRamType] *)
Inductive ExternalRamType : Type := NO_RAM | WITH_RAM.

(** [FOREACH_CARTRIDGE_TYPE]: [s_mbc_type] and [s_external_ram_type]; the
    entries the initializers do not name are zero. *)
Definition s_mbc_type (cartridge_type : Z) : MBCType :=
  match cartridge_type with
  | 0x0 => TYPE_NO_MBC
  | 0x1 | 0x2 | 0x3 => TYPE_MBC1
  | 0x5 | 0x6 => TYPE_MBC2
  | 0x8 | 0x9 => TYPE_NO_MBC
  | 0xb | 0xc | 0xd => TYPE_MMM01
  | 0xf | 0x10 | 0x11 | 0x12 | 0x13 => TYPE_MBC3
  | 0x15 | 0x16 | 0x17 => TYPE_MBC4
  | 0x19 | 0x1a | 0x1b | 0x1c | 0x1d | 0x1e => TYPE_MBC5
  | 0xfc => TYPE_NO_MBC
  | 0xfd => TYPE_TAMA5
  | 0xfe => TYPE_HUC3
  | 0xff => TYPE_HUC1
  | _ => TYPE_NO_MBC
  end.

Definition s_external_ram_type (cartridge_type : Z) : ExternalRamType :=
  match cartridge_type with
  | 0x2 | 0x3 | 0x8 | 0x9 | 0xc | 0xd | 0x10 | 0x12 | 0x13 | 0x16 | 0x17
  | 0x1a | 0x1b | 0x1d | 0x1e | 0xff => WITH_RAM
  | _ => NO_RAM
  end.

(** [FOREACH_ROM_SIZE]: [s_rom_bank_size], and [ROM_SIZE_COUNT]. *)
Definition s_rom_bank_size (rom_size : Z) : Z :=
  match rom_size with
  | 0 => 2 | 1 => 4 | 2 => 8 | 3 => 16 | 4 => 32 | 5 => 64 | 6 => 128 | 7 => 256
  | 0x52 => 72 | 0x53 => 80 | 0x54 => 96
  | _ => 0
  end.
Definition ROM_SIZE_COUNT : Z := 0x55.

(** [FOREACH_RAM_SIZE]: [s_ram_bank_size].  The C table has the four entries
    0 to 3; [init_memory_map] indexes it with the byte of the header as it
    is, and a code above 3 reads past its end.  The 0 given here for such a
    code stands for a value that the C code does not define. *)
Definition s_ram_bank_size (ram_size : Z) : Z :=
  match ram_size with
  | 0 => 0 | 1 => 2048 | 2 => 8192 | 3 => 32768
  | _ => 0
  end.

Definition MBC2_RAM_SIZE : Z := 0x200.
Definition CARTRIDGE_TYPE_ADDR : Z := 0x147.
Definition ROM_SIZE_ADDR : Z := 0x148.
Definition RAM_SIZE_ADDR : Z := 0x149.

(** [static uint32_t get_rom_byte_size(enum RomSize rom_size)] *)
Definition get_rom_byte_size (rom_size : Z) : Z :=
  Z.shiftl (if rom_size <? ROM_SIZE_COUNT then s_rom_bank_size rom_size else 0) ROM_BANK_SHIFT.

(** [ZERO_MEMORY] of the emulator, with the ROM in place.  The three function pointers are
    null until [init_memory_map] stores them. *)
Definition zero_emulator (rom : Z -> Z) (size : Z) : Emulator :=
  let zb := fun _ : Z => 0 in
  let fb := fun _ : Z => false in
  let pal := Build_Palette zb in
  let env := Build_Envelope 0 0 0 0 0 false in
  let ch := Build_Channel (Build_SquareWave 0 0 0 0 0) env 0 0 false false false in
  let ws := Build_WaveSample 0 0 0 0 in
  Build_Emulator
    (Build_EmulatorConfig fb false false false)
    rom size
    (Build_MemoryMap 0 0 false (Build_MBC1 0 0 0)
       Dummy_read_external_ram Rom_only_write_rom Dummy_write_external_ram)
    (Build_Registers 0 0 0 0 0 0 0 0 0 (Build_Flags false false false false))
    zb zb 0 zb
    (Build_Interrupts false 0 0 false false false)
    (Build_OAM (fun _ => Build_Obj 0 0 0 0 0 false false 0) (fun _ => pal))
    (Build_Joypad false false false false false false false false 0)
    (Build_Serial false false false)
    (Build_Timer 0 0 0 0 false false)
    (Build_Sound 0 0 fb fb false
       (Build_Sweep 0 0 0 0 0 false false)
       (Build_Wave 0 zb (fun _ => ws) 0 0 0 false)
       (Build_Noise 0 0 0 0 0 0 0)
       (fun _ => ch) 0 0 0)
    (Build_LCD (Build_LCDControl false 0 false 0 0 0 false false)
       (Build_LCDStatus false false false false LCD_MODE_HBLANK)
       0 0 0 0 0 0 pal 0 0 0 0 0 false)
    (Build_DMA false (Build_MemoryTypeAddressPair MEMORY_MAP_ROM 0) 0 0)
    zb 0.

(** [static enum Result init_memory_map(struct Emulator* e, struct RomInfo* rom_info)];
    [ERROR] is [None]. *)
Definition init_memory_map (e : Emulator) (cartridge_type ram_size : Z) : option Emulator :=
  let m := Build_MemoryMap 1 0 false (Build_MBC1 0 0 0)
             Dummy_read_external_ram Rom_only_write_rom Dummy_write_external_ram in
  let '(m, size) :=
    match s_external_ram_type cartridge_type with
    | WITH_RAM =>
      (set_write_external_ram Gb_write_external_ram
         (set_read_external_ram Gb_read_external_ram m), s_ram_bank_size ram_size)
    | NO_RAM =>
      (set_write_external_ram Dummy_write_external_ram
         (set_read_external_ram Dummy_read_external_ram m), 0)
    end in
  match s_mbc_type cartridge_type with
  | TYPE_NO_MBC =>
    Some (set_ext_ram_size size (set_memory_map (set_write_rom Rom_only_write_rom m) e))
  | TYPE_MBC1 =>
    Some (set_ext_ram_size size (set_memory_map (set_write_rom Mbc1_write_rom m) e))
  | TYPE_MBC2 =>
    Some (set_ext_ram_size MBC2_RAM_SIZE
            (set_memory_map
               (set_write_external_ram Mbc2_write_ram
                  (set_read_external_ram Mbc2_read_ram
                     (set_write_rom Mbc2_write_rom m))) e))
  | TYPE_MBC3 =>
    Some (set_ext_ram_size size (set_memory_map (set_write_rom Mbc3_write_rom m) e))
  | _ => None
  end.

(** [static enum Result init_emulator(struct Emulator* e, struct RomData* rom_data,
    struct SoundBuffer* sound_buffer)], with the checks of [get_rom_info] and of
    [read_rom_data_from_file] on the size of the ROM; [ERROR] is [None]. *)
Definition init_emulator (rom : Z -> Z) (size : Z) : option Emulator :=
  if size <? 32768 then None
  else if negb (size =? get_rom_byte_size (rom ROM_SIZE_ADDR)) then None
  else
    let e := zero_emulator rom size in
    do e <- init_memory_map e (rom CARTRIDGE_TYPE_ADDR) (rom RAM_SIZE_ADDR);
    let e := upd_reg (fun r => set_af_reg r 0x01b0) e in
    let e := SET_REG16 rBC 0x0013 e in
    let e := SET_REG16 rDE 0x00d8 e in
    let e := SET_REG16 rHL 0x014d e in
    let e := set_RSP 0xfffe e in
    let e := set_RPC 0x0100 e in
    let e := set_INTR_IME true e in
    (* Enable sound first, so subsequent writes succeed. *)
    let e := write_apu e APU_NR52_ADDR 0xf1 in
    let e := write_apu e APU_NR11_ADDR 0x80 in
    let e := write_apu e APU_NR12_ADDR 0xf3 in
    let e := write_apu e APU_NR14_ADDR 0x80 in
    let e := write_apu e APU_NR50_ADDR 0x77 in
    let e := write_apu e APU_NR51_ADDR 0xf3 in
    let e := upd_channel CHANNEL1 (upd_envelope (set_env_volume 0)) e in
    let e := write_io e IO_LCDC_ADDR 0x91 in
    let e := write_io e IO_SCY_ADDR 0x00 in
    let e := write_io e IO_SCX_ADDR 0x00 in
    let e := write_io e IO_LYC_ADDR 0x00 in
    let e := write_io e IO_BGP_ADDR 0xfc in
    let e := write_io e IO_OBP0_ADDR 0xff in
    let e := write_io e IO_OBP1_ADDR 0xff in
    let e := write_io e IO_IF_ADDR 0x1 in
    let e := write_io e IO_IE_ADDR 0x0 in
    Some e.

(** [n] calls of [step_emulator], as the loop of [run_emulator_until_event]
    makes them. *)
Fixpoint run (n : nat) (e : Emulator) : option Emulator :=
  match n with
  | O => Some e
  | S n => do e <- step_emulator e; run n e
  end.


(** ** The header of the cartridge *)

Definition TITLE_START_ADDR : Z := 0x134.
Definition TITLE_END_ADDR : Z := 0x143.
Definition HEADER_CHECKSUM_ADDR : Z := 0x14d.
Definition GLOBAL_CHECKSUM_START_ADDR : Z := 0x14e.
Definition GLOBAL_CHECKSUM_END_ADDR : Z := 0x14f.
Definition HEADER_CHECKSUM_RANGE_START : Z := 0x134.
Definition HEADER_CHECKSUM_RANGE_END : Z := 0x14c.

(** [#define ROM_U16_BE(addr)] *)
Definition ROM_U16_BE (data : Z -> Z) (addr : Z) : Z :=
  u16 (Z.lor (Z.shiftl (u16 (data addr)) 8) (u16 (data (addr + 1)))).

(** The loop of [get_rom_title]:
    [while (p <= end && *p != 0 && ( *p & 0x80) == 0) { length++; p++; }],
    with [fuel] the positions from [p] to [end]. *)
Fixpoint get_rom_title_loop (data : Z -> Z) (fuel : nat) (p length : Z) : Z :=
  match fuel with
  | O => length
  | S fuel =>
    if negb (data p =? 0) && (Z.land (data p) 0x80 =? 0) then
      get_rom_title_loop data fuel (p + 1) (length + 1)
    else length
  end.

(** [static void get_rom_title(struct RomData* rom_data, struct StringSlice* out_title)]:
    the length of the title, which starts at [TITLE_START_ADDR].  In the C
    code [end] is [start + TITLE_END_ADDR], so that the loop has
    [TITLE_END_ADDR + 1] positions. *)
Definition get_rom_title (data : Z -> Z) : Z :=
  get_rom_title_loop data (Z.to_nat (TITLE_END_ADDR + 1)) TITLE_START_ADDR 0.

(** The loop of [validate_header_checksum]:
    [checksum = checksum - rom_data->data[i] - 1] on a [uint8_t]. *)
Fixpoint header_checksum_loop (data : Z -> Z) (fuel : nat) (i checksum : Z) : Z :=
  match fuel with
  | O => checksum
  | S fuel => header_checksum_loop data fuel (i + 1) (u8 (checksum - data i - 1))
  end.

(** [static enum Result validate_header_checksum(struct RomData* rom_data)];
    [OK] is [true]. *)
Definition validate_header_checksum (data : Z -> Z) : bool :=
  let expected_checksum := data HEADER_CHECKSUM_ADDR in
  let checksum :=
    header_checksum_loop data
      (Z.to_nat (HEADER_CHECKSUM_RANGE_END - HEADER_CHECKSUM_RANGE_START + 1))
      HEADER_CHECKSUM_RANGE_START 0 in
  checksum =? expected_checksum.

(** The loop of [validate_global_checksum]: [checksum += rom_data->data[i]] on
    a [uint16_t], the two bytes of the checksum skipped. *)
Fixpoint global_checksum_loop (data : Z -> Z) (fuel : nat) (i checksum : Z) : Z :=
  match fuel with
  | O => checksum
  | S fuel =>
    if (i =? GLOBAL_CHECKSUM_START_ADDR) || (i =? GLOBAL_CHECKSUM_END_ADDR) then
      global_checksum_loop data fuel (i + 1) checksum
    else
      global_checksum_loop data fuel (i + 1) (u16 (checksum + data i))
  end.

(** [static enum Result validate_global_checksum(struct RomData* rom_data)] *)
Definition validate_global_checksum (data : Z -> Z) (size : Z) : bool :=
  let expected_checksum := ROM_U16_BE data GLOBAL_CHECKSUM_START_ADDR in
  let checksum := global_checksum_loop data (Z.to_nat size) 0 0 in
  checksum =? expected_checksum.

(** ** The decoded copy of the video RAM *)

Definition TILE_WIDTH : Z := 8.
Definition TILE_HEIGHT : Z := 8.
Definition TILE_MAP_WIDTH : Z := 32.

(** The members [tile] and [map] of [struct VideoRam]: [tile[TILE_COUNT]] with
    64 palette indexes each, and [map[TILE_MAP_COUNT]] with 1024 tile numbers
    each.  The member [data] is [vram_data] of the emulator. *)
Record VideoCache : Type := Build_VideoCache {
  vc_tile : Z -> Z -> Z;  (* tile *)
  vc_map : Z -> Z -> Z  (* map *)
}.

Definition set_vc_tile (v : Z -> Z -> Z) (r : VideoCache) : VideoCache :=
  Build_VideoCache v (vc_map r).
Definition set_vc_map (v : Z -> Z -> Z) (r : VideoCache) : VideoCache :=
  Build_VideoCache (vc_tile r) v.

(** The loop of [write_vram_tile_data]:
    [data[i] = (data[i] & not_mask) | (((value >> (7 - i)) << plane) & mask)],
    with [data] the tile from [data_index] on. *)
Fixpoint write_vram_tile_data_loop (fuel : nat) (i : Z) (t : Z -> Z)
    (data_index plane value mask not_mask : Z) : Z -> Z :=
  match fuel with
  | O => t
  | S fuel =>
    let t :=
      aset t (data_index + i)
        (u8 (Z.lor (Z.land (t (data_index + i)) not_mask)
                   (Z.land (Z.shiftl (Z.shiftr value (7 - i)) plane) mask))) in
    write_vram_tile_data_loop fuel (i + 1) t data_index plane value mask not_mask
  end.

(** [static void write_vram_tile_data(struct Emulator* e, uint32_t index, uint32_t plane,
    uint32_t y, uint8_t value)] *)
Definition write_vram_tile_data (c : VideoCache) (index plane y value : Z) : VideoCache :=
  let data_index := y * TILE_WIDTH in
  let mask := u8 (Z.shiftl 1 plane) in
  let not_mask := u8 (Z.lnot mask) in
  set_vc_tile
    (aset (vc_tile c) index
       (write_vram_tile_data_loop 8 0 (vc_tile c index) data_index plane value mask not_mask))
    c.

(** [static void write_vram(struct Emulator* e, MaskedAddress addr, uint8_t value)], with
    the decoded copy. *)
Definition write_vram_cached (e : Emulator) (c : VideoCache) (addr value : Z)
    : Emulator * VideoCache :=
  if LCDMode_eqb (mode (stat (lcd e))) LCD_MODE_USING_OAM_VRAM then (e, c)
  else
    (* Store the raw data so it doesn't have to be re-packed when reading. *)
    let e := set_vram_data (aset (vram_data e) addr value) e in
    if addr <? 0x1800 then
      (* 0x8000-0x97ff: Tile data *)
      let tile_index := Z.shiftr addr 4 in
      let tile_y := Z.land (Z.shiftr addr 1) 0x7 in
      let plane := Z.land addr 1 in
      let c := write_vram_tile_data c tile_index plane tile_y value in
      if (128 <=? tile_index) && (tile_index <? 256) then
        (e, write_vram_tile_data c (tile_index + 256) plane tile_y value)
      else (e, c)
    else
      (* 0x9800-0x9fff: Tile map data *)
      let addr := addr - 0x1800 in
      let map_index := Z.shiftr addr 10 in
      (e, set_vc_map
            (aset (vc_map c) map_index
               (aset (vc_map c map_index) (Z.land addr ADDR_MASK_1K) value)) c).

(** [static TileMap* get_tile_map(struct Emulator* e, enum TileMapSelect select)]: the index
    in [map]; [NULL] is [None]. *)
Definition get_tile_map (select : Z) : option Z :=
  match select with
  | 0 => Some 0
  | 1 => Some 1
  | _ => None
  end.

(** [static Tile* get_tile_data(struct Emulator* e, enum TileDataSelect select)]: the index
    in [tile] of the first tile. *)
Definition get_tile_data (select : Z) : option Z :=
  match select with
  | 1 => Some 0
  | 0 => Some 256
  | _ => None
  end.

(** [static uint8_t get_tile_map_palette_index(TileMap* map, Tile* tiles, uint8_t x,
    uint8_t y)] *)
Definition get_tile_map_palette_index (c : VideoCache) (map tiles x y : Z) : Z :=
  let tile_index :=
    vc_map c map (Z.lor (Z.shiftr y 3 * TILE_MAP_WIDTH) (Z.shiftr x 3)) in
  vc_tile c (tiles + tile_index) (Z.lor (Z.land y 7 * TILE_WIDTH) (Z.land x 7)).

(** The palette index of the background at the column [sx] of the line
    [line_y], as the loop over the background in [render_line] computes it:
    [bg_y = line_y + SCY] and [bg_x = SCX + sx] are [uint8_t]. *)
Definition bg_palette_index (e : Emulator) (c : VideoCache) (line_y sx : Z) : option Z :=
  match get_tile_map (bg_tile_map_select (lcdc (lcd e))),
        get_tile_data (bg_tile_data_select (lcdc (lcd e))) with
  | Some map, Some tiles =>
    let bg_y := u8 (line_y + SCY (lcd e)) in
    let bg_x := u8 (SCX (lcd e) + sx) in
    Some (get_tile_map_palette_index c map tiles bg_x bg_y)
  | _, _ => None
  end.
(** ** Concrete cartridges and states

    The states below are what the emulator reaches on small cartridges; the
    theorems use them as inputs. *)

(** The state after [init_emulator] on a 32 KiB cartridge ([ZERO_MEMORY] alone
    when the header is refused). *)
Definition boot (rom : Z -> Z) : Emulator :=
  match init_emulator rom 0x8000 with
  | Some e => e
  | None => zero_emulator rom 0x8000
  end.

(** A 32 KiB MBC3 cartridge with 8 KiB of external RAM (cartridge type 0x13);
    the first byte of bank 0 is 0xAA and the first byte of bank 1 is 0xBB. *)
Definition rom_mbc3 (a : Z) : Z :=
  match a with
  | 0x0000 => 0xAA
  | 0x4000 => 0xBB
  | 0x147 => 0x13
  | 0x148 => 0
  | 0x149 => 2
  | _ => 0
  end.

(** The MBC3 cartridge after start-up, with the LCD switched off by a write of
    0x11 to LCDC. *)
Definition mbc3_lcd_off : Emulator := write_io (boot rom_mbc3) IO_LCDC_ADDR 0x11.

(** The MBC3 cartridge with an OAM DMA from VRAM (0x8000), and from work RAM
    (0xC000), just started. *)
Definition mbc3_dma_vram : Emulator := write_io (boot rom_mbc3) IO_DMA_ADDR 0x80.
Definition mbc3_dma_wram : Emulator := write_io (boot rom_mbc3) IO_DMA_ADDR 0xC0.

(** The MBC3 cartridge with the timer running at 262144 Hz (TAC = 5), TMA =
    0xFE and TIMA = 0xFF, three machine cycles later: [div_counter] is 12, so
    the next machine cycle clears bit 3 of it. *)
Definition mbc3_timer_about_to_overflow : Emulator :=
  update_timer_cycles
    (write_io (write_io (write_io (boot rom_mbc3) IO_TAC_ADDR 0x05) IO_TMA_ADDR 0xFE)
              IO_TIMA_ADDR 0xFF)
    12.


(** The MBC3 cartridge with byte [i] of the wave RAM set to [0xA0 + i], and
    channel 3 then started: NR30 = 0x80 (DAC on), NR32 = 0x20, NR33 = 0xF0,
    NR34 = 0x87 (frequency 0x7F0: one sample every 32 cycles). *)
Definition mbc3_wave_started : Emulator :=
  let e := fold_left (fun e i => write_wave_ram e i (0xA0 + i))
                     [0; 1; 2; 3; 4; 5; 6; 7; 8; 9; 10; 11; 12; 13; 14; 15]
                     (boot rom_mbc3) in
  let e := write_apu e APU_NR30_ADDR 0x80 in
  let e := write_apu e APU_NR32_ADDR 0x20 in
  let e := write_apu e APU_NR33_ADDR 0xF0 in
  write_apu e APU_NR34_ADDR 0x87.

(** The same, [n] machine cycles later. *)
Definition mbc3_wave_playing (n : nat) : Emulator :=
  Nat.iter n (fun e => update_cycles e 4) mbc3_wave_started.

(** The state after [n] calls of [step_emulator] on a started 32 KiB
    cartridge (the started state itself if one of them exits). *)
Definition after (n : nat) (rom : Z -> Z) : Emulator :=
  match run n (boot rom) with
  | Some e => e
  | None => boot rom
  end.

(** A program at the entry point 0x0100, on a cartridge without a bank
    controller. *)
Definition rom_of_program (program : list Z) (a : Z) : Z :=
  if (0x100 <=? a) && (a <? 0x100 + Z.of_nat (length program))
  then nth (Z.to_nat (a - 0x100)) program 0
  else 0.

(** [DI; LD A,0x1F; LDH (0xFF),A; LDH (0x0F),A; EI; DI; NOP]: every interrupt
    is enabled and requested, then EI is followed by DI. *)
Definition rom_ei_di : Z -> Z :=
  rom_of_program [0xF3; 0x3E; 0x1F; 0xE0; 0xFF; 0xE0; 0x0F; 0xFB; 0xF3; 0x00].

(** [DI; LD A,0x04; LDH (0xFF),A; LDH (0x0F),A; HALT; INC B; NOP]: HALT at
    0x0107 with IME = 0 and the timer interrupt enabled and requested. *)
Definition rom_halt_inc : Z -> Z :=
  rom_of_program [0xF3; 0x3E; 0x04; 0xE0; 0xFF; 0xE0; 0x0F; 0x76; 0x04; 0x00].

(** The same with the two-byte [LD A,0x14] after HALT: the bytes at 0x0108
    and 0x0109 are 0x3E and 0x14 (which is also the opcode of INC D). *)
Definition rom_halt_ld : Z -> Z :=
  rom_of_program [0xF3; 0x3E; 0x04; 0xE0; 0xFF; 0xE0; 0x0F; 0x76; 0x3E; 0x14; 0x00].

(** [DI; LD A,0x04; LDH (0xFF),A; LD A,0xF8; LDH (0x05),A; LD A,0x05;
    LDH (0x07),A; HALT; INC B; NOP]: the timer interrupt is enabled, TIMA is
    0xF8 and counts every 16 cycles, and HALT at 0x010D is executed with
    IME = 0 and no interrupt requested that is enabled. *)
Definition rom_halt_timer : Z -> Z :=
  rom_of_program [0xF3; 0x3E; 0x04; 0xE0; 0xFF; 0x3E; 0xF8; 0xE0; 0x05; 0x3E; 0x05;
                  0xE0; 0x07; 0x76; 0x04; 0x00].

(** Whether [n] calls of [step_emulator] on the started cartridge return. *)
Definition returns (n : nat) (rom : Z -> Z) : bool :=
  match run n (boot rom) with
  | Some _ => true
  | None => false
  end.
(** ** Definitions used to state the properties *)

(** The region of a CPU address, by the ranges of the memory map. *)
Definition region_of (addr : Z) : MemoryMapType :=
  if addr <? 0x4000 then MEMORY_MAP_ROM
  else if addr <? 0x8000 then MEMORY_MAP_ROM_BANK_SWITCH
  else if addr <? 0xA000 then MEMORY_MAP_VRAM
  else if addr <? 0xC000 then MEMORY_MAP_EXTERNAL_RAM
  else if addr <? 0xD000 then MEMORY_MAP_WORK_RAM
  else if addr <? 0xE000 then MEMORY_MAP_WORK_RAM_BANK_SWITCH
  else if addr <? 0xF000 then MEMORY_MAP_WORK_RAM
  else if addr <? 0xFE00 then MEMORY_MAP_WORK_RAM_BANK_SWITCH
  else if addr <? 0xFEA0 then MEMORY_MAP_OAM
  else if addr <? 0xFF00 then MEMORY_MAP_UNUSED
  else if addr <? 0xFF10 then MEMORY_MAP_IO
  else if addr <? 0xFF30 then MEMORY_MAP_APU
  else if addr <? 0xFF40 then MEMORY_MAP_WAVE_RAM
  else if addr <? 0xFF80 then MEMORY_MAP_IO
  else if addr <? 0xFFFF then MEMORY_MAP_HIGH_RAM
  else MEMORY_MAP_IO.

(** The bit of [div_counter] that [s_tima_mask] selects. *)
Definition tima_bit (clock : Z) : Z :=
  match clock with
  | 0 => 9
  | 1 => 3
  | 2 => 5
  | _ => 7
  end.

(** Whether the bit of [div_counter] that clocks TIMA falls in the next machine
    cycle of the timer, which takes the counter from [d] to [d + 4]. *)
Definition tima_bit_falls (e : Emulator) : bool :=
  Z.testbit (div_counter (timer e)) (tima_bit (clock_select (timer e)))
  && negb (Z.testbit (u16 (div_counter (timer e) + 4)) (tima_bit (clock_select (timer e)))).

(** The three callers of [increment_tima]: a machine cycle of the timer
    ([update_timer_cycles], through [write_div_counter]), a write to DIV
    ([write_div_counter]) and a write to TAC. *)
Inductive TimaStep : Type :=
| BY_TIMER_CYCLE
| BY_DIV_WRITE (value : Z)
| BY_TAC_WRITE (value : Z).

Definition tima_step (k : TimaStep) (e : Emulator) : Emulator :=
  match k with
  | BY_TIMER_CYCLE => update_timer_cycles e 4
  | BY_DIV_WRITE value => write_io e IO_DIV_ADDR value
  | BY_TAC_WRITE value => write_io e IO_TAC_ADDR value
  end.

Definition is_tac_write (k : TimaStep) : bool :=
  match k with
  | BY_TAC_WRITE _ => true
  | _ => false
  end.

(** What an operation that wraps TIMA leaves in [w], from [e]: TIMA is 0, the
    reload is scheduled, and TMA and the interrupt state are as before. *)
Definition wrapped_from (e w : Emulator) : Prop :=
  TIMA (timer w) = 0
  /\ tima_overflow (timer w) = true
  /\ TMA (timer w) = TMA (timer e)
  /\ interrupts w = interrupts e.

(** ** Relations between states, for the frame lemmas *)

(** [e'] has the wave RAM, the retained samples, the [playing] flag and the
    clock of [e]. *)
Definition same_wave (e e' : Emulator) : Prop :=
  wave_ram (wave (sound e')) = wave_ram (wave (sound e))
  /\ wave_sample (wave (sound e')) = wave_sample (wave (sound e))
  /\ playing (wave (sound e')) = playing (wave (sound e))
  /\ cycles e' = cycles e.

(** ** The CPU's view of the state *)

(** What the interrupt logic and the instruction decoder depend on, other
    than IF and the memory: the registers, IME, IE, the pending EI
    ([enable]), and the two HALT flags. *)
Definition cpu_view (e : Emulator) : Registers * (bool * Z * bool * bool * bool) :=
  (reg e,
   (IME (interrupts e), IE (interrupts e), enable (interrupts e),
    halt (interrupts e), halt_DI (interrupts e))).

(** The part of [execute_instruction] that follows the opcode fetch and the
    adjustment of PC for [halt_DI]: [new_pc], the cycle update, and the
    [switch] over [opcode]. *)
Definition execute_opcode (e : Emulator) (opcode : Z) : option Emulator :=
  let new_pc := u16 (reg_PC (reg e) + s_opcode_bytes opcode) in
  if opcode =? 0xcb then
    let opcode := read_u8 e (u16 (reg_PC (reg e) + 1)) in
    let e := update_cycles e (s_cb_opcode_cycles opcode) in
    do (e, new_pc) <- exec_ops (cb_opcode_ops opcode) e new_pc;
    Some (set_RPC new_pc e)
  else
    let e := update_cycles e (s_opcode_cycles opcode) in
    do (e, new_pc) <- exec_ops (opcode_ops opcode) e new_pc;
    Some (set_RPC new_pc e).

(** The interrupts that [handle_interrupts] can dispatch: the low five bits of
    [IF & IE]. *)
Definition pending (e : Emulator) : Z :=
  Z.land (Z.land (IF_ (interrupts e)) (IE (interrupts e))) 0x1F.

(** The instruction macros that read and write the registers and the flags
    only: no memory access, no jump, no change of the interrupt state. *)
Definition reg_only_op (op : Op) : bool :=
  match op with
  | ADC_R _ | ADD_R _ | ADD_HL_RR _ | AND_R _ | BIT_R _ _ | CCF | CP_R _ | CPL | DAA
  | DEC_R _ | DEC_RR _ | INC_R _ | INC_RR _ | LD_RR_RR _ _ | LD_R_R _ _ | OR_R _
  | RES_R _ _ | RLA | RLCA | RLC_R _ | RL_R _ | RRA | RRCA | RRC_R _ | RR_R _
  | SBC_R _ | SCF | SET_R _ _ | SLA_R _ | SRA_R _ | SRL_R _ | SUB_R _ | SWAP_R _
  | XOR_R _ => true
  | _ => false
  end.

(** The one-byte opcodes whose [case] consists of such macros (NOP, with an
    empty [case], among them). *)
Definition reg_only_opcode (opcode : Z) : bool :=
  (s_opcode_bytes opcode =? 1) && forallb reg_only_op (opcode_ops opcode).

(** The HALT bug at a state [w] that is about to fetch an opcode with
    [halt_DI] set.  The opcode is the byte at PC, and it is executed with PC
    set back by one: its operands are read from PC on, and the next
    instruction is at PC - 1 + its length.  When it is a one-byte opcode on
    the registers alone, the step ends with PC where it was and without an
    interrupt dispatch, and the opcode is then fetched at the same address
    again, without a set-back. *)
Definition halt_bug_at (w : Emulator) : Prop :=
  execute_instruction w
  = execute_opcode (set_INTR_halt_DI false (set_RPC (u16 (RPC w - 1)) w)) (read_u8 w (RPC w))
  /\ (reg_only_opcode (read_u8 w (RPC w)) = true ->
      exists e2,
        step_emulator w = Some e2
        /\ RPC e2 = RPC w
        /\ halt_DI (interrupts e2) = false
        /\ execute_instruction e2 = execute_opcode e2 (read_u8 e2 (RPC e2))).

(** The state in which the opcode fetched at [e] is executed: as
    [execute_instruction] has it after the fetch, with PC set back by one and
    [halt_DI] cleared when [halt_DI] was set. *)
Definition fetched (e : Emulator) : Emulator :=
  if halt_DI (interrupts e) then set_INTR_halt_DI false (set_RPC (u16 (RPC e - 1)) e)
  else e.

(** A CPU halted by a HALT that was executed with IME = 0, with registers
    [r]. *)
Definition halted_DI (r : Registers) (s : Emulator) : Prop :=
  halt (interrupts s) = true
  /\ halt_DI (interrupts s) = true
  /\ IME (interrupts s) = false
  /\ enable (interrupts s) = false
  /\ reg s = r.

(** ** Views of the state, for what a function leaves alone *)

(** What no write of the CPU and no device changes: the configuration, the
    cartridge ROM, the CPU registers, the cycle counter, IME, a pending EI
    and the HALT flags. *)
Definition core_view (e : Emulator) :=
  (config e, rom_data e, rom_size e, reg e, cycles e,
   (IME (interrupts e), enable (interrupts e), halt (interrupts e), halt_DI (interrupts e))).

(** Everything but the sound unit. *)
Definition except_sound (e : Emulator) :=
  (config e, rom_data e, rom_size e, memory_map e, reg e, vram_data e, ext_ram_data e,
   ext_ram_size e, ram_data e, interrupts e, oam e, joypad e, serial e, timer e, lcd e,
   dma e, hram e, cycles e).

(** The address that a region's offsets are counted from: the start of the
    4 KiB, 8 KiB or 16 KiB window for the memories, the first register for
    OAM, the registers and the high RAM; the unused region keeps the
    address. *)
Definition region_base (addr : Z) : Z :=
  if addr <? 0x4000 then 0x0000
  else if addr <? 0x8000 then 0x4000
  else if addr <? 0xA000 then 0x8000
  else if addr <? 0xC000 then 0xA000
  else if addr <? 0xD000 then 0xC000
  else if addr <? 0xE000 then 0xD000
  else if addr <? 0xF000 then 0xE000
  else if addr <? 0xFE00 then 0xF000
  else if addr <? 0xFEA0 then 0xFE00
  else if addr <? 0xFF00 then 0x0000
  else if addr <? 0xFF10 then 0xFF00
  else if addr <? 0xFF30 then 0xFF10
  else if addr <? 0xFF40 then 0xFF30
  else if addr <? 0xFF80 then 0xFF00
  else if addr <? 0xFFFF then 0xFF80
  else 0xFF00.

(** Everything but the devices that [update_cycles] advances (the sound
    unit, the LCD controller, the DMA unit, the timer and OAM), IF and the
    cycle counter. *)
Definition except_devices (e : Emulator) :=
  (config e, rom_data e, rom_size e, memory_map e, reg e, vram_data e, ext_ram_data e,
   ext_ram_size e, ram_data e, hram e, joypad e, serial e,
   (IME (interrupts e), IE (interrupts e), enable (interrupts e), halt (interrupts e),
    halt_DI (interrupts e))).

(** Everything but the work RAM and the high RAM. *)
Definition except_ram (e : Emulator) :=
  (config e, rom_data e, rom_size e, memory_map e, reg e, vram_data e, ext_ram_data e,
   ext_ram_size e, interrupts e, oam e, joypad e, serial e, timer e, sound e, lcd e,
   dma e, cycles e).

(** The addresses of the work RAM proper (not its echo) and of the high RAM,
    and the cell of the state behind such an address. *)
Definition plain_ram (a : Z) : Prop := 0xC000 <= a <= 0xDFFF \/ 0xFF80 <= a <= 0xFFFE.

Definition plain_cell (e : Emulator) (a : Z) : Z :=
  if a <? 0xE000 then ram_data e (a - 0xC000) else hram e (a - 0xFF80).

(** The I/O registers that hold the byte last written to them: TIMA, TMA,
    SCY, SCX, LYC, BGP, OBP0, OBP1, WY, WX and IE. *)
Definition stored_io_regs : list Z :=
  [0xFF05; 0xFF06; 0xFF42; 0xFF43; 0xFF45; 0xFF47; 0xFF48; 0xFF49; 0xFF4A; 0xFF4B; 0xFFFF].

(** The one-byte opcodes whose [case] is [NI] (STOP) or [INVALID]. *)
Definition unexecuted_opcodes : list Z :=
  [0x10; 0xD3; 0xDB; 0xDD; 0xE3; 0xE4; 0xEB; 0xEC; 0xED; 0xF4; 0xFC; 0xFD].

(** The macros that end in [UNREACHABLE], which exits. *)
Definition is_exit_op (op : Op) : bool :=
  match op with
  | INVALID | NI => true
  | _ => false
  end.

(** The bytes 0 to 255. *)
Definition all_bytes : list Z := map Z.of_nat (seq 0 256).

(** The number of master cycles between two increments of TIMA, by clock
    select: 1024, 16, 64 or 256. *)
Definition timer_period (clock : Z) : Z := 2 ^ (tima_bit clock + 1).

(** The multiples of the period that the counter of the timer [t] crosses in
    [k] machine cycles. *)
Definition tima_steps (t : Timer) (k : nat) : Z :=
  (div_counter t mod timer_period (clock_select t) + 4 * Z.of_nat k)
  / timer_period (clock_select t).

(** The line counter and the mode agree: with the display on, LY is one of
    the 154 lines of a frame, and the mode is VBLANK exactly on the lines
    144 to 153. *)
Definition lcd_line_ok (e : Emulator) : bool :=
  negb (display (lcdc (lcd e)))
  || ((0 <=? LY (lcd e)) && (LY (lcd e) <? SCREEN_HEIGHT_WITH_VBLANK)
      && Bool.eqb (LCDMode_eqb (mode (stat (lcd e))) LCD_MODE_VBLANK)
                  (SCREEN_HEIGHT <=? LY (lcd e))).

(** ** What a write leaves alone, by region *)

(** Everything but the state of the bank controller. *)
Definition except_memory_map (e : Emulator) :=
  (config e, rom_data e, rom_size e, reg e, vram_data e, ext_ram_data e, ext_ram_size e,
   ram_data e, interrupts e, oam e, joypad e, serial e, timer e, sound e, lcd e, dma e,
   hram e, cycles e).

(** Everything but the video RAM. *)
Definition except_vram (e : Emulator) :=
  (config e, rom_data e, rom_size e, memory_map e, reg e, ext_ram_data e, ext_ram_size
   e, ram_data e, interrupts e, oam e, joypad e, serial e, timer e, sound e, lcd e, dma
   e, hram e, cycles e).

(** Everything but the external RAM. *)
Definition except_ext_ram (e : Emulator) :=
  (config e, rom_data e, rom_size e, memory_map e, reg e, vram_data e, ext_ram_size e,
   ram_data e, interrupts e, oam e, joypad e, serial e, timer e, sound e, lcd e, dma e,
   hram e, cycles e).

(** Everything but the OAM. *)
Definition except_oam (e : Emulator) :=
  (config e, rom_data e, rom_size e, memory_map e, reg e, vram_data e, ext_ram_data e,
   ext_ram_size e, ram_data e, interrupts e, joypad e, serial e, timer e, sound e, lcd
   e, dma e, hram e, cycles e).

(** Everything but the high RAM. *)
Definition except_hram (e : Emulator) :=
  (config e, rom_data e, rom_size e, memory_map e, reg e, vram_data e, ext_ram_data e,
   ext_ram_size e, ram_data e, interrupts e, oam e, joypad e, serial e, timer e, sound
   e, lcd e, dma e, cycles e).

(** Everything but what the I/O registers control: the joypad, the serial
    port, the timer, the LCD, the DMA, the object palettes (kept with the
    OAM) and the registers IF and IE. *)
Definition except_io (e : Emulator) :=
  (config e, rom_data e, rom_size e, memory_map e, reg e, vram_data e, ext_ram_data e,
   ext_ram_size e, ram_data e, sound e, hram e, cycles e,
   (IME (interrupts e), enable (interrupts e), halt (interrupts e), halt_DI (interrupts e))).

(** What a write to an address of the region [t] keeps of the state [e]. *)
Definition write_keeps (t : MemoryMapType) (e e' : Emulator) : Prop :=
  match t with
  | MEMORY_MAP_ROM | MEMORY_MAP_ROM_BANK_SWITCH => except_memory_map e' = except_memory_map e
  | MEMORY_MAP_VRAM => except_vram e' = except_vram e
  | MEMORY_MAP_EXTERNAL_RAM => except_ext_ram e' = except_ext_ram e
  | MEMORY_MAP_WORK_RAM | MEMORY_MAP_WORK_RAM_BANK_SWITCH => except_ram e' = except_ram e
  | MEMORY_MAP_OAM => except_oam e' = except_oam e
  | MEMORY_MAP_UNUSED => e' = e
  | MEMORY_MAP_IO => except_io e' = except_io e
  | MEMORY_MAP_APU | MEMORY_MAP_WAVE_RAM => except_sound e' = except_sound e
  | MEMORY_MAP_HIGH_RAM => except_hram e' = except_hram e
  end.

(** The bank controllers that [init_memory_map] accepts. *)
Definition supported_mbc (t : MBCType) : bool :=
  match t with
  | TYPE_NO_MBC | TYPE_MBC1 | TYPE_MBC2 | TYPE_MBC3 => true
  | _ => false
  end.

(** The byte at offset [a] of the OAM, as the [switch] of [read_oam] gives
    it, whatever the mode of the LCD. *)
Definition oam_byte (e : Emulator) (a : Z) : Z :=
  let obj := objs (oam e) (u8 (Z.shiftr a 2)) in
  match Z.land a 3 with
  | 0 => u8 (obj_y obj + OBJ_Y_OFFSET)
  | 1 => u8 (obj_x obj + OBJ_X_OFFSET)
  | 2 => obj_tile obj
  | _ => obj_byte3 obj
  end.

(** One machine cycle of the OAM DMA. *)
Definition dma_machine_cycle (e : Emulator) : Emulator := update_dma_cycles e 4.

(** The sum of [f i], [f (i + 1)], ..., [n] terms. *)
Fixpoint sum_from (f : Z -> Z) (n : nat) (i : Z) : Z :=
  match n with
  | O => 0
  | S n => f i + sum_from f n (i + 1)
  end.

(** The palette index of the pixel [x] of the row [y] of the tile whose 16
    bytes start at [addr] in the raw video RAM [vram]: bit [7 - x] of the
    first byte of the row, and bit [7 - x] of the second byte above it. *)
Definition tile_pixel (vram : Z -> Z) (addr y x : Z) : Z :=
  Z.lor (Z.land (Z.shiftr (vram (addr + 2 * y)) (7 - x)) 1)
        (Z.shiftl (Z.land (Z.shiftr (vram (addr + 2 * y + 1)) (7 - x)) 1) 1).

(** The decoded copy agrees with the raw video RAM: the tiles 0 to 383 are
    the decoded bytes from 0x0000 to 0x17FF, the tiles 384 to 511 repeat the
    tiles 128 to 255, and the two maps are the bytes from 0x1800 on. *)
Definition cache_coherent (vram : Z -> Z) (c : VideoCache) : Prop :=
  (forall idx y x, 0 <= idx < 384 -> 0 <= y < 8 -> 0 <= x < 8 ->
     vc_tile c idx (y * 8 + x) = tile_pixel vram (16 * idx) y x)
  /\ (forall idx y x, 128 <= idx < 256 -> 0 <= y < 8 -> 0 <= x < 8 ->
        vc_tile c (idx + 256) (y * 8 + x) = tile_pixel vram (16 * idx) y x)
  /\ (forall m i, 0 <= m < 2 -> 0 <= i < 1024 ->
        vc_map c m i = vram (0x1800 + 1024 * m + i)).

(** The address in the raw video RAM of the entry of the background map for
    the column [sx] of the line [line_y], and the address of the tile with
    the number [n]: counted from 0x8000 when LCDC selects the tile data at
    0x8000, and as a signed number from 0x9000 when it selects 0x8800. *)
Definition bg_map_address (e : Emulator) (line_y sx : Z) : Z :=
  0x1800 + 1024 * bg_tile_map_select (lcdc (lcd e))
  + 32 * (u8 (line_y + SCY (lcd e)) / 8) + u8 (SCX (lcd e) + sx) / 8.

Definition bg_tile_address (e : Emulator) (n : Z) : Z :=
  if bg_tile_data_select (lcdc (lcd e)) =? 1 then 16 * n else 0x1000 + 16 * s8 n.

(** The packed BCD byte of a number below 100: the tens in the high nibble,
    the units in the low nibble. *)
Definition bcd (n : Z) : Z := 16 * (n / 10) + n mod 10.

(** The numbers 0 to 99. *)
Definition below_100 : list Z := map Z.of_nat (seq 0 100).

(** The two quantities that DAA computes from A and the flags: whether it
    sets the carry, and the number it adds to A or subtracts from it. *)
Definition daa_carry (e : Emulator) : bool :=
  FC e || (negb (FN e) && (0x99 <? RA e)).

Definition daa_adjust (e : Emulator) : Z :=
  let u := if FH e || (negb (FN e) && (9 <? Z.land (RA e) 0xf)) then 6 else 0 in
  if daa_carry e then Z.lor u 0x60 else u.

(** The sound registers that can be written while the sound unit is off:
    the length registers NR11, NR21, NR31 and NR41, and NR52. *)
Definition sound_off_writable : list Z := [0xFF11; 0xFF16; 0xFF1B; 0xFF20; 0xFF26].

(** ** More example cartridges and states *)

(** A 32 KiB MBC1 cartridge without external RAM (cartridge type 0x01). *)
Definition rom_mbc1 (a : Z) : Z :=
  match a with
  | 0x147 => 0x01
  | _ => 0
  end.

(** The started MBC3 cartridge with IME set, the timer and joypad interrupts
    requested (IF = 0x14) and all five enabled (IE = 0x1F). *)
Definition mbc3_irq_pending : Emulator :=
  upd_interrupts (fun i => set_IME true (set_IE 0x1F (set_IF_ 0x14 i))) (boot rom_mbc3).

(** The started MBC3 cartridge with the timer switched on at clock select 1
    (a period of 16 cycles). *)
Definition mbc3_timer_running : Emulator :=
  upd_timer (fun t => set_timer_on true (set_clock_select 1 t)) (boot rom_mbc3).

(** The decoded copy of a video RAM that holds zeros only. *)
Definition zero_cache : VideoCache := Build_VideoCache (fun _ _ => 0) (fun _ _ => 0).

(** The started MBC3 cartridge with the sound unit switched off. *)
Definition mbc3_sound_off : Emulator := upd_sound (set_sound_enabled false) (boot rom_mbc3).

(** [DI; LD A,0x04; LDH (0xFF),A; LDH (0x0F),A; HALT; HALT; NOP]: the HALT at
    0x0107 is executed with IME = 0 and the timer interrupt enabled and
    requested, and the byte that follows it is a HALT again. *)
Definition rom_halt_halt : Z -> Z :=
  rom_of_program [0xF3; 0x3E; 0x04; 0xE0; 0xFF; 0xE0; 0x0F; 0x76; 0x76; 0x00].

(** [LD A,0x04; LDH (0xFF),A; LD A,0xFF; LDH (0x05),A; LD A,0x05; LDH (0x07),A;
    NOP; EI; DI; NOP], with IME = 1 from the start: the timer interrupt is
    enabled, TIMA is 0xFF and counts every 16 cycles; it wraps in the NOP at
    0x010C, so that the timer interrupt is requested in the machine cycle of
    the EI at 0x010D. *)
Definition rom_timer_ei_di : Z -> Z :=
  rom_of_program [0x3E; 0x04; 0xE0; 0xFF; 0x3E; 0xFF; 0xE0; 0x05; 0x3E; 0x05; 0xE0; 0x07;
                  0x00; 0xFB; 0xF3; 0x00].

(** The MBC3 cartridge with the timer running at clock select 1 (TAC = 5) and
    TIMA = 0x20, three machine cycles later: [div_counter] is 12, with bit 3
    set. *)
Definition mbc3_timer_bit_set : Emulator :=
  update_timer_cycles
    (write_io (write_io (boot rom_mbc3) IO_TAC_ADDR 0x05) IO_TIMA_ADDR 0x20) 12.

(** The started MBC3 cartridge after a write of 0x0A to 0x0000, which enables
    its external RAM. *)
Definition mbc3_ram_enabled : Emulator :=
  match write_u8 (boot rom_mbc3) 0x0000 0x0A with
  | Some e => e
  | None => boot rom_mbc3
  end.

(** [LD A,0x01; LDH (0x07),A; LD A,0x10; LDH (0x06),A; LD A,0xFF; LDH (0x05),A;
    NOP; NOP; NOP; LD A,0x05; LDH (0x07),A; LDH A,(0x05); NOP]: with the timer
    off at clock select 1, TMA = 0x10 and TIMA = 0xFF, the write of 0x05 to
    TAC at 0x0111 switches the timer on when [div_counter] is 92, with bit 3
    set; the instruction at 0x0113 then reads TIMA. *)
Definition rom_tac_wrap : Z -> Z :=
  rom_of_program [0x3E; 0x01; 0xE0; 0x07; 0x3E; 0x10; 0xE0; 0x06; 0x3E; 0xFF; 0xE0; 0x05;
                  0x00; 0x00; 0x00; 0x3E; 0x05; 0xE0; 0x07; 0xF0; 0x05; 0x00].
(** * Properties *)

(** ** Bits of machine integers *)

Lemma testbit_u8_low (x n : Z) : 0 <= n < 8 -> Z.testbit (u8 x) n = Z.testbit x n.
Proof.
  intros Hn. unfold u8. change 0x100 with (2 ^ 8).
  apply Z.mod_pow2_bits_low. lia.
Qed.

Lemma testbit_u16_low (x n : Z) : 0 <= n < 16 -> Z.testbit (u16 x) n = Z.testbit x n.
Proof.
  intros Hn. unfold u16. change 0x10000 with (2 ^ 16).
  apply Z.mod_pow2_bits_low. lia.
Qed.

Lemma land_0xf_zero (x : Z) :
  (forall n, 0 <= n < 4 -> Z.testbit x n = false) -> Z.land x 0xf = 0.
Proof.
  intros H. apply Z.bits_inj'. intros n Hn.
  rewrite Z.land_spec, Z.bits_0.
  destruct (Z.ltb_spec n 4) as [Hlt | Hge].
  - rewrite H by lia. reflexivity.
  - replace (Z.testbit 0xf n) with false; [apply andb_false_r |].
    symmetry. change 0xf with (Z.ones 4). apply Z.ones_spec_high. lia.
Qed.

Lemma u8_range (x : Z) : 0 <= u8 x < 0x100.
Proof. unfold u8. apply Z.mod_pos_bound. lia. Qed.

Lemma u8_small (x : Z) : 0 <= x < 0x100 -> u8 x = x.
Proof. intros H. unfold u8. apply Z.mod_small. exact H. Qed.

Lemma u16_small (x : Z) : 0 <= x < 0x10000 -> u16 x = x.
Proof. intros H. unfold u16. apply Z.mod_small. exact H. Qed.

(** ** The flag register *)

Lemma get_f_reg_bits (r : Registers) (n : Z) :
  0 <= n < 4 -> Z.testbit (get_f_reg r) n = false.
Proof.
  intros Hn. unfold get_f_reg, READ_BIT, ENCODE, BITS_MASK, b2z.
  assert (Hc : n = 0 \/ n = 1 \/ n = 2 \/ n = 3) by lia.
  destruct (F_Z (reg_F r)), (F_N (reg_F r)), (F_H (reg_F r)), (F_C (reg_F r));
    destruct Hc as [-> | [-> | [-> | ->]]]; reflexivity.
Qed.

Lemma get_f_reg_range (r : Registers) : 0 <= get_f_reg r < 0x100.
Proof.
  unfold get_f_reg, READ_BIT, ENCODE, BITS_MASK, b2z.
  destruct (F_Z (reg_F r)), (F_N (reg_F r)), (F_H (reg_F r)), (F_C (reg_F r));
    cbn; lia.
Qed.

(** The low byte of AF is F, whatever A holds. *)
Lemma get_af_reg_low_byte (r : Registers) : u8 (get_af_reg r) = get_f_reg r.
Proof.
  transitivity (u8 (get_f_reg r)); [| apply u8_small, get_f_reg_range].
  unfold u8. change 0x100 with (2 ^ 8).
  apply Z.bits_inj'. intros n Hn.
  destruct (Z.ltb_spec n 8) as [Hlt | Hge].
  - rewrite !Z.mod_pow2_bits_low by lia.
    unfold get_af_reg. rewrite testbit_u16_low by lia.
    rewrite Z.lor_spec, Z.shiftl_spec_low by lia. reflexivity.
  - rewrite !Z.mod_pow2_bits_high by lia. reflexivity.
Qed.

(** C9.  Every read of the packed flag register yields a byte whose low nibble
    is zero: [get_f_reg] itself, and the low byte of [get_af_reg], which is
    the byte PUSH AF stores first; this holds for every value of the
    registers and of the four flags. *)
Theorem C9_flag_register_low_nibble_zero (r : Registers) :
  Z.land (get_f_reg r) 0xf = 0
  /\ Z.land (u8 (get_af_reg r)) 0xf = 0
  /\ u8 (get_af_reg r) = get_f_reg r.
Proof.
  assert (H : Z.land (get_f_reg r) 0xf = 0)
    by (apply land_0xf_zero; intros n Hn; apply get_f_reg_bits; exact Hn).
  rewrite get_af_reg_low_byte. repeat split; exact H.
Qed.

(** ** The address decoder *)

Lemma shiftr_12_cases (addr : Z) :
  0 <= addr <= 0xFFFF ->
  exists q, Z.shiftr addr 12 = q /\ 0 <= q <= 15 /\ 0x1000 * q <= addr < 0x1000 * q + 0x1000.
Proof.
  intros H. exists (addr / 0x1000). rewrite Z.shiftr_div_pow2 by lia.
  change (2 ^ 12) with 0x1000.
  pose proof (Z.div_mod addr 0x1000 ltac:(lia)) as Hd.
  pose proof (Z.mod_pos_bound addr 0x1000 ltac:(lia)) as Hm.
  repeat split; lia.
Qed.

Ltac case_ltb :=
  repeat match goal with
         | |- context [?a <? ?b] => destruct (Z.ltb_spec a b); try lia
         | |- context [?a <=? ?b] => destruct (Z.leb_spec a b); try lia
         end.

Lemma map_address_type (addr : Z) :
  0 <= addr <= 0xFFFF -> pair_type (map_address addr) = region_of addr.
Proof.
  intros H. destruct (shiftr_12_cases addr H) as (q & Hq & Hr & Hb).
  unfold map_address. rewrite Hq. clear Hq.
  assert (Hc : q = 0 \/ q = 1 \/ q = 2 \/ q = 3 \/ q = 4 \/ q = 5 \/ q = 6 \/ q = 7 \/
               q = 8 \/ q = 9 \/ q = 10 \/ q = 11 \/ q = 12 \/ q = 13 \/ q = 14 \/ q = 15)
    by lia.
  unfold region_of, OAM_START_ADDR, OAM_END_ADDR, UNUSED_END_ADDR, APU_START_ADDR,
    WAVE_RAM_START_ADDR, WAVE_RAM_END_ADDR, IO_END_ADDR, HIGH_RAM_END_ADDR.
  repeat (destruct Hc as [-> | Hc]); try subst q; cbn [pair_type]; case_ltb; reflexivity.
Qed.

Lemma map_address_oam (a : Z) :
  0 <= a <= 0x9F -> map_address (0xFE00 + a) = Build_MemoryTypeAddressPair MEMORY_MAP_OAM a.
Proof.
  intros H. destruct (shiftr_12_cases (0xFE00 + a) ltac:(lia)) as (q & Hq & Hr & Hb).
  assert (Hq15 : q = 15) by lia. rewrite Hq15 in Hq.
  unfold map_address. rewrite Hq.
  unfold OAM_START_ADDR, OAM_END_ADDR. case_ltb; f_equal; lia.
Qed.

Lemma map_address_unused (addr : Z) :
  0xFEA0 <= addr <= 0xFEFF ->
  map_address addr = Build_MemoryTypeAddressPair MEMORY_MAP_UNUSED addr.
Proof.
  intros H. destruct (shiftr_12_cases addr ltac:(lia)) as (q & Hq & Hr & Hb).
  assert (Hq15 : q = 15) by lia. rewrite Hq15 in Hq.
  unfold map_address. rewrite Hq.
  unfold OAM_START_ADDR, OAM_END_ADDR, UNUSED_END_ADDR. case_ltb; reflexivity.
Qed.

Lemma land_ones_range (x n : Z) : 0 <= n -> 0 <= Z.land x (Z.ones n) < 2 ^ n.
Proof.
  intros Hn. rewrite Z.land_ones by exact Hn.
  apply Z.mod_pos_bound. apply Z.pow_pos_nonneg; lia.
Qed.

(** ** Reads *)

Lemma MemoryMapType_eqb_eq (a b : MemoryMapType) : MemoryMapType_eqb a b = true <-> a = b.
Proof. destruct a, b; cbn; split; intros H; try reflexivity; discriminate H. Qed.

Lemma init_mbc3 : init_emulator rom_mbc3 0x8000 = Some (boot rom_mbc3).
Proof. reflexivity. Qed.

(** No read consults the DMA unit once the access check has passed. *)
Lemma read_u8_no_dma_check_upd_dma (g : DMA -> DMA) (e : Emulator) (pair : MemoryTypeAddressPair) :
  read_u8_no_dma_check (upd_dma g e) pair = read_u8_no_dma_check e pair.
Proof. unfold read_u8_no_dma_check. destruct (pair_type pair); reflexivity. Qed.

Lemma read_u8_dma_inactive (e : Emulator) (addr : Z) :
  dma_active (dma e) = false ->
  read_u8 e addr = read_u8_no_dma_check e (map_address addr).
Proof. intros H. unfold read_u8, is_dma_access_ok. rewrite H. reflexivity. Qed.

(** C7.  While an OAM DMA transfer is active, a CPU read from an address
    outside HRAM (0xFF80-0xFFFE) returns 0xFF, except that with a DMA source in
    VRAM a read from a region other than VRAM and OAM returns what it returns
    when no DMA is active. *)
Theorem C7_reads_during_dma (e : Emulator) (addr : Z) :
  0 <= addr <= 0xFFFF ->
  dma_active (dma e) = true ->
  addr < HIGH_RAM_START_ADDR \/ HIGH_RAM_END_ADDR < addr ->
  read_u8 e addr =
    if MemoryMapType_eqb (pair_type (dma_source (dma e))) MEMORY_MAP_VRAM
       && negb (MemoryMapType_eqb (region_of addr) MEMORY_MAP_VRAM)
       && negb (MemoryMapType_eqb (region_of addr) MEMORY_MAP_OAM)
    then read_u8 (upd_dma (set_dma_active false) e) addr
    else INVALID_READ_BYTE.
Proof.
  intros Ha Hact Hout.
  rewrite (read_u8_dma_inactive (upd_dma (set_dma_active false) e)) by reflexivity.
  rewrite read_u8_no_dma_check_upd_dma.
  unfold read_u8, is_dma_access_ok. rewrite Hact, map_address_type by exact Ha.
  assert (Hh : MemoryMapType_eqb (region_of addr) MEMORY_MAP_HIGH_RAM = false).
  { unfold HIGH_RAM_START_ADDR, HIGH_RAM_END_ADDR in Hout.
    unfold region_of. case_ltb; reflexivity. }
  rewrite Hh. cbn [negb orb].
  destruct (MemoryMapType_eqb (pair_type (dma_source (dma e))) MEMORY_MAP_VRAM
            && negb (MemoryMapType_eqb (region_of addr) MEMORY_MAP_VRAM)
            && negb (MemoryMapType_eqb (region_of addr) MEMORY_MAP_OAM)); reflexivity.
Qed.

(** C7 at two states: a DMA from VRAM lets a read of work RAM through and
    blocks a read of VRAM; a DMA from work RAM blocks the read of work RAM. *)
Lemma C7_reads_during_dma_witness :
  read_u8 mbc3_dma_vram 0xC000 = read_u8 (upd_dma (set_dma_active false) mbc3_dma_vram) 0xC000
  /\ read_u8 mbc3_dma_vram 0x8000 = INVALID_READ_BYTE
  /\ read_u8 mbc3_dma_wram 0xC000 = INVALID_READ_BYTE.
Proof.
  split; [| split].
  - apply (C7_reads_during_dma mbc3_dma_vram 0xC000);
      [lia | reflexivity | left; reflexivity].
  - apply (C7_reads_during_dma mbc3_dma_vram 0x8000);
      [lia | reflexivity | left; reflexivity].
  - apply (C7_reads_during_dma mbc3_dma_wram 0xC000);
      [lia | reflexivity | left; reflexivity].
Defined.

(** C6, as the claim states it, fails: with no DMA active, a read of the
    unused address 0xFEA0 returns 0, not 0xFF. *)
Lemma C6_unused_region_reads_zero :
  dma_active (dma (boot rom_mbc3)) = false
  /\ read_u8 (boot rom_mbc3) 0xFEA0 = 0.
Proof. split; reflexivity. Qed.

(** C6, amended.  A CPU read of external RAM (0xA000-0xBFFF) while RAM is
    disabled returns 0xFF on a cartridge whose RAM is read by
    [gb_read_external_ram] or [mbc2_read_ram]; on a cartridge without RAM
    ([dummy_read_external_ram]) it returns 0, or 0xFF when an active DMA
    blocks the access.  A CPU read of the unused region 0xFEA0-0xFEFF returns
    0, or 0xFF when an active DMA whose source is not VRAM blocks the access.
    [read_u8] is a total function of the state: a read changes no state and
    cannot fail. *)
Theorem C6_reads_of_disabled_and_unused (e : Emulator) (addr : Z) :
  (0xA000 <= addr <= 0xBFFF ->
   ext_ram_enabled (memory_map e) = false ->
   read_u8 e addr =
     match read_external_ram (memory_map e) with
     | Dummy_read_external_ram =>
       if is_dma_access_ok e (map_address addr) then 0 else INVALID_READ_BYTE
     | _ => INVALID_READ_BYTE
     end)
  /\ (0xFEA0 <= addr <= 0xFEFF ->
      read_u8 e addr =
        if negb (dma_active (dma e))
           || MemoryMapType_eqb (pair_type (dma_source (dma e))) MEMORY_MAP_VRAM
        then 0 else INVALID_READ_BYTE).
Proof.
  split.
  - intros Ha Hen. unfold read_u8.
    pose proof (map_address_type addr ltac:(lia)) as Ht.
    assert (Hr : region_of addr = MEMORY_MAP_EXTERNAL_RAM)
      by (unfold region_of; case_ltb; reflexivity).
    rewrite Hr in Ht.
    destruct (is_dma_access_ok e (map_address addr)); cbn [negb].
    + unfold read_u8_no_dma_check. rewrite Ht.
      unfold call_read_external_ram, gb_read_external_ram, mbc2_read_ram,
        dummy_read_external_ram.
      rewrite Hen. destruct (read_external_ram (memory_map e)); reflexivity.
    + destruct (read_external_ram (memory_map e)); reflexivity.
  - intros Ha. unfold read_u8. rewrite map_address_unused by exact Ha.
    unfold is_dma_access_ok, read_u8_no_dma_check. cbn [pair_type MemoryMapType_eqb].
    destruct (dma_active (dma e)),
      (MemoryMapType_eqb (pair_type (dma_source (dma e))) MEMORY_MAP_VRAM);
      reflexivity.
Qed.

(** C6 (amended) at the MBC3 cartridge after start-up, whose RAM is disabled:
    external RAM reads 0xFF and the unused region reads 0. *)
Lemma C6_reads_of_disabled_and_unused_witness :
  read_u8 (boot rom_mbc3) 0xA000 = INVALID_READ_BYTE
  /\ read_u8 (boot rom_mbc3) 0xFEA0 = 0.
Proof.
  split.
  - apply (proj1 (C6_reads_of_disabled_and_unused (boot rom_mbc3) 0xA000));
      [lia | reflexivity].
  - apply (proj2 (C6_reads_of_disabled_and_unused (boot rom_mbc3) 0xFEA0)). lia.
Defined.

(** ** OAM *)

Lemma LCDMode_not_using_oam (e : Emulator) :
  mode (stat (lcd e)) = LCD_MODE_HBLANK \/ mode (stat (lcd e)) = LCD_MODE_VBLANK ->
  is_using_oam e = false.
Proof. intros [H | H]; unfold is_using_oam; rewrite H; reflexivity. Qed.

Lemma shiftr_2_oam (a : Z) : 0 <= a <= 0x9F -> 0 <= Z.shiftr a 2 < 40.
Proof.
  intros H. rewrite Z.shiftr_div_pow2 by lia. change (2 ^ 2) with 4.
  Z.to_euclidean_division_equations. lia.
Qed.

Lemma land_3_cases (a : Z) :
  Z.land a 3 = 0 \/ Z.land a 3 = 1 \/ Z.land a 3 = 2 \/ Z.land a 3 = 3.
Proof.
  pose proof (land_ones_range a 2 ltac:(lia)) as H. change (Z.ones 2) with 3 in H.
  change (2 ^ 2) with 4 in H. lia.
Qed.

Lemma u8_sub_add (v k : Z) : 0 <= v <= 0xFF -> u8 (u8 (v - k) + k) = v.
Proof.
  intros H. unfold u8. rewrite Zplus_mod_idemp_l.
  replace (v - k + k) with v by lia. apply Z.mod_small. lia.
Qed.

(** C10.  For every OAM offset [a] in [0, 0x9F] and every byte [v]: when the
    LCD is in HBlank or VBlank and no OAM DMA is active, writing [v] to
    0xFE00+a succeeds and an immediately following read of 0xFE00+a returns
    [v]; the Y and X bytes are stored with 16 and 8 subtracted and read back
    with them added. *)
Theorem C10_oam_write_then_read (e : Emulator) (a v : Z) :
  0 <= a <= 0x9F ->
  0 <= v <= 0xFF ->
  mode (stat (lcd e)) = LCD_MODE_HBLANK \/ mode (stat (lcd e)) = LCD_MODE_VBLANK ->
  dma_active (dma e) = false ->
  exists e',
    write_u8 e (OAM_START_ADDR + a) v = Some e'
    /\ read_u8 e' (OAM_START_ADDR + a) = v
    /\ (Z.land a 3 = 0 -> obj_y (objs (oam e') (Z.shiftr a 2)) = u8 (v - OBJ_Y_OFFSET))
    /\ (Z.land a 3 = 1 -> obj_x (objs (oam e') (Z.shiftr a 2)) = u8 (v - OBJ_X_OFFSET)).
Proof.
  intros Ha Hv Hmode Hdma.
  pose proof (LCDMode_not_using_oam e Hmode) as Huse.
  pose proof (shiftr_2_oam a Ha) as Hidx.
  change OAM_START_ADDR with 0xFE00.
  unfold write_u8. rewrite map_address_oam by exact Ha.
  unfold is_dma_access_ok. rewrite Hdma. cbn [negb orb pair_type pair_addr].
  unfold write_oam. rewrite Huse.
  eexists. split; [reflexivity |].
  assert (Hread : forall e1, dma e1 = dma e -> lcd e1 = lcd e ->
            read_u8 e1 (0xFE00 + a) = read_oam e1 a).
  { intros e1 Hd Hl. unfold read_u8. rewrite map_address_oam by exact Ha.
    unfold is_dma_access_ok, read_oam, is_using_oam. rewrite Hd, Hdma. reflexivity. }
  assert (Huse' : forall e1, lcd e1 = lcd e -> is_using_oam e1 = false).
  { intros e1 Hl. unfold is_using_oam. rewrite Hl. exact Huse. }
  unfold write_oam_no_mode_check.
  destruct (land_3_cases a) as [H | [H | [H | H]]]; rewrite H;
    rewrite Hread by reflexivity;
    unfold read_oam; rewrite Huse' by reflexivity;
    rewrite (u8_small (Z.shiftr a 2)) by lia;
    rewrite H;
    unfold upd_obj, upd_oam, aset;
    cbn [oam objs set_oam set_objs obj_y obj_x obj_tile obj_byte3
         set_obj_y set_obj_x set_obj_tile set_obj_byte3 set_obj_priority set_obj_yflip
         set_obj_xflip set_obj_palette];
    rewrite Z.eqb_refl;
    cbn [obj_y obj_x obj_tile obj_byte3
         set_obj_y set_obj_x set_obj_tile set_obj_byte3 set_obj_priority set_obj_yflip
         set_obj_xflip set_obj_palette];
    unfold OBJ_Y_OFFSET, OBJ_X_OFFSET;
    rewrite ?u8_sub_add by exact Hv;
    (split; [reflexivity | split; intros Hc; try reflexivity; discriminate Hc]).
Qed.

(** C10 at the MBC3 cartridge with the LCD off (VBlank): the Y byte of sprite 0
    written as 0x05 is stored as 0xF5 and read back as 0x05. *)
Lemma C10_oam_write_then_read_witness :
  exists e',
    write_u8 mbc3_lcd_off (OAM_START_ADDR + 0) 0x05 = Some e'
    /\ read_u8 e' (OAM_START_ADDR + 0) = 0x05
    /\ (Z.land 0 3 = 0 -> obj_y (objs (oam e') (Z.shiftr 0 2)) = u8 (0x05 - OBJ_Y_OFFSET))
    /\ (Z.land 0 3 = 1 -> obj_x (objs (oam e') (Z.shiftr 0 2)) = u8 (0x05 - OBJ_X_OFFSET)).
Proof.
  apply (C10_oam_write_then_read mbc3_lcd_off 0 0x05);
    [lia | lia | right; reflexivity | reflexivity].
Defined.

(** ** MBC3 *)

(** X3.  On an MBC3 cartridge, a CPU write of [v] to an address in
    0x2000-0x3FFF that no OAM DMA blocks sets the ROM bank to the low seven
    bits of [v], as they are. *)
Lemma mbc3_write_rom_bank (e : Emulator) (addr v : Z) :
  0x2000 <= addr <= 0x3FFF ->
  write_rom (memory_map e) = Mbc3_write_rom ->
  is_dma_access_ok e (map_address addr) = true ->
  write_u8 e addr v = Some (upd_memory_map (set_rom_bank (Z.land v MBC3_ROM_BANK_SELECT_MASK)) e).
Proof.
  intros Ha Hm Hok. unfold write_u8. rewrite Hok. cbn [negb].
  destruct (shiftr_12_cases addr ltac:(lia)) as (q & Hq & Hr & Hb).
  assert (Hc : q = 2 \/ q = 3) by lia.
  assert (Hp : map_address addr = Build_MemoryTypeAddressPair MEMORY_MAP_ROM addr).
  { unfold map_address. rewrite Hq.
    assert (Hl : Z.land addr ADDR_MASK_16K = addr).
    { change ADDR_MASK_16K with (Z.ones 14). rewrite Z.land_ones by lia.
      apply Z.mod_small. change (2 ^ 14) with 0x4000. lia. }
    destruct Hc as [-> | ->]; rewrite Hl; reflexivity. }
  rewrite Hp. cbn [pair_type pair_addr].
  unfold call_write_rom. rewrite Hm. unfold mbc3_write_rom.
  replace (Z.shiftr addr 13) with 1; [reflexivity |].
  rewrite Z.shiftr_div_pow2 by lia. change (2 ^ 13) with 0x2000.
  Z.to_euclidean_division_equations. lia.
Qed.

(** X3 on the MBC3 cartridge after start-up: bank 5 is selected by a write
    of 0x85 to 0x2000. *)
Lemma mbc3_write_rom_bank_witness :
  write_u8 (boot rom_mbc3) 0x2000 0x85
  = Some (upd_memory_map (set_rom_bank (Z.land 0x85 MBC3_ROM_BANK_SELECT_MASK))
                         (boot rom_mbc3)).
Proof.
  apply (mbc3_write_rom_bank (boot rom_mbc3) 0x2000 0x85);
    [lia | vm_compute; reflexivity | vm_compute; reflexivity].
Defined.

(** C5 fails on the code at the written value 0: on the MBC3 cartridge the
    ROM bank becomes 0, not 1, and the switchable area then reads bank 0
    (its first byte is 0xAA; the first byte of bank 1 is 0xBB). *)
Lemma C5_mbc3_bank_zero_is_not_promoted :
  write_rom (memory_map (boot rom_mbc3)) = Mbc3_write_rom
  /\ dma_active (dma (boot rom_mbc3)) = false
  /\ option_map (fun e => rom_bank (memory_map e)) (write_u8 (boot rom_mbc3) 0x2000 0x00) = Some 0
  /\ option_map (fun e => read_u8 e 0x4000) (write_u8 (boot rom_mbc3) 0x2000 0x00) = Some 0xAA
  /\ read_u8 (boot rom_mbc3) 0x4000 = 0xBB.
Proof. repeat split; reflexivity. Qed.

(** ** The timer *)

Lemma s_tima_mask_pow2 (c : Z) : s_tima_mask c = 2 ^ tima_bit c.
Proof.
  unfold s_tima_mask, tima_bit.
  destruct c as [| [[[]|[]|]|[[]|[]|]|] |]; reflexivity.
Qed.

Lemma tima_bit_range (c : Z) : 0 <= tima_bit c < 16.
Proof.
  unfold tima_bit.
  destruct c as [| [[[]|[]|]|[[]|[]|]|] |]; lia.
Qed.

Lemma land_pow2_eqb (x k : Z) : 0 <= k -> (Z.land x (2 ^ k) =? 0) = negb (Z.testbit x k).
Proof.
  intros Hk. destruct (Z.testbit x k) eqn:Hb; cbn [negb].
  - apply Z.eqb_neq. intros H0.
    assert (Hk' : Z.testbit (Z.land x (2 ^ k)) k = true).
    { rewrite Z.land_spec, Hb, Z.pow2_bits_true by exact Hk. reflexivity. }
    rewrite H0, Z.bits_0 in Hk'. discriminate Hk'.
  - apply Z.eqb_eq. apply Z.bits_inj'. intros n Hn.
    rewrite Z.land_spec, Z.bits_0, Z.pow2_bits_eqb by exact Hk.
    destruct (Z.eqb_spec k n) as [<- | Hne]; [rewrite Hb; reflexivity |].
    apply andb_false_r.
Qed.

(** The test of [write_div_counter]: the selected bit of the counter falls. *)
Lemma falling_edge_test (d d' c : Z) :
  (Z.land (u16 (Z.land (Z.lxor d d') (Z.lnot d'))) (s_tima_mask c) =? 0)
  = negb (Z.testbit d (tima_bit c) && negb (Z.testbit d' (tima_bit c))).
Proof.
  pose proof (tima_bit_range c) as Hk.
  rewrite s_tima_mask_pow2, land_pow2_eqb by lia.
  rewrite testbit_u16_low by exact Hk.
  rewrite Z.land_spec, Z.lxor_spec, Z.lnot_spec by lia.
  destruct (Z.testbit d (tima_bit c)), (Z.testbit d' (tima_bit c)); reflexivity.
Qed.

(** TIMA is read back as stored. *)
Lemma read_io_TIMA (e : Emulator) : read_io e IO_TIMA_ADDR = TIMA (timer e).
Proof. reflexivity. Qed.

(** [increment_tima] at 0xFF: TIMA becomes 0 and the reload is scheduled. *)
Lemma increment_tima_wrap (e : Emulator) :
  TIMA (timer e) = 0xFF ->
  increment_tima e = upd_timer (fun t => set_tima_overflow true (set_TIMA 0 t)) e.
Proof.
  intros H. unfold increment_tima, upd_timer. cbn. rewrite H. reflexivity.
Qed.

(** [write_div_counter] on a running timer, by whether the selected bit falls. *)
Lemma write_div_counter_running (e : Emulator) (d' : Z) :
  timer_on (timer e) = true ->
  write_div_counter e d' =
    upd_timer (set_div_counter d')
      (if Z.testbit (div_counter (timer e)) (tima_bit (clock_select (timer e)))
          && negb (Z.testbit d' (tima_bit (clock_select (timer e))))
       then increment_tima e else e).
Proof.
  intros Hon. unfold write_div_counter. rewrite Hon, falling_edge_test.
  destruct (Z.testbit (div_counter (timer e)) (tima_bit (clock_select (timer e)))
            && negb (Z.testbit d' (tima_bit (clock_select (timer e))))); reflexivity.
Qed.

Lemma update_timer_cycles_4 (e : Emulator) : update_timer_cycles e 4 = update_timer_tick e.
Proof. reflexivity. Qed.

(** [write_div_counter] on a stopped timer only stores the counter. *)
Lemma write_div_counter_stopped (e : Emulator) (d' : Z) :
  timer_on (timer e) = false -> write_div_counter e d' = upd_timer (set_div_counter d') e.
Proof. intros Hoff. unfold write_div_counter. rewrite Hoff. reflexivity. Qed.

Lemma increment_tima_wrapped (e : Emulator) :
  TIMA (timer e) = 0xFF -> wrapped_from e (increment_tima e).
Proof.
  intros H. rewrite (increment_tima_wrap e H). repeat split.
Qed.

(** [write_div_counter] either leaves TIMA as it is or wraps it from 0xFF; in
    the second case the timer is on and the selected bit of the new counter
    is clear, so that it cannot fall in the next machine cycle. *)
Lemma write_div_counter_wrap (e : Emulator) (d' : Z) :
  TIMA (timer e) = 0xFF ->
  TIMA (timer (write_div_counter e d')) = 0 ->
  wrapped_from e (write_div_counter e d')
  /\ tima_bit_falls (write_div_counter e d') = false.
Proof.
  intros Htima Hw. destruct (timer_on (timer e)) eqn:Hon.
  - rewrite write_div_counter_running in * by exact Hon.
    destruct (Z.testbit (div_counter (timer e)) (tima_bit (clock_select (timer e)))
              && negb (Z.testbit d' (tima_bit (clock_select (timer e))))) eqn:Hedge.
    + apply andb_prop in Hedge. destruct Hedge as [_ Hnew].
      apply negb_true_iff in Hnew.
      rewrite (increment_tima_wrap e Htima).
      split; [repeat split |].
      unfold tima_bit_falls.
      cbn [timer upd_timer set_timer div_counter set_div_counter clock_select
           set_tima_overflow set_TIMA].
      rewrite Hnew. reflexivity.
    + cbn in Hw. rewrite Htima in Hw. discriminate Hw.
  - rewrite write_div_counter_stopped in Hw by exact Hon.
    cbn in Hw. rewrite Htima in Hw. discriminate Hw.
Qed.

(** The machine cycle of a running timer with the reload pending. *)
Lemma update_timer_cycles_reload (w : Emulator) :
  timer_on (timer w) = true ->
  tima_overflow (timer w) = true ->
  let w' := update_timer_cycles w 4 in
  IF_ (interrupts w') = Z.lor (IF_ (interrupts w)) INTERRUPT_TIMER_MASK
  /\ TIMA (timer w')
     = (if tima_bit_falls w then u8 (TMA (timer w) + 1) else TMA (timer w))
  /\ tima_overflow (timer w') = tima_bit_falls w && (u8 (TMA (timer w) + 1) =? 0).
Proof.
  intros Hon Hov w'. subst w'. rewrite update_timer_cycles_4. unfold update_timer_tick.
  rewrite Hon, Hov. cbn [andb]. cbv zeta.
  rewrite write_div_counter_running by (cbn; exact Hon).
  cbn [timer upd_timer set_timer timer_on tima_overflow set_div_counter set_tima_overflow
       set_TIMA div_counter clock_select raise_interrupt upd_interrupts set_interrupts].
  fold (tima_bit_falls w).
  destruct (tima_bit_falls w); cbn [andb].
  - unfold increment_tima. cbv zeta.
    cbn [timer upd_timer set_timer timer_on tima_overflow set_div_counter set_tima_overflow
         set_TIMA div_counter clock_select raise_interrupt upd_interrupts set_interrupts
         TIMA TMA interrupts IF_ set_IF_].
    destruct (u8 (TMA (timer w) + 1) =? 0); repeat split; reflexivity.
  - repeat split; reflexivity.
Qed.

(** C4, as the code has it.  TIMA wraps from 0xFF to 0x00 in one of the three
    callers of [increment_tima]: a machine cycle of the timer (taken with no
    earlier reload pending), a write to DIV or a write to TAC; the timer is on
    after it.  Then TIMA reads 0, IF is as it was (the wrap raises nothing)
    and the reload is pending.  The next machine cycle of the timer sets the
    Timer bit of IF and reloads TIMA with TMA, and then advances the counter
    by 4: after it TIMA reads TMA, or TMA + 1 when the selected bit of the
    counter falls in that machine cycle (a new reload is then pending exactly
    when TMA is 0xFF).  After a wrap made by a machine cycle of the timer or
    by a write to DIV the bit does not fall, so that TIMA reads TMA and no
    reload is pending. *)
Theorem C4_tima_overflow_reload_delay (k : TimaStep) (e : Emulator) :
  TIMA (timer e) = 0xFF ->
  TIMA (timer (tima_step k e)) = 0x00 ->
  (k = BY_TIMER_CYCLE -> tima_overflow (timer e) = false) ->
  timer_on (timer (tima_step k e)) = true ->
  let w := tima_step k e in
  let w' := update_timer_cycles w 4 in
  read_io w IO_TIMA_ADDR = 0
  /\ IF_ (interrupts w) = IF_ (interrupts e)
  /\ tima_overflow (timer w) = true
  /\ IF_ (interrupts w') = Z.lor (IF_ (interrupts e)) INTERRUPT_TIMER_MASK
  /\ read_io w' IO_TIMA_ADDR
     = (if tima_bit_falls w then u8 (TMA (timer e) + 1) else TMA (timer e))
  /\ tima_overflow (timer w') = tima_bit_falls w && (u8 (TMA (timer e) + 1) =? 0)
  /\ (is_tac_write k = false -> tima_bit_falls w = false).
Proof.
  intros Htima Hzero Hpend Hon w w'.
  assert (Hw : wrapped_from e w /\ (is_tac_write k = false -> tima_bit_falls w = false)).
  { subst w'. subst w. destruct k as [| v | v]; cbn [tima_step is_tac_write] in *.
    - specialize (Hpend eq_refl).
      assert (Ht : update_timer_cycles e 4
                   = write_div_counter e (u16 (div_counter (timer e) + 4))).
      { rewrite update_timer_cycles_4. unfold update_timer_tick.
        rewrite Hpend, andb_false_r. reflexivity. }
      rewrite Ht in *.
      destruct (write_div_counter_wrap e _ Htima Hzero) as (Hwr & Hbit).
      split; [exact Hwr | intros _; exact Hbit].
    - change (write_io e IO_DIV_ADDR v) with (write_div_counter e 0) in *.
      destruct (write_div_counter_wrap e _ Htima Hzero) as (Hwr & Hbit).
      split; [exact Hwr | intros _; exact Hbit].
    - split; [| intros H; discriminate H].
      revert Hzero Hon. unfold write_io.
      change (IO_TAC_ADDR =? IO_JOYP_ADDR) with false.
      change (IO_TAC_ADDR =? IO_SB_ADDR) with false.
      change (IO_TAC_ADDR =? IO_SC_ADDR) with false.
      change (IO_TAC_ADDR =? IO_DIV_ADDR) with false.
      change (IO_TAC_ADDR =? IO_TIMA_ADDR) with false.
      change (IO_TAC_ADDR =? IO_TMA_ADDR) with false.
      change (IO_TAC_ADDR =? IO_TAC_ADDR) with true.
      cbv iota zeta.
      set (e1 := upd_timer (set_timer_on (WRITE_BIT v 2))
                   (upd_timer (set_clock_select (WRITE_BITS v 1 0)) e)).
      assert (H1 : TIMA (timer e1) = 0xFF) by exact Htima.
      assert (Hsame : wrapped_from e1 (increment_tima e1)
                      -> wrapped_from e (increment_tima e1)).
      { intros (A & B & C & D). repeat split; assumption. }
      destruct (negb (timer_on (timer e))).
      + match goal with |- context [if ?c then increment_tima e1 else e1] => destruct c end.
        * intros _ _. apply Hsame. apply increment_tima_wrapped. exact H1.
        * intros Hz. rewrite H1 in Hz. discriminate Hz.
      + intros Hz. rewrite H1 in Hz. discriminate Hz. }
  destruct Hw as ((Hz & Hov & Htma & Hint) & Hfalls).
  destruct (update_timer_cycles_reload w Hon Hov) as (Hif & Htima' & Hov').
  fold w' in Hif, Htima', Hov'.
  rewrite !read_io_TIMA. rewrite <- Htma. rewrite <- Hint at 1 2.
  repeat split; assumption.
Qed.

(** C4 at the MBC3 cartridge with the timer on, TIMA = 0xFF, TMA = 0xFE and
    [div_counter] = 12.  The machine cycle that takes [div_counter] to 16
    wraps TIMA, and the next one reloads it; a write to DIV in the same state
    wraps TIMA too, and the machine cycle after it reloads it. *)
Lemma C4_tima_overflow_reload_delay_witness :
  let e := mbc3_timer_about_to_overflow in
  (let e1 := update_timer_cycles e 4 in
   let e2 := update_timer_cycles e1 4 in
   read_io e1 IO_TIMA_ADDR = 0
   /\ IF_ (interrupts e1) = IF_ (interrupts e)
   /\ tima_overflow (timer e1) = true
   /\ read_io e2 IO_TIMA_ADDR = TMA (timer e)
   /\ IF_ (interrupts e2) = Z.lor (IF_ (interrupts e)) INTERRUPT_TIMER_MASK
   /\ tima_overflow (timer e2) = false)
  /\ (let w := write_io e IO_DIV_ADDR 0x77 in
      let w' := update_timer_cycles w 4 in
      read_io w IO_TIMA_ADDR = 0
      /\ IF_ (interrupts w) = IF_ (interrupts e)
      /\ tima_overflow (timer w) = true
      /\ read_io w' IO_TIMA_ADDR = TMA (timer e)
      /\ IF_ (interrupts w') = Z.lor (IF_ (interrupts e)) INTERRUPT_TIMER_MASK
      /\ tima_overflow (timer w') = false).
Proof.
  split.
  - destruct (C4_tima_overflow_reload_delay BY_TIMER_CYCLE mbc3_timer_about_to_overflow)
      as (H1 & H2 & H3 & H4 & H5 & H6 & H7);
      [reflexivity | reflexivity | intros _; reflexivity | reflexivity |].
    specialize (H7 eq_refl). rewrite H7 in H5, H6.
    exact (conj H1 (conj H2 (conj H3 (conj H5 (conj H4 H6))))).
  - destruct (C4_tima_overflow_reload_delay (BY_DIV_WRITE 0x77) mbc3_timer_about_to_overflow)
      as (H1 & H2 & H3 & H4 & H5 & H6 & H7);
      [reflexivity | reflexivity | intros H; discriminate H | reflexivity |].
    specialize (H7 eq_refl). rewrite H7 in H5, H6.
    exact (conj H1 (conj H2 (conj H3 (conj H5 (conj H4 H6))))).
Defined.

(** C4 as stated fails on the cartridge [rom_tac_wrap].  After ten
    instructions the timer is off with TIMA = 0xFF and TMA = 0x10.  The
    eleventh, LDH (0x07),A at 0x0111, writes 0x05 to TAC with [div_counter] =
    92: bit 3 of the counter is set, so switching the timer on increments
    TIMA, which wraps to 0 with the reload pending.  The next machine cycle
    reloads TIMA with 0x10 and raises the Timer bit of IF, and takes the
    counter to 96, where bit 3 falls: TIMA is 0x11 after it, not TMA, and
    that is what LDH A,(0x05) at 0x0113 reads. *)
Lemma C4_tac_write_wrap_reads_tma_plus_one :
  returns 12 rom_tac_wrap = true
  /\ (timer_on (timer (after 10 rom_tac_wrap)) = false
      /\ TIMA (timer (after 10 rom_tac_wrap)) = 0xFF
      /\ TMA (timer (after 10 rom_tac_wrap)) = 0x10
      /\ IF_ (interrupts (after 10 rom_tac_wrap)) = 1)
  /\ (RPC (after 10 rom_tac_wrap) = 0x0111
      /\ read_u8 (after 10 rom_tac_wrap) 0x0111 = 0xE0
      /\ read_u8 (after 10 rom_tac_wrap) 0x0112 = 0x07
      /\ reg_A (reg (after 10 rom_tac_wrap)) = 0x05)
  /\ (timer_on (timer (after 11 rom_tac_wrap)) = true
      /\ div_counter (timer (after 11 rom_tac_wrap)) = 92
      /\ read_io (after 11 rom_tac_wrap) IO_TIMA_ADDR = 0
      /\ tima_overflow (timer (after 11 rom_tac_wrap)) = true
      /\ IF_ (interrupts (after 11 rom_tac_wrap)) = 1)
  /\ (read_io (update_timer_cycles (after 11 rom_tac_wrap) 4) IO_TIMA_ADDR = 0x11
      /\ TMA (timer (update_timer_cycles (after 11 rom_tac_wrap) 4)) = 0x10
      /\ IF_ (interrupts (update_timer_cycles (after 11 rom_tac_wrap) 4)) = 5)
  /\ (read_u8 (after 11 rom_tac_wrap) (RPC (after 11 rom_tac_wrap)) = 0xF0
      /\ reg_A (reg (after 12 rom_tac_wrap)) = 0x11).
Proof. vm_compute. repeat split. Qed.

(** ** The wave channel *)

Lemma WRITE_BIT_testbit (x b : Z) : 0 <= b -> WRITE_BIT x b = Z.testbit x b.
Proof.
  intros Hb. unfold WRITE_BIT, z2b, DECODE, BITS_MASK.
  replace (b - b + 1) with 1 by lia. change (Z.shiftl 1 1 - 1) with (Z.ones 1).
  rewrite Z.land_ones by lia. change (2 ^ 1) with 2.
  replace (Z.testbit x b) with (Z.testbit (Z.shiftr x b) 0)
    by (rewrite Z.shiftr_spec by lia; f_equal; lia).
  rewrite Z.bit0_odd, Zmod_odd.
  destruct (Z.odd (Z.shiftr x b)); reflexivity.
Qed.

Lemma same_wave_refl (e : Emulator) : same_wave e e.
Proof. repeat split. Qed.

Lemma same_wave_upd_channel (e0 e : Emulator) (c : Z) (g : Channel -> Channel) :
  same_wave e0 e -> same_wave e0 (upd_channel c g e).
Proof. intros H. exact H. Qed.

Lemma write_nrx4_reg_same_wave (e : Emulator) (c value max_length : Z) :
  same_wave e (fst (write_nrx4_reg e c value max_length)).
Proof.
  unfold write_nrx4_reg. cbn [fst].
  repeat first
    [ apply same_wave_refl
    | apply same_wave_upd_channel
    | match goal with |- same_wave _ (if ?b then _ else _) => destruct b end ].
Qed.

Lemma write_nrx4_reg_trigger (e : Emulator) (c value max_length : Z) :
  snd (write_nrx4_reg e c value max_length) = WRITE_BIT value 7.
Proof. reflexivity. Qed.

Lemma write_wave_period_same_wave (e0 e : Emulator) (c : Z) :
  same_wave e0 e -> same_wave e0 (write_wave_period e c).
Proof. intros H. exact H. Qed.

Lemma same_wave_concurrent (e e' : Emulator) (offset_cycles : Z) :
  same_wave e e' ->
  is_concurrent_wave_ram_access e' offset_cycles = is_concurrent_wave_ram_access e offset_cycles.
Proof.
  intros (_ & Hs & _ & Hc). unfold is_concurrent_wave_ram_access. rewrite Hs, Hc. reflexivity.
Qed.

(** A write to NR34 with bit 7 set, the sound unit being on: the frequency
    and length are written, then the channel is triggered. *)
Lemma write_apu_nr34_trigger (e : Emulator) (value : Z) :
  sound_enabled (sound e) = true ->
  Z.testbit value 7 = true ->
  write_apu e APU_NR34_ADDR value =
    trigger_nr34_reg
      (write_wave_period (fst (write_nrx4_reg e CHANNEL3 value NR31_MAX_LENGTH)) CHANNEL3)
      CHANNEL3.
Proof.
  intros Hon Hbit. unfold write_apu, write_apu_body. rewrite Hon. cbn [negb andb].
  repeat match goal with
         | |- context [APU_NR34_ADDR =? ?a] =>
           let b := eval vm_compute in (APU_NR34_ADDR =? a) in
           change (APU_NR34_ADDR =? a) with b
         end.
  cbv beta iota.
  pose proof (write_nrx4_reg_trigger e CHANNEL3 value NR31_MAX_LENGTH) as Ht.
  rewrite WRITE_BIT_testbit, Hbit in Ht by lia.
  destruct (write_nrx4_reg e CHANNEL3 value NR31_MAX_LENGTH) as [e0 t].
  cbn [snd fst] in *. rewrite Ht. reflexivity.
Qed.

(** The wave RAM after [trigger_nr34_reg]. *)
Lemma trigger_nr34_reg_wave_ram (e : Emulator) (c : Z) :
  wave_ram (wave (sound (trigger_nr34_reg e c))) =
    if playing (wave (sound e)) then
      match is_concurrent_wave_ram_access e WAVE_SAMPLE_TRIGGER_OFFSET_CYCLES with
      | Some sample =>
        let r := wave_ram (wave (sound e)) in
        match Z.shiftr (ws_position sample) 3 with
        | 0 => aset r 0 (ws_byte sample)
        | 1 | 2 | 3 =>
          let src := Z.land (Z.shiftr (ws_position sample) 1) 12 in
          aset (aset (aset (aset r 0 (r src)) 1 (r (src + 1))) 2 (r (src + 2))) 3 (r (src + 3))
        | _ => r
        end
      | None => wave_ram (wave (sound e))
      end
    else wave_ram (wave (sound e)).
Proof.
  unfold trigger_nr34_reg.
  change (is_concurrent_wave_ram_access
            (upd_wave_e (fun w => set_wave_cycles (wave_period w) w)
               (upd_wave_e (set_wave_position 0) e)) WAVE_SAMPLE_TRIGGER_OFFSET_CYCLES)
    with (is_concurrent_wave_ram_access e WAVE_SAMPLE_TRIGGER_OFFSET_CYCLES).
  change (playing (wave (sound (upd_wave_e (fun w => set_wave_cycles (wave_period w) w)
               (upd_wave_e (set_wave_position 0) e))))) with (playing (wave (sound e))).
  destruct (playing (wave (sound e))); [| reflexivity].
  destruct (is_concurrent_wave_ram_access e WAVE_SAMPLE_TRIGGER_OFFSET_CYCLES) as [s |];
    [| reflexivity].
  destruct (Z.shiftr (ws_position s) 3) as [| [[[]|[]|]|[[]|[]|]|] |]; reflexivity.
Qed.

Lemma shiftr_3_of_byte_position (x : Z) : Z.shiftr x 3 = Z.shiftr x 1 / 4.
Proof.
  rewrite !Z.shiftr_div_pow2 by lia. change (2 ^ 3) with (2 * 4). change (2 ^ 1) with 2.
  rewrite Z.div_div by lia. reflexivity.
Qed.

Lemma land_12_group (p : Z) : 0 <= p <= 15 -> Z.land p 12 = 4 * (p / 4).
Proof.
  intros Hp.
  assert (H : p = 0 \/ p = 1 \/ p = 2 \/ p = 3 \/ p = 4 \/ p = 5 \/ p = 6 \/ p = 7 \/
              p = 8 \/ p = 9 \/ p = 10 \/ p = 11 \/ p = 12 \/ p = 13 \/ p = 14 \/ p = 15) by lia.
  repeat (destruct H as [-> | H]; [reflexivity |]). subst p. reflexivity.
Qed.

(** C3, as the code has it.  A write to NR34 with bit 7 set, the sound unit
    being on and channel 3 playing, changes the wave RAM only if one of the
    two retained samples was read at cycle [e->cycles + 2]
    ([is_concurrent_wave_ram_access]); without such a sample the wave RAM is
    unchanged.  With such a sample [s], at byte position [p = s.position >> 1]:
    for [p] in 0..3 byte 0 becomes [s.byte] and nothing else changes; for [p]
    in 4..15 bytes 0..3 become the four bytes of the group of [p] (bytes
    [4 * (p / 4)] to [4 * (p / 4) + 3]) and nothing else changes. *)
Theorem C3_nr34_trigger_corrupts_wave_ram (e : Emulator) (value : Z) :
  sound_enabled (sound e) = true ->
  playing (wave (sound e)) = true ->
  Z.testbit value 7 = true ->
  let r := wave_ram (wave (sound e)) in
  let r' := wave_ram (wave (sound (write_apu e APU_NR34_ADDR value))) in
  match is_concurrent_wave_ram_access e WAVE_SAMPLE_TRIGGER_OFFSET_CYCLES with
  | Some s =>
    let p := Z.shiftr (ws_position s) 1 in
    (0 <= p <= 3 -> r' 0 = ws_byte s /\ forall i, i <> 0 -> r' i = r i)
    /\ (4 <= p <= 15 ->
        (forall i, 0 <= i < 4 -> r' i = r (4 * (p / 4) + i))
        /\ forall i, ~ 0 <= i < 4 -> r' i = r i)
  | None => forall i, r' i = r i
  end.
Proof.
  intros Hon Hplay Hbit r r'.
  pose proof (write_nrx4_reg_same_wave e CHANNEL3 value NR31_MAX_LENGTH) as Hsame.
  apply (write_wave_period_same_wave _ _ CHANNEL3) in Hsame.
  assert (Hr' : r' = _) by
    (subst r'; rewrite write_apu_nr34_trigger by assumption;
     apply trigger_nr34_reg_wave_ram).
  rewrite (same_wave_concurrent _ _ _ Hsame) in Hr'.
  destruct Hsame as (Hram & _ & Hp & _). rewrite Hp, Hplay, Hram in Hr'. fold r in Hr'.
  clearbody r r'. subst r'.
  destruct (is_concurrent_wave_ram_access e WAVE_SAMPLE_TRIGGER_OFFSET_CYCLES) as [s |];
    [| reflexivity].
  intros p. rewrite shiftr_3_of_byte_position. fold p. cbv zeta. split.
  - intros Hp03. replace (p / 4) with 0 by (Z.to_euclidean_division_equations; lia).
    split; [reflexivity |].
    intros i Hi. unfold aset. destruct (Z.eqb_spec i 0); [contradiction | reflexivity].
  - intros Hp415. rewrite land_12_group by lia.
    assert (Hq : p / 4 = 1 \/ p / 4 = 2 \/ p / 4 = 3)
      by (Z.to_euclidean_division_equations; lia).
    assert (Hcopy : forall i,
              aset (aset (aset (aset r 0 (r (4 * (p / 4)))) 1 (r (4 * (p / 4) + 1))) 2
                      (r (4 * (p / 4) + 2))) 3 (r (4 * (p / 4) + 3)) i
              = if (0 <=? i) && (i <? 4) then r (4 * (p / 4) + i) else r i).
    { intros i. unfold aset.
      destruct (Z.eqb_spec i 3) as [-> | H3]; [reflexivity |].
      destruct (Z.eqb_spec i 2) as [-> | H2]; [reflexivity |].
      destruct (Z.eqb_spec i 1) as [-> | H1]; [reflexivity |].
      destruct (Z.eqb_spec i 0) as [-> | H0]; [cbn; f_equal; lia |].
      destruct (Z.leb_spec 0 i), (Z.ltb_spec i 4); cbn [andb]; try reflexivity. lia. }
    destruct Hq as [Hq | [Hq | Hq]]; rewrite Hq in *; cbv iota;
      (split; intros i Hi; rewrite Hcopy).
    all: destruct (Z.leb_spec 0 i), (Z.ltb_spec i 4); cbn [andb]; try reflexivity; lia.
Qed.

(** C3 at the wave channel 88 machine cycles after its start: the sample at
    position 10 (byte 5) was read at cycle 354 = 352 + 2, and the trigger
    copies bytes 4..7 to bytes 0..3. *)
Lemma C3_nr34_trigger_corrupts_wave_ram_witness :
  sound_enabled (sound (mbc3_wave_playing 88)) = true
  /\ playing (wave (sound (mbc3_wave_playing 88))) = true
  /\ option_map ws_position
       (is_concurrent_wave_ram_access (mbc3_wave_playing 88) WAVE_SAMPLE_TRIGGER_OFFSET_CYCLES)
     = Some 10
  /\ map (wave_ram (wave (sound (write_apu (mbc3_wave_playing 88) APU_NR34_ADDR 0x80))))
         [0; 1; 2; 3; 4; 5; 6; 7]
     = [0xA4; 0xA5; 0xA6; 0xA7; 0xA4; 0xA5; 0xA6; 0xA7].
Proof.
  assert (Hon : sound_enabled (sound (mbc3_wave_playing 88)) = true) by (vm_compute; reflexivity).
  assert (Hplay : playing (wave (sound (mbc3_wave_playing 88))) = true)
    by (vm_compute; reflexivity).
  assert (Hs : is_concurrent_wave_ram_access (mbc3_wave_playing 88)
                 WAVE_SAMPLE_TRIGGER_OFFSET_CYCLES
               = Some (Build_WaveSample 354 10 0xA5 0x0A)) by (vm_compute; reflexivity).
  assert (H4 : wave_ram (wave (sound (mbc3_wave_playing 88))) 4 = 0xA4)
    by (vm_compute; reflexivity).
  assert (H5 : wave_ram (wave (sound (mbc3_wave_playing 88))) 5 = 0xA5)
    by (vm_compute; reflexivity).
  assert (H6 : wave_ram (wave (sound (mbc3_wave_playing 88))) 6 = 0xA6)
    by (vm_compute; reflexivity).
  assert (H7 : wave_ram (wave (sound (mbc3_wave_playing 88))) 7 = 0xA7)
    by (vm_compute; reflexivity).
  pose proof (C3_nr34_trigger_corrupts_wave_ram (mbc3_wave_playing 88) 0x80 Hon Hplay eq_refl)
    as H.
  cbv zeta in H. rewrite Hs in H. cbn [ws_position] in H.
  change (Z.shiftr 10 1) with 5 in H. change (5 / 4) with 1 in H.
  destruct H as [_ H]. destruct (H ltac:(clear; lia)) as [Hlow Hrest].
  split; [exact Hon |]. split; [exact Hplay |].
  split; [rewrite Hs; reflexivity |].
  cbn [map].
  rewrite (Hlow 0 ltac:(clear; lia)), (Hlow 1 ltac:(clear; lia)),
          (Hlow 2 ltac:(clear; lia)), (Hlow 3 ltac:(clear; lia)).
  rewrite (Hrest 4 ltac:(clear; lia)), (Hrest 5 ltac:(clear; lia)),
          (Hrest 6 ltac:(clear; lia)), (Hrest 7 ltac:(clear; lia)).
  change (4 * 1 + 0) with 4. change (4 * 1 + 1) with 5.
  change (4 * 1 + 2) with 6. change (4 * 1 + 3) with 7.
  rewrite H4, H5, H6, H7. 
  reflexivity.
Defined.

(** C3 as stated fails one machine cycle later: channel 3 is playing and its
    current sample is at position 11 (byte 5), but no retained sample was
    read at cycle 356 + 2, and the trigger leaves the wave RAM as it was. *)
Lemma C3_trigger_without_concurrent_read :
  sound_enabled (sound (mbc3_wave_playing 89)) = true
  /\ playing (wave (sound (mbc3_wave_playing 89))) = true
  /\ status (channel (sound (mbc3_wave_playing 89)) CHANNEL3) = true
  /\ ws_position (wave_sample (wave (sound (mbc3_wave_playing 89))) 0) = 11
  /\ map (wave_ram (wave (sound (mbc3_wave_playing 89)))) [0; 1; 2; 3; 4; 5; 6; 7]
     = [0xA0; 0xA1; 0xA2; 0xA3; 0xA4; 0xA5; 0xA6; 0xA7]
  /\ map (wave_ram (wave (sound (write_apu (mbc3_wave_playing 89) APU_NR34_ADDR 0x80))))
         [0; 1; 2; 3; 4; 5; 6; 7]
     = [0xA0; 0xA1; 0xA2; 0xA3; 0xA4; 0xA5; 0xA6; 0xA7].
Proof. vm_compute. repeat split. Qed.
(** ** What the cycle update leaves alone *)

(** The devices that [update_cycles] advances write to their own part of the
    state and to IF; each lemma below says that a function leaves [cpu_view]
    as it is. *)

Lemma cpu_view_upd_sound g e : cpu_view (upd_sound g e) = cpu_view e. Proof. reflexivity. Qed.
Lemma cpu_view_upd_lcd g e : cpu_view (upd_lcd g e) = cpu_view e. Proof. reflexivity. Qed.
Lemma cpu_view_upd_dma g e : cpu_view (upd_dma g e) = cpu_view e. Proof. reflexivity. Qed.
Lemma cpu_view_upd_timer g e : cpu_view (upd_timer g e) = cpu_view e. Proof. reflexivity. Qed.
Lemma cpu_view_upd_oam g e : cpu_view (upd_oam g e) = cpu_view e. Proof. reflexivity. Qed.
Lemma cpu_view_upd_obj i g e : cpu_view (upd_obj i g e) = cpu_view e. Proof. reflexivity. Qed.
Lemma cpu_view_upd_channel c g e : cpu_view (upd_channel c g e) = cpu_view e.
Proof. reflexivity. Qed.
Lemma cpu_view_upd_wave_e g e : cpu_view (upd_wave_e g e) = cpu_view e. Proof. reflexivity. Qed.
Lemma cpu_view_upd_sweep_e g e : cpu_view (upd_sweep_e g e) = cpu_view e. Proof. reflexivity. Qed.
Lemma cpu_view_upd_noise_e g e : cpu_view (upd_noise_e g e) = cpu_view e. Proof. reflexivity. Qed.
Lemma cpu_view_set_cycles v e : cpu_view (set_cycles v e) = cpu_view e. Proof. reflexivity. Qed.
Lemma cpu_view_raise_interrupt m e : cpu_view (raise_interrupt m e) = cpu_view e.
Proof. reflexivity. Qed.

Create Rewrite HintDb cpu_view_db.
#[local] Hint Rewrite cpu_view_upd_sound cpu_view_upd_lcd cpu_view_upd_dma cpu_view_upd_timer
  cpu_view_upd_oam cpu_view_upd_obj cpu_view_upd_channel cpu_view_upd_wave_e
  cpu_view_upd_sweep_e cpu_view_upd_noise_e cpu_view_set_cycles cpu_view_raise_interrupt
  : cpu_view_db.

(** One step of a frame proof: a rewrite with the lemmas above, or a case
    distinction on an innermost scrutinee (the condition of a conditional,
    a pair that is destructured, an enumeration). *)
Ltac frame_step :=
  first
    [ reflexivity
    | progress autorewrite with cpu_view_db
    | match goal with
      | |- context [match ?x with _ => _ end] =>
        lazymatch x with
        | context [match _ with _ => _ end] => fail
        | _ => destruct x
        end
      end ].

Ltac frame := cbv zeta; repeat frame_step.

Lemma cpu_view_write_oam_no_mode_check e addr value :
  cpu_view (write_oam_no_mode_check e addr value) = cpu_view e.
Proof. unfold write_oam_no_mode_check. frame. Qed.
#[local] Hint Rewrite cpu_view_write_oam_no_mode_check : cpu_view_db.

Lemma cpu_view_update_dma_body e : cpu_view (update_dma_body e) = cpu_view e.
Proof. unfold update_dma_body. frame. Qed.

Lemma cpu_view_update_dma_loop fuel e : cpu_view (update_dma_loop fuel e) = cpu_view e.
Proof.
  revert e. induction fuel as [| fuel IH]; intros e; cbn [update_dma_loop]; [reflexivity |].
  destruct (dma_addr_offset (dma e) <? OAM_TRANSFER_SIZE); [| reflexivity].
  rewrite IH. apply cpu_view_update_dma_body.
Qed.
#[local] Hint Rewrite cpu_view_update_dma_loop : cpu_view_db.

Lemma cpu_view_update_dma_cycles e n : cpu_view (update_dma_cycles e n) = cpu_view e.
Proof. unfold update_dma_cycles. frame. Qed.

Lemma cpu_view_render_line e y : cpu_view (render_line e y) = cpu_view e.
Proof. unfold render_line. frame. Qed.
#[local] Hint Rewrite cpu_view_render_line : cpu_view_db.

Lemma cpu_view_update_lcd_cycles e n : cpu_view (update_lcd_cycles e n) = cpu_view e.
Proof. unfold update_lcd_cycles. frame. Qed.

Lemma cpu_view_increment_tima e : cpu_view (increment_tima e) = cpu_view e.
Proof. unfold increment_tima. frame. Qed.
#[local] Hint Rewrite cpu_view_increment_tima : cpu_view_db.

Lemma cpu_view_write_div_counter e d : cpu_view (write_div_counter e d) = cpu_view e.
Proof. unfold write_div_counter. frame. Qed.
#[local] Hint Rewrite cpu_view_write_div_counter : cpu_view_db.

Lemma cpu_view_update_timer_tick e : cpu_view (update_timer_tick e) = cpu_view e.
Proof. unfold update_timer_tick. frame. Qed.

Lemma cpu_view_iter (f : Emulator -> Emulator) (n : nat) e :
  (forall e, cpu_view (f e) = cpu_view e) -> cpu_view (Nat.iter n f e) = cpu_view e.
Proof.
  intros Hf. induction n as [| n IH]; [reflexivity |].
  cbn [Nat.iter nat_rect]. rewrite Hf. exact IH.
Qed.

Lemma cpu_view_update_timer_cycles e n : cpu_view (update_timer_cycles e n) = cpu_view e.
Proof. apply cpu_view_iter, cpu_view_update_timer_tick. Qed.

Lemma cpu_view_update_channel_sweep e c : cpu_view (update_channel_sweep e c) = cpu_view e.
Proof. unfold update_channel_sweep. frame. Qed.
#[local] Hint Rewrite cpu_view_update_channel_sweep : cpu_view_db.

(** A frame proof of [let e := X in body], without a case distinction in [X]
    being carried into [body]: [X] keeps the view, and is then abstracted. *)
Ltac peel :=
  lazymatch goal with
  | |- cpu_view (let x := ?X in @?b x) = cpu_view ?e =>
    let H := fresh "H" in
    assert (H : cpu_view X = cpu_view e) by frame;
    let e1 := fresh "e" in
    pose (e1 := X);
    change (cpu_view e1 = cpu_view e) in H;
    change (cpu_view (b e1) = cpu_view e); cbv beta;
    clearbody e1;
    transitivity (cpu_view e1); [clear H | exact H]
  end.

Lemma cpu_view_update_sound_tick e : cpu_view (update_sound_tick e) = cpu_view e.
Proof.
  cbv beta delta [update_sound_tick].
  peel. peel.
  destruct (VALUE_WRAPPED (sound_frame_cycles (sound e1)) FRAME_SEQUENCER_CYCLES)
    as [fc wrapped].
  peel.
  match goal with
  | |- cpu_view (match ?T with _ => _ end) = cpu_view ?e =>
    assert (H : cpu_view (fst (fst (fst T))) = cpu_view e) by frame;
    destruct T as [[[e3 do_length] do_envelope] do_sweep]; cbn [fst] in H;
    transitivity (cpu_view e3); [clear H | exact H]
  end.
  repeat peel. frame.
Qed.

Lemma cpu_view_update_sound_cycles e n : cpu_view (update_sound_cycles e n) = cpu_view e.
Proof.
  unfold update_sound_cycles. destruct (negb (sound_enabled (sound e))); [reflexivity |].
  cbv zeta. rewrite cpu_view_iter by apply cpu_view_update_sound_tick. reflexivity.
Qed.

(** [update_cycles] leaves the registers, IME, IE, the pending EI and the
    HALT flags as they are. *)
Lemma cpu_view_update_cycles e n : cpu_view (update_cycles e n) = cpu_view e.
Proof.
  unfold update_cycles. cbv zeta.
  rewrite cpu_view_set_cycles, cpu_view_update_sound_cycles, cpu_view_update_timer_cycles,
    cpu_view_update_lcd_cycles, cpu_view_update_dma_cycles.
  reflexivity.
Qed.
(** ** The CPU: fetch, HALT and the interrupt check *)

Lemma cpu_view_inv (e e' : Emulator) :
  cpu_view e' = cpu_view e ->
  reg e' = reg e
  /\ IME (interrupts e') = IME (interrupts e)
  /\ IE (interrupts e') = IE (interrupts e)
  /\ enable (interrupts e') = enable (interrupts e)
  /\ halt (interrupts e') = halt (interrupts e)
  /\ halt_DI (interrupts e') = halt_DI (interrupts e).
Proof.
  unfold cpu_view. intros H. injection H as H1 H2 H3 H4 H5 H6. repeat split; assumption.
Qed.

(** [execute_instruction] by the state of the CPU, with no EI pending. *)
Lemma execute_instruction_halted (e : Emulator) :
  enable (interrupts e) = false -> halt (interrupts e) = true ->
  execute_instruction e = Some (update_cycles e 4).
Proof. intros He Hh. unfold execute_instruction. rewrite He. cbv zeta. rewrite Hh. reflexivity. Qed.

Lemma execute_instruction_running (e : Emulator) :
  enable (interrupts e) = false -> halt (interrupts e) = false ->
  halt_DI (interrupts e) = false ->
  execute_instruction e = execute_opcode e (read_u8 e (RPC e)).
Proof.
  intros He Hh Hd. unfold execute_instruction. rewrite He. cbv zeta. rewrite Hh, Hd.
  reflexivity.
Qed.

Lemma execute_instruction_halt_DI (e : Emulator) :
  enable (interrupts e) = false -> halt (interrupts e) = false ->
  halt_DI (interrupts e) = true ->
  execute_instruction e
  = execute_opcode (set_INTR_halt_DI false (set_RPC (u16 (RPC e - 1)) e)) (read_u8 e (RPC e)).
Proof.
  intros He Hh Hd. unfold execute_instruction. rewrite He. cbv zeta. rewrite Hh, Hd.
  reflexivity.
Qed.

(** The three opcodes of the interrupt state. *)
Lemma execute_opcode_HALT (e : Emulator) :
  execute_opcode e 0x76
  = Some (set_RPC (u16 (RPC e + 1))
            (set_INTR_halt_DI (negb (IME (interrupts (update_cycles e 0))))
               (set_INTR_halt true (update_cycles e 0)))).
Proof. reflexivity. Qed.

Lemma execute_opcode_EI (e : Emulator) :
  execute_opcode e 0xFB
  = Some (set_RPC (u16 (RPC e + 1)) (set_INTR_enable true (update_cycles e 4))).
Proof. reflexivity. Qed.

Lemma execute_opcode_DI (e : Emulator) :
  execute_opcode e 0xF3
  = Some (set_RPC (u16 (RPC e + 1))
            (set_INTR_IME false (set_INTR_enable false (update_cycles e 4)))).
Proof. reflexivity. Qed.

(** [handle_interrupts] does nothing with IME and [halt] both clear. *)
Lemma handle_interrupts_idle (e : Emulator) :
  IME (interrupts e) = false -> halt (interrupts e) = false -> handle_interrupts e = Some e.
Proof. intros Hi Hh. unfold handle_interrupts. rewrite Hi, Hh. reflexivity. Qed.

Lemma land_0x1F_zero (x : Z) :
  Z.land x INTERRUPT_VBLANK_MASK = 0 -> Z.land x INTERRUPT_LCD_STAT_MASK = 0 ->
  Z.land x INTERRUPT_TIMER_MASK = 0 -> Z.land x INTERRUPT_SERIAL_MASK = 0 ->
  Z.land x INTERRUPT_JOYPAD_MASK = 0 -> Z.land x 0x1F = 0.
Proof.
  intros H0 H1 H2 H3 H4.
  change 0x1F with (Z.lor INTERRUPT_VBLANK_MASK (Z.lor INTERRUPT_LCD_STAT_MASK
                     (Z.lor INTERRUPT_TIMER_MASK (Z.lor INTERRUPT_SERIAL_MASK
                        INTERRUPT_JOYPAD_MASK)))).
  rewrite !Z.land_lor_distr_r, H0, H1, H2, H3, H4. reflexivity.
Qed.

(** With nothing to dispatch, [handle_interrupts] does nothing. *)
Lemma handle_interrupts_not_pending (e : Emulator) :
  pending e = 0 -> handle_interrupts e = Some e.
Proof.
  intros Hp. unfold handle_interrupts.
  destruct (negb (IME (interrupts e) || halt (interrupts e))); [reflexivity |].
  cbv zeta. set (i := Z.land (IF_ (interrupts e)) (IE (interrupts e))) in *.
  destruct (i =? 0); [reflexivity |].
  unfold pending in Hp. fold i in Hp.
  change 0x1F with (Z.lor INTERRUPT_VBLANK_MASK (Z.lor INTERRUPT_LCD_STAT_MASK
                     (Z.lor INTERRUPT_TIMER_MASK (Z.lor INTERRUPT_SERIAL_MASK
                        INTERRUPT_JOYPAD_MASK)))) in Hp.
  rewrite !Z.land_lor_distr_r in Hp.
  apply Z.lor_eq_0_iff in Hp. destruct Hp as [H0 Hp].
  apply Z.lor_eq_0_iff in Hp. destruct Hp as [H1 Hp].
  apply Z.lor_eq_0_iff in Hp. destruct Hp as [H2 Hp].
  apply Z.lor_eq_0_iff in Hp. destruct Hp as [H3 H4].
  rewrite H0, H1, H2, H3, H4. reflexivity.
Qed.

(** A halted CPU whose HALT was executed with IME = 0 wakes on an interrupt
    that can be dispatched, and nothing else changes: IF keeps the request,
    nothing is pushed, PC stays. *)
Lemma handle_interrupts_wake (e : Emulator) :
  halt (interrupts e) = true -> halt_DI (interrupts e) = true -> pending e <> 0 ->
  handle_interrupts e = Some (set_INTR_halt false e).
Proof.
  intros Hh Hd Hp. unfold handle_interrupts. rewrite Hh, orb_true_r. cbn [negb].
  cbv zeta. unfold pending in Hp.
  set (i := Z.land (IF_ (interrupts e)) (IE (interrupts e))) in *.
  destruct (Z.eqb_spec i 0) as [Hi | _]; [rewrite Hi in Hp; contradiction |].
  rewrite Hd.
  destruct (Z.eqb_spec (Z.land i INTERRUPT_VBLANK_MASK) 0) as [H0 |]; [| reflexivity].
  destruct (Z.eqb_spec (Z.land i INTERRUPT_LCD_STAT_MASK) 0) as [H1 |]; [| reflexivity].
  destruct (Z.eqb_spec (Z.land i INTERRUPT_TIMER_MASK) 0) as [H2 |]; [| reflexivity].
  destruct (Z.eqb_spec (Z.land i INTERRUPT_SERIAL_MASK) 0) as [H3 |]; [| reflexivity].
  destruct (Z.eqb_spec (Z.land i INTERRUPT_JOYPAD_MASK) 0) as [H4 |]; [| reflexivity].
  exfalso. apply Hp. apply land_0x1F_zero; assumption.
Qed.

(** ** Instructions on the registers alone *)

(** Such a macro returns, leaves [new_pc] as it is, and leaves the interrupt
    state as it is. *)
Lemma exec_op_reg_only (op : Op) (e : Emulator) (new_pc : Z) :
  reg_only_op op = true ->
  exists e', exec_op op e new_pc = Some (e', new_pc) /\ interrupts e' = interrupts e.
Proof.
  destruct op; try discriminate; intros _; cbn [exec_op];
    (eexists; split; [reflexivity |]);
    repeat match goal with
           | r : R8 |- _ => destruct r
           | rr : R16 |- _ => destruct rr
           end;
    try reflexivity.
  unfold do_DAA. cbv zeta.
  repeat match goal with
         | |- context [match ?x with _ => _ end] =>
           lazymatch x with
           | context [match _ with _ => _ end] => fail
           | _ => destruct x
           end
         end; reflexivity.
Qed.

Lemma exec_ops_reg_only (ops : list Op) (e : Emulator) (new_pc : Z) :
  forallb reg_only_op ops = true ->
  exists e', exec_ops ops e new_pc = Some (e', new_pc) /\ interrupts e' = interrupts e.
Proof.
  revert e. induction ops as [| op ops IH]; intros e Hall; cbn [exec_ops].
  - exists e. split; reflexivity.
  - cbn [forallb] in Hall. apply andb_prop in Hall. destruct Hall as [Hop Hall].
    destruct (exec_op_reg_only op e new_pc Hop) as (e1 & -> & He1).
    destruct (IH e1 Hall) as (e2 & -> & He2).
    exists e2. split; [reflexivity |]. rewrite He2. exact He1.
Qed.

Lemma reg_only_opcode_not_cb (opcode : Z) : reg_only_opcode opcode = true -> (opcode =? 0xcb) = false.
Proof.
  intros H. destruct (Z.eqb_spec opcode 0xcb) as [-> |]; [discriminate H | reflexivity].
Qed.

(** A one-byte opcode on the registers alone: the instruction returns, PC
    advances by one, and the interrupt state is that of the entry. *)
Lemma execute_opcode_reg_only (e : Emulator) (opcode : Z) :
  reg_only_opcode opcode = true ->
  exists e',
    execute_opcode e opcode = Some e'
    /\ RPC e' = u16 (RPC e + 1)
    /\ IME (interrupts e') = IME (interrupts e)
    /\ enable (interrupts e') = enable (interrupts e)
    /\ halt (interrupts e') = halt (interrupts e)
    /\ halt_DI (interrupts e') = halt_DI (interrupts e).
Proof.
  intros Hop. unfold execute_opcode. rewrite (reg_only_opcode_not_cb _ Hop). cbv zeta.
  unfold reg_only_opcode in Hop. apply andb_prop in Hop. destruct Hop as [Hb Hops].
  apply Z.eqb_eq in Hb. rewrite Hb.
  destruct (exec_ops_reg_only (opcode_ops opcode) (update_cycles e (s_opcode_cycles opcode))
              (u16 (reg_PC (reg e) + 1)) Hops) as (e1 & -> & He1).
  eexists. split; [reflexivity |].
  destruct (cpu_view_inv _ _ (cpu_view_update_cycles e (s_opcode_cycles opcode)))
    as (_ & Hi & _ & Hen & Hh & Hd).
  rewrite <- Hi, <- Hen, <- Hh, <- Hd.
  change (interrupts (set_RPC (u16 (reg_PC (reg e) + 1)) e1)) with (interrupts e1).
  rewrite He1. repeat split; reflexivity.
Qed.

Lemma u16_range (x : Z) : 0 <= u16 x < 0x10000.
Proof. unfold u16. apply Z.mod_pos_bound. reflexivity. Qed.

Lemma u16_pred_succ (x : Z) : 0 <= x < 0x10000 -> u16 (u16 (x - 1) + 1) = x.
Proof.
  intros Hx. unfold u16. rewrite Z.add_mod_idemp_l by lia. replace (x - 1 + 1) with x by lia.
  apply Z.mod_small. exact Hx.
Qed.

(** The HALT bug: a fetch with [halt_DI] set. *)
Lemma halt_bug (w : Emulator) :
  enable (interrupts w) = false -> halt (interrupts w) = false ->
  halt_DI (interrupts w) = true -> IME (interrupts w) = false ->
  0 <= RPC w < 0x10000 ->
  halt_bug_at w.
Proof.
  intros He Hh Hd Hi Hpc. split; [apply execute_instruction_halt_DI; assumption |].
  intros Hop. unfold step_emulator.
  rewrite execute_instruction_halt_DI by assumption.
  destruct (execute_opcode_reg_only
              (set_INTR_halt_DI false (set_RPC (u16 (RPC w - 1)) w)) _ Hop)
    as (e2 & -> & Hpc2 & Hi2 & He2 & Hh2 & Hd2).
  cbn in Hi2, He2, Hh2, Hd2. rewrite Hi in Hi2. rewrite He in He2. rewrite Hh in Hh2.
  change (RPC (set_INTR_halt_DI false (set_RPC (u16 (RPC w - 1)) w)))
    with (u16 (RPC w - 1)) in Hpc2.
  rewrite u16_pred_succ in Hpc2 by exact Hpc.
  exists e2. rewrite handle_interrupts_idle by assumption.
  repeat split; try assumption.
  apply execute_instruction_running; assumption.
Qed.
(** ** EI and DI *)

Lemma execute_instruction_pending_EI (e : Emulator) :
  enable (interrupts e) = true ->
  execute_instruction e = execute_instruction (set_INTR_IME true (set_INTR_enable false e)).
Proof. intros H. unfold execute_instruction at 1. rewrite H. reflexivity. Qed.

Lemma read_u8_set_IME_enable (e : Emulator) (b c : bool) (addr : Z) :
  read_u8 (set_INTR_IME b (set_INTR_enable c e)) addr = read_u8 e addr.
Proof. reflexivity. Qed.

(** The fetch of an instruction by a CPU that is not halted and has no EI
    pending: the opcode is the byte at PC, and [halt_DI] is clear when it is
    executed. *)
Lemma execute_instruction_fetch (e : Emulator) :
  enable (interrupts e) = false -> halt (interrupts e) = false ->
  exists e',
    execute_instruction e = execute_opcode e' (read_u8 e (RPC e))
    /\ IME (interrupts e') = IME (interrupts e)
    /\ enable (interrupts e') = false
    /\ halt (interrupts e') = false
    /\ halt_DI (interrupts e') = false.
Proof.
  intros He Hh. destruct (halt_DI (interrupts e)) eqn:Hd.
  - eexists. split; [apply execute_instruction_halt_DI; assumption |].
    cbn. repeat split; assumption.
  - exists e. split; [apply execute_instruction_running; assumption |].
    repeat split; assumption.
Qed.

(** C8, as the code has it.  EI executed with IME = 0 and no EI pending, then
    DI: the interrupt
    check after EI leaves the state as it is (IME is still 0, the EI is
    pending), and when the next opcode is DI, DI returns with IME = 0 and no
    EI pending, and the interrupt check after it leaves the state as it is
    too.  IE, IF and the rest of the state are arbitrary. *)
Theorem C8_ei_then_di_no_dispatch (e : Emulator) :
  IME (interrupts e) = false ->
  enable (interrupts e) = false ->
  halt (interrupts e) = false ->
  read_u8 e (RPC e) = 0xFB ->
  exists e1,
    execute_instruction e = Some e1
    /\ IME (interrupts e1) = false
    /\ enable (interrupts e1) = true
    /\ handle_interrupts e1 = Some e1
    /\ (read_u8 e1 (RPC e1) = 0xF3 ->
        exists e2,
          execute_instruction e1 = Some e2
          /\ IME (interrupts e2) = false
          /\ enable (interrupts e2) = false
          /\ handle_interrupts e2 = Some e2).
Proof.
  intros Hi He Hh Hop.
  destruct (execute_instruction_fetch e He Hh) as (e' & Hex & Hi' & _ & Hh' & Hd').
  rewrite Hop, execute_opcode_EI in Hex. rewrite Hi in Hi'.
  pose proof (cpu_view_inv _ _ (cpu_view_update_cycles e' 4)) as Hv.
  rewrite Hi', Hh', Hd' in Hv.
  revert Hex Hv. generalize (update_cycles e' 4).
  intros u Hex (_ & Hi4 & _ & _ & Hh4 & Hd4).
  assert (He1 : enable (interrupts (set_RPC (u16 (RPC e' + 1)) (set_INTR_enable true u)))
                = true) by reflexivity.
  revert Hex He1.
  change (IME (interrupts u))
    with (IME (interrupts (set_RPC (u16 (RPC e' + 1)) (set_INTR_enable true u)))) in Hi4.
  change (halt (interrupts u))
    with (halt (interrupts (set_RPC (u16 (RPC e' + 1)) (set_INTR_enable true u)))) in Hh4.
  change (halt_DI (interrupts u))
    with (halt_DI (interrupts (set_RPC (u16 (RPC e' + 1)) (set_INTR_enable true u)))) in Hd4.
  revert Hi4 Hh4 Hd4.
  generalize (set_RPC (u16 (RPC e' + 1)) (set_INTR_enable true u)).
  intros e1 Hi1 Hh1 Hd1 Hex He1.
  exists e1. split; [exact Hex |].
  split; [exact Hi1 |]. split; [exact He1 |].
  split; [apply handle_interrupts_idle; assumption |].
  intros Hop1.
  rewrite (execute_instruction_pending_EI e1 He1).
  rewrite execute_instruction_running; [| reflexivity | exact Hh1 | exact Hd1].
  rewrite read_u8_set_IME_enable.
  change (RPC (set_INTR_IME true (set_INTR_enable false e1))) with (RPC e1).
  rewrite Hop1, execute_opcode_DI.
  pose proof (cpu_view_inv _ _
                (cpu_view_update_cycles (set_INTR_IME true (set_INTR_enable false e1)) 4))
    as (_ & _ & _ & _ & Hh5 & _).
  change (halt (interrupts (set_INTR_IME true (set_INTR_enable false e1))))
    with (halt (interrupts e1)) in Hh5.
  rewrite Hh1 in Hh5. revert Hh5.
  generalize (update_cycles (set_INTR_IME true (set_INTR_enable false e1)) 4).
  intros u' Hh5.
  eexists. split; [reflexivity |]. split; [reflexivity |]. split; [reflexivity |].
  apply handle_interrupts_idle; [reflexivity | exact Hh5].
Qed.

(** C8 on the cartridge [rom_ei_di], four instructions after its start: IME
    is 0, IE = IF = 0x1F, and EI at 0x0107 is followed by DI. *)
Lemma C8_ei_then_di_no_dispatch_witness :
  exists e1 e2,
    execute_instruction (after 4 rom_ei_di) = Some e1
    /\ handle_interrupts e1 = Some e1
    /\ execute_instruction e1 = Some e2
    /\ handle_interrupts e2 = Some e2
    /\ IME (interrupts e2) = false.
Proof.
  assert (Hi : IME (interrupts (after 4 rom_ei_di)) = false) by (vm_compute; reflexivity).
  assert (He : enable (interrupts (after 4 rom_ei_di)) = false) by (vm_compute; reflexivity).
  assert (Hh : halt (interrupts (after 4 rom_ei_di)) = false) by (vm_compute; reflexivity).
  assert (Hop0 : read_u8 (after 4 rom_ei_di) (RPC (after 4 rom_ei_di)) = 0xFB)
    by (vm_compute; reflexivity).
  destruct (C8_ei_then_di_no_dispatch (after 4 rom_ei_di) Hi He Hh Hop0)
    as (e1 & Hex & _ & _ & Hh1 & Hnext).
  assert (Hop : option_map (fun e1 => read_u8 e1 (RPC e1))
                           (execute_instruction (after 4 rom_ei_di)) = Some 0xF3)
    by (vm_compute; reflexivity).
  rewrite Hex in Hop. cbn [option_map] in Hop. injection Hop as Hop.
  destruct (Hnext Hop) as (e2 & Hex2 & Hi2 & _ & Hh2).
  exists e1, e2. repeat split; assumption.
Defined.

(** C8 as stated fails on the cartridge [rom_timer_ei_di], where IME is 1 from
    the start.  After seven instructions PC is at the EI at 0x010D, which DI
    follows at 0x010E; IME is 1, no EI is pending, the timer interrupt is
    enabled (IE = 4) and not requested (IF = 1).  The timer requests it in
    the machine cycle of EI (IF = 5), and the interrupt check after EI
    dispatches it: after eight instructions PC is at the vector 0x0050, the
    address of DI is on the stack, the Timer bit of IF is clear again and
    IME is 0.  The interrupt is dispatched between EI and DI. *)
Lemma C8_ei_with_ime_set_dispatches :
  returns 8 rom_timer_ei_di = true
  /\ (RPC (after 7 rom_timer_ei_di) = 0x010D
      /\ read_u8 (after 7 rom_timer_ei_di) 0x010D = 0xFB
      /\ read_u8 (after 7 rom_timer_ei_di) 0x010E = 0xF3
      /\ IME (interrupts (after 7 rom_timer_ei_di)) = true
      /\ enable (interrupts (after 7 rom_timer_ei_di)) = false
      /\ halt (interrupts (after 7 rom_timer_ei_di)) = false
      /\ IE (interrupts (after 7 rom_timer_ei_di)) = 4
      /\ IF_ (interrupts (after 7 rom_timer_ei_di)) = 1
      /\ RSP (after 7 rom_timer_ei_di) = 0xFFFE)
  /\ IF_ (interrupts (update_cycles (after 7 rom_timer_ei_di) 4)) = 5
  /\ (RPC (after 8 rom_timer_ei_di) = 0x0050
      /\ RSP (after 8 rom_timer_ei_di) = 0xFFFC
      /\ read_u16 (after 8 rom_timer_ei_di) 0xFFFC = 0x010E
      /\ IF_ (interrupts (after 8 rom_timer_ei_di)) = 1
      /\ IME (interrupts (after 8 rom_timer_ei_di)) = false).
Proof. vm_compute. repeat split. Qed.
(** ** HALT with IME = 0 *)

(** The step that executes HALT with IME = 0, up to the interrupt check: the
    state that [handle_interrupts] is given. *)
Lemma execute_instruction_HALT (e : Emulator) :
  halt (interrupts e) = false -> enable (interrupts e) = false ->
  IME (interrupts e) = false -> halt_DI (interrupts e) = false ->
  read_u8 e (RPC e) = 0x76 ->
  exists s,
    execute_instruction e = Some s
    /\ halted_DI (set_reg_PC (u16 (RPC e + 1)) (reg e)) s
    /\ IF_ (interrupts s) = IF_ (interrupts (update_cycles e 0))
    /\ pending s = pending (update_cycles e 0).
Proof.
  intros Hh He Hi Hd Hop.
  rewrite (execute_instruction_running e He Hh Hd), Hop, execute_opcode_HALT.
  pose proof (cpu_view_inv _ _ (cpu_view_update_cycles e 0)) as Hv.
  rewrite Hi, He in Hv.
  revert Hv. generalize (update_cycles e 0). intros u (Hr & Hi0 & _ & He0 & _ & _).
  rewrite Hi0. cbn [negb].
  eexists. split; [reflexivity |]. split; [| split; reflexivity].
  unfold halted_DI. split; [reflexivity |]. split; [reflexivity |].
  split; [exact Hi0 |]. split; [exact He0 |].
  cbn [reg set_RPC upd_reg set_reg set_INTR_halt_DI set_INTR_halt upd_interrupts
       set_interrupts].
  rewrite Hr. reflexivity.
Qed.

(** The interrupt check of a CPU halted with IME = 0 that finds an interrupt
    to dispatch: the CPU wakes, and the HALT bug is armed. *)
Lemma halted_DI_wake (r : Registers) (s : Emulator) :
  halted_DI r s -> pending s <> 0 -> 0 <= reg_PC r < 0x10000 ->
  exists w,
    handle_interrupts s = Some w
    /\ halt (interrupts w) = false
    /\ IME (interrupts w) = false
    /\ reg w = r
    /\ IF_ (interrupts w) = IF_ (interrupts s)
    /\ halt_bug_at w.
Proof.
  intros (Hh & Hd & Hi & He & Hr) Hp Hpc.
  rewrite (handle_interrupts_wake s Hh Hd Hp).
  eexists. split; [reflexivity |]. split; [reflexivity |].
  split; [exact Hi |]. split; [exact Hr |]. split; [reflexivity |].
  apply halt_bug; [exact He | reflexivity | exact Hd | exact Hi |].
  change (RPC (set_INTR_halt false s)) with (reg_PC (reg s)). rewrite Hr. exact Hpc.
Qed.

(** HALT executed with IME = 0, from the state the opcode is executed in. *)
Lemma execute_opcode_HALT_DI (e : Emulator) :
  enable (interrupts e) = false -> IME (interrupts e) = false ->
  exists s,
    execute_opcode e 0x76 = Some s
    /\ halted_DI (set_reg_PC (u16 (RPC e + 1)) (reg e)) s
    /\ IF_ (interrupts s) = IF_ (interrupts (update_cycles e 0))
    /\ pending s = pending (update_cycles e 0).
Proof.
  intros He Hi. rewrite execute_opcode_HALT.
  pose proof (cpu_view_inv _ _ (cpu_view_update_cycles e 0)) as Hv.
  rewrite Hi, He in Hv.
  revert Hv. generalize (update_cycles e 0). intros u (Hr & Hi0 & _ & He0 & _ & _).
  rewrite Hi0. cbn [negb].
  eexists. split; [reflexivity |]. split; [| split; reflexivity].
  unfold halted_DI. split; [reflexivity |]. split; [reflexivity |].
  split; [exact Hi0 |]. split; [exact He0 |].
  cbn [reg set_RPC upd_reg set_reg set_INTR_halt_DI set_INTR_halt upd_interrupts
       set_interrupts].
  rewrite Hr. reflexivity.
Qed.

(** The fetch of an opcode by a CPU that is not halted and has no EI
    pending. *)
Lemma execute_instruction_fetched (e : Emulator) :
  enable (interrupts e) = false -> halt (interrupts e) = false ->
  execute_instruction e = execute_opcode (fetched e) (read_u8 e (RPC e)).
Proof.
  intros He Hh. unfold fetched. destruct (halt_DI (interrupts e)) eqn:Hd.
  - apply execute_instruction_halt_DI; assumption.
  - apply execute_instruction_running; assumption.
Qed.

Lemma set_reg_PC_twice (a b : Z) (r : Registers) :
  set_reg_PC a (set_reg_PC b r) = set_reg_PC a r.
Proof. destruct r. reflexivity. Qed.

(** C1, as the code has it.  HALT executed with IME = 0 and an interrupt
    among the five that can be dispatched both enabled and requested (a low
    bit of [IE & IF] set, in the state HALT is executed in, after the cycle
    update of the instruction): the step returns with the CPU not halted and
    nothing dispatched (IME is 0, IF keeps the request, the registers are as
    before but for PC).  PC is at the byte following HALT; but when HALT was
    itself fetched with [halt_DI] set (it follows a HALT executed with
    IME = 0), it is executed with PC set back by one, and PC is at this HALT
    again.  In both cases the HALT bug is armed ([halt_bug_at]): the byte at
    PC is the next opcode, it is executed with PC set back by one, and when
    it is a one-byte opcode on the registers alone it is fetched a second
    time. *)
Theorem C1_halt_bug_after_halt (e : Emulator) :
  halt (interrupts e) = false ->
  enable (interrupts e) = false ->
  IME (interrupts e) = false ->
  read_u8 e (RPC e) = 0x76 ->
  pending (update_cycles (fetched e) 0) <> 0 ->
  exists e1,
    step_emulator e = Some e1
    /\ halt (interrupts e1) = false
    /\ IME (interrupts e1) = false
    /\ reg e1 = set_reg_PC (u16 (RPC (fetched e) + 1)) (reg e)
    /\ IF_ (interrupts e1) = IF_ (interrupts (update_cycles (fetched e) 0))
    /\ halt_bug_at e1
    /\ (halt_DI (interrupts e) = false -> RPC e1 = u16 (RPC e + 1))
    /\ (halt_DI (interrupts e) = true -> 0 <= RPC e < 0x10000 -> RPC e1 = RPC e).
Proof.
  intros Hh He Hi Hop Hp. unfold step_emulator.
  rewrite (execute_instruction_fetched e He Hh), Hop.
  assert (He0 : enable (interrupts (fetched e)) = false)
    by (unfold fetched; destruct (halt_DI (interrupts e)); exact He).
  assert (Hi0 : IME (interrupts (fetched e)) = false)
    by (unfold fetched; destruct (halt_DI (interrupts e)); exact Hi).
  destruct (execute_opcode_HALT_DI (fetched e) He0 Hi0) as (s & -> & Hs & Hif & Hps).
  rewrite <- Hps in Hp. rewrite <- Hif.
  destruct (halted_DI_wake _ s Hs Hp) as (w & Hw & Hhw & Hiw & Hrw & Hifw & Hbug).
  { apply u16_range. }
  assert (Hreg : reg w = set_reg_PC (u16 (RPC (fetched e) + 1)) (reg e)).
  { rewrite Hrw. unfold fetched. destruct (halt_DI (interrupts e)); [| reflexivity].
    cbn [reg set_INTR_halt_DI set_RPC upd_reg set_reg upd_interrupts set_interrupts].
    apply set_reg_PC_twice. }
  exists w. split; [exact Hw |].
  repeat (split; [assumption |]).
  split; intros Hd.
  - unfold RPC at 1. rewrite Hreg. unfold fetched. rewrite Hd.
    destruct (reg e); reflexivity.
  - intros Hpc. unfold RPC at 1. rewrite Hreg. unfold fetched. rewrite Hd.
    change (RPC (set_INTR_halt_DI false (set_RPC (u16 (RPC e - 1)) e))) with (u16 (RPC e - 1)).
    rewrite u16_pred_succ by exact Hpc. destruct e as [? ? ? ? r]; destruct r; reflexivity.
Qed.

(** C1 on the cartridge [rom_halt_inc], four instructions after its start:
    HALT at 0x0107 with IME = 0 and IE = IF = 4; the byte that follows is
    INC B, which is executed with PC ending at 0x0108 again.  And on the
    cartridge [rom_halt_halt], five instructions after its start: the HALT
    at 0x0108 follows the HALT at 0x0107 and is fetched with [halt_DI] set;
    the step ends with PC at 0x0108 again. *)
Lemma C1_halt_bug_after_halt_witness :
  (exists e1 e2,
     step_emulator (after 4 rom_halt_inc) = Some e1
     /\ halt (interrupts e1) = false
     /\ RPC e1 = 0x0108
     /\ step_emulator e1 = Some e2
     /\ RPC e2 = 0x0108
     /\ execute_instruction e2 = execute_opcode e2 (read_u8 e2 (RPC e2)))
  /\ (RPC (after 5 rom_halt_halt) = 0x0108
      /\ halt_DI (interrupts (after 5 rom_halt_halt)) = true
      /\ exists e1,
           step_emulator (after 5 rom_halt_halt) = Some e1
           /\ halt (interrupts e1) = false
           /\ RPC e1 = 0x0108
           /\ halt_bug_at e1).
Proof.
  split.
  - assert (Hh : halt (interrupts (after 4 rom_halt_inc)) = false)
      by (vm_compute; reflexivity).
    assert (He : enable (interrupts (after 4 rom_halt_inc)) = false)
      by (vm_compute; reflexivity).
    assert (Hi : IME (interrupts (after 4 rom_halt_inc)) = false)
      by (vm_compute; reflexivity).
    assert (Hop : read_u8 (after 4 rom_halt_inc) (RPC (after 4 rom_halt_inc)) = 0x76)
      by (vm_compute; reflexivity).
    assert (Hp : pending (update_cycles (fetched (after 4 rom_halt_inc)) 0) <> 0)
      by (intros H; vm_compute in H; discriminate H).
    destruct (C1_halt_bug_after_halt (after 4 rom_halt_inc) Hh He Hi Hop Hp)
      as (e1 & Hex & Hh1 & _ & Hr1 & _ & (_ & Htwice) & _).
    assert (Hpc : option_map RPC (step_emulator (after 4 rom_halt_inc)) = Some 0x0108)
      by (vm_compute; reflexivity).
    rewrite Hex in Hpc. cbn [option_map] in Hpc. injection Hpc as Hpc.
    assert (Hop1 : option_map (fun e1 => reg_only_opcode (read_u8 e1 (RPC e1)))
                              (step_emulator (after 4 rom_halt_inc)) = Some true)
      by (vm_compute; reflexivity).
    rewrite Hex in Hop1. cbn [option_map] in Hop1. injection Hop1 as Hop1.
    destruct (Htwice Hop1) as (e2 & Hex2 & Hpc2 & _ & Hfetch).
    exists e1, e2. rewrite Hpc in Hpc2. repeat (split; [assumption |]). exact Hfetch.
  - assert (Hh : halt (interrupts (after 5 rom_halt_halt)) = false)
      by (vm_compute; reflexivity).
    assert (He : enable (interrupts (after 5 rom_halt_halt)) = false)
      by (vm_compute; reflexivity).
    assert (Hi : IME (interrupts (after 5 rom_halt_halt)) = false)
      by (vm_compute; reflexivity).
    assert (Hop : read_u8 (after 5 rom_halt_halt) (RPC (after 5 rom_halt_halt)) = 0x76)
      by (vm_compute; reflexivity).
    assert (Hp : pending (update_cycles (fetched (after 5 rom_halt_halt)) 0) <> 0)
      by (intros H; vm_compute in H; discriminate H).
    assert (Hd : halt_DI (interrupts (after 5 rom_halt_halt)) = true)
      by (vm_compute; reflexivity).
    assert (Hpc : RPC (after 5 rom_halt_halt) = 0x0108) by (vm_compute; reflexivity).
    split; [exact Hpc |]. split; [exact Hd |].
    destruct (C1_halt_bug_after_halt (after 5 rom_halt_halt) Hh He Hi Hop Hp)
      as (e1 & Hex & Hh1 & _ & _ & _ & Hbug & _ & Hback).
    exists e1. split; [exact Hex |]. split; [exact Hh1 |].
    split; [| exact Hbug].
    rewrite <- Hpc. apply Hback; [exact Hd |]. rewrite Hpc. lia.
Defined.

(** C1 as stated fails on the cartridge [rom_halt_ld]: HALT at 0x0107 is
    executed with IME = 0 and IE & IF = 4, and the byte that follows, 0x3E,
    is the opcode of one instruction only.  It is executed as LD A,n with
    itself as the operand (A = 0x3E, PC = 0x0109), and the opcode of the
    instruction after it is the byte at 0x0109, 0x14 (INC D: D becomes 1). *)
Lemma C1_halt_then_two_byte_opcode :
  returns 7 rom_halt_ld = true
  /\ (RPC (after 4 rom_halt_ld) = 0x0107
      /\ read_u8 (after 4 rom_halt_ld) 0x0107 = 0x76
      /\ IME (interrupts (after 4 rom_halt_ld)) = false
      /\ Z.land (IE (interrupts (after 4 rom_halt_ld)))
                (IF_ (interrupts (after 4 rom_halt_ld))) = 4)
  /\ (RPC (after 5 rom_halt_ld) = 0x0108
      /\ halt (interrupts (after 5 rom_halt_ld)) = false
      /\ read_u8 (after 5 rom_halt_ld) 0x0108 = 0x3E
      /\ reg_A (reg (after 5 rom_halt_ld)) = 0x04)
  /\ (RPC (after 6 rom_halt_ld) = 0x0109
      /\ reg_A (reg (after 6 rom_halt_ld)) = 0x3E
      /\ read_u8 (after 6 rom_halt_ld) 0x0109 = 0x14
      /\ reg_D (reg (after 6 rom_halt_ld)) = 0)
  /\ (RPC (after 7 rom_halt_ld) = 0x010A
      /\ reg_A (reg (after 7 rom_halt_ld)) = 0x3E
      /\ reg_D (reg (after 7 rom_halt_ld)) = 1).
Proof. vm_compute. repeat split. Qed.

(** C2, as the code has it.  HALT executed with IME = 0 and none of the five
    interrupts that can be dispatched both enabled and requested (in
    particular with [IE & IF] = 0): the step returns with the CPU halted and
    PC at the byte following HALT.  A CPU so halted stays as it is, but for
    the clock and the devices, over every step after whose 4 cycles no such
    interrupt is enabled and requested.  The step after whose 4 cycles one
    is wakes the CPU without a dispatch (IME is 0, IF keeps the request, the
    registers are unchanged), but with the HALT bug armed ([halt_bug_at]):
    the instruction following HALT is executed with PC set back by one, and
    when it is a one-byte opcode on the registers alone it is fetched a
    second time. *)
Theorem C2_halt_then_wake (e : Emulator) :
  halt (interrupts e) = false ->
  enable (interrupts e) = false ->
  IME (interrupts e) = false ->
  halt_DI (interrupts e) = false ->
  read_u8 e (RPC e) = 0x76 ->
  pending (update_cycles e 0) = 0 ->
  let r := set_reg_PC (u16 (RPC e + 1)) (reg e) in
  exists e1,
    step_emulator e = Some e1
    /\ halted_DI r e1
    /\ forall s,
         halted_DI r s ->
         (pending (update_cycles s 4) = 0 ->
          step_emulator s = Some (update_cycles s 4) /\ halted_DI r (update_cycles s 4))
         /\ (pending (update_cycles s 4) <> 0 ->
             exists w,
               step_emulator s = Some w
               /\ halt (interrupts w) = false
               /\ IME (interrupts w) = false
               /\ reg w = r
               /\ IF_ (interrupts w) = IF_ (interrupts (update_cycles s 4))
               /\ halt_bug_at w).
Proof.
  intros Hh He Hi Hd Hop Hp r. unfold step_emulator.
  destruct (execute_instruction_HALT e Hh He Hi Hd Hop) as (s0 & -> & Hs0 & _ & Hps).
  rewrite <- Hps in Hp. fold r in Hs0.
  exists s0. split; [apply handle_interrupts_not_pending; exact Hp |].
  split; [exact Hs0 |].
  intros s (Hhs & Hds & His & Hes & Hrs).
  rewrite (execute_instruction_halted s Hes Hhs).
  pose proof (cpu_view_inv _ _ (cpu_view_update_cycles s 4)) as Hv.
  rewrite Hhs, Hds, His, Hes, Hrs in Hv.
  revert Hv. generalize (update_cycles s 4). intros u (Hru & Hiu & _ & Heu & Hhu & Hdu).
  assert (Hu : halted_DI r u) by (repeat split; assumption).
  split.
  - intros Hpu. split; [apply handle_interrupts_not_pending; exact Hpu | exact Hu].
  - intros Hpu. apply (halted_DI_wake r u Hu Hpu). apply u16_range.
Qed.

(** C2 on the cartridge [rom_halt_timer], seven instructions after its start:
    HALT at 0x010D with IME = 0, IE = 4 and IF = 1.  The CPU halts; 32 steps
    later (40 steps after the start) it is still halted, and the next step,
    in which the timer interrupt is requested, wakes it at 0x010E with the
    HALT bug armed. *)
Lemma C2_halt_then_wake_witness :
  exists e1 w,
    step_emulator (after 7 rom_halt_timer) = Some e1
    /\ halt (interrupts e1) = true
    /\ step_emulator (after 40 rom_halt_timer) = Some w
    /\ halt (interrupts w) = false
    /\ IME (interrupts w) = false
    /\ RPC w = 0x010E
    /\ halt_bug_at w.
Proof.
  assert (Hh : halt (interrupts (after 7 rom_halt_timer)) = false)
    by (vm_compute; reflexivity).
  assert (He : enable (interrupts (after 7 rom_halt_timer)) = false)
    by (vm_compute; reflexivity).
  assert (Hi : IME (interrupts (after 7 rom_halt_timer)) = false)
    by (vm_compute; reflexivity).
  assert (Hd : halt_DI (interrupts (after 7 rom_halt_timer)) = false)
    by (vm_compute; reflexivity).
  assert (Hop : read_u8 (after 7 rom_halt_timer) (RPC (after 7 rom_halt_timer)) = 0x76)
    by (vm_compute; reflexivity).
  assert (Hp : pending (update_cycles (after 7 rom_halt_timer) 0) = 0)
    by (vm_compute; reflexivity).
  destruct (C2_halt_then_wake (after 7 rom_halt_timer) Hh He Hi Hd Hop Hp)
    as (e1 & Hex & (Hh1 & _) & Hstep).
  assert (Hs : halted_DI
                 (set_reg_PC (u16 (RPC (after 7 rom_halt_timer) + 1))
                             (reg (after 7 rom_halt_timer)))
                 (after 40 rom_halt_timer))
    by (unfold halted_DI; do 4 (split; [vm_compute; reflexivity |]); vm_compute;
        reflexivity).
  assert (Hp40 : pending (update_cycles (after 40 rom_halt_timer) 4) <> 0)
    by (intros H; vm_compute in H; discriminate H).
  destruct (Hstep _ Hs) as [_ Hwake].
  destruct (Hwake Hp40) as (w & Hw & Hhw & Hiw & Hrw & _ & Hbug).
  assert (Hpc : RPC w = 0x010E) by (unfold RPC; rewrite Hrw; vm_compute; reflexivity).
  exists e1, w. repeat (split; [assumption |]). exact Hbug.
Defined.

(** C2 as stated fails on the cartridge [rom_halt_timer]: HALT at 0x010D is
    executed with IME = 0 and IE & IF = 0, and the CPU halts.  The step in
    which the timer interrupt is requested (the 41st) wakes it without a
    dispatch: PC is 0x010E, SP is unchanged, IME is 0 and IF keeps the
    request.  INC B at 0x010E is then executed twice: after the first
    execution PC is 0x010E again and B is 1, after the second PC is 0x010F
    and B is 2. *)
Lemma C2_instruction_after_halt_runs_twice :
  returns 43 rom_halt_timer = true
  /\ (RPC (after 7 rom_halt_timer) = 0x010D
      /\ read_u8 (after 7 rom_halt_timer) 0x010D = 0x76
      /\ IME (interrupts (after 7 rom_halt_timer)) = false
      /\ Z.land (IE (interrupts (after 7 rom_halt_timer)))
                (IF_ (interrupts (after 7 rom_halt_timer))) = 0)
  /\ (halt (interrupts (after 8 rom_halt_timer)) = true
      /\ RPC (after 8 rom_halt_timer) = 0x010E
      /\ read_u8 (after 8 rom_halt_timer) 0x010E = 0x04
      /\ RSP (after 8 rom_halt_timer) = 0xFFFE
      /\ reg_B (reg (after 8 rom_halt_timer)) = 0)
  /\ (halt (interrupts (after 40 rom_halt_timer)) = true
      /\ Z.land (IE (interrupts (after 40 rom_halt_timer)))
                (IF_ (interrupts (after 40 rom_halt_timer))) = 0)
  /\ (halt (interrupts (after 41 rom_halt_timer)) = false
      /\ RPC (after 41 rom_halt_timer) = 0x010E
      /\ RSP (after 41 rom_halt_timer) = 0xFFFE
      /\ IME (interrupts (after 41 rom_halt_timer)) = false
      /\ Z.land (IE (interrupts (after 41 rom_halt_timer)))
                (IF_ (interrupts (after 41 rom_halt_timer))) = 4
      /\ reg_B (reg (after 41 rom_halt_timer)) = 0)
  /\ (RPC (after 42 rom_halt_timer) = 0x010E
      /\ reg_B (reg (after 42 rom_halt_timer)) = 1)
  /\ (RPC (after 43 rom_halt_timer) = 0x010F
      /\ reg_B (reg (after 43 rom_halt_timer)) = 2).
Proof. vm_compute. repeat split. Qed.
(** ** Further properties of the memory map and the decoder *)

(** X2.  [map_address] sends every 16-bit address to the region that the
    table of address ranges of the memory map gives ([region_of]). *)
Theorem map_address_region (addr : Z) :
  0 <= addr <= 0xFFFF -> pair_type (map_address addr) = region_of addr.
Proof. exact (map_address_type addr). Qed.

(** X2 at the first address of the unused region. *)
Lemma map_address_region_witness :
  pair_type (map_address 0xFEA0) = region_of 0xFEA0.
Proof. apply (map_address_region 0xFEA0). lia. Defined.

(** X4.  A one-byte opcode whose [case] works on the registers alone (INC B,
    LD B,C, ADD A,B, NOP and the like) never exits: the instruction returns
    with PC advanced by one and with the interrupt state of its entry. *)
Theorem reg_only_opcode_returns (e : Emulator) (opcode : Z) :
  reg_only_opcode opcode = true ->
  exists e',
    execute_opcode e opcode = Some e'
    /\ RPC e' = u16 (RPC e + 1)
    /\ IME (interrupts e') = IME (interrupts e)
    /\ enable (interrupts e') = enable (interrupts e)
    /\ halt (interrupts e') = halt (interrupts e)
    /\ halt_DI (interrupts e') = halt_DI (interrupts e).
Proof. exact (execute_opcode_reg_only e opcode). Qed.

(** X4 for INC B (0x04) on the started cartridge [rom_halt_inc]. *)
Lemma reg_only_opcode_returns_witness :
  exists e',
    execute_opcode (boot rom_halt_inc) 0x04 = Some e'
    /\ RPC e' = u16 (RPC (boot rom_halt_inc) + 1)
    /\ IME (interrupts e') = IME (interrupts (boot rom_halt_inc))
    /\ enable (interrupts e') = enable (interrupts (boot rom_halt_inc))
    /\ halt (interrupts e') = halt (interrupts (boot rom_halt_inc))
    /\ halt_DI (interrupts e') = halt_DI (interrupts (boot rom_halt_inc)).
Proof. apply (reg_only_opcode_returns (boot rom_halt_inc) 0x04). reflexivity. Defined.
(** ** What the writes leave alone *)

(** A frame proof goes through the body of a function: a rewrite with the
    lemmas of the functions it calls ([rw]), or a case distinction on the
    scrutinee at the head, or else on an innermost one. *)
Ltac frame_zeta rw :=
  cbv zeta;
  repeat first
    [ reflexivity
    | assumption
    | progress rw
    | progress cbn [fst snd]
    | lazymatch goal with
      | |- ?V (match ?P with _ => _ end) = _ =>
        lazymatch P with
        | match _ with _ => _ end => fail
        | _ => destruct P
        end
      end
    | match goal with
      | |- context [match ?x with _ => _ end] =>
        lazymatch x with
        | context [match _ with _ => _ end] => fail
        | _ => destruct x
        end
      end ].

(** The same along a sequence of [let e := X in ...]: [X] keeps the view, and
    is then abstracted, so that a case distinction in [X] is not carried into
    what follows. *)
Ltac frame_peel rw :=
  repeat first
    [ reflexivity
    | assumption
    | progress rw
    | lazymatch goal with
      | |- ?V (let x := ?X in @?b x) = ?rhs =>
        lazymatch type of X with
        | Emulator =>
          let H := fresh "H" in
          assert (H : V X = rhs) by frame_peel rw;
          change (V (b X) = rhs); cbv beta;
          revert H; generalize X;
          let e1 := fresh "e" in intros e1 H
        | _ => change (V (b X) = rhs); cbv beta
        end
      | |- ?V (match ?P with _ => _ end) = ?rhs =>
        lazymatch type of P with
        | (Emulator * _ * _ * _)%type =>
          let H := fresh "H" in
          assert (H : V (fst (fst (fst P))) = rhs) by frame_zeta rw;
          revert H; generalize P;
          let p := fresh "p" in
          let e1 := fresh "e" in
          intros p; destruct p as [[[e1 ?] ?] ?]; cbn [fst]; intros H
        | (Emulator * _)%type =>
          let H := fresh "H" in
          assert (H : V (fst P) = rhs) by frame_peel rw;
          revert H; generalize P;
          let p := fresh "p" in
          let e1 := fresh "e" in
          let t := fresh "t" in
          intros p; destruct p as [e1 t]; cbn [fst]; intros H
        | _ => destruct P
        end
      end ].

Lemma core_view_upd_sound g e : core_view (upd_sound g e) = core_view e. Proof. reflexivity. Qed.
Lemma core_view_upd_lcd g e : core_view (upd_lcd g e) = core_view e. Proof. reflexivity. Qed.
Lemma core_view_upd_dma g e : core_view (upd_dma g e) = core_view e. Proof. reflexivity. Qed.
Lemma core_view_upd_timer g e : core_view (upd_timer g e) = core_view e. Proof. reflexivity. Qed.
Lemma core_view_upd_oam g e : core_view (upd_oam g e) = core_view e. Proof. reflexivity. Qed.
Lemma core_view_upd_obj i g e : core_view (upd_obj i g e) = core_view e. Proof. reflexivity. Qed.
Lemma core_view_upd_channel c g e : core_view (upd_channel c g e) = core_view e. Proof. reflexivity. Qed.
Lemma core_view_upd_wave_e g e : core_view (upd_wave_e g e) = core_view e. Proof. reflexivity. Qed.
Lemma core_view_upd_sweep_e g e : core_view (upd_sweep_e g e) = core_view e. Proof. reflexivity. Qed.
Lemma core_view_upd_noise_e g e : core_view (upd_noise_e g e) = core_view e. Proof. reflexivity. Qed.
Lemma core_view_upd_memory_map g e : core_view (upd_memory_map g e) = core_view e. Proof. reflexivity. Qed.
Lemma core_view_set_memory_map v e : core_view (set_memory_map v e) = core_view e. Proof. reflexivity. Qed.
Lemma core_view_set_ram_data v e : core_view (set_ram_data v e) = core_view e. Proof. reflexivity. Qed.
Lemma core_view_set_hram v e : core_view (set_hram v e) = core_view e. Proof. reflexivity. Qed.
Lemma core_view_set_vram_data v e : core_view (set_vram_data v e) = core_view e. Proof. reflexivity. Qed.
Lemma core_view_set_ext_ram_data v e : core_view (set_ext_ram_data v e) = core_view e. Proof. reflexivity. Qed.
Lemma core_view_set_joypad v e : core_view (set_joypad v e) = core_view e. Proof. reflexivity. Qed.
Lemma core_view_set_serial v e : core_view (set_serial v e) = core_view e. Proof. reflexivity. Qed.
Lemma core_view_set_dma v e : core_view (set_dma v e) = core_view e. Proof. reflexivity. Qed.
Lemma core_view_raise_interrupt v e : core_view (raise_interrupt v e) = core_view e. Proof. reflexivity. Qed.
Lemma core_view_set_IF v e : core_view (upd_interrupts (set_IF_ v) e) = core_view e.
Proof. reflexivity. Qed.
Lemma core_view_set_IE v e : core_view (upd_interrupts (set_IE v) e) = core_view e.
Proof. reflexivity. Qed.

Create Rewrite HintDb core_view_db.
#[local] Hint Rewrite core_view_upd_sound core_view_upd_lcd core_view_upd_dma core_view_upd_timer core_view_upd_oam core_view_upd_obj core_view_upd_channel core_view_upd_wave_e core_view_upd_sweep_e core_view_upd_noise_e core_view_upd_memory_map core_view_set_memory_map core_view_set_ram_data core_view_set_hram core_view_set_vram_data core_view_set_ext_ram_data core_view_set_joypad core_view_set_serial core_view_set_dma core_view_raise_interrupt core_view_set_IF core_view_set_IE : core_view_db.

Lemma except_sound_upd_sound g e : except_sound (upd_sound g e) = except_sound e. Proof. reflexivity. Qed.
Lemma except_sound_upd_channel c g e : except_sound (upd_channel c g e) = except_sound e. Proof. reflexivity. Qed.
Lemma except_sound_upd_wave_e g e : except_sound (upd_wave_e g e) = except_sound e. Proof. reflexivity. Qed.
Lemma except_sound_upd_sweep_e g e : except_sound (upd_sweep_e g e) = except_sound e. Proof. reflexivity. Qed.
Lemma except_sound_upd_noise_e g e : except_sound (upd_noise_e g e) = except_sound e. Proof. reflexivity. Qed.
Create Rewrite HintDb except_sound_db.
#[local] Hint Rewrite except_sound_upd_sound except_sound_upd_channel except_sound_upd_wave_e except_sound_upd_sweep_e except_sound_upd_noise_e : except_sound_db.

Ltac rw_sound := autorewrite with except_sound_db.
Ltac rw_core := autorewrite with core_view_db.

(** *** The sound registers *)

Lemma except_sound_write_nrx1_reg e c v : except_sound (write_nrx1_reg e c v) = except_sound e.
Proof. unfold write_nrx1_reg. frame_zeta rw_sound. Qed.
Lemma except_sound_write_nrx2_reg e c v : except_sound (write_nrx2_reg e c v) = except_sound e.
Proof. unfold write_nrx2_reg. frame_zeta rw_sound. Qed.
Lemma except_sound_write_nrx3_reg e c v : except_sound (write_nrx3_reg e c v) = except_sound e.
Proof. unfold write_nrx3_reg. frame_zeta rw_sound. Qed.
Lemma except_sound_write_nrx4_reg e c v m :
  except_sound (fst (write_nrx4_reg e c v m)) = except_sound e.
Proof. unfold write_nrx4_reg. cbn [fst]. frame_zeta rw_sound. Qed.
Lemma except_sound_trigger_nrx4_envelope e c :
  except_sound (trigger_nrx4_envelope e c) = except_sound e.
Proof. unfold trigger_nrx4_envelope. frame_zeta rw_sound. Qed.
Lemma except_sound_trigger_nr14_reg e c : except_sound (trigger_nr14_reg e c) = except_sound e.
Proof. unfold trigger_nr14_reg. frame_zeta rw_sound. Qed.
Lemma except_sound_trigger_nr34_reg e c : except_sound (trigger_nr34_reg e c) = except_sound e.
Proof. unfold trigger_nr34_reg. frame_zeta rw_sound. Qed.
Lemma except_sound_trigger_nr44_reg e c : except_sound (trigger_nr44_reg e c) = except_sound e.
Proof. reflexivity. Qed.
Lemma except_sound_write_wave_period e c : except_sound (write_wave_period e c) = except_sound e.
Proof. reflexivity. Qed.
#[local] Hint Rewrite except_sound_write_nrx1_reg except_sound_write_nrx2_reg
  except_sound_write_nrx3_reg except_sound_write_nrx4_reg except_sound_trigger_nrx4_envelope
  except_sound_trigger_nr14_reg except_sound_trigger_nr34_reg except_sound_trigger_nr44_reg
  except_sound_write_wave_period : except_sound_db.

Lemma except_sound_fold (f : Emulator -> Z -> Emulator) (l : list Z) (e : Emulator) :
  (forall e i, except_sound (f e i) = except_sound e) ->
  except_sound (fold_left f l e) = except_sound e.
Proof.
  intros Hf. revert e. induction l as [| i l IH]; intros e; cbn [fold_left]; [reflexivity |].
  rewrite IH. apply Hf.
Qed.

Lemma except_sound_write_apu_body self e addr v :
  (forall e a v, except_sound (self e a v) = except_sound e) ->
  except_sound (write_apu_body self e addr v) = except_sound e.
Proof.
  intros Hself. cbv beta delta [write_apu_body].
  repeat match goal with
         | |- except_sound (if ?c then _ else _) = _ => destruct c; [solve [frame_peel rw_sound] |]
         end.
  destruct (addr =? APU_NR52_ADDR); [| reflexivity].
  cbv zeta. rewrite except_sound_upd_sound.
  destruct (sound_enabled (sound e) && negb (WRITE_BIT v 7)).
  - apply except_sound_fold. intros e0 i.
    destruct (i =? APU_NR52_ADDR); [reflexivity | apply Hself].
  - destruct (negb (sound_enabled (sound e)) && WRITE_BIT v 7); reflexivity.
Qed.

(** A write to a sound register changes nothing but the sound unit. *)
Lemma except_sound_write_apu e addr v : except_sound (write_apu e addr v) = except_sound e.
Proof.
  apply except_sound_write_apu_body. intros e0 a v0.
  apply except_sound_write_apu_body. reflexivity.
Qed.

Lemma except_sound_write_wave_ram e addr v :
  except_sound (write_wave_ram e addr v) = except_sound e.
Proof. unfold write_wave_ram. frame_zeta rw_sound. Qed.

Lemma core_view_of_except_sound e e' : except_sound e' = except_sound e -> core_view e' = core_view e.
Proof.
  unfold except_sound, core_view. intros H.
  injection H as H1 H2 H3 H4 H5 H6 H7 H8 H9 H10 H11 H12 H13 H14 H15 H16 H17 H18.
  rewrite H1, H2, H3, H5, H10, H18. reflexivity.
Qed.

(** *** The other registers and the memory *)

Lemma core_view_increment_tima e : core_view (increment_tima e) = core_view e.
Proof. unfold increment_tima. frame_zeta rw_core. Qed.
#[local] Hint Rewrite core_view_increment_tima : core_view_db.
Lemma core_view_write_div_counter e d : core_view (write_div_counter e d) = core_view e.
Proof. unfold write_div_counter. frame_zeta rw_core. Qed.
#[local] Hint Rewrite core_view_write_div_counter : core_view_db.

Lemma core_view_write_io e addr v : core_view (write_io e addr v) = core_view e.
Proof.
  cbv beta delta [write_io].
  repeat match goal with
         | |- core_view (if ?c then _ else _) = _ =>
           destruct c; [solve [frame_zeta rw_core] |]
         end.
  reflexivity.
Qed.

Lemma core_view_write_oam e addr v : core_view (write_oam e addr v) = core_view e.
Proof. unfold write_oam, write_oam_no_mode_check. frame_zeta rw_core. Qed.

Lemma core_view_write_vram e addr v : core_view (write_vram e addr v) = core_view e.
Proof. unfold write_vram. frame_zeta rw_core. Qed.

Lemma core_view_call_write_external_ram e addr v :
  core_view (call_write_external_ram e addr v) = core_view e.
Proof.
  unfold call_write_external_ram, gb_write_external_ram, dummy_write_external_ram,
    mbc2_write_ram.
  frame_zeta rw_core.
Qed.

Lemma call_write_rom_frame e addr v :
  0 <= addr < 0x8000 ->
  exists e', call_write_rom e addr v = Some e' /\ core_view e' = core_view e.
Proof.
  intros Ha.
  assert (Hq : Z.shiftr addr 13 = 0 \/ Z.shiftr addr 13 = 1 \/ Z.shiftr addr 13 = 2
               \/ Z.shiftr addr 13 = 3).
  { rewrite Z.shiftr_div_pow2 by lia. change (2 ^ 13) with 0x2000.
    Z.to_euclidean_division_equations. lia. }
  unfold call_write_rom. destruct (write_rom (memory_map e)).
  - eexists. split; reflexivity.
  - unfold mbc1_write_rom.
    destruct Hq as [-> | [-> | [-> | ->]]]; cbv zeta iota;
      (eexists; split; [reflexivity | reflexivity]).
  - eexists. split; [reflexivity |]. unfold mbc2_write_rom. frame_zeta rw_core.
  - eexists. split; [reflexivity |]. unfold mbc3_write_rom. frame_zeta rw_core.
Qed.
(** ** The address decoder, in full *)

Lemma land_ones_sub (x n b : Z) :
  0 <= n -> b mod 2 ^ n = 0 -> b <= x < b + 2 ^ n -> Z.land x (Z.ones n) = x - b.
Proof.
  intros Hn Hb Hx. rewrite Z.land_ones by exact Hn.
  assert (Hp : 0 < 2 ^ n) by (apply Z.pow_pos_nonneg; lia).
  replace x with ((x - b) + b) at 1 by lia.
  rewrite <- Zplus_mod_idemp_r, Hb, Z.add_0_r. apply Z.mod_small. lia.
Qed.

Lemma map_address_full (addr : Z) :
  0 <= addr <= 0xFFFF ->
  map_address addr = Build_MemoryTypeAddressPair (region_of addr) (addr - region_base addr).
Proof.
  intros H. destruct (shiftr_12_cases addr H) as (q & Hq & Hr & Hb).
  unfold map_address. rewrite Hq. clear Hq.
  assert (Hc : q = 0 \/ q = 1 \/ q = 2 \/ q = 3 \/ q = 4 \/ q = 5 \/ q = 6 \/ q = 7 \/
               q = 8 \/ q = 9 \/ q = 10 \/ q = 11 \/ q = 12 \/ q = 13 \/ q = 14 \/ q = 15)
    by lia.
  change ADDR_MASK_16K with (Z.ones 14). change ADDR_MASK_8K with (Z.ones 13).
  change ADDR_MASK_4K with (Z.ones 12).
  unfold region_of, region_base, OAM_START_ADDR, OAM_END_ADDR, UNUSED_END_ADDR,
    APU_START_ADDR, WAVE_RAM_START_ADDR, WAVE_RAM_END_ADDR, IO_END_ADDR, IO_START_ADDR,
    HIGH_RAM_END_ADDR, HIGH_RAM_START_ADDR.
  repeat (destruct Hc as [Hc | Hc]; [subst q; cbv iota; case_ltb; f_equal;
            first [ lia
                  | apply (land_ones_sub addr 14 0x0000); [lia | reflexivity | lia]
                  | apply (land_ones_sub addr 14 0x4000); [lia | reflexivity | lia]
                  | apply (land_ones_sub addr 13 0x8000); [lia | reflexivity | lia]
                  | apply (land_ones_sub addr 13 0xA000); [lia | reflexivity | lia]
                  | apply (land_ones_sub addr 12 0xC000); [lia | reflexivity | lia]
                  | apply (land_ones_sub addr 12 0xD000); [lia | reflexivity | lia]
                  | apply (land_ones_sub addr 12 0xE000); [lia | reflexivity | lia]
                  | apply (land_ones_sub addr 12 0xF000); [lia | reflexivity | lia] ] |]).
  subst q; cbv iota; case_ltb; f_equal;
    first [ lia | apply (land_ones_sub addr 12 0xF000); [lia | reflexivity | lia] ].
Qed.
(** ** What each device update leaves alone

    For a view [V] of the state that the setters of a device leave alone,
    the update of that device leaves it alone too.  The lemmas are stated
    once, for every such view. *)

Section DeviceFrames.

Context {T : Type} (V : Emulator -> T).

Section Sound.
Hypothesis V_upd_sound : forall g e, V (upd_sound g e) = V e.

Lemma V_upd_channel c g e : V (upd_channel c g e) = V e.
Proof. exact (V_upd_sound _ e). Qed.
Lemma V_upd_wave_e g e : V (upd_wave_e g e) = V e.
Proof. exact (V_upd_sound _ e). Qed.
Lemma V_upd_sweep_e g e : V (upd_sweep_e g e) = V e.
Proof. exact (V_upd_sound _ e). Qed.
Lemma V_upd_noise_e g e : V (upd_noise_e g e) = V e.
Proof. exact (V_upd_sound _ e). Qed.

Ltac rw_snd :=
  rewrite ?V_upd_sound, ?V_upd_channel, ?V_upd_wave_e, ?V_upd_sweep_e, ?V_upd_noise_e.

Lemma V_update_channel_sweep e c : V (update_channel_sweep e c) = V e.
Proof. unfold update_channel_sweep. frame_zeta rw_snd. Qed.

Lemma V_update_sound_tick e : V (update_sound_tick e) = V e.
Proof.
  cbv beta delta [update_sound_tick].
  frame_peel ltac:(rewrite ?V_update_channel_sweep; rw_snd).
Qed.

Lemma V_iter (f : Emulator -> Emulator) (n : nat) e :
  (forall e, V (f e) = V e) -> V (Nat.iter n f e) = V e.
Proof.
  intros Hf. induction n as [| n IH]; [reflexivity |].
  cbn [Nat.iter nat_rect]. rewrite Hf. exact IH.
Qed.

Lemma V_update_sound_cycles e n : V (update_sound_cycles e n) = V e.
Proof.
  unfold update_sound_cycles. destruct (negb (sound_enabled (sound e))); [reflexivity |].
  cbv zeta. rewrite V_iter by apply V_update_sound_tick. apply V_upd_sound.
Qed.

End Sound.

Section Timer.
Hypothesis V_upd_timer : forall g e, V (upd_timer g e) = V e.

Lemma V_increment_tima e : V (increment_tima e) = V e.
Proof. unfold increment_tima. frame_zeta ltac:(rewrite ?V_upd_timer). Qed.

Lemma V_write_div_counter e d : V (write_div_counter e d) = V e.
Proof.
  unfold write_div_counter. frame_zeta ltac:(rewrite ?V_increment_tima, ?V_upd_timer).
Qed.

Hypothesis V_raise_interrupt : forall m e, V (raise_interrupt m e) = V e.

Lemma V_update_timer_tick e : V (update_timer_tick e) = V e.
Proof.
  unfold update_timer_tick.
  frame_zeta ltac:(rewrite ?V_write_div_counter, ?V_raise_interrupt, ?V_upd_timer).
Qed.

Lemma V_update_timer_cycles e n : V (update_timer_cycles e n) = V e.
Proof.
  unfold update_timer_cycles. generalize (iterations n 4). intros k.
  induction k as [| k IH]; [reflexivity |].
  cbn [Nat.iter nat_rect]. rewrite V_update_timer_tick. exact IH.
Qed.

End Timer.

Section LCD.
Hypothesis V_upd_lcd : forall g e, V (upd_lcd g e) = V e.
Hypothesis V_raise_interrupt : forall m e, V (raise_interrupt m e) = V e.

Lemma V_render_line e y : V (render_line e y) = V e.
Proof. unfold render_line. frame_zeta ltac:(rewrite ?V_upd_lcd). Qed.

Lemma V_update_lcd_cycles e n : V (update_lcd_cycles e n) = V e.
Proof.
  unfold update_lcd_cycles.
  frame_zeta ltac:(rewrite ?V_render_line, ?V_raise_interrupt, ?V_upd_lcd).
Qed.

End LCD.

Section DMA.
Hypothesis V_upd_dma : forall g e, V (upd_dma g e) = V e.
Hypothesis V_upd_oam : forall g e, V (upd_oam g e) = V e.

Lemma V_upd_obj i g e : V (upd_obj i g e) = V e.
Proof. exact (V_upd_oam _ e). Qed.

Lemma V_write_oam_no_mode_check e addr v : V (write_oam_no_mode_check e addr v) = V e.
Proof. unfold write_oam_no_mode_check. frame_zeta ltac:(rewrite ?V_upd_obj). Qed.

Lemma V_update_dma_loop fuel e : V (update_dma_loop fuel e) = V e.
Proof.
  revert e. induction fuel as [| fuel IH]; intros e; cbn [update_dma_loop]; [reflexivity |].
  destruct (dma_addr_offset (dma e) <? OAM_TRANSFER_SIZE); [| reflexivity].
  rewrite IH. unfold update_dma_body. cbv zeta.
  rewrite V_upd_dma. apply V_write_oam_no_mode_check.
Qed.

Lemma V_update_dma_cycles e n : V (update_dma_cycles e n) = V e.
Proof.
  unfold update_dma_cycles. frame_zeta ltac:(rewrite ?V_update_dma_loop, ?V_upd_dma).
Qed.

End DMA.

Section All.
Hypothesis V_upd_sound : forall g e, V (upd_sound g e) = V e.
Hypothesis V_upd_timer : forall g e, V (upd_timer g e) = V e.
Hypothesis V_upd_lcd : forall g e, V (upd_lcd g e) = V e.
Hypothesis V_upd_dma : forall g e, V (upd_dma g e) = V e.
Hypothesis V_upd_oam : forall g e, V (upd_oam g e) = V e.
Hypothesis V_raise_interrupt : forall m e, V (raise_interrupt m e) = V e.
Hypothesis V_set_cycles : forall c e, V (set_cycles c e) = V e.

Lemma V_update_cycles e n : V (update_cycles e n) = V e.
Proof.
  unfold update_cycles. cbv zeta.
  rewrite V_set_cycles, V_update_sound_cycles, V_update_timer_cycles,
    V_update_lcd_cycles, V_update_dma_cycles by assumption.
  reflexivity.
Qed.

End All.
End DeviceFrames.
(** ** Work RAM and high RAM *)

Lemma dma_inactive_ok (e : Emulator) (pair : MemoryTypeAddressPair) :
  dma_active (dma e) = false -> is_dma_access_ok e pair = true.
Proof. intros H. unfold is_dma_access_ok. rewrite H. reflexivity. Qed.

Lemma hram_dma_ok (e : Emulator) (a : Z) :
  is_dma_access_ok e (Build_MemoryTypeAddressPair MEMORY_MAP_HIGH_RAM a) = true.
Proof.
  unfold is_dma_access_ok. cbn [pair_type MemoryMapType_eqb].
  destruct (negb (dma_active (dma e))); reflexivity.
Qed.

Lemma plain_ram_range (a : Z) : plain_ram a -> 0 <= a <= 0xFFFF.
Proof. unfold plain_ram. lia. Qed.

(** A read of a plain RAM address: the cell, for the work RAM when no DMA is
    active and for the high RAM always. *)
Lemma read_u8_plain (e : Emulator) (a : Z) :
  plain_ram a -> dma_active (dma e) = false \/ 0xFF80 <= a ->
  read_u8 e a = plain_cell e a.
Proof.
  intros Ha Hd. unfold read_u8. rewrite (map_address_full a (plain_ram_range a Ha)).
  unfold plain_ram in Ha. unfold region_of, region_base, plain_cell.
  case_ltb; cbv zeta.
  - rewrite dma_inactive_ok by (destruct Hd; [assumption | lia]). reflexivity.
  - rewrite dma_inactive_ok by (destruct Hd; [assumption | lia]).
    cbn. unfold gb_read_work_ram_bank_switch. f_equal. lia.
  - rewrite hram_dma_ok. reflexivity.
Qed.

Lemma write_u8_plain_eq (e : Emulator) (a v : Z) :
  plain_ram a -> dma_active (dma e) = false \/ 0xFF80 <= a ->
  write_u8 e a v
  = Some (if a <? 0xE000 then set_ram_data (aset (ram_data e) (a - 0xC000) v) e
          else set_hram (aset (hram e) (a - 0xFF80) v) e).
Proof.
  intros Ha Hd. unfold write_u8. rewrite (map_address_full a (plain_ram_range a Ha)).
  unfold plain_ram in Ha. unfold region_of, region_base.
  case_ltb; cbv zeta.
  - rewrite dma_inactive_ok by (destruct Hd; [assumption | lia]). reflexivity.
  - rewrite dma_inactive_ok by (destruct Hd; [assumption | lia]).
    cbn [negb pair_type pair_addr]. unfold gb_write_work_ram_bank_switch.
    do 3 f_equal. lia.
  - rewrite hram_dma_ok. reflexivity.
Qed.

Lemma write_u8_plain (e : Emulator) (a v : Z) :
  plain_ram a -> dma_active (dma e) = false \/ 0xFF80 <= a ->
  exists e',
    write_u8 e a v = Some e'
    /\ (forall a', plain_ram a' -> plain_cell e' a' = if a' =? a then v else plain_cell e a')
    /\ except_ram e' = except_ram e.
Proof.
  intros Ha Hd. rewrite (write_u8_plain_eq e a v Ha Hd).
  eexists. split; [reflexivity |].
  unfold plain_ram in Ha.
  destruct (Z.ltb_spec a 0xE000) as [Hlo | Hhi].
  - split; [| reflexivity].
    intros a' Ha'. unfold plain_ram in Ha'. unfold plain_cell.
    cbn [ram_data hram set_ram_data]. unfold aset.
    destruct (Z.ltb_spec a' 0xE000).
    + destruct (Z.eqb_spec a' a) as [-> | Hne]; [rewrite Z.eqb_refl; reflexivity |].
      destruct (Z.eqb_spec (a' - 0xC000) (a - 0xC000)); [lia | reflexivity].
    + destruct (Z.eqb_spec a' a); [lia | reflexivity].
  - split; [| reflexivity].
    intros a' Ha'. unfold plain_ram in Ha'. unfold plain_cell.
    cbn [ram_data hram set_hram]. unfold aset.
    destruct (Z.ltb_spec a' 0xE000).
    + destruct (Z.eqb_spec a' a); [lia | reflexivity].
    + destruct (Z.eqb_spec a' a) as [-> | Hne]; [rewrite Z.eqb_refl; reflexivity |].
      destruct (Z.eqb_spec (a' - 0xFF80) (a - 0xFF80)); [lia | reflexivity].
Qed.

(** X6.  Work RAM (0xC000-0xDFFF) and high RAM (0xFF80-0xFFFE) are memories:
    a CPU write to such an address returns, a read of the same address then
    gives the value written, a read of every other such address gives what
    it gave before, and nothing but the two RAMs has changed.  For the work
    RAM no OAM DMA may be active; the high RAM is so in every state. *)
Theorem ram_read_over_write (e : Emulator) (a a' v : Z) :
  plain_ram a -> plain_ram a' ->
  dma_active (dma e) = false \/ (0xFF80 <= a /\ 0xFF80 <= a') ->
  exists e',
    write_u8 e a v = Some e'
    /\ read_u8 e' a' = (if a' =? a then v else read_u8 e a')
    /\ except_ram e' = except_ram e.
Proof.
  intros Ha Ha' Hd.
  assert (Hda : dma_active (dma e) = false \/ 0xFF80 <= a) by tauto.
  assert (Hda' : dma_active (dma e) = false \/ 0xFF80 <= a') by tauto.
  destruct (write_u8_plain e a v Ha Hda) as (e' & Hw & Hcell & Hex).
  exists e'. split; [exact Hw |]. split; [| exact Hex].
  assert (Hdma : dma e' = dma e).
  { unfold except_ram in Hex. injection Hex. intros. assumption. }
  rewrite (read_u8_plain e a' Ha' Hda').
  rewrite read_u8_plain; [apply Hcell; exact Ha' | exact Ha' | rewrite Hdma; exact Hda'].
Qed.

(** X6 on the started MBC3 cartridge: 0x12 written to 0xFFFD in the high RAM
    is read back from 0xFFFD, and 0xFFFC reads as before; 0x34 written to
    0xC000 in the work RAM is read back from 0xC000, and from its echo. *)
Lemma ram_read_over_write_witness :
  (exists e',
     write_u8 (boot rom_mbc3) 0xFFFD 0x12 = Some e'
     /\ read_u8 e' 0xFFFD = 0x12
     /\ except_ram e' = except_ram (boot rom_mbc3))
  /\ (exists e',
        write_u8 (boot rom_mbc3) 0xFFFD 0x12 = Some e'
        /\ read_u8 e' 0xFFFC = read_u8 (boot rom_mbc3) 0xFFFC
        /\ except_ram e' = except_ram (boot rom_mbc3))
  /\ (exists e',
        write_u8 (boot rom_mbc3) 0xC000 0x34 = Some e'
        /\ read_u8 e' 0xC000 = 0x34
        /\ except_ram e' = except_ram (boot rom_mbc3)).
Proof.
  split; [| split].
  - apply (ram_read_over_write (boot rom_mbc3) 0xFFFD 0xFFFD 0x12);
      [right; lia | right; lia | left; vm_compute; reflexivity].
  - apply (ram_read_over_write (boot rom_mbc3) 0xFFFD 0xFFFC 0x12);
      [right; lia | right; lia | left; vm_compute; reflexivity].
  - apply (ram_read_over_write (boot rom_mbc3) 0xC000 0xC000 0x34);
      [left; lia | left; lia | left; vm_compute; reflexivity].
Defined.
(** X7.  The echo of the work RAM: an address in 0xE000-0xFDFF is the same
    cell as the address 0x2000 below it, for reads and for writes, in every
    state. *)
Theorem echo_ram_aliases_work_ram (e : Emulator) (a v : Z) :
  0xC000 <= a <= 0xDDFF ->
  read_u8 e (a + 0x2000) = read_u8 e a
  /\ write_u8 e (a + 0x2000) v = write_u8 e a v.
Proof.
  intros Ha. unfold read_u8, write_u8.
  rewrite (map_address_full a) by lia. rewrite (map_address_full (a + 0x2000)) by lia.
  unfold region_of, region_base. case_ltb; cbv zeta.
  - replace (a + 0x2000 - 0xE000) with (a - 0xC000) by lia. split; reflexivity.
  - replace (a + 0x2000 - 0xF000) with (a - 0xD000) by lia. split; reflexivity.
Qed.

(** X7 at the first address of the work RAM. *)
Lemma echo_ram_aliases_work_ram_witness :
  read_u8 (boot rom_mbc3) (0xC000 + 0x2000) = read_u8 (boot rom_mbc3) 0xC000
  /\ write_u8 (boot rom_mbc3) (0xC000 + 0x2000) 0x55 = write_u8 (boot rom_mbc3) 0xC000 0x55.
Proof. apply (echo_ram_aliases_work_ram (boot rom_mbc3) 0xC000 0x55). lia. Defined.
(** ** The stack *)

Lemma lor_bytes (v : Z) :
  0 <= v < 0x10000 -> Z.lor (u8 v) (Z.shiftl (u8 (Z.shiftr v 8)) 8) = v.
Proof.
  intros Hv. unfold u8. change 0x100 with (2 ^ 8).
  apply Z.bits_inj'. intros n Hn.
  rewrite Z.lor_spec.
  destruct (Z.ltb_spec n 8) as [Hlo | Hhi].
  - rewrite Z.mod_pow2_bits_low by lia.
    rewrite Z.shiftl_spec_low by lia. apply orb_false_r.
  - rewrite Z.mod_pow2_bits_high by lia.
    rewrite Z.shiftl_spec by lia. cbn [orb].
    destruct (Z.ltb_spec (n - 8) 8) as [Hlo8 | Hhi8].
    + rewrite Z.mod_pow2_bits_low by lia. rewrite Z.shiftr_spec by lia.
      f_equal. lia.
    + rewrite Z.mod_pow2_bits_high by lia.
      symmetry. apply Z.bits_above_log2; [lia |].
      assert (Hlog : v = 0 \/ Z.log2 v < 16).
      { destruct (Z.eq_dec v 0); [left; assumption | right].
        apply Z.log2_lt_pow2; lia. }
      destruct Hlog as [-> | Hlog]; [cbn; lia | lia].
Qed.

Lemma REG16_SET_REG16 (rr : R16) (v : Z) (e : Emulator) :
  0 <= v < 0x10000 -> REG16 rr (SET_REG16 rr v e) = v.
Proof.
  intros Hv. destruct rr; cbn; try reflexivity; rewrite Z.lor_comm; apply lor_bytes; exact Hv.
Qed.

Lemma except_ram_dma (e e' : Emulator) : except_ram e' = except_ram e -> dma e' = dma e.
Proof. unfold except_ram. intros H. injection H. intros. assumption. Qed.

Lemma except_ram_reg (e e' : Emulator) : except_ram e' = except_ram e -> reg e' = reg e.
Proof. unfold except_ram. intros H. injection H. intros. assumption. Qed.

(** A 16-bit write to two plain RAM cells, low byte first. *)
Lemma write_u16_plain (e : Emulator) (a v : Z) :
  plain_ram a -> plain_ram (a + 1) -> dma_active (dma e) = false ->
  exists e',
    write_u16 e a v = Some e'
    /\ (forall a', plain_ram a' ->
        plain_cell e' a' = if a' =? a + 1 then u8 (Z.shiftr v 8)
                           else if a' =? a then u8 v else plain_cell e a')
    /\ except_ram e' = except_ram e.
Proof.
  intros Ha Ha1 Hd. unfold write_u16.
  destruct (write_u8_plain e a (u8 v) Ha (or_introl Hd)) as (e1 & -> & Hc1 & Hx1).
  assert (Hd1 : dma_active (dma e1) = false) by (rewrite (except_ram_dma _ _ Hx1); exact Hd).
  rewrite (u16_small (a + 1)) by (unfold plain_ram in Ha1; lia).
  destruct (write_u8_plain e1 (a + 1) (u8 (Z.shiftr v 8)) Ha1 (or_introl Hd1))
    as (e2 & -> & Hc2 & Hx2).
  exists e2. split; [reflexivity |]. split; [| rewrite Hx2; exact Hx1].
  intros a' Ha'. rewrite (Hc2 a' Ha'). destruct (a' =? a + 1); [reflexivity |].
  apply Hc1. exact Ha'.
Qed.

Lemma read_u16_plain (e : Emulator) (a : Z) :
  plain_ram a -> plain_ram (a + 1) -> dma_active (dma e) = false ->
  read_u16 e a = Z.lor (plain_cell e a) (Z.shiftl (plain_cell e (a + 1)) 8).
Proof.
  intros Ha Ha1 Hd. unfold read_u16.
  rewrite (u16_small (a + 1)) by (unfold plain_ram in Ha1; lia).
  rewrite !read_u8_plain by (try assumption; left; exact Hd). reflexivity.
Qed.

(** The cycle update leaves the RAM cells alone, and starts no DMA. *)
Lemma except_devices_update_cycles (e : Emulator) (n : Z) :
  except_devices (update_cycles e n) = except_devices e.
Proof. apply V_update_cycles; reflexivity. Qed.

Lemma dma_update_cycles (e : Emulator) (n : Z) :
  dma_active (dma e) = false -> dma (update_cycles e n) = dma e.
Proof.
  intros Hd. unfold update_cycles. cbv zeta.
  change (dma (set_cycles ?c ?x)) with (dma x).
  rewrite (V_update_sound_cycles dma) by reflexivity.
  rewrite (V_update_timer_cycles dma) by reflexivity.
  rewrite (V_update_lcd_cycles dma) by reflexivity.
  unfold update_dma_cycles. rewrite Hd. reflexivity.
Qed.

Lemma except_devices_plain_cell (e e' : Emulator) (a : Z) :
  except_devices e' = except_devices e -> plain_cell e' a = plain_cell e a.
Proof.
  unfold except_devices, plain_cell. intros H.
  injection H as _ _ _ _ _ _ _ _ Hram Hhram _ _ _ _ _ _ _.
  rewrite Hram, Hhram. reflexivity.
Qed.

Lemma except_devices_reg (e e' : Emulator) : except_devices e' = except_devices e -> reg e' = reg e.
Proof. unfold except_devices. intros H. injection H. intros. assumption. Qed.

Lemma opcode_ops_not_cb (p : Z) (op : Op) : opcode_ops p = [op] -> op <> INVALID -> (p =? 0xcb) = false.
Proof.
  intros H Hop. destruct (Z.eqb_spec p 0xcb) as [-> |]; [| reflexivity].
  cbn in H. injection H as <-. contradiction.
Qed.

(** The state in which the macros of an instruction run, after the cycle
    update: the RAM cells, the registers and an inactive DMA are those of the
    entry. *)
Lemma update_cycles_plain (e : Emulator) (n : Z) :
  dma_active (dma e) = false ->
  reg (update_cycles e n) = reg e
  /\ dma_active (dma (update_cycles e n)) = false
  /\ forall a, plain_cell (update_cycles e n) a = plain_cell e a.
Proof.
  intros Hd. pose proof (except_devices_update_cycles e n) as Hx.
  split; [apply except_devices_reg; exact Hx |].
  split; [rewrite dma_update_cycles by exact Hd; exact Hd |].
  intros a. apply except_devices_plain_cell. exact Hx.
Qed.

(** X8.  PUSH and POP on a stack in RAM: an opcode that pushes the register
    pair [rr], followed by an opcode that pops into [rr'], both return, and
    afterwards [rr'] holds what [rr] held and SP is back where it was.  The
    two stack bytes are in work RAM or high RAM and no OAM DMA is active. *)
Theorem push_pop_round_trip (e : Emulator) (p q : Z) (rr rr' : R16) :
  opcode_ops p = [PUSH_RR rr] -> opcode_ops q = [POP_RR rr'] ->
  rr <> rSP -> rr' <> rSP ->
  dma_active (dma e) = false ->
  plain_ram (RSP e - 2) -> plain_ram (RSP e - 1) ->
  0 <= REG16 rr e < 0x10000 ->
  exists e1,
    execute_opcode e p = Some e1
    /\ RSP e1 = RSP e - 2
    /\ exists e2,
         execute_opcode e1 q = Some e2
         /\ REG16 rr' e2 = REG16 rr e
         /\ RSP e2 = RSP e.
Proof.
  intros Hp Hq Hrr Hrr' Hd Hs2 Hs1 Hv.
  unfold execute_opcode.
  rewrite (opcode_ops_not_cb p _ Hp) by discriminate.
  rewrite Hp. cbv zeta.
  destruct (update_cycles_plain e (s_opcode_cycles p) Hd) as (Hr & Hdu & Hcu).
  revert Hr Hdu Hcu. generalize (update_cycles e (s_opcode_cycles p)). intros u Hr Hdu Hcu.
  cbn [exec_ops exec_op].
  assert (Hsp : RSP (set_RSP (u16 (RSP u - 2)) u) = RSP e - 2).
  { unfold RSP at 2. rewrite Hr. fold (RSP e). cbn. apply u16_small.
    unfold plain_ram in Hs2. lia. }
  assert (Hval : REG16 rr (set_RSP (u16 (RSP u - 2)) u) = REG16 rr e).
  { destruct rr; try contradiction; cbn; rewrite Hr; reflexivity. }
  unfold WRITE16. rewrite Hsp, Hval.
  destruct (write_u16_plain (set_RSP (u16 (RSP u - 2)) u) (RSP e - 2) (REG16 rr e))
    as (w & -> & Hcw & Hxw).
  { exact Hs2. }
  { replace (RSP e - 2 + 1) with (RSP e - 1) by lia. exact Hs1. }
  { exact Hdu. }
  assert (Hdw : dma_active (dma w) = false).
  { rewrite (except_ram_dma _ _ Hxw). exact Hdu. }
  assert (Hrw : reg w = set_reg_SP (RSP e - 2) (reg e)).
  { rewrite (except_ram_reg _ _ Hxw). cbn. rewrite <- Hsp. cbn. rewrite Hr. reflexivity. }
  assert (Hcw' : forall a', plain_ram a' ->
            plain_cell w a' = if a' =? RSP e - 2 + 1 then u8 (Z.shiftr (REG16 rr e) 8)
                              else if a' =? RSP e - 2 then u8 (REG16 rr e)
                                   else plain_cell e a').
  { intros a' Ha'. rewrite (Hcw a' Ha'). rewrite <- Hcu. reflexivity. }
  clear Hcw Hcu Hsp Hval Hxw Hdu Hr u. rename Hcw' into Hcw.
  eexists. split; [reflexivity |].
  split; [cbn; rewrite Hrw; reflexivity |].
  rewrite (opcode_ops_not_cb q _ Hq) by discriminate.
  rewrite Hq.
  destruct (update_cycles_plain (set_RPC (u16 (reg_PC (reg e) + s_opcode_bytes p)) w)
              (s_opcode_cycles q) Hdw) as (Hr2 & Hdu2 & Hcu2).
  revert Hr2 Hdu2 Hcu2.
  generalize (update_cycles (set_RPC (u16 (reg_PC (reg e) + s_opcode_bytes p)) w)
                (s_opcode_cycles q)).
  intros u2 Hr2 Hdu2 Hcu2.
  cbn [exec_ops exec_op].
  assert (Hsp2 : RSP u2 = RSP e - 2).
  { unfold RSP. rewrite Hr2. cbn. rewrite Hrw. reflexivity. }
  assert (Hrd : READ16 (RSP u2) u2 = REG16 rr e).
  { unfold READ16. rewrite Hsp2. rewrite read_u16_plain; [| exact Hs2 | | exact Hdu2].
    2: { replace (RSP e - 2 + 1) with (RSP e - 1) by lia. exact Hs1. }
    rewrite !Hcu2.
    change (plain_cell (set_RPC ?x w) ?a) with (plain_cell w a).
    rewrite !Hcw by (try exact Hs2; replace (RSP e - 2 + 1) with (RSP e - 1) by lia;
                     exact Hs1).
    rewrite Z.eqb_refl.
    replace (RSP e - 2 =? RSP e - 2 + 1) with false by (symmetry; apply Z.eqb_neq; lia).
    rewrite Z.eqb_refl. apply lor_bytes. exact Hv. }
  rewrite Hrd.
  eexists. split; [reflexivity |].
  split.
  - destruct rr'; try contradiction;
      match goal with
      | |- REG16 ?r (set_RPC _ (set_RSP _ ?X)) = _ => change (REG16 r X = REG16 rr e)
      end; apply REG16_SET_REG16; exact Hv.
  - assert (Hsp3 : reg_SP (reg (SET_REG16 rr' (REG16 rr e) u2)) = RSP e - 2).
    { destruct rr'; try contradiction; cbn; exact Hsp2. }
    cbn [RSP set_RSP set_RPC upd_reg reg set_reg reg_SP set_reg_SP set_reg_PC].
    unfold RSP at 1. rewrite Hsp3.
    replace (RSP e - 2 + 2) with (RSP e) by lia. apply u16_small.
    unfold plain_ram in Hs1. lia.
Qed.

(** X8 for PUSH BC (0xC5) followed by POP DE (0xD1) on the started MBC3
    cartridge, whose stack pointer is 0xFFFE. *)
Lemma push_pop_round_trip_witness :
  exists e1,
    execute_opcode (boot rom_mbc3) 0xC5 = Some e1
    /\ RSP e1 = RSP (boot rom_mbc3) - 2
    /\ exists e2,
         execute_opcode e1 0xD1 = Some e2
         /\ REG16 rDE e2 = REG16 rBC (boot rom_mbc3)
         /\ RSP e2 = RSP (boot rom_mbc3).
Proof.
  apply (push_pop_round_trip (boot rom_mbc3) 0xC5 0xD1 rBC rDE);
    [ reflexivity | reflexivity | discriminate | discriminate
    | vm_compute; reflexivity
    | right; vm_compute; split; discriminate
    | right; vm_compute; split; discriminate
    | vm_compute; split; [discriminate | reflexivity] ].
Defined.

(** ** The stack in RAM *)

(** [RSP -= 2; WRITE16(RSP, v)] on a stack in plain RAM. *)
Lemma push_plain (u : Emulator) (v : Z) :
  dma_active (dma u) = false -> plain_ram (RSP u - 2) -> plain_ram (RSP u - 1) ->
  exists w,
    WRITE16 (RSP (set_RSP (u16 (RSP u - 2)) u)) v (set_RSP (u16 (RSP u - 2)) u) = Some w
    /\ reg w = set_reg_SP (RSP u - 2) (reg u)
    /\ except_ram w = except_ram (set_RSP (RSP u - 2) u)
    /\ (forall a', plain_ram a' ->
        plain_cell w a' = if a' =? RSP u - 1 then u8 (Z.shiftr v 8)
                          else if a' =? RSP u - 2 then u8 v else plain_cell u a').
Proof.
  intros Hd Hs2 Hs1.
  rewrite (u16_small (RSP u - 2)) by (unfold plain_ram in Hs2; lia).
  change (RSP (set_RSP (RSP u - 2) u)) with (RSP u - 2).
  unfold WRITE16.
  destruct (write_u16_plain (set_RSP (RSP u - 2) u) (RSP u - 2) v) as (w & -> & Hcw & Hxw).
  { exact Hs2. }
  { replace (RSP u - 2 + 1) with (RSP u - 1) by lia. exact Hs1. }
  { exact Hd. }
  exists w. split; [reflexivity |].
  split; [rewrite (except_ram_reg _ _ Hxw); reflexivity |].
  split; [exact Hxw |].
  intros a' Ha'. rewrite (Hcw a' Ha').
  replace (RSP u - 2 + 1) with (RSP u - 1) by lia. reflexivity.
Qed.

(** [READ16(RSP)] on a stack in plain RAM that holds the two bytes of [v]. *)
Lemma pop_plain (u : Emulator) (v : Z) :
  dma_active (dma u) = false -> plain_ram (RSP u) -> plain_ram (RSP u + 1) ->
  plain_cell u (RSP u) = u8 v -> plain_cell u (RSP u + 1) = u8 (Z.shiftr v 8) ->
  0 <= v < 0x10000 ->
  READ16 (RSP u) u = v.
Proof.
  intros Hd Hs Hs1 Hlo Hhi Hv. unfold READ16.
  rewrite read_u16_plain by assumption. rewrite Hlo, Hhi. apply lor_bytes. exact Hv.
Qed.

Lemma except_ram_rom (e e' : Emulator) :
  except_ram e' = except_ram e ->
  rom_data e' = rom_data e /\ rom_size e' = rom_size e /\ memory_map e' = memory_map e.
Proof. unfold except_ram. intros H. injection H. intros. repeat split; assumption. Qed.

Lemma except_devices_rom (e e' : Emulator) :
  except_devices e' = except_devices e ->
  rom_data e' = rom_data e /\ rom_size e' = rom_size e /\ memory_map e' = memory_map e.
Proof. unfold except_devices. intros H. injection H. intros. repeat split; assumption. Qed.

(** A read below 0x8000 sees the cartridge ROM and the selected bank only. *)
Lemma read_u8_rom (e e' : Emulator) (a : Z) :
  0 <= a < 0x8000 ->
  rom_data e' = rom_data e -> rom_size e' = rom_size e -> memory_map e' = memory_map e ->
  dma_active (dma e) = false -> dma_active (dma e') = false ->
  read_u8 e' a = read_u8 e a.
Proof.
  intros Ha Hrd Hrs Hmm Hd Hd'. unfold read_u8.
  rewrite (map_address_full a) by lia. cbv zeta.
  rewrite !dma_inactive_ok by assumption. cbn [negb].
  unfold region_of, region_base. case_ltb; cbn; rewrite ?Hrd, ?Hrs, ?Hmm; reflexivity.
Qed.

(** X9.  CALL and RET on a stack in RAM: CALL nn (0xCD), fetched from ROM,
    returns with PC at its operand and SP two lower; a RET (0xC9) executed
    in that state returns with PC at the instruction after the CALL and SP
    back where it was. *)
Theorem call_ret_round_trip (e : Emulator) :
  dma_active (dma e) = false ->
  plain_ram (RSP e - 2) -> plain_ram (RSP e - 1) ->
  0 <= RPC e -> RPC e + 2 < 0x8000 ->
  exists e1,
    execute_opcode e 0xCD = Some e1
    /\ RPC e1 = read_u16 e (RPC e + 1)
    /\ RSP e1 = RSP e - 2
    /\ exists e2,
         execute_opcode e1 0xC9 = Some e2
         /\ RPC e2 = RPC e + 3
         /\ RSP e2 = RSP e.
Proof.
  intros Hd Hs2 Hs1 Hpc0 Hpc1.
  unfold execute_opcode. change (0xCD =? 0xcb) with false. change (0xC9 =? 0xcb) with false.
  cbv iota zeta.
  change (opcode_ops 0xCD) with [CALL_NN]. change (opcode_ops 0xC9) with [RET].
  change (s_opcode_bytes 0xCD) with 3. change (s_opcode_bytes 0xC9) with 1.
  change (s_opcode_cycles 0xCD) with 24. change (s_opcode_cycles 0xC9) with 16.
  rewrite (u16_small (reg_PC (reg e) + 3)) by (unfold RPC in *; lia).
  pose proof (except_devices_update_cycles e 24) as Hxu.
  destruct (update_cycles_plain e 24 Hd) as (Hr & Hdu & Hcu).
  revert Hxu Hr Hdu Hcu. generalize (update_cycles e 24). intros u Hxu Hr Hdu Hcu.
  cbn [exec_ops exec_op]. unfold do_CALL. cbv zeta.
  assert (Hsu : RSP u = RSP e) by (unfold RSP; rewrite Hr; reflexivity).
  destruct (push_plain u (reg_PC (reg e) + 3) Hdu) as (w & -> & Hrw & Hxw & Hcw).
  { rewrite Hsu. exact Hs2. }
  { rewrite Hsu. exact Hs1. }
  cbn [exec_ops].
  assert (Hdw : dma_active (dma w) = false).
  { rewrite (except_ram_dma _ _ Hxw). exact Hdu. }
  assert (Hcw' : forall a', plain_ram a' ->
            plain_cell w a' = if a' =? RSP e - 1 then u8 (Z.shiftr (reg_PC (reg e) + 3) 8)
                              else if a' =? RSP e - 2 then u8 (reg_PC (reg e) + 3)
                                   else plain_cell e a').
  { intros a' Ha'. rewrite (Hcw a' Ha'). rewrite Hsu, Hcu. reflexivity. }
  assert (Hrw' : reg w = set_reg_SP (RSP e - 2) (reg e)).
  { rewrite Hrw, Hsu, Hr. reflexivity. }
  assert (Htarget : READ_NN w = read_u16 e (RPC e + 1)).
  { unfold READ_NN, READ16, read_u16, RPC. rewrite Hrw'. cbn [reg_PC set_reg_SP].
    rewrite !u16_small by (unfold RPC in *; lia).
    destruct (except_ram_rom _ _ Hxw) as (Ha & Hb & Hc).
    destruct (except_devices_rom _ _ Hxu) as (Ha' & Hb' & Hc').
    assert (Hrom : forall a, 0 <= a < 0x8000 -> read_u8 w a = read_u8 e a).
    { intros a Harange. apply read_u8_rom; try assumption.
      - rewrite Ha. exact Ha'.
      - rewrite Hb. exact Hb'.
      - rewrite Hc. exact Hc'. }
    rewrite !Hrom by (unfold RPC in *; lia). reflexivity. }
  rewrite Htarget.
  clear Hcw Hrw Hxw Hxu Hcu Hdu Hr Hsu Htarget u.
  eexists. split; [reflexivity |].
  split; [reflexivity |].
  split; [unfold RSP; cbn; rewrite Hrw'; reflexivity |].
  destruct (update_cycles_plain (set_RPC (read_u16 e (RPC e + 1)) w) 16 Hdw) as (Hr2 & Hdu2 & Hcu2).
  revert Hr2 Hdu2 Hcu2.
  generalize (update_cycles (set_RPC (read_u16 e (RPC e + 1)) w) 16).
  intros u2 Hr2 Hdu2 Hcu2.
  cbn [exec_ops exec_op]. unfold do_RET. cbv zeta.
  assert (Hsp2 : RSP u2 = RSP e - 2).
  { unfold RSP. rewrite Hr2. cbn. rewrite Hrw'. reflexivity. }
  assert (Hrd : READ16 (RSP u2) u2 = reg_PC (reg e) + 3).
  { apply pop_plain.
    - exact Hdu2.
    - rewrite Hsp2. exact Hs2.
    - rewrite Hsp2. replace (RSP e - 2 + 1) with (RSP e - 1) by lia. exact Hs1.
    - rewrite Hsp2, Hcu2. change (plain_cell (set_RPC ?x w) ?a) with (plain_cell w a).
      rewrite Hcw' by exact Hs2.
      replace (RSP e - 2 =? RSP e - 1) with false by (symmetry; apply Z.eqb_neq; lia).
      rewrite Z.eqb_refl. reflexivity.
    - rewrite Hsp2, Hcu2. change (plain_cell (set_RPC ?x w) ?a) with (plain_cell w a).
      replace (RSP e - 2 + 1) with (RSP e - 1) by lia.
      rewrite Hcw' by exact Hs1. rewrite Z.eqb_refl. reflexivity.
    - unfold RPC in *. lia. }
  rewrite Hrd. eexists. split; [reflexivity |].
  split; [reflexivity |].
  unfold RSP at 1. cbn [set_RSP set_RPC upd_reg reg set_reg reg_SP set_reg_SP set_reg_PC].
  fold (RSP u2). rewrite Hsp2.
  replace (RSP e - 2 + 2) with (RSP e) by lia. apply u16_small.
  unfold plain_ram in Hs1. lia.
Qed.

(** X9 on the started MBC3 cartridge: PC is 0x0100 and SP is 0xFFFE. *)
Lemma call_ret_round_trip_witness :
  exists e1,
    execute_opcode (boot rom_mbc3) 0xCD = Some e1
    /\ RPC e1 = read_u16 (boot rom_mbc3) (RPC (boot rom_mbc3) + 1)
    /\ RSP e1 = RSP (boot rom_mbc3) - 2
    /\ exists e2,
         execute_opcode e1 0xC9 = Some e2
         /\ RPC e2 = RPC (boot rom_mbc3) + 3
         /\ RSP e2 = RSP (boot rom_mbc3).
Proof.
  apply (call_ret_round_trip (boot rom_mbc3));
    [ vm_compute; reflexivity
    | right; vm_compute; split; discriminate
    | right; vm_compute; split; discriminate
    | vm_compute; discriminate
    | vm_compute; reflexivity ].
Defined.

(** ** Interrupt dispatch *)

Lemma land_bit_eqb (x k : Z) :
  0 <= k -> (Z.land x (2 ^ k) =? 0) = negb (Z.testbit x k).
Proof.
  intros Hk. destruct (Z.testbit x k) eqn:Hb; cbn [negb].
  - apply Z.eqb_neq. intros H0.
    assert (Ht : Z.testbit (Z.land x (2 ^ k)) k = true).
    { rewrite Z.land_spec, Hb, Z.pow2_bits_true by lia. reflexivity. }
    rewrite H0, Z.bits_0 in Ht. discriminate.
  - apply Z.eqb_eq. apply Z.bits_inj'. intros n Hn.
    rewrite Z.land_spec, Z.bits_0.
    destruct (Z.eq_dec n k) as [-> | Hne].
    + rewrite Hb. reflexivity.
    + rewrite Z.pow2_bits_false by lia. apply andb_false_r.
Qed.

Lemma u8_clear_bit (x k j : Z) :
  0 <= k -> 0 <= j < 8 ->
  Z.testbit (u8 (Z.land x (Z.lnot (2 ^ k)))) j = if j =? k then false else Z.testbit x j.
Proof.
  intros Hk Hj. unfold u8. change 0x100 with (2 ^ 8).
  rewrite Z.mod_pow2_bits_low by lia.
  rewrite Z.land_spec, Z.lnot_spec by lia.
  destruct (Z.eqb_spec j k) as [-> | Hne].
  - rewrite Z.pow2_bits_true by lia. apply andb_false_r.
  - rewrite Z.pow2_bits_false by lia. apply andb_true_r.
Qed.

(** X10.  Interrupt dispatch.  With IME set or the CPU halted (and not the
    HALT-with-interrupts-disabled case), [handle_interrupts] serves the
    lowest-numbered interrupt [k] (0 to 4) that is both requested and enabled:
    it pushes PC on the stack, jumps to the vector 0x40 + 8k, clears bit [k]
    of IF and no other, and clears IME and [halt].  The stack is in RAM and
    no OAM DMA is active. *)
Theorem interrupt_dispatch (e : Emulator) (k : Z) :
  IME (interrupts e) || halt (interrupts e) = true ->
  halt_DI (interrupts e) = false ->
  0 <= k <= 4 ->
  Z.testbit (Z.land (IF_ (interrupts e)) (IE (interrupts e))) k = true ->
  (forall j, 0 <= j < k ->
             Z.testbit (Z.land (IF_ (interrupts e)) (IE (interrupts e))) j = false) ->
  dma_active (dma e) = false ->
  plain_ram (RSP e - 2) -> plain_ram (RSP e - 1) ->
  0 <= RPC e < 0x10000 ->
  exists e',
    handle_interrupts e = Some e'
    /\ RPC e' = 0x40 + 8 * k
    /\ RSP e' = RSP e - 2
    /\ read_u16 e' (RSP e') = RPC e
    /\ IME (interrupts e') = false
    /\ halt (interrupts e') = false
    /\ forall j, 0 <= j < 8 ->
         Z.testbit (IF_ (interrupts e')) j
         = if j =? k then false else Z.testbit (IF_ (interrupts e)) j.
Proof.
  intros Hih Hhd Hk Hbit Hlow Hd Hs2 Hs1 Hpc.
  unfold handle_interrupts. rewrite Hih. cbn [negb]. cbv zeta.
  set (x := Z.land (IF_ (interrupts e)) (IE (interrupts e))) in *.
  assert (Hx0 : (x =? 0) = false).
  { apply Z.eqb_neq. intros H0. rewrite H0, Z.bits_0 in Hbit. discriminate. }
  rewrite Hx0, Hhd.
  change INTERRUPT_VBLANK_MASK with (2 ^ 0). change INTERRUPT_LCD_STAT_MASK with (2 ^ 1).
  change INTERRUPT_TIMER_MASK with (2 ^ 2). change INTERRUPT_SERIAL_MASK with (2 ^ 3).
  change INTERRUPT_JOYPAD_MASK with (2 ^ 4).
  rewrite !land_bit_eqb by lia. rewrite !negb_involutive.
  assert (Hsel :
    (if Z.testbit x 0 then Some (0x40, 2 ^ 0)
     else if Z.testbit x 1 then Some (0x48, 2 ^ 1)
     else if Z.testbit x 2 then Some (0x50, 2 ^ 2)
     else if Z.testbit x 3 then Some (0x58, 2 ^ 3)
     else if Z.testbit x 4 then Some (0x60, 2 ^ 4) else None)
    = Some (0x40 + 8 * k, 2 ^ k)).
  { assert (Hc : k = 0 \/ k = 1 \/ k = 2 \/ k = 3 \/ k = 4) by lia.
    destruct Hc as [-> | [-> | [-> | [-> | ->]]]];
      rewrite ?(Hlow 0), ?(Hlow 1), ?(Hlow 2), ?(Hlow 3) by lia; rewrite Hbit; reflexivity. }
  rewrite Hsel. clear Hsel.
  unfold do_CALL. cbv zeta.
  set (e0 := upd_interrupts (fun i => set_IF_ (u8 (Z.land (IF_ i) (Z.lnot (2 ^ k)))) i) e).
  destruct (push_plain e0 (RPC e0) Hd Hs2 Hs1) as (w & Hw & Hrw & Hxw & Hcw).
  rewrite Hw. cbn [exec_ops].
  eexists. split; [reflexivity |].
  assert (Hdw : dma_active (dma w) = false).
  { rewrite (except_ram_dma _ _ Hxw). exact Hd. }
  assert (Hiw : interrupts w = interrupts e0).
  { unfold except_ram in Hxw. injection Hxw. intros. assumption. }
  split; [reflexivity |].
  split; [unfold RSP; cbn; rewrite Hrw; reflexivity |].
  split.
  { assert (Hsp : RSP (set_INTR_halt false (set_INTR_IME false (set_RPC (0x40 + 8 * k) w)))
                  = RSP e - 2).
    { unfold RSP. cbn. rewrite Hrw. reflexivity. }
    rewrite Hsp.
    rewrite read_u16_plain;
      [| exact Hs2 | replace (RSP e - 2 + 1) with (RSP e - 1) by lia; exact Hs1 | exact Hdw].
    change (plain_cell (set_INTR_halt ?b (set_INTR_IME ?c (set_RPC ?x w))) ?a)
      with (plain_cell w a).
    replace (RSP e - 2 + 1) with (RSP e - 1) by lia.
    rewrite (Hcw (RSP e - 2) Hs2), (Hcw (RSP e - 1) Hs1).
    change (RSP e0) with (RSP e). change (RPC e0) with (RPC e).
    replace (RSP e - 2 =? RSP e - 1) with false by (symmetry; apply Z.eqb_neq; lia).
    rewrite !Z.eqb_refl. apply lor_bytes. exact Hpc. }
  split; [reflexivity |]. split; [reflexivity |].
  intros j Hj. cbn. rewrite Hiw. unfold e0. cbn.
  apply u8_clear_bit; lia.
Qed.

(** X10 for the timer interrupt (k = 2) in [mbc3_irq_pending]. *)
Lemma interrupt_dispatch_witness :
  exists e',
    handle_interrupts mbc3_irq_pending = Some e'
    /\ RPC e' = 0x40 + 8 * 2
    /\ RSP e' = RSP mbc3_irq_pending - 2
    /\ read_u16 e' (RSP e') = RPC mbc3_irq_pending
    /\ IME (interrupts e') = false
    /\ halt (interrupts e') = false
    /\ forall j, 0 <= j < 8 ->
         Z.testbit (IF_ (interrupts e')) j
         = if j =? 2 then false else Z.testbit (IF_ (interrupts mbc3_irq_pending)) j.
Proof.
  apply (interrupt_dispatch mbc3_irq_pending 2);
    [ reflexivity | vm_compute; reflexivity | lia | vm_compute; reflexivity
    | intros j Hj; assert (Hc : j = 0 \/ j = 1) by lia;
      destruct Hc as [-> | ->]; vm_compute; reflexivity
    | vm_compute; reflexivity
    | right; vm_compute; split; discriminate
    | right; vm_compute; split; discriminate
    | vm_compute; split; [discriminate | reflexivity] ].
Defined.

(** ** Bank controllers *)

Lemma write_u8_rom_area (e : Emulator) (addr v : Z) :
  0 <= addr <= 0x7FFF -> dma_active (dma e) = false ->
  write_u8 e addr v = call_write_rom e addr v.
Proof.
  intros Ha Hd. unfold write_u8. rewrite (map_address_full addr) by lia. cbv zeta.
  rewrite dma_inactive_ok by exact Hd. cbn [negb pair_type pair_addr].
  unfold region_of, region_base. case_ltb; cbv iota.
  - f_equal. lia.
  - f_equal. rewrite u16_small by lia. lia.
Qed.

Lemma low5_of_bank (lo hi : Z) :
  0 <= lo < 32 -> Z.land (u8 (Z.lor lo (Z.shiftl hi 5))) 0x1F = lo.
Proof.
  intros Hlo. change 0x1F with (Z.ones 5). rewrite Z.land_ones by lia.
  unfold u8. change 0x100 with (2 ^ 8).
  apply Z.bits_inj'. intros n Hn.
  destruct (Z.ltb_spec n 5) as [Hlt | Hge].
  - rewrite Z.mod_pow2_bits_low by lia. rewrite Z.mod_pow2_bits_low by lia.
    rewrite Z.lor_spec, Z.shiftl_spec_low by lia. apply orb_false_r.
  - rewrite Z.mod_pow2_bits_high by lia.
    symmetry. rewrite <- (Z.mod_small lo (2 ^ 5)) by (change (2 ^ 5) with 32; lia).
    apply Z.mod_pow2_bits_high. lia.
Qed.

Lemma land_1F_range (x : Z) : 0 <= Z.land x 0x1F < 32.
Proof. change 0x1F with (Z.ones 5). rewrite Z.land_ones by lia. apply Z.mod_pos_bound. lia. Qed.

Lemma land_1F_idem (x : Z) : 0 <= x < 32 -> Z.land x 0x1F = x.
Proof.
  intros H. change 0x1F with (Z.ones 5). rewrite Z.land_ones by lia.
  apply Z.mod_small. change (2 ^ 5) with 32. lia.
Qed.

(** The bank computation that ends [mbc1_write_rom]. *)
Lemma mbc1_bank_low5 (m : MemoryMap) :
  let bank := Z.land (byte_2000_3fff (mbc1 m)) MBC1_ROM_BANK_LO_SELECT_MASK in
  let bank := if bank =? 0 then u8 (bank + 1) else bank in
  let m := set_rom_bank bank m in
  let m' :=
    if bank_mode (mbc1 m) =? BANK_MODE_ROM then
      set_ext_ram_bank 0
        (set_rom_bank
           (u8 (Z.lor (rom_bank m)
                      (Z.shiftl (Z.land (byte_4000_5fff (mbc1 m)) MBC1_BANK_HI_SELECT_MASK)
                                MBC1_BANK_HI_SHIFT))) m)
    else
      set_ext_ram_bank (Z.land (byte_4000_5fff (mbc1 m)) MBC1_BANK_HI_SELECT_MASK) m in
  Z.land (rom_bank m') 0x1F
  = if Z.land (byte_2000_3fff (mbc1 m)) 0x1F =? 0 then 1
    else Z.land (byte_2000_3fff (mbc1 m)) 0x1F.
Proof.
  cbv zeta. unfold MBC1_ROM_BANK_LO_SELECT_MASK, MBC1_BANK_HI_SHIFT.
  pose proof (land_1F_range (byte_2000_3fff (mbc1 m))) as Hr.
  set (lo := Z.land (byte_2000_3fff (mbc1 m)) 0x1F) in *.
  assert (Hlo' : 0 <= (if lo =? 0 then u8 (lo + 1) else lo) < 32
                 /\ (if lo =? 0 then u8 (lo + 1) else lo) = (if lo =? 0 then 1 else lo)).
  { destruct (Z.eqb_spec lo 0) as [-> | Hne]; [cbn; lia | lia]. }
  destruct Hlo' as (Hrange & Heq).
  destruct (bank_mode _ =? BANK_MODE_ROM); cbn [rom_bank set_ext_ram_bank set_rom_bank].
  - rewrite low5_of_bank by exact Hrange. exact Heq.
  - rewrite land_1F_idem by exact Hrange. exact Heq.
Qed.

(** X11.  On an MBC1 cartridge, no OAM DMA being active, every CPU write to
    0x0000-0x7FFF returns, and
    the ROM bank it leaves selected never has its low five bits all zero; a
    write to 0x2000-0x3FFF selects the low five bits of the written value,
    with 0 replaced by 1. *)
Theorem mbc1_rom_bank_low_bits_never_zero (e : Emulator) (addr v : Z) :
  write_rom (memory_map e) = Mbc1_write_rom ->
  0 <= addr <= 0x7FFF ->
  dma_active (dma e) = false ->
  exists e',
    write_u8 e addr v = Some e'
    /\ Z.land (rom_bank (memory_map e')) 0x1F <> 0
    /\ (0x2000 <= addr <= 0x3FFF ->
        Z.land (rom_bank (memory_map e')) 0x1F
        = if Z.land v 0x1F =? 0 then 1 else Z.land v 0x1F).
Proof.
  intros Hm Ha Hd. rewrite write_u8_rom_area by assumption.
  unfold call_write_rom. rewrite Hm. unfold mbc1_write_rom.
  assert (Hq : (Z.shiftr addr 13 = 0 /\ addr < 0x2000)
               \/ (Z.shiftr addr 13 = 1 /\ 0x2000 <= addr <= 0x3FFF)
               \/ (Z.shiftr addr 13 = 2 /\ 0x4000 <= addr)
               \/ (Z.shiftr addr 13 = 3 /\ 0x4000 <= addr)).
  { rewrite Z.shiftr_div_pow2 by lia. change (2 ^ 13) with 0x2000.
    Z.to_euclidean_division_equations. lia. }
  cbv zeta.
  destruct Hq as [[-> Hr] | [[-> Hr] | [[-> Hr] | [-> Hr]]]]; cbv iota;
    (eexists; split; [reflexivity |]);
    cbn [memory_map set_memory_map];
    match goal with
    | |- context [Z.land (rom_bank (if bank_mode (mbc1 (set_rom_bank _ ?m)) =? _ then _ else _)) _] =>
      pose proof (mbc1_bank_low5 m) as Hb; cbv zeta in Hb;
      cbn [mbc1 set_rom_bank] in Hb |- *
    end;
    (split;
     [ rewrite Hb; pose proof (land_1F_range (byte_2000_3fff (mbc1 (memory_map e)))) as Hr1;
       try (pose proof (land_1F_range v) as Hr2);
       cbn [mbc1 set_mbc1 set_ext_ram_enabled byte_2000_3fff set_byte_2000_3fff
            set_byte_4000_5fff set_bank_mode];
       match goal with |- context [?x =? 0] => destruct (Z.eqb_spec x 0) end; lia
     | intros Hr'; try lia; rewrite Hb; reflexivity ]).
Qed.

(** X11 for a write of 0x20 to 0x2000 on a started MBC1 cartridge. *)
Lemma mbc1_rom_bank_low_bits_never_zero_witness :
  exists e',
    write_u8 (boot rom_mbc1) 0x2000 0x20 = Some e'
    /\ Z.land (rom_bank (memory_map e')) 0x1F <> 0
    /\ (0x2000 <= 0x2000 <= 0x3FFF ->
        Z.land (rom_bank (memory_map e')) 0x1F
        = if Z.land 0x20 0x1F =? 0 then 1 else Z.land 0x20 0x1F).
Proof.
  apply (mbc1_rom_bank_low_bits_never_zero (boot rom_mbc1) 0x2000 0x20);
    [vm_compute; reflexivity | lia | vm_compute; reflexivity].
Defined.

Lemma write_u8_ext_ram_area (e : Emulator) (a v : Z) :
  0xA000 <= a <= 0xBFFF -> dma_active (dma e) = false ->
  write_u8 e a v = Some (call_write_external_ram e (a - 0xA000) v).
Proof.
  intros Ha Hd. unfold write_u8. rewrite (map_address_full a) by lia. cbv zeta.
  rewrite dma_inactive_ok by exact Hd. cbn [negb pair_type pair_addr].
  unfold region_of, region_base. case_ltb; cbv iota. reflexivity.
Qed.

Lemma read_u8_ext_ram_area (e : Emulator) (a : Z) :
  0xA000 <= a <= 0xBFFF -> dma_active (dma e) = false ->
  read_u8 e a = call_read_external_ram e (a - 0xA000).
Proof.
  intros Ha Hd. unfold read_u8. rewrite (map_address_full a) by lia. cbv zeta.
  rewrite dma_inactive_ok by exact Hd. cbn [negb].
  unfold region_of, region_base. case_ltb; cbn. reflexivity.
Qed.

(** X12.  External RAM behind [gb_read_external_ram] and
    [gb_write_external_ram] (a cartridge with RAM other than an MBC2), no OAM
    DMA being active: with the RAM enabled, a byte
    written to 0xA000-0xBFFF is the byte read back from that address; with
    the RAM disabled, the write changes nothing and the read gives 0xFF. *)
Theorem external_ram_round_trip (e : Emulator) (a v : Z) :
  read_external_ram (memory_map e) = Gb_read_external_ram ->
  write_external_ram (memory_map e) = Gb_write_external_ram ->
  0xA000 <= a <= 0xBFFF ->
  dma_active (dma e) = false ->
  exists e',
    write_u8 e a v = Some e'
    /\ read_u8 e' a = (if ext_ram_enabled (memory_map e) then v else 0xFF)
    /\ (ext_ram_enabled (memory_map e) = false -> e' = e).
Proof.
  intros Hr Hw Ha Hd. rewrite write_u8_ext_ram_area by assumption.
  eexists. split; [reflexivity |].
  unfold call_write_external_ram. rewrite Hw. unfold gb_write_external_ram.
  destruct (ext_ram_enabled (memory_map e)) eqn:Hen.
  - split; [| discriminate].
    rewrite read_u8_ext_ram_area by assumption.
    unfold call_read_external_ram. cbn [memory_map set_ext_ram_data]. rewrite Hr.
    unfold gb_read_external_ram. cbn [memory_map set_ext_ram_data]. rewrite Hen.
    cbn [ext_ram_data set_ext_ram_data].
    change (get_external_ram_address (set_ext_ram_data ?d e) ?x)
      with (get_external_ram_address e x).
    unfold aset. rewrite Z.eqb_refl. reflexivity.
  - split; [| reflexivity].
    rewrite read_u8_ext_ram_area by assumption.
    unfold call_read_external_ram. rewrite Hr. unfold gb_read_external_ram. rewrite Hen.
    reflexivity.
Qed.

(** X12 on the MBC3 cartridge.  After the write of 0x0A to 0x0000 its
    external RAM is enabled, and 0x12 written to 0xA123 is read back; on the
    started cartridge the RAM is disabled, the write changes nothing and
    0xA123 reads 0xFF. *)
Lemma external_ram_round_trip_witness :
  (ext_ram_enabled (memory_map mbc3_ram_enabled) = true
   /\ exists e',
        write_u8 mbc3_ram_enabled 0xA123 0x12 = Some e'
        /\ read_u8 e' 0xA123 = 0x12)
  /\ (ext_ram_enabled (memory_map (boot rom_mbc3)) = false
      /\ write_u8 (boot rom_mbc3) 0xA123 0x12 = Some (boot rom_mbc3)
      /\ read_u8 (boot rom_mbc3) 0xA123 = 0xFF).
Proof.
  split.
  - assert (Hen : ext_ram_enabled (memory_map mbc3_ram_enabled) = true)
      by (vm_compute; reflexivity).
    split; [exact Hen |].
    destruct (external_ram_round_trip mbc3_ram_enabled 0xA123 0x12) as (e' & Hw & Hr & _);
      [vm_compute; reflexivity | vm_compute; reflexivity | lia | vm_compute; reflexivity |].
    exists e'. split; [exact Hw |]. rewrite Hr, Hen. reflexivity.
  - assert (Hen : ext_ram_enabled (memory_map (boot rom_mbc3)) = false)
      by (vm_compute; reflexivity).
    split; [exact Hen |].
    destruct (external_ram_round_trip (boot rom_mbc3) 0xA123 0x12) as (e' & Hw & Hr & Hsame);
      [vm_compute; reflexivity | vm_compute; reflexivity | lia | vm_compute; reflexivity |].
    rewrite (Hsame Hen) in Hw, Hr. split; [exact Hw |]. rewrite Hr, Hen. reflexivity.
Defined.

Lemma lor_shiftl_add (hi lo n : Z) :
  0 <= n -> 0 <= lo < 2 ^ n -> Z.lor (Z.shiftl hi n) lo = hi * 2 ^ n + lo.
Proof.
  intros Hn Hlo.
  assert (Hland : Z.land (Z.shiftl hi n) lo = 0).
  { apply Z.bits_inj'. intros k Hk. rewrite Z.land_spec, Z.bits_0.
    destruct (Z.ltb_spec k n) as [Hlt | Hge].
    - rewrite Z.shiftl_spec_low by lia. reflexivity.
    - rewrite <- (Z.mod_small lo (2 ^ n)) by lia.
      rewrite Z.mod_pow2_bits_high by lia. apply andb_false_r. }
  rewrite <- Z.lxor_lor by exact Hland.
  rewrite <- Z.add_nocarry_lxor by exact Hland.
  rewrite Z.shiftl_mul_pow2 by lia. reflexivity.
Qed.

Lemma read_u8_rom_bank_area (e : Emulator) (a : Z) :
  0x4000 <= a <= 0x7FFF -> dma_active (dma e) = false ->
  read_u8 e a
  = read_u8_no_dma_check e (Build_MemoryTypeAddressPair MEMORY_MAP_ROM_BANK_SWITCH (a - 0x4000)).
Proof.
  intros Ha Hd. unfold read_u8. rewrite (map_address_full a) by lia. cbv zeta.
  rewrite dma_inactive_ok by exact Hd. cbn [negb].
  unfold region_of, region_base. case_ltb.
Qed.

(** X13.  Bank switching on an MBC3 cartridge, no OAM DMA being active:
    after a write of [v] to
    0x2000-0x3FFF, a read of an address in 0x4000-0x7FFF gives the ROM byte at
    that offset in bank [v & 0x7F], or 0xFF when that lies beyond the ROM. *)
Theorem mbc3_bank_switch_read (e : Emulator) (w v a : Z) :
  write_rom (memory_map e) = Mbc3_write_rom ->
  dma_active (dma e) = false ->
  0x2000 <= w <= 0x3FFF ->
  0x4000 <= a <= 0x7FFF ->
  exists e',
    write_u8 e w v = Some e'
    /\ read_u8 e' a
       = let offset := Z.land v 0x7F * 0x4000 + (a - 0x4000) in
         if offset <? rom_size e then rom_data e offset else 0xFF.
Proof.
  intros Hm Hd Hw Ha. rewrite write_u8_rom_area by (try assumption; lia).
  unfold call_write_rom. rewrite Hm. unfold mbc3_write_rom.
  assert (Hq : Z.shiftr w 13 = 1).
  { rewrite Z.shiftr_div_pow2 by lia. change (2 ^ 13) with 0x2000.
    Z.to_euclidean_division_equations. lia. }
  rewrite Hq. cbv iota.
  eexists. split; [reflexivity |].
  rewrite read_u8_rom_bank_area by assumption.
  unfold read_u8_no_dma_check. cbn [pair_type pair_addr]. cbv zeta.
  change (rom_bank (memory_map (upd_memory_map (set_rom_bank ?b) e))) with b.
  change (rom_size (upd_memory_map ?f e)) with (rom_size e).
  change (rom_data (upd_memory_map ?f e)) with (rom_data e).
  unfold ROM_BANK_SHIFT, MBC3_ROM_BANK_SELECT_MASK.
  rewrite lor_shiftl_add by lia. reflexivity.
Qed.

(** X13 on the started MBC3 cartridge: bank 1 starts with the byte 0xBB. *)
Lemma mbc3_bank_switch_read_witness :
  exists e',
    write_u8 (boot rom_mbc3) 0x2000 0x01 = Some e'
    /\ read_u8 e' 0x4000
       = let offset := Z.land 0x01 0x7F * 0x4000 + (0x4000 - 0x4000) in
         if offset <? rom_size (boot rom_mbc3) then rom_data (boot rom_mbc3) offset else 0xFF.
Proof.
  apply (mbc3_bank_switch_read (boot rom_mbc3) 0x2000 0x01 0x4000);
    [vm_compute; reflexivity | vm_compute; reflexivity | lia | lia].
Defined.

(** ** I/O registers, video RAM and the sound unit *)

Lemma all_bytes_In (p : Z) : 0 <= p <= 0xFF -> In p all_bytes.
Proof.
  intros Hp. unfold all_bytes. apply in_map_iff. exists (Z.to_nat p).
  split; [lia |]. apply in_seq. lia.
Qed.

(** A property checked on every byte holds of each byte. *)
Lemma all_bytes_forallb (f : Z -> bool) (p : Z) :
  forallb f all_bytes = true -> 0 <= p <= 0xFF -> f p = true.
Proof.
  intros Hall Hp. rewrite forallb_forall in Hall. apply Hall. apply all_bytes_In. exact Hp.
Qed.

Lemma write_u8_io_area (e : Emulator) (a v : Z) :
  0xFF00 <= a <= 0xFF0F \/ 0xFF40 <= a <= 0xFF7F \/ a = 0xFFFF ->
  dma_active (dma e) = false ->
  write_u8 e a v = Some (write_io e (a - 0xFF00) v).
Proof.
  intros Ha Hd. unfold write_u8. rewrite (map_address_full a) by lia. cbv zeta.
  rewrite dma_inactive_ok by exact Hd. cbn [negb pair_type pair_addr].
  unfold region_of, region_base. case_ltb; reflexivity.
Qed.

Lemma read_u8_io_area (e : Emulator) (a : Z) :
  0xFF00 <= a <= 0xFF0F \/ 0xFF40 <= a <= 0xFF7F \/ a = 0xFFFF ->
  dma_active (dma e) = false ->
  read_u8 e a = read_io e (a - 0xFF00).
Proof.
  intros Ha Hd. unfold read_u8. rewrite (map_address_full a) by lia. cbv zeta.
  rewrite dma_inactive_ok by exact Hd. cbn [negb].
  unfold region_of, region_base. case_ltb; reflexivity.
Qed.

(** The byte that a palette register gives back, as a function of the byte
    written. *)
Lemma read_write_palette (v : Z) (p : Palette) :
  read_palette (write_palette v p)
  = Z.lor (Z.lor (Z.lor (READ_BITS (WRITE_BITS v 7 6) 7 6) (READ_BITS (WRITE_BITS v 5 4) 5 4))
                 (READ_BITS (WRITE_BITS v 3 2) 3 2))
          (READ_BITS (WRITE_BITS v 1 0) 1 0).
Proof. reflexivity. Qed.

Lemma palette_byte (v : Z) :
  0 <= v <= 0xFF ->
  Z.lor (Z.lor (Z.lor (READ_BITS (WRITE_BITS v 7 6) 7 6) (READ_BITS (WRITE_BITS v 5 4) 5 4))
               (READ_BITS (WRITE_BITS v 3 2) 3 2))
        (READ_BITS (WRITE_BITS v 1 0) 1 0) = v.
Proof.
  intros Hv. apply Z.eqb_eq.
  apply (all_bytes_forallb
           (fun v => Z.lor (Z.lor (Z.lor (READ_BITS (WRITE_BITS v 7 6) 7 6)
                                         (READ_BITS (WRITE_BITS v 5 4) 5 4))
                                  (READ_BITS (WRITE_BITS v 3 2) 3 2))
                           (READ_BITS (WRITE_BITS v 1 0) 1 0) =? v));
    [vm_compute; reflexivity | exact Hv].
Qed.

(** X14.  The I/O registers TIMA, TMA, SCY, SCX, LYC, BGP, OBP0, OBP1, WY, WX
    and IE hold what is written: a CPU write of a byte followed by a CPU read
    of the same register gives that byte (no OAM DMA active). *)
Theorem io_register_round_trip (e : Emulator) (a v : Z) :
  In a stored_io_regs ->
  0 <= v <= 0xFF ->
  dma_active (dma e) = false ->
  exists e', write_u8 e a v = Some e' /\ read_u8 e' a = v.
Proof.
  intros Ha Hv Hd.
  assert (Hio : 0xFF00 <= a <= 0xFF0F \/ 0xFF40 <= a <= 0xFF7F \/ a = 0xFFFF).
  { unfold stored_io_regs in Ha. cbn [In] in Ha. lia. }
  rewrite write_u8_io_area by assumption.
  eexists. split; [reflexivity |].
  assert (Hd' : dma_active (dma (write_io e (a - 0xFF00) v)) = false).
  { unfold stored_io_regs in Ha. cbn [In] in Ha.
    repeat (destruct Ha as [<- | Ha]; [exact Hd |]). contradiction. }
  rewrite read_u8_io_area by assumption.
  unfold stored_io_regs in Ha. cbn [In] in Ha.
  repeat (destruct Ha as [<- | Ha];
          [ cbn; rewrite ?read_write_palette; try reflexivity; apply palette_byte; exact Hv |]).
  contradiction.
Qed.

(** X14 for the background palette register BGP. *)
Lemma io_register_round_trip_witness :
  exists e', write_u8 (boot rom_mbc3) 0xFF47 0xE4 = Some e' /\ read_u8 e' 0xFF47 = 0xE4.
Proof.
  apply (io_register_round_trip (boot rom_mbc3) 0xFF47 0xE4);
    [simpl; lia | lia | vm_compute; reflexivity].
Defined.

(** X15.  Video RAM and the LCD mode: while the LCD is in mode 3 (using OAM
    and VRAM) a CPU write to 0x8000-0x9FFF changes nothing and a read gives
    0xFF; in every other mode the byte written is the byte read back. *)
Theorem vram_round_trip (e : Emulator) (a v : Z) :
  0x8000 <= a <= 0x9FFF ->
  dma_active (dma e) = false ->
  exists e',
    write_u8 e a v = Some e'
    /\ (mode (stat (lcd e)) = LCD_MODE_USING_OAM_VRAM -> e' = e /\ read_u8 e a = 0xFF)
    /\ (mode (stat (lcd e)) <> LCD_MODE_USING_OAM_VRAM -> read_u8 e' a = v).
Proof.
  intros Ha Hd.
  assert (Hw : write_u8 e a v = Some (write_vram e (a - 0x8000) v)).
  { unfold write_u8. rewrite (map_address_full a) by lia. cbv zeta.
    rewrite dma_inactive_ok by exact Hd. cbn [negb pair_type pair_addr].
    unfold region_of, region_base. case_ltb; reflexivity. }
  assert (Hr : forall e0, dma_active (dma e0) = false ->
                          read_u8 e0 a = read_vram e0 (a - 0x8000)).
  { intros e0 Hd0. unfold read_u8. rewrite (map_address_full a) by lia. cbv zeta.
    rewrite dma_inactive_ok by exact Hd0. cbn [negb].
    unfold region_of, region_base. case_ltb; reflexivity. }
  rewrite Hw. eexists. split; [reflexivity |].
  unfold write_vram. split.
  - intros Hm. rewrite (Hr e Hd). unfold read_vram. rewrite Hm. split; reflexivity.
  - intros Hm.
    assert (Hb : LCDMode_eqb (mode (stat (lcd e))) LCD_MODE_USING_OAM_VRAM = false).
    { destruct (mode (stat (lcd e))); try reflexivity. contradiction. }
    rewrite Hb. rewrite Hr by exact Hd. unfold read_vram.
    change (lcd (set_vram_data ?d e)) with (lcd e). rewrite Hb.
    cbn [vram_data set_vram_data]. unfold aset. rewrite Z.eqb_refl. reflexivity.
Qed.

(** X15 at the first byte of video RAM with the display off. *)
Lemma vram_round_trip_witness :
  exists e',
    write_u8 mbc3_lcd_off 0x8000 0x3C = Some e'
    /\ (mode (stat (lcd mbc3_lcd_off)) = LCD_MODE_USING_OAM_VRAM ->
        e' = mbc3_lcd_off /\ read_u8 mbc3_lcd_off 0x8000 = 0xFF)
    /\ (mode (stat (lcd mbc3_lcd_off)) <> LCD_MODE_USING_OAM_VRAM -> read_u8 e' 0x8000 = 0x3C).
Proof.
  apply (vram_round_trip mbc3_lcd_off 0x8000 0x3C); [lia | vm_compute; reflexivity].
Defined.

(** ** Opcodes that are not executed *)

Lemma in_unexecuted_dec (p : Z) :
  existsb (Z.eqb p) unexecuted_opcodes = true <-> In p unexecuted_opcodes.
Proof.
  rewrite existsb_exists. split.
  - intros (x & Hx & He). apply Z.eqb_eq in He. subst. exact Hx.
  - intros H. exists p. split; [exact H | apply Z.eqb_refl].
Qed.

(** X16.  STOP (0x10) and the eleven undefined opcodes make the emulator
    exit, in every state; every other one-byte opcode, and every opcode after
    the prefix 0xCB, has a [case] that is neither [NI] nor [INVALID]. *)
Theorem unexecuted_opcodes_exit (p : Z) :
  0 <= p <= 0xFF ->
  (In p unexecuted_opcodes -> forall e, execute_opcode e p = None)
  /\ (~ In p unexecuted_opcodes -> p <> 0xCB -> existsb is_exit_op (opcode_ops p) = false)
  /\ existsb is_exit_op (cb_opcode_ops p) = false.
Proof.
  intros Hp. split; [| split].
  - intros Hin e. unfold unexecuted_opcodes in Hin. cbn [In] in Hin.
    repeat (destruct Hin as [<- | Hin]; [reflexivity |]). contradiction.
  - intros Hnin Hcb.
    pose proof (all_bytes_forallb
                  (fun p => existsb (Z.eqb p) unexecuted_opcodes || (p =? 0xCB)
                            || negb (existsb is_exit_op (opcode_ops p)))
                  p ltac:(vm_compute; reflexivity) Hp) as H.
    cbv beta in H.
    destruct (existsb (Z.eqb p) unexecuted_opcodes) eqn:Hex.
    + apply in_unexecuted_dec in Hex. contradiction.
    + destruct (Z.eqb_spec p 0xCB) as [-> | _]; [contradiction |].
      cbn [orb] in H. apply negb_true_iff in H. exact H.
  - pose proof (all_bytes_forallb
                  (fun p => negb (existsb is_exit_op (cb_opcode_ops p)))
                  p ltac:(vm_compute; reflexivity) Hp) as H.
    apply negb_true_iff in H. exact H.
Qed.

(** X16 for STOP. *)
Lemma unexecuted_opcodes_exit_witness :
  (In 0x10 unexecuted_opcodes -> forall e, execute_opcode e 0x10 = None)
  /\ (~ In 0x10 unexecuted_opcodes -> 0x10 <> 0xCB ->
      existsb is_exit_op (opcode_ops 0x10) = false)
  /\ existsb is_exit_op (cb_opcode_ops 0x10) = false.
Proof. apply (unexecuted_opcodes_exit 0x10). lia. Defined.

(** ** The footprint of a write *)

Lemma call_write_rom_keeps (e : Emulator) (addr v : Z) :
  0 <= addr < 0x8000 ->
  exists e', call_write_rom e addr v = Some e' /\ except_memory_map e' = except_memory_map e.
Proof.
  intros Ha.
  assert (Hq : Z.shiftr addr 13 = 0 \/ Z.shiftr addr 13 = 1 \/ Z.shiftr addr 13 = 2
               \/ Z.shiftr addr 13 = 3).
  { rewrite Z.shiftr_div_pow2 by lia. change (2 ^ 13) with 0x2000.
    Z.to_euclidean_division_equations. lia. }
  unfold call_write_rom. destruct (write_rom (memory_map e)).
  - eexists. split; reflexivity.
  - unfold mbc1_write_rom.
    destruct Hq as [-> | [-> | [-> | ->]]]; cbv zeta iota;
      (eexists; split; [reflexivity | reflexivity]).
  - eexists. split; [reflexivity |]. unfold mbc2_write_rom. frame_zeta idtac.
  - eexists. split; [reflexivity |]. unfold mbc3_write_rom. frame_zeta idtac.
Qed.

Lemma except_io_write_io (e : Emulator) (addr v : Z) :
  except_io (write_io e addr v) = except_io e.
Proof.
  cbv beta delta [write_io].
  repeat match goal with
         | |- except_io (if ?c then _ else _) = _ =>
           destruct c;
           [solve [unfold write_div_counter, increment_tima; frame_zeta idtac] |]
         end.
  reflexivity.
Qed.

Lemma write_u8_keeps (e : Emulator) (addr v : Z) :
  0 <= addr <= 0xFFFF ->
  exists e', write_u8 e addr v = Some e' /\ write_keeps (region_of addr) e e'.
Proof.
  intros H. unfold write_u8. rewrite (map_address_full addr H). cbv zeta.
  destruct (negb (is_dma_access_ok e _)).
  { exists e. split; [reflexivity |]. destruct (region_of addr); reflexivity. }
  cbn [pair_type pair_addr].
  unfold region_of, region_base.
  case_ltb; cbv iota; unfold write_keeps;
    try (eexists; split; [reflexivity |]);
    try reflexivity.
  - apply call_write_rom_keeps. lia.
  - apply call_write_rom_keeps. unfold u16. rewrite Z.mod_small by lia. lia.
  - unfold write_vram. frame_zeta idtac.
  - unfold call_write_external_ram, gb_write_external_ram, dummy_write_external_ram,
      mbc2_write_ram. frame_zeta idtac.
  - unfold write_oam, write_oam_no_mode_check. frame_zeta idtac.
  - apply except_io_write_io.
  - apply except_sound_write_apu.
  - apply except_sound_write_wave_ram.
  - apply except_io_write_io.
  - apply except_io_write_io.
Qed.



(** ** The timer over many cycles *)

Lemma div_counter_write_div_counter (e : Emulator) (d' : Z) :
  div_counter (timer (write_div_counter e d')) = d'.
Proof. reflexivity. Qed.

Lemma div_counter_tick (e : Emulator) :
  div_counter (timer (update_timer_tick e)) = u16 (div_counter (timer e) + 4).
Proof.
  unfold update_timer_tick. cbv zeta. rewrite div_counter_write_div_counter.
  destruct (timer_on (timer e) && tima_overflow (timer e)); reflexivity.
Qed.

Lemma u16_add_u16 (x y : Z) : u16 (u16 x + y) = u16 (x + y).
Proof. unfold u16. rewrite Zplus_mod_idemp_l. reflexivity. Qed.

Lemma div_counter_ticks (k : nat) (e : Emulator) :
  div_counter (timer (Nat.iter (S k) update_timer_tick e))
  = u16 (div_counter (timer e) + 4 * Z.of_nat (S k)).
Proof.
  induction k as [| k IH].
  - cbn [Nat.iter]. rewrite div_counter_tick. f_equal.
  - change (Nat.iter (S (S k)) update_timer_tick e)
      with (update_timer_tick (Nat.iter (S k) update_timer_tick e)).
    rewrite div_counter_tick, IH, u16_add_u16. f_equal. lia.
Qed.

(** The timer after a tick is a function of the timer before it. *)
Lemma timer_tick_ext (e1 e2 : Emulator) :
  timer e1 = timer e2 -> timer (update_timer_tick e1) = timer (update_timer_tick e2).
Proof.
  intros H. unfold update_timer_tick, write_div_counter, increment_tima, raise_interrupt.
  cbv zeta. rewrite H.
  destruct (timer_on (timer e2) && tima_overflow (timer e2));
    cbn [timer upd_timer set_timer upd_interrupts set_interrupts]; rewrite ?H;
    repeat match goal with
           | |- context [if ?c then _ else _] => destruct c
           end;
    cbn [timer upd_timer set_timer upd_interrupts set_interrupts]; rewrite ?H; reflexivity.
Qed.

Lemma timer_ticks_ext (k : nat) (e1 e2 : Emulator) :
  timer e1 = timer e2 ->
  timer (Nat.iter k update_timer_tick e1) = timer (Nat.iter k update_timer_tick e2).
Proof.
  intros H. induction k as [| k IH]; [exact H |].
  cbn [Nat.iter]. apply timer_tick_ext. exact IH.
Qed.

(** Of [update_cycles], only [update_timer_cycles] touches the timer. *)
Lemma timer_update_cycles (e : Emulator) (n : Z) :
  timer (update_cycles e n) = timer (update_timer_cycles e n).
Proof.
  unfold update_cycles. cbv zeta.
  change (timer (set_cycles ?c ?x)) with (timer x).
  rewrite (V_update_sound_cycles timer) by reflexivity.
  unfold update_timer_cycles. apply timer_ticks_ext.
  rewrite (V_update_lcd_cycles timer) by reflexivity.
  apply (V_update_dma_cycles timer); reflexivity.
Qed.

(** The selected bit of the counter falls in a tick exactly when the counter
    crosses a multiple of the period. *)
Lemma bit_falls (d c : Z) :
  Z.testbit d (tima_bit c) && negb (Z.testbit (u16 (d + 4)) (tima_bit c))
  = (timer_period c <=? d mod timer_period c + 4).
Proof.
  unfold timer_period.
  assert (Hb : tima_bit c = 9 \/ tima_bit c = 3 \/ tima_bit c = 5 \/ tima_bit c = 7).
  { unfold tima_bit. destruct c as [| [[[]|[]|]|[[]|[]|]|] |]; lia. }
  rewrite testbit_u16_low by lia.
  destruct (Z.testbit d (tima_bit c)) eqn:H1;
    destruct (Z.testbit (d + 4) (tima_bit c)) eqn:H2; cbn [andb negb];
    [ apply Z.testbit_true in H1; [| lia]; apply Z.testbit_true in H2; [| lia]
    | apply Z.testbit_true in H1; [| lia]; apply Z.testbit_false in H2; [| lia]
    | apply Z.testbit_false in H1; [| lia]; apply Z.testbit_true in H2; [| lia]
    | apply Z.testbit_false in H1; [| lia]; apply Z.testbit_false in H2; [| lia] ];
    symmetry;
    destruct Hb as [Hb | [Hb | [Hb | Hb]]]; rewrite Hb in *;
    first [apply Z.leb_le | apply Z.leb_gt];
    match goal with
    | |- context [2 ^ (?b + 1)] =>
      let v := eval vm_compute in (2 ^ (b + 1)) in change (2 ^ (b + 1)) with v
    end;
    match goal with
    | H : context [2 ^ ?b] |- _ =>
      let v := eval vm_compute in (2 ^ b) in change (2 ^ b) with v in H1, H2
    end;
    Z.to_euclidean_division_equations; lia.
Qed.

(** One tick of a running timer with no reload pending. *)
Lemma tick_running (e : Emulator) :
  timer_on (timer e) = true -> tima_overflow (timer e) = false ->
  0 <= TIMA (timer e) < 0xFF ->
  let P := timer_period (clock_select (timer e)) in
  timer (update_timer_tick e)
  = set_div_counter (u16 (div_counter (timer e) + 4))
      (set_TIMA (TIMA (timer e) + (div_counter (timer e) mod P + 4) / P) (timer e)).
Proof.
  intros Hon Hov Ht P. unfold update_timer_tick. rewrite Hon, Hov. cbn [andb]. cbv zeta.
  rewrite write_div_counter_running by exact Hon. rewrite bit_falls. fold P.
  assert (HP : P = 1024 \/ P = 16 \/ P = 64 \/ P = 256).
  { unfold P, timer_period, tima_bit.
    destruct (clock_select (timer e)) as [| [[[]|[]|]|[[]|[]|]|] |]; cbn; lia. }
  assert (Hm : 0 <= div_counter (timer e) mod P < P) by (apply Z.mod_pos_bound; lia).
  destruct (Z.leb_spec P (div_counter (timer e) mod P + 4)) as [Hle | Hgt].
  - replace ((div_counter (timer e) mod P + 4) / P) with 1
      by (apply Z.div_unique with (r := div_counter (timer e) mod P + 4 - P); lia).
    unfold increment_tima. cbv zeta.
    cbn [timer upd_timer set_timer TIMA set_TIMA].
    rewrite (u8_small (TIMA (timer e) + 1)) by lia.
    destruct (Z.eqb_spec (TIMA (timer e) + 1) 0) as [H0 | _]; [lia |].
    cbn [timer upd_timer set_timer TIMA set_TIMA].
    rewrite ?(u8_small (TIMA (timer e) + 1)) by lia.
    destruct (timer e). reflexivity.
  - rewrite Z.div_small by lia. rewrite Z.add_0_r.
    cbn [timer upd_timer set_timer].
    destruct (timer e). reflexivity.
Qed.

(** X19.  The rate of TIMA.  With the timer running, no reload pending and
    TIMA not about to pass 0xFF, TIMA after [k] machine cycles has advanced by
    the number of multiples of the period (1024, 16, 64 or 256 cycles, by
    clock select) that the counter has crossed, [tima_steps]; the counter has
    advanced by [4 * k]. *)
Theorem tima_rate (k : nat) (e : Emulator) :
  timer_on (timer e) = true -> tima_overflow (timer e) = false ->
  0 <= div_counter (timer e) < 0x10000 ->
  0 <= TIMA (timer e) -> TIMA (timer e) + tima_steps (timer e) k <= 0xFF ->
  timer (Nat.iter k (fun s => update_timer_cycles s 4) e)
  = set_div_counter (u16 (div_counter (timer e) + 4 * Z.of_nat k))
      (set_TIMA (TIMA (timer e) + tima_steps (timer e) k) (timer e)).
Proof.
  unfold tima_steps. set (P := timer_period (clock_select (timer e))).
  intros Hon Hov Hd Ht0 Ht.
  assert (HP : P = 1024 \/ P = 16 \/ P = 64 \/ P = 256).
  { unfold P, timer_period, tima_bit.
    destruct (clock_select (timer e)) as [| [[[]|[]|]|[[]|[]|]|] |]; cbn; lia. }
  induction k as [| k IH].
  - change (Nat.iter 0 (fun s => update_timer_cycles s 4) e) with e.
    change (4 * Z.of_nat 0) with 0. rewrite !Z.add_0_r.
    rewrite u16_small by exact Hd.
    rewrite Z.div_small by (apply Z.mod_pos_bound; lia). rewrite Z.add_0_r.
    destruct (timer e). reflexivity.
  - assert (Hm : 0 <= div_counter (timer e) mod P < P) by (apply Z.mod_pos_bound; lia).
    assert (Hmono : (div_counter (timer e) mod P + 4 * Z.of_nat k) / P
                    <= (div_counter (timer e) mod P + 4 * Z.of_nat (S k)) / P).
    { apply Z.div_le_mono; lia. }
    assert (Hpos : 0 <= (div_counter (timer e) mod P + 4 * Z.of_nat k) / P).
    { apply Z.div_pos; lia. }
    specialize (IH ltac:(lia)).
    change (Nat.iter (S k) (fun s => update_timer_cycles s 4) e)
      with (update_timer_tick (Nat.iter k (fun s => update_timer_cycles s 4) e)).
    revert IH. generalize (Nat.iter k (fun s => update_timer_cycles s 4) e). intros s IH.
    assert (Hs_on : timer_on (timer s) = true) by (rewrite IH; exact Hon).
    assert (Hs_ov : tima_overflow (timer s) = false) by (rewrite IH; exact Hov).
    assert (Hs_cs : clock_select (timer s) = clock_select (timer e)) by (rewrite IH; reflexivity).
    assert (Hs_d : div_counter (timer s) = u16 (div_counter (timer e) + 4 * Z.of_nat k))
      by (rewrite IH; reflexivity).
    assert (Hs_t : TIMA (timer s)
                   = TIMA (timer e) + (div_counter (timer e) mod P + 4 * Z.of_nat k) / P)
      by (rewrite IH; reflexivity).
    assert (Hstep : (div_counter (timer e) mod P + 4 * Z.of_nat (S k)) / P
                    = (div_counter (timer e) mod P + 4 * Z.of_nat k) / P
                      + (div_counter (timer s) mod P + 4) / P).
    { rewrite Hs_d. unfold u16.
      clear - HP. set (d := div_counter (timer e)).
      replace (4 * Z.of_nat (S k)) with (4 * Z.of_nat k + 4) by lia.
      generalize (Z.of_nat k) (Nat2Z.is_nonneg k). intros j Hj.
      destruct HP as [-> | [-> | [-> | ->]]];
        Z.to_euclidean_division_equations; lia. }
    pose proof (tick_running s Hs_on Hs_ov) as Htick. cbv zeta in Htick.
    rewrite Hs_cs in Htick. fold P in Htick.
    assert (Hq : 0 <= (div_counter (timer s) mod P + 4) / P).
    { apply Z.div_pos; [| lia]. pose proof (Z.mod_pos_bound (div_counter (timer s)) P). lia. }
    destruct (Z.eq_dec ((div_counter (timer s) mod P + 4) / P) 0) as [Hz | Hnz].
    + (* no increment in this tick *)
      assert (Hnofall : timer (update_timer_tick s)
                        = set_div_counter (u16 (div_counter (timer s) + 4)) (timer s)).
      { unfold update_timer_tick. rewrite Hs_on, Hs_ov. cbn [andb]. cbv zeta.
        rewrite write_div_counter_running by exact Hs_on. rewrite bit_falls.
        rewrite Hs_cs. fold P.
        destruct (Z.leb_spec P (div_counter (timer s) mod P + 4)) as [Hle | Hgt].
        - exfalso. apply (Z.div_le_mono _ _ P) in Hle; [| lia].
          rewrite Z_div_same in Hle by lia. lia.
        - cbn [timer upd_timer set_timer]. reflexivity. }
      rewrite Hnofall, Hstep, Hz, Z.add_0_r, Hs_d, u16_add_u16. rewrite IH.
      unfold set_div_counter, set_TIMA.
      cbn [TIMA TMA clock_select div_counter tima_overflow timer_on].
      f_equal. f_equal. lia.
    + rewrite Htick by lia. rewrite Hstep, Hs_d, u16_add_u16, Hs_t. rewrite IH.
      unfold set_div_counter, set_TIMA.
      cbn [TIMA TMA clock_select div_counter tima_overflow timer_on].
      f_equal; [lia | f_equal; lia].
Qed.

(** X19 for 16 machine cycles at a period of 16 cycles: four increments. *)
Lemma tima_rate_witness :
  timer (Nat.iter 16 (fun s => update_timer_cycles s 4) mbc3_timer_running)
  = set_div_counter (u16 (div_counter (timer mbc3_timer_running) + 4 * Z.of_nat 16))
      (set_TIMA (TIMA (timer mbc3_timer_running) + tima_steps (timer mbc3_timer_running) 16)
                (timer mbc3_timer_running)).
Proof.
  apply (tima_rate 16 mbc3_timer_running);
    [ vm_compute; reflexivity | vm_compute; reflexivity
    | vm_compute; split; [discriminate | reflexivity]
    | vm_compute; discriminate | vm_compute; discriminate ].
Defined.

(** X17.  The counter behind DIV counts every cycle: [update_cycles] advances
    it by the cycles given (from 1 to 254; at 255 the loop of
    [update_sound_cycles] does not end), rounded up to whole machine cycles,
    modulo 0x10000, whatever the state of the timer, the LCD, the DMA and the
    sound unit. *)
Theorem div_counter_counts_cycles (e : Emulator) (n : Z) :
  0 < n < 255 ->
  div_counter (timer (update_cycles e n))
  = u16 (div_counter (timer e) + 4 * ((n + 3) / 4)).
Proof.
  intros Hn. rewrite timer_update_cycles. unfold update_timer_cycles, iterations.
  replace (n + 4 - 1) with (n + 3) by lia.
  assert (Hq : 0 < (n + 3) / 4) by (Z.to_euclidean_division_equations; lia).
  destruct (Z.to_nat ((n + 3) / 4)) as [| k] eqn:Hk; [lia |].
  rewrite div_counter_ticks. rewrite <- Hk. rewrite Z2Nat.id by lia. reflexivity.
Qed.

(** X17 for the 12 cycles of a three-byte load. *)
Lemma div_counter_counts_cycles_witness :
  div_counter (timer (update_cycles (boot rom_mbc3) 12))
  = u16 (div_counter (timer (boot rom_mbc3)) + 4 * ((12 + 3) / 4)).
Proof. apply (div_counter_counts_cycles (boot rom_mbc3) 12). lia. Defined.

Lemma tick_stopped (e : Emulator) :
  timer_on (timer e) = false ->
  update_timer_tick e = upd_timer (set_div_counter (u16 (div_counter (timer e) + 4))) e.
Proof.
  intros Hoff. unfold update_timer_tick. rewrite Hoff. cbn [andb]. cbv zeta.
  unfold write_div_counter. rewrite Hoff. reflexivity.
Qed.

Lemma ticks_stopped (k : nat) (e : Emulator) :
  timer_on (timer e) = false ->
  Nat.iter (S k) update_timer_tick e
  = upd_timer (set_div_counter (u16 (div_counter (timer e) + 4 * Z.of_nat (S k)))) e.
Proof.
  intros Hoff. induction k as [| k IH].
  - cbn [Nat.iter]. rewrite tick_stopped by exact Hoff. reflexivity.
  - change (Nat.iter (S (S k)) update_timer_tick e)
      with (update_timer_tick (Nat.iter (S k) update_timer_tick e)).
    rewrite IH. rewrite tick_stopped by exact Hoff.
    change (div_counter (timer (upd_timer (set_div_counter ?x) e))) with x.
    rewrite u16_add_u16.
    replace (div_counter (timer e) + 4 * Z.of_nat (S k) + 4)
      with (div_counter (timer e) + 4 * Z.of_nat (S (S k))) by lia.
    reflexivity.
Qed.

(** X18.  A stopped timer: with the timer off, [update_timer_cycles] changes
    nothing but the counter behind DIV; TIMA, TMA and IF stay as they are. *)
Theorem stopped_timer_only_counts (e : Emulator) (n : Z) :
  timer_on (timer e) = false -> 0 < n ->
  update_timer_cycles e n
  = upd_timer (set_div_counter (u16 (div_counter (timer e) + 4 * ((n + 3) / 4)))) e.
Proof.
  intros Hoff Hn. unfold update_timer_cycles, iterations.
  replace (n + 4 - 1) with (n + 3) by lia.
  assert (Hq : 0 < (n + 3) / 4) by (Z.to_euclidean_division_equations; lia).
  destruct (Z.to_nat ((n + 3) / 4)) as [| k] eqn:Hk; [lia |].
  rewrite ticks_stopped by exact Hoff. rewrite <- Hk. rewrite Z2Nat.id by lia. reflexivity.
Qed.

(** X18 on the started MBC3 cartridge, whose timer is off. *)
Lemma stopped_timer_only_counts_witness :
  update_timer_cycles (boot rom_mbc3) 8
  = upd_timer (set_div_counter (u16 (div_counter (timer (boot rom_mbc3)) + 4 * ((8 + 3) / 4))))
              (boot rom_mbc3).
Proof.
  apply (stopped_timer_only_counts (boot rom_mbc3) 8); [vm_compute; reflexivity | lia].
Defined.

(** X20.  A write to DIV (0xFF04) while no OAM DMA is active, whatever the
    value, resets the counter, so
    that DIV reads 0; and, the timer being on, TIMA is incremented when the
    selected bit of the counter was set, since the reset makes that bit fall. *)
Theorem div_write_resets_counter (e : Emulator) (v : Z) :
  dma_active (dma e) = false ->
  exists e',
    write_u8 e 0xFF04 v = Some e'
    /\ div_counter (timer e') = 0
    /\ read_u8 e' 0xFF04 = 0
    /\ TIMA (timer e')
       = if timer_on (timer e)
            && Z.testbit (div_counter (timer e)) (tima_bit (clock_select (timer e)))
         then u8 (TIMA (timer e) + 1) else TIMA (timer e).
Proof.
  intros Hd. rewrite write_u8_io_area by (try assumption; lia).
  change (write_io e (0xFF04 - 0xFF00) v) with (write_div_counter e 0).
  eexists. split; [reflexivity |].
  split; [reflexivity |].
  split.
  - rewrite read_u8_io_area; [reflexivity | lia |].
    unfold write_div_counter, increment_tima. cbv zeta.
    repeat match goal with
           | |- context [if ?c then _ else _] => destruct c
           end; exact Hd.
  - destruct (timer_on (timer e)) eqn:Hon; cbn [andb].
    + rewrite write_div_counter_running by exact Hon.
      rewrite Z.bits_0. cbn [negb]. rewrite andb_true_r.
      destruct (Z.testbit (div_counter (timer e)) (tima_bit (clock_select (timer e)))).
      * unfold increment_tima. cbv zeta.
        match goal with
        | |- context [if ?c then _ else _] => destruct c
        end; reflexivity.
      * reflexivity.
    + unfold write_div_counter. rewrite Hon. reflexivity.
Qed.

(** X20 on the MBC3 cartridge with the timer on at clock select 1,
    [div_counter] = 12 (bit 3 set) and TIMA = 0x20: the write of 0x55 to DIV
    resets the counter, and TIMA becomes 0x21. *)
Lemma div_write_resets_counter_witness :
  (timer_on (timer mbc3_timer_bit_set) = true
   /\ div_counter (timer mbc3_timer_bit_set) = 12
   /\ TIMA (timer mbc3_timer_bit_set) = 0x20)
  /\ exists e',
       write_u8 mbc3_timer_bit_set 0xFF04 0x55 = Some e'
       /\ div_counter (timer e') = 0
       /\ read_u8 e' 0xFF04 = 0
       /\ TIMA (timer e') = 0x21.
Proof.
  split; [vm_compute; repeat split |].
  destruct (div_write_resets_counter mbc3_timer_bit_set 0x55) as (e' & Hw & Hd & Hr & Ht);
    [vm_compute; reflexivity |].
  exists e'. split; [exact Hw |]. split; [exact Hd |]. split; [exact Hr |].
  rewrite Ht. vm_compute. reflexivity.
Defined.

(** ** The line counter of the LCD *)

Ltac lcd_simp :=
  cbn [lcd upd_lcd set_lcd upd_interrupts set_interrupts raise_interrupt
       lcdc stat LY display mode
       set_lcdc set_stat set_SCY set_SCX set_LY set_LYC set_WY set_WX set_bgp set_lcd_cycles
       set_lcd_frame set_fake_LY set_win_y set_frame_WY set_new_frame_edge
       upd_stat set_mode set_y_compare_intr set_using_oam_intr set_vblank_intr set_hblank_intr
       fst snd] in *.

Lemma LCDMode_eqb_VBLANK (m : LCDMode) :
  LCDMode_eqb m LCD_MODE_VBLANK = true <-> m = LCD_MODE_VBLANK.
Proof. destruct m; cbn; split; intros H; first [reflexivity | discriminate]. Qed.

Lemma lcd_line_ok_spec (e : Emulator) :
  lcd_line_ok e = true <->
  (display (lcdc (lcd e)) = true ->
   0 <= LY (lcd e) < 154
   /\ (mode (stat (lcd e)) = LCD_MODE_VBLANK <-> 144 <= LY (lcd e))).
Proof.
  unfold lcd_line_ok, SCREEN_HEIGHT, SCREEN_HEIGHT_WITH_VBLANK.
  destruct (display (lcdc (lcd e))); cbn [negb orb]; [| split; [discriminate | reflexivity]].
  rewrite !andb_true_iff, Z.leb_le, Z.ltb_lt, Bool.eqb_true_iff.
  rewrite <- LCDMode_eqb_VBLANK.
  destruct (Z.leb_spec 144 (LY (lcd e))) as [Hge | Hlt];
    destruct (LCDMode_eqb (mode (stat (lcd e))) LCD_MODE_VBLANK);
    (split;
     [ intros [[H1 H2] H3] _; split; [lia |]; first [discriminate | split; intros; first [reflexivity | lia | discriminate]]
     | intros H; destruct (H eq_refl) as [[H1 H2] [H4 H5]];
       split; [split; assumption |];
       first [reflexivity | discriminate (H5 Hge) | specialize (H4 eq_refl); lia] ]).
Qed.

Lemma render_line_lcd_line (e : Emulator) (y : Z) :
  lcd_line_ok (render_line e y) = lcd_line_ok e.
Proof.
  unfold render_line.
  repeat match goal with
         | |- context [if ?c then _ else _] => destruct c
         end; reflexivity.
Qed.

Lemma update_lcd_cycles_line_ok (e : Emulator) (n : Z) :
  lcd_line_ok e = true -> lcd_line_ok (update_lcd_cycles e n) = true.
Proof.
  intros H0. pose proof (proj1 (lcd_line_ok_spec e) H0) as H. clear H0.
  apply lcd_line_ok_spec.
  unfold update_lcd_cycles, VALUE_WRAPPED, render_line. cbv zeta.
  change (display (lcdc (lcd (upd_lcd (fun l => set_lcd_cycles (u32 (lcd_cycles l + n)) l) e))))
    with (display (lcdc (lcd e))).
  destruct (display (lcdc (lcd e))) eqn:Hdisp.
  - specialize (H eq_refl). destruct H as [Hr [Hm1 Hm2]].
    change (mode (stat (lcd (upd_lcd (fun l => set_lcd_cycles (u32 (lcd_cycles l + n)) l) e))))
      with (mode (stat (lcd e))).
    assert (Hfact : (mode (stat (lcd e)) = LCD_MODE_VBLANK /\ 144 <= LY (lcd e))
                    \/ (mode (stat (lcd e)) <> LCD_MODE_VBLANK /\ LY (lcd e) < 144)).
    { destruct (Z.le_gt_cases 144 (LY (lcd e))) as [Hge | Hlt].
      - left. split; [apply Hm2; exact Hge | exact Hge].
      - right. split; [intros Hv; specialize (Hm1 Hv); lia | lia]. }
    clear Hm1 Hm2.
    destruct (mode (stat (lcd e))) eqn:Hmode;
      (destruct Hfact as [[Hv Hly] | [Hv Hly]]; [try discriminate Hv | try contradiction]);
      repeat match goal with
             | |- context [if ?c then _ else _] => destruct c eqn:?; lcd_simp
             end;
      lcd_simp; intros _;
      rewrite ?u8_small in * by lia;
      repeat match goal with
             | Hc : (_ =? _) = true |- _ => apply Z.eqb_eq in Hc
             | Hc : (_ =? _) = false |- _ => apply Z.eqb_neq in Hc
             | Hc : (_ <=? _) = true |- _ => apply Z.leb_le in Hc
             | Hc : (_ <=? _) = false |- _ => apply Z.leb_gt in Hc
             end;
      unfold SCREEN_HEIGHT, SCREEN_HEIGHT_WITH_VBLANK in *;
      (split; [lia | split; intros Hq;
                     first [lia | discriminate | reflexivity | congruence | exfalso; lia]]).
  - intros Hc. exfalso.
    repeat match goal with
           | Hc : context [if ?c then _ else _] |- _ => destruct c eqn:?; lcd_simp
           end; lcd_simp; congruence.
Qed.

Lemma lcd_line_ok_ext (e e' : Emulator) : lcd e' = lcd e -> lcd_line_ok e' = lcd_line_ok e.
Proof. intros H. unfold lcd_line_ok. rewrite H. reflexivity. Qed.

Lemma write_io_line_ok (e : Emulator) (addr v : Z) :
  lcd_line_ok e = true -> lcd_line_ok (write_io e addr v) = true.
Proof.
  intros H. cbv beta delta [write_io].
  repeat match goal with
         | |- lcd_line_ok (if ?c then _ else _) = true =>
           destruct c;
           [ first
               [ solve [ rewrite (lcd_line_ok_ext e) by
                           (unfold write_div_counter, increment_tima; frame_zeta idtac);
                         exact H ]
               | solve [ unfold lcd_line_ok in *; lcd_simp; exact H ]
               | idtac ]
           |]
         end.
  - (* LCDC *)
    cbv zeta. unfold lcd_line_ok in *. lcd_simp.
    destruct (display (lcdc (lcd e))) eqn:Hd, (WRITE_BIT v 7) eqn:Hw;
      cbn [negb andb orb]; lcd_simp; rewrite ?Hw; cbn [negb orb]; try reflexivity.
    exact H.
  - exact H.
Qed.

Lemma line_ok_of_lcd_eq (e e' : Emulator) :
  lcd e' = lcd e -> lcd_line_ok e = true -> lcd_line_ok e' = true.
Proof. intros Hl H. rewrite (lcd_line_ok_ext e e' Hl). exact H. Qed.

(** X21.  The line counter and the mode of the LCD agree, and nothing the
    CPU can do breaks that: if, with the display on, LY is below 154 and the
    mode is VBLANK exactly on the lines 144 to 153, then this still holds
    after [update_cycles] with 0 to 254 cycles (at 255 the loop of
    [update_sound_cycles] does not end) and after a write to any address (a
    write to LCDC that switches the display on restarts at line 0). *)
Theorem lcd_line_invariant (e : Emulator) :
  lcd_line_ok e = true ->
  (forall n, 0 <= n < 255 -> lcd_line_ok (update_cycles e n) = true)
  /\ (forall a v, 0 <= a <= 0xFFFF ->
                  exists e', write_u8 e a v = Some e' /\ lcd_line_ok e' = true).
Proof.
  intros H. split.
  - intros n _. unfold update_cycles. cbv zeta.
    apply (line_ok_of_lcd_eq (update_lcd_cycles (update_dma_cycles e n) n)).
    + change (lcd (set_cycles ?c ?x)) with (lcd x).
      rewrite (V_update_sound_cycles lcd) by reflexivity.
      apply (V_update_timer_cycles lcd); reflexivity.
    + apply update_lcd_cycles_line_ok.
      apply (line_ok_of_lcd_eq e); [| exact H].
      apply (V_update_dma_cycles lcd); reflexivity.
  - intros a v Ha.
    destruct (write_u8_keeps e a v Ha) as (e' & Hw & Hk).
    exists e'. split; [exact Hw |].
    destruct (region_of a) eqn:Hreg; unfold write_keeps in Hk;
      try (apply (line_ok_of_lcd_eq e); [| exact H];
           first [ rewrite Hk; reflexivity
                 | injection Hk; intros; assumption ]).
    (* the I/O area *)
    revert Hw. unfold write_u8. rewrite (map_address_full a Ha). cbv zeta.
    rewrite Hreg. cbn [pair_type pair_addr].
    destruct (negb (is_dma_access_ok e _)); intros Hw; injection Hw as <-;
      [exact H | apply write_io_line_ok; exact H].
Qed.

(** X21 on the started MBC3 cartridge. *)
Lemma lcd_line_invariant_witness :
  (forall n, 0 <= n < 255 -> lcd_line_ok (update_cycles (boot rom_mbc3) n) = true)
  /\ (forall a v, 0 <= a <= 0xFFFF ->
                  exists e', write_u8 (boot rom_mbc3) a v = Some e' /\ lcd_line_ok e' = true).
Proof. apply (lcd_line_invariant (boot rom_mbc3)). vm_compute. reflexivity. Defined.

(** ** Start-up *)

Lemma init_memory_map_some (e : Emulator) (ct rs : Z) :
  supported_mbc (s_mbc_type ct) = true ->
  exists m xs, init_memory_map e ct rs = Some (set_ext_ram_size xs (set_memory_map m e))
               /\ rom_bank m = 1 /\ ext_ram_enabled m = false.
Proof.
  intros Hs. unfold init_memory_map. cbv zeta.
  destruct (s_mbc_type ct); try discriminate Hs;
    destruct (s_external_ram_type ct); cbv iota beta;
    (eexists; eexists; split; [reflexivity | split; reflexivity]).
Qed.

Lemma init_memory_map_none (e : Emulator) (ct rs : Z) :
  supported_mbc (s_mbc_type ct) = false -> init_memory_map e ct rs = None.
Proof.
  intros Hs. unfold init_memory_map. cbv zeta.
  destruct (s_mbc_type ct); try discriminate Hs;
    destruct (s_external_ram_type ct); reflexivity.
Qed.

(** X22.  Start-up.  [init_emulator] fails exactly when the ROM is shorter
    than 32 KiB, or its size is not the one its header announces, or its
    cartridge type is not one of no controller, MBC1, MBC2, MBC3.  When it
    succeeds, the state it gives has the cartridge as ROM, PC = 0x0100,
    SP = 0xFFFE, AF = 0x01B0, BC = 0x0013, DE = 0x00D8, HL = 0x014D, IME set,
    the CPU running, ROM bank 1 selected, the external RAM disabled, no DMA,
    VBLANK requested in IF and nothing enabled in IE, and the LCD on at line
    0. *)
Theorem init_emulator_result (rom : Z -> Z) (size : Z) :
  (init_emulator rom size = None <->
   size < 32768 \/ size <> get_rom_byte_size (rom ROM_SIZE_ADDR)
   \/ supported_mbc (s_mbc_type (rom CARTRIDGE_TYPE_ADDR)) = false)
  /\ forall e, init_emulator rom size = Some e ->
       rom_data e = rom /\ rom_size e = size
       /\ RPC e = 0x0100 /\ RSP e = 0xFFFE /\ get_af_reg (reg e) = 0x01B0
       /\ REG16 rBC e = 0x0013 /\ REG16 rDE e = 0x00D8 /\ REG16 rHL e = 0x014D
       /\ IME (interrupts e) = true /\ halt (interrupts e) = false
       /\ IF_ (interrupts e) = 1 /\ IE (interrupts e) = 0
       /\ rom_bank (memory_map e) = 1 /\ ext_ram_enabled (memory_map e) = false
       /\ dma_active (dma e) = false
       /\ display (lcdc (lcd e)) = true /\ LY (lcd e) = 0
       /\ mode (stat (lcd e)) = LCD_MODE_USING_OAM.
Proof.
  unfold init_emulator.
  destruct (Z.ltb_spec size 32768) as [Hsmall | Hbig].
  { split; [split; [intros _; left; exact Hsmall | reflexivity] | discriminate]. }
  destruct (Z.eqb_spec size (get_rom_byte_size (rom ROM_SIZE_ADDR))) as [Hsz | Hsz];
    cbn [negb].
  2: { split; [split; [intros _; right; left; exact Hsz | reflexivity] | discriminate]. }
  cbv zeta.
  destruct (supported_mbc (s_mbc_type (rom CARTRIDGE_TYPE_ADDR))) eqn:Hs.
  - destruct (init_memory_map_some (zero_emulator rom size) (rom CARTRIDGE_TYPE_ADDR)
                (rom RAM_SIZE_ADDR) Hs) as (m & xs & -> & Hb & Hx).
    split.
    + split; [discriminate |]. intros [H | [H | H]]; [lia | contradiction | discriminate].
    + intros e He. injection He as <-.
      destruct m as [rb erb ere mb1 rd wr wx]. cbn in Hb, Hx. subst rb ere.
      repeat split; vm_compute; reflexivity.
  - rewrite init_memory_map_none by exact Hs.
    split; [| discriminate].
    split; [intros _; right; right; reflexivity | reflexivity].
Qed.

(** ** The OAM DMA *)

Lemma shiftr_land_eq (i k : Z) :
  Z.shiftr i 2 = Z.shiftr k 2 -> Z.land i 3 = Z.land k 3 -> i = k.
Proof.
  intros Hs Hl. rewrite !Z.shiftr_div_pow2 in Hs by lia.
  change 3 with (Z.ones 2) in Hl. rewrite !Z.land_ones in Hl by lia.
  change (2 ^ 2) with 4 in *. Z.to_euclidean_division_equations. lia.
Qed.

(** The OAM after [write_oam_no_mode_check], byte by byte. *)
Lemma oam_byte_write (e : Emulator) (k i v : Z) :
  0 <= k <= 0x9F -> 0 <= i <= 0x9F -> 0 <= v <= 0xFF ->
  oam_byte (write_oam_no_mode_check e k v) i = if i =? k then v else oam_byte e i.
Proof.
  intros Hk Hi Hv.
  pose proof (shiftr_2_oam k Hk) as Hsk. pose proof (shiftr_2_oam i Hi) as Hsi.
  unfold oam_byte, write_oam_no_mode_check. cbv zeta.
  rewrite (u8_small (Z.shiftr i 2)) by lia.
  destruct (Z.eqb_spec i k) as [-> | Hne].
  - destruct (land_3_cases k) as [H | [H | [H | H]]]; rewrite H;
      unfold upd_obj, upd_oam, aset;
      cbn [oam objs set_oam set_objs]; rewrite Z.eqb_refl;
      cbn [obj_y obj_x obj_tile obj_byte3
           set_obj_y set_obj_x set_obj_tile set_obj_byte3 set_obj_priority set_obj_yflip
           set_obj_xflip set_obj_palette];
      unfold OBJ_Y_OFFSET, OBJ_X_OFFSET; rewrite ?u8_sub_add by exact Hv; reflexivity.
  - destruct (Z.eqb_spec (Z.shiftr i 2) (Z.shiftr k 2)) as [Hs | Hs].
    + assert (Hl : Z.land i 3 <> Z.land k 3).
      { intros Hl. apply Hne. apply shiftr_land_eq; assumption. }
      destruct (land_3_cases k) as [H | [H | [H | H]]]; rewrite H in *;
        unfold upd_obj, upd_oam, aset;
        cbn [oam objs set_oam set_objs]; rewrite Hs, Z.eqb_refl;
        destruct (land_3_cases i) as [H' | [H' | [H' | H']]]; rewrite H' in *;
        try contradiction; reflexivity.
    + destruct (land_3_cases k) as [H | [H | [H | H]]]; rewrite H;
        unfold upd_obj, upd_oam, aset;
        cbn [oam objs set_oam set_objs];
        (replace (Z.shiftr i 2 =? Z.shiftr k 2) with false
           by (symmetry; apply Z.eqb_neq; exact Hs));
        reflexivity.
Qed.

Lemma u32_small (x : Z) : 0 <= x < 0x100000000 -> u32 x = x.
Proof. intros H. unfold u32. apply Z.mod_small. exact H. Qed.

(** The source of a DMA from the page [v] of the work RAM, byte by byte. *)
Lemma dma_source_read (s : Emulator) (v k : Z) :
  0xC0 <= v <= 0xDF -> 0 <= k <= 0x9F ->
  read_u8_no_dma_check s
    (set_pair_addr (u16 (pair_addr (map_address (Z.shiftl v 8)) + k))
                   (map_address (Z.shiftl v 8)))
  = plain_cell s (v * 0x100 + k).
Proof.
  intros Hv Hk. rewrite Z.shiftl_mul_pow2 by lia. change (2 ^ 8) with 0x100.
  rewrite (map_address_full (v * 0x100)) by lia.
  unfold plain_cell, region_of, region_base.
  case_ltb; cbn [pair_addr pair_type set_pair_addr read_u8_no_dma_check];
    rewrite u16_small by lia; unfold gb_read_work_ram_bank_switch; f_equal; lia.
Qed.

(** One machine cycle of a DMA that has copied [k] bytes. *)
Lemma dma_machine_cycle_copy (s : Emulator) (v k : Z) :
  0xC0 <= v <= 0xDF -> 0 <= k <= 0x9F ->
  dma s = Build_DMA true (map_address (Z.shiftl v 8)) k (4 * k) ->
  dma_machine_cycle s
  = upd_dma (fun d => Build_DMA true (map_address (Z.shiftl v 8)) (k + 1) (4 * (k + 1)))
      (write_oam_no_mode_check s k (plain_cell s (v * 0x100 + k))).
Proof.
  intros Hv Hk Hd.
  assert (Hlt : (k <? OAM_TRANSFER_SIZE) = true).
  { apply Z.ltb_lt. unfold OAM_TRANSFER_SIZE, OAM_END_ADDR, OAM_START_ADDR. lia. }
  unfold dma_machine_cycle, update_dma_cycles. rewrite Hd.
  cbn [dma_active negb dma_addr_offset]. rewrite Hlt.
  change (iterations 4 4) with 1%nat. cbn [update_dma_loop].
  rewrite Hd. cbn [dma_addr_offset]. rewrite Hlt.
  unfold update_dma_body. cbv zeta. rewrite Hd. cbn [dma_source dma_addr_offset].
  rewrite dma_source_read by assumption.
  set (w := write_oam_no_mode_check s k (plain_cell s (v * 256 + k))).
  assert (Hdw : dma w = dma s).
  { unfold w, write_oam_no_mode_check. frame_zeta idtac. }
  unfold VALUE_WRAPPED, DMA_CYCLES.
  cbn [dma upd_dma set_dma dma_cycles set_dma_cycles set_dma_addr_offset dma_active
       dma_source dma_addr_offset].
  rewrite Hdw, Hd. cbn [dma_cycles dma_active dma_source dma_addr_offset].
  rewrite (u32_small (4 * k + 4)) by lia.
  destruct (Z.leb_spec 648 (4 * k + 4)) as [Hc | _]; [lia |].
  unfold upd_dma, set_dma. cbn [dma]. rewrite Hdw, Hd.
  cbn [dma_cycles dma_active dma_source dma_addr_offset set_dma_cycles set_dma_addr_offset].
  rewrite (u8_small (k + 1)) by lia.
  replace (4 * (k + 1)) with (4 * k + 4) by lia. reflexivity.
Qed.

Lemma dma_machine_cycle_tail (s : Emulator) (src : MemoryTypeAddressPair) (c : Z) :
  dma s = Build_DMA true src 160 c -> 0 <= c < 0x10000 ->
  dma_machine_cycle s
  = upd_dma (fun _ => if 648 <=? c + 4 then Build_DMA false src 160 (c + 4 - 648)
                      else Build_DMA true src 160 (c + 4)) s.
Proof.
  intros Hd Hc. unfold dma_machine_cycle, update_dma_cycles. rewrite Hd.
  cbn [dma_active negb dma_addr_offset].
  change (160 <? OAM_TRANSFER_SIZE) with false. cbv iota zeta.
  unfold VALUE_WRAPPED, DMA_CYCLES.
  cbn [dma upd_dma set_dma dma_cycles set_dma_cycles]. rewrite Hd. cbn [dma_cycles].
  rewrite (u32_small (c + 4)) by lia.
  destruct (648 <=? c + 4); unfold upd_dma, set_dma; cbn [dma]; rewrite Hd; reflexivity.
Qed.

(** The state of a DMA from the page [v] of the work RAM after [k] machine
    cycles, for [k] up to 160: [k] bytes are in place. *)
Lemma dma_progress (e0 : Emulator) (v : Z) (k : nat) :
  0xC0 <= v <= 0xDF ->
  dma e0 = Build_DMA true (map_address (Z.shiftl v 8)) 0 0 ->
  (forall i, 0 <= i < 160 -> 0 <= plain_cell e0 (v * 0x100 + i) <= 0xFF) ->
  (k <= 160)%nat ->
  dma (Nat.iter k dma_machine_cycle e0)
  = Build_DMA true (map_address (Z.shiftl v 8)) (Z.of_nat k) (4 * Z.of_nat k)
  /\ ram_data (Nat.iter k dma_machine_cycle e0) = ram_data e0
  /\ hram (Nat.iter k dma_machine_cycle e0) = hram e0
  /\ forall i, 0 <= i < Z.of_nat k ->
       oam_byte (Nat.iter k dma_machine_cycle e0) i = plain_cell e0 (v * 0x100 + i).
Proof.
  intros Hv Hd Hbytes. induction k as [| k IH]; intros Hk.
  - change (Nat.iter 0 dma_machine_cycle e0) with e0.
    split; [exact Hd |]. split; [reflexivity |]. split; [reflexivity |]. intros i Hi. lia.
  - destruct (IH ltac:(lia)) as (Hdk & Hram & Hhram & Hoam). clear IH.
    change (Nat.iter (S k) dma_machine_cycle e0)
      with (dma_machine_cycle (Nat.iter k dma_machine_cycle e0)).
    revert Hdk Hram Hhram Hoam. generalize (Nat.iter k dma_machine_cycle e0).
    intros s Hdk Hram Hhram Hoam.
    rewrite (dma_machine_cycle_copy s v (Z.of_nat k)) by (try assumption; lia).
    assert (Hcell : plain_cell s (v * 0x100 + Z.of_nat k)
                    = plain_cell e0 (v * 0x100 + Z.of_nat k)).
    { unfold plain_cell. rewrite Hram, Hhram. reflexivity. }
    rewrite Hcell.
    set (val := plain_cell e0 (v * 0x100 + Z.of_nat k)).
    assert (Hval : 0 <= val <= 0xFF) by (apply Hbytes; lia).
    split; [| split; [| split]].
    + cbn [dma upd_dma set_dma]. f_equal; lia.
    + rewrite <- Hram. unfold write_oam_no_mode_check. frame_zeta idtac.
    + rewrite <- Hhram. unfold write_oam_no_mode_check. frame_zeta idtac.
    + intros i Hi.
      change (oam_byte (upd_dma ?f ?x) i) with (oam_byte x i).
      rewrite oam_byte_write by lia.
      destruct (Z.eqb_spec i (Z.of_nat k)) as [-> | Hne]; [reflexivity |].
      apply Hoam. lia.
Qed.

(** The whole run of a DMA from the page [v]: [n] is 160. *)
Lemma dma_run (e0 : Emulator) (v : Z) (n : nat) :
  n = 160%nat ->
  0xC0 <= v <= 0xDF ->
  dma e0 = Build_DMA true (map_address (Z.shiftl v 8)) 0 0 ->
  (forall i, 0 <= i < 160 -> 0 <= plain_cell e0 (v * 0x100 + i) <= 0xFF) ->
  (forall k, (k < S (S n))%nat -> dma_active (dma (Nat.iter k dma_machine_cycle e0)) = true)
  /\ dma_active (dma (Nat.iter (S (S n)) dma_machine_cycle e0)) = false
  /\ forall i, 0 <= i < 160 ->
       oam_byte (Nat.iter (S (S n)) dma_machine_cycle e0) i = plain_cell e0 (v * 0x100 + i).
Proof.
  intros Hn Hv Hd0 Hb0.
  pose proof (fun k => dma_progress e0 v k Hv Hd0 Hb0) as Hprog.
  assert (HnZ : Z.of_nat n = 160) by (rewrite Hn; reflexivity).
  assert (Hle : (n <= 160)%nat) by (rewrite Hn; apply le_n).
  destruct (Hprog n Hle) as (H160 & _ & _ & Hoam).
  rewrite HnZ in H160, Hoam. change (4 * 160) with 640 in H160.
  split.
  { intros k Hk.
    assert (Hcases : (k <= n)%nat \/ k = S n) by (clear - Hk; lia).
    destruct Hcases as [Hk' | Hk'].
    - destruct (Hprog k (Nat.le_trans _ _ _ Hk' Hle)) as (Hdk & _). rewrite Hdk. reflexivity.
    - rewrite Hk'.
      change (Nat.iter (S n) dma_machine_cycle e0)
        with (dma_machine_cycle (Nat.iter n dma_machine_cycle e0)).
      rewrite (dma_machine_cycle_tail _ _ 640 H160) by lia. reflexivity. }
  clear Hprog.
  change (Nat.iter (S (S n)) dma_machine_cycle e0)
    with (dma_machine_cycle (dma_machine_cycle (Nat.iter n dma_machine_cycle e0))).
  revert H160 Hoam. generalize (Nat.iter n dma_machine_cycle e0).
  intros s H160 Hoam.
  assert (H161 : dma_machine_cycle s
                 = upd_dma (fun _ => Build_DMA true (map_address (Z.shiftl v 8)) 160 644) s).
  { rewrite (dma_machine_cycle_tail _ _ 640 H160) by lia. reflexivity. }
  assert (H162 : dma_machine_cycle (dma_machine_cycle s)
                 = upd_dma (fun _ => Build_DMA false (map_address (Z.shiftl v 8)) 160 0)
                     (dma_machine_cycle s)).
  { rewrite (dma_machine_cycle_tail (dma_machine_cycle s)
               (map_address (Z.shiftl v 8)) 644) by (rewrite ?H161; first [reflexivity | lia]).
    reflexivity. }
  split.
  - rewrite H162. reflexivity.
  - intros i Hi. rewrite H162, H161.
    change (oam_byte (upd_dma ?f (upd_dma ?g ?x)) i) with (oam_byte x i).
    apply Hoam. exact Hi.
Qed.

Lemma write_io_DMA (e : Emulator) (v : Z) :
  write_io e (0xFF46 - 0xFF00) v = set_dma (Build_DMA true (map_address (Z.shiftl v 8)) 0 0) e.
Proof. reflexivity. Qed.

(** X23.  The OAM DMA.  A write of [v] to 0xFF46 while no DMA is active,
    [v] a page of the work RAM (0xC0 to 0xDF) that holds bytes, starts a DMA that stays active for 162 machine cycles
    (648 cycles); when it ends, the 160 bytes of the OAM are the 160 bytes
    that the page held. *)
Theorem oam_dma_copies_page (e : Emulator) (v : Z) :
  0xC0 <= v <= 0xDF ->
  dma_active (dma e) = false ->
  (forall i, 0 <= i < 160 -> 0 <= plain_cell e (v * 0x100 + i) <= 0xFF) ->
  exists e0,
    write_u8 e 0xFF46 v = Some e0
    /\ (forall k, (k < 162)%nat -> dma_active (dma (Nat.iter k dma_machine_cycle e0)) = true)
    /\ dma_active (dma (Nat.iter 162 dma_machine_cycle e0)) = false
    /\ forall i, 0 <= i < 160 ->
         oam_byte (Nat.iter 162 dma_machine_cycle e0) i = plain_cell e (v * 0x100 + i).
Proof.
  intros Hv Hd Hbytes.
  rewrite write_u8_io_area by (try assumption; lia).
  rewrite write_io_DMA.
  eexists. split; [reflexivity |].
  exact (dma_run (set_dma (Build_DMA true (map_address (Z.shiftl v 8)) 0 0) e) v 160%nat
                 eq_refl Hv eq_refl Hbytes).
Qed.

(** X23 for the page 0xC0 on the started MBC3 cartridge. *)
Lemma oam_dma_copies_page_witness :
  exists e0,
    write_u8 (boot rom_mbc3) 0xFF46 0xC0 = Some e0
    /\ (forall k, (k < 162)%nat -> dma_active (dma (Nat.iter k dma_machine_cycle e0)) = true)
    /\ dma_active (dma (Nat.iter 162 dma_machine_cycle e0)) = false
    /\ forall i, 0 <= i < 160 ->
         oam_byte (Nat.iter 162 dma_machine_cycle e0) i
         = plain_cell (boot rom_mbc3) (0xC0 * 0x100 + i).
Proof.
  apply (oam_dma_copies_page (boot rom_mbc3) 0xC0);
    [ lia | vm_compute; reflexivity
    | intros i Hi; unfold plain_cell; destruct (_ <? _); vm_compute; split; discriminate ].
Defined.

(** ** The header of the cartridge *)

Lemma header_checksum_loop_sum (data : Z -> Z) (n : nat) (i c : Z) :
  0 <= c < 0x100 ->
  header_checksum_loop data n i c = u8 (c - sum_from (fun j => data j + 1) n i).
Proof.
  revert i c. induction n as [| n IH]; intros i c Hc.
  - cbn [header_checksum_loop sum_from]. rewrite Z.sub_0_r. symmetry. apply u8_small. exact Hc.
  - cbn [header_checksum_loop sum_from]. rewrite IH by apply u8_range.
    unfold u8. rewrite Zminus_mod_idemp_l. f_equal. lia.
Qed.

(** X24.  The header checksum.  [validate_header_checksum] accepts a ROM
    exactly when the byte at 0x14D plus the 25 bytes from 0x134 to 0x14C,
    each taken one larger, add up to 0 modulo 256. *)
Theorem header_checksum_closed_form (data : Z -> Z) :
  0 <= data 0x14D <= 0xFF ->
  validate_header_checksum data
  = (u8 (data 0x14D + sum_from (fun i => data i + 1) 25 0x134) =? 0).
Proof.
  intros Hx. unfold validate_header_checksum. cbv zeta.
  change (Z.to_nat (HEADER_CHECKSUM_RANGE_END - HEADER_CHECKSUM_RANGE_START + 1)) with 25%nat.
  change HEADER_CHECKSUM_RANGE_START with 0x134. change HEADER_CHECKSUM_ADDR with 0x14D.
  rewrite header_checksum_loop_sum by lia.
  generalize (sum_from (fun i => data i + 1) 25 0x134). intros t.
  unfold u8.
  destruct (Z.eqb_spec ((0 - t) mod 0x100) (data 0x14D)) as [H1 | H1];
    destruct (Z.eqb_spec ((data 0x14D + t) mod 0x100) 0) as [H2 | H2];
    try reflexivity; exfalso; revert H1 H2 Hx; generalize (data 0x14D); intros x H1 H2 Hx;
    Z.to_euclidean_division_equations; lia.
Qed.

Lemma global_checksum_loop_sum (data : Z -> Z) (n : nat) (i c : Z) :
  0 <= c < 0x10000 ->
  global_checksum_loop data n i c
  = u16 (c + sum_from (fun j => if (j =? 0x14E) || (j =? 0x14F) then 0 else data j) n i).
Proof.
  revert i c. induction n as [| n IH]; intros i c Hc.
  - cbn [global_checksum_loop sum_from]. rewrite Z.add_0_r. symmetry. apply u16_small. exact Hc.
  - cbn [global_checksum_loop sum_from].
    change GLOBAL_CHECKSUM_START_ADDR with 0x14E. change GLOBAL_CHECKSUM_END_ADDR with 0x14F.
    destruct ((i =? 0x14E) || (i =? 0x14F)).
    + rewrite IH by exact Hc. reflexivity.
    + rewrite IH by apply u16_range. unfold u16. rewrite Zplus_mod_idemp_l.
      f_equal. lia.
Qed.

Lemma sum_from_ext (f g : Z -> Z) (n : nat) (i : Z) :
  (forall j, i <= j < i + Z.of_nat n -> f j = g j) -> sum_from f n i = sum_from g n i.
Proof.
  revert i. induction n as [| n IH]; intros i H; [reflexivity |].
  cbn [sum_from]. rewrite H by lia. f_equal. apply IH. intros j Hj. apply H. lia.
Qed.

(** Leaving one term out of a sum. *)
Lemma sum_from_skip (f : Z -> Z) (a : Z) (n : nat) (i : Z) :
  i <= a < i + Z.of_nat n ->
  sum_from (fun j => if j =? a then 0 else f j) n i = sum_from f n i - f a.
Proof.
  revert i. induction n as [| n IH]; intros i H; [lia |].
  cbn [sum_from]. destruct (Z.eqb_spec i a) as [-> | Hne].
  - rewrite (sum_from_ext _ f); [lia |].
    intros j Hj. destruct (Z.eqb_spec j a); [lia | reflexivity].
  - rewrite IH by lia. lia.
Qed.

(** X25.  The global checksum.  For a ROM of at least 0x150 bytes,
    [validate_global_checksum] accepts it exactly when the big-endian 16-bit
    number at 0x14E equals the sum, modulo 0x10000, of all the bytes of the
    ROM but the two at 0x14E and 0x14F. *)
Theorem global_checksum_closed_form (data : Z -> Z) (size : Z) :
  0x150 <= size ->
  validate_global_checksum data size
  = (u16 (sum_from data (Z.to_nat size) 0 - data 0x14E - data 0x14F)
     =? ROM_U16_BE data 0x14E).
Proof.
  intros Hs. unfold validate_global_checksum. cbv zeta.
  change GLOBAL_CHECKSUM_START_ADDR with 0x14E.
  rewrite global_checksum_loop_sum by lia. rewrite Z.add_0_l.
  rewrite (sum_from_ext _ (fun j => if j =? 0x14E then 0
                                    else (fun k => if k =? 0x14F then 0 else data k) j)).
  - rewrite (sum_from_skip _ 0x14E) by lia.
    rewrite (sum_from_skip data 0x14F) by lia.
    change (0x14E =? 0x14F) with false. cbv iota. do 2 f_equal. lia.
  - intros j Hj. destruct (j =? 0x14E), (j =? 0x14F); reflexivity.
Qed.

(** The scan of [get_rom_title_loop]: the bytes counted are characters, and
    the scan stops at the first byte that is not, or at the end. *)
Lemma get_rom_title_loop_spec (data : Z -> Z) (n : nat) (p len : Z) :
  len <= get_rom_title_loop data n p len <= len + Z.of_nat n
  /\ (forall i, 0 <= i < get_rom_title_loop data n p len - len ->
                data (p + i) <> 0 /\ Z.land (data (p + i)) 0x80 = 0)
  /\ (get_rom_title_loop data n p len - len < Z.of_nat n ->
      data (p + (get_rom_title_loop data n p len - len)) = 0
      \/ Z.land (data (p + (get_rom_title_loop data n p len - len))) 0x80 <> 0).
Proof.
  revert p len. induction n as [| n IH]; intros p len.
  - cbn [get_rom_title_loop]. split; [lia |]. split; intros; lia.
  - cbn [get_rom_title_loop].
    destruct (Z.eqb_spec (data p) 0) as [H0 | H0]; cbn [negb andb].
    + split; [lia |]. split; [intros; lia |].
      intros _. left. replace (p + (len - len)) with p by lia. exact H0.
    + destruct (Z.eqb_spec (Z.land (data p) 0x80) 0) as [H1 | H1].
      * destruct (IH (p + 1) (len + 1)) as (Hr & Hgood & Hbad).
        set (r := get_rom_title_loop data n (p + 1) (len + 1)) in *.
        split; [lia |]. split.
        -- intros i Hi. destruct (Z.eq_dec i 0) as [-> | Hne].
           ++ rewrite Z.add_0_r. split; assumption.
           ++ replace (p + i) with (p + 1 + (i - 1)) by lia. apply Hgood. lia.
        -- intros Hlt. replace (p + (r - len)) with (p + 1 + (r - (len + 1))) by lia.
           apply Hbad. lia.
      * split; [lia |]. split; [intros; lia |].
        intros _. right. replace (p + (len - len)) with p by lia. exact H1.
Qed.

(** X26.  The title of the cartridge.  [get_rom_title] counts the bytes from
    0x134 on that are neither 0 nor above 0x7F, and stops at the first byte
    that is; it stops in any case after 0x144 bytes, the end of the scan
    being 0x143 bytes after its start. *)
Theorem get_rom_title_scan (data : Z -> Z) :
  0 <= get_rom_title data <= 0x144
  /\ (forall i, 0 <= i < get_rom_title data ->
                data (0x134 + i) <> 0 /\ Z.land (data (0x134 + i)) 0x80 = 0)
  /\ (get_rom_title data < 0x144 ->
      data (0x134 + get_rom_title data) = 0
      \/ Z.land (data (0x134 + get_rom_title data)) 0x80 <> 0).
Proof.
  unfold get_rom_title. change TITLE_START_ADDR with 0x134.
  remember (Z.to_nat (TITLE_END_ADDR + 1)) as n eqn:Hn.
  assert (HnZ : Z.of_nat n = 0x144) by (rewrite Hn; reflexivity).
  destruct (get_rom_title_loop_spec data n 0x134 0) as (Hr & Hgood & Hbad).
  rewrite Z.sub_0_r in Hgood, Hbad. rewrite HnZ in Hr, Hbad.
  split; [lia |]. split; assumption.
Qed.

(** X24 for the bytes of [rom_mbc3]: the sum is 0x13 + 2 + 25. *)
Lemma header_checksum_closed_form_witness :
  validate_header_checksum rom_mbc3
  = (u8 (rom_mbc3 0x14D + sum_from (fun i => rom_mbc3 i + 1) 25 0x134) =? 0).
Proof. apply (header_checksum_closed_form rom_mbc3). vm_compute. split; discriminate. Defined.

(** X25 for [rom_mbc3] as a ROM of 32 KiB. *)
Lemma global_checksum_closed_form_witness :
  validate_global_checksum rom_mbc3 0x8000
  = (u16 (sum_from rom_mbc3 (Z.to_nat 0x8000) 0 - rom_mbc3 0x14E - rom_mbc3 0x14F)
     =? ROM_U16_BE rom_mbc3 0x14E).
Proof. apply (global_checksum_closed_form rom_mbc3 0x8000). lia. Defined.

(** ** The decoded copy of the video RAM *)

Lemma write_vram_tile_data_loop_spec (fuel : nat) (i : Z) (t : Z -> Z)
    (data_index plane value mask not_mask : Z) (j : Z) :
  write_vram_tile_data_loop fuel i t data_index plane value mask not_mask j
  = if (data_index + i <=? j) && (j <? data_index + i + Z.of_nat fuel) then
      u8 (Z.lor (Z.land (t j) not_mask)
                (Z.land (Z.shiftl (Z.shiftr value (7 - (j - data_index))) plane) mask))
    else t j.
Proof.
  revert i t. induction fuel as [| fuel IH]; intros i t.
  - cbn [write_vram_tile_data_loop].
    destruct (Z.leb_spec (data_index + i) j), (Z.ltb_spec j (data_index + i + Z.of_nat 0));
      try reflexivity; lia.
  - cbn [write_vram_tile_data_loop]. rewrite IH. unfold aset. cbv beta.
    destruct (Z.eqb_spec j (data_index + i)) as [-> | Hne].
    + destruct (Z.leb_spec (data_index + (i + 1)) (data_index + i)); [lia |].
      destruct (Z.leb_spec (data_index + i) (data_index + i)); [| lia].
      destruct (Z.ltb_spec (data_index + i) (data_index + i + Z.of_nat (S fuel))); [| lia].
      cbn [andb]. cbv iota. replace (data_index + i - data_index) with i by lia. reflexivity.
    + destruct (Z.leb_spec (data_index + (i + 1)) j),
        (Z.ltb_spec j (data_index + (i + 1) + Z.of_nat fuel)),
        (Z.leb_spec (data_index + i) j),
        (Z.ltb_spec j (data_index + i + Z.of_nat (S fuel)));
        cbn [andb]; try reflexivity; lia.
Qed.

Lemma land_1_cases (w : Z) : Z.land w 1 = 0 \/ Z.land w 1 = 1.
Proof.
  change (Z.land w 1) with (Z.land w (Z.ones 1)). rewrite Z.land_ones by lia.
  change (2 ^ 1) with 2. pose proof (Z.mod_pos_bound w 2 ltac:(lia)). lia.
Qed.

(** One pixel of the row that [write_vram_tile_data] rewrites: the bit of the
    plane is replaced by the bit of [value], the other bit is kept. *)
Lemma pixel_update (lo hi value x plane : Z) :
  plane = 0 \/ plane = 1 ->
  u8 (Z.lor (Z.land (Z.lor (Z.land (Z.shiftr lo (7 - x)) 1)
                           (Z.shiftl (Z.land (Z.shiftr hi (7 - x)) 1) 1))
                    (u8 (Z.lnot (u8 (Z.shiftl 1 plane)))))
            (Z.land (Z.shiftl (Z.shiftr value (7 - x)) plane) (u8 (Z.shiftl 1 plane))))
  = Z.lor (Z.land (Z.shiftr (if plane =? 0 then value else lo) (7 - x)) 1)
          (Z.shiftl (Z.land (Z.shiftr (if plane =? 0 then hi else value) (7 - x)) 1) 1).
Proof.
  intros [-> | ->]; cbn [Z.eqb].
  - rewrite (Z.shiftl_0_r (Z.shiftr value (7 - x))).
    change (u8 (Z.lnot (u8 (Z.shiftl 1 0)))) with 0xFE. change (u8 (Z.shiftl 1 0)) with 1.
    destruct (land_1_cases (Z.shiftr lo (7 - x))) as [-> | ->],
      (land_1_cases (Z.shiftr hi (7 - x))) as [-> | ->],
      (land_1_cases (Z.shiftr value (7 - x))) as [-> | ->]; reflexivity.
  - change (u8 (Z.lnot (u8 (Z.shiftl 1 1)))) with 0xFD.
    change (u8 (Z.shiftl 1 1)) with (Z.shiftl 1 1). rewrite <- Z.shiftl_land.
    destruct (land_1_cases (Z.shiftr lo (7 - x))) as [-> | ->],
      (land_1_cases (Z.shiftr hi (7 - x))) as [-> | ->],
      (land_1_cases (Z.shiftr value (7 - x))) as [-> | ->]; reflexivity.
Qed.

(** The tiles after [write_vram_tile_data]. *)
Lemma write_vram_tile_data_tile (c : VideoCache) (index plane y value idx j : Z) :
  vc_tile (write_vram_tile_data c index plane y value) idx j
  = if (idx =? index) && ((y * 8 <=? j) && (j <? y * 8 + 8)) then
      u8 (Z.lor (Z.land (vc_tile c idx j) (u8 (Z.lnot (u8 (Z.shiftl 1 plane)))))
                (Z.land (Z.shiftl (Z.shiftr value (7 - (j - y * 8))) plane)
                        (u8 (Z.shiftl 1 plane))))
    else vc_tile c idx j.
Proof.
  unfold write_vram_tile_data, TILE_WIDTH. cbv zeta.
  cbn [vc_tile set_vc_tile]. unfold aset at 1.
  destruct (Z.eqb_spec idx index) as [-> | Hne]; cbn [andb]; [| reflexivity].
  rewrite write_vram_tile_data_loop_spec.
  replace (y * 8 + 0) with (y * 8) by lia. change (Z.of_nat 8) with 8. reflexivity.
Qed.

Lemma write_vram_tile_data_map (c : VideoCache) (index plane y value : Z) :
  vc_map (write_vram_tile_data c index plane y value) = vc_map c.
Proof. reflexivity. Qed.

(** The parts of a tile data address. *)
Lemma tile_address_parts (addr : Z) :
  0 <= addr < 0x1800 ->
  0 <= Z.shiftr addr 4 < 384
  /\ 0 <= Z.land (Z.shiftr addr 1) 7 < 8
  /\ (Z.land addr 1 = 0 \/ Z.land addr 1 = 1)
  /\ addr = 16 * Z.shiftr addr 4 + 2 * Z.land (Z.shiftr addr 1) 7 + Z.land addr 1.
Proof.
  intros H. rewrite !Z.shiftr_div_pow2 by lia.
  change 7 with (Z.ones 3). change (Z.land addr 1) with (Z.land addr (Z.ones 1)).
  rewrite !Z.land_ones by lia.
  change (2 ^ 4) with 16. change (2 ^ 1) with 2. change (2 ^ 3) with 8.
  Z.to_euclidean_division_equations. lia.
Qed.

Lemma map_address_parts (addr : Z) :
  0x1800 <= addr < 0x2000 ->
  0 <= Z.shiftr (addr - 0x1800) 10 < 2
  /\ 0 <= Z.land (addr - 0x1800) ADDR_MASK_1K < 1024
  /\ addr = 0x1800 + 1024 * Z.shiftr (addr - 0x1800) 10 + Z.land (addr - 0x1800) ADDR_MASK_1K.
Proof.
  intros H. rewrite !Z.shiftr_div_pow2 by lia.
  change ADDR_MASK_1K with (Z.ones 10). rewrite !Z.land_ones by lia.
  change (2 ^ 10) with 1024. Z.to_euclidean_division_equations. lia.
Qed.

(** A pixel of a tile whose bytes are not written. *)
Lemma tile_pixel_aset_other (vram : Z -> Z) (addr value a y x : Z) :
  addr <> a + 2 * y -> addr <> a + 2 * y + 1 ->
  tile_pixel (aset vram addr value) a y x = tile_pixel vram a y x.
Proof.
  intros H1 H2. unfold tile_pixel, aset.
  destruct (Z.eqb_spec (a + 2 * y) addr); [congruence |].
  destruct (Z.eqb_spec (a + 2 * y + 1) addr); [congruence |]. reflexivity.
Qed.

(** The pixels of the row that is written. *)
Lemma tile_pixel_aset_row (vram : Z -> Z) (value a y x plane : Z) :
  plane = 0 \/ plane = 1 ->
  tile_pixel (aset vram (a + 2 * y + plane) value) a y x
  = Z.lor (Z.land (Z.shiftr (if plane =? 0 then value else vram (a + 2 * y)) (7 - x)) 1)
          (Z.shiftl (Z.land (Z.shiftr (if plane =? 0 then vram (a + 2 * y + 1) else value)
                                      (7 - x)) 1) 1).
Proof.
  intros [-> | ->]; unfold tile_pixel, aset; cbn [Z.eqb].
  - rewrite Z.add_0_r, Z.eqb_refl.
    destruct (Z.eqb_spec (a + 2 * y + 1) (a + 2 * y)); [lia | reflexivity].
  - rewrite Z.eqb_refl.
    destruct (Z.eqb_spec (a + 2 * y) (a + 2 * y + 1)); [lia | reflexivity].
Qed.

(** The tile [index] after the write of a row, when its cached pixels were
    those of the raw bytes at [a]. *)
Lemma tile_row_written (vram : Z -> Z) (c : VideoCache) (index a ty plane value y x : Z) :
  plane = 0 \/ plane = 1 ->
  0 <= ty < 8 -> 0 <= y < 8 -> 0 <= x < 8 ->
  (forall y x, 0 <= y < 8 -> 0 <= x < 8 -> vc_tile c index (y * 8 + x) = tile_pixel vram a y x) ->
  vc_tile (write_vram_tile_data c index plane ty value) index (y * 8 + x)
  = tile_pixel (aset vram (a + 2 * ty + plane) value) a y x.
Proof.
  intros Hp Hty Hy Hx Hc. rewrite write_vram_tile_data_tile. rewrite Z.eqb_refl. cbn [andb].
  destruct (Z.eq_dec y ty) as [-> | Hne].
  - destruct (Z.leb_spec (ty * 8) (ty * 8 + x)); [| lia].
    destruct (Z.ltb_spec (ty * 8 + x) (ty * 8 + 8)); [| lia]. cbn [andb].
    replace (ty * 8 + x - ty * 8) with x by lia.
    rewrite Hc by assumption. rewrite tile_pixel_aset_row by exact Hp.
    unfold tile_pixel. apply pixel_update. exact Hp.
  - replace ((ty * 8 <=? y * 8 + x) && (y * 8 + x <? ty * 8 + 8)) with false.
    + rewrite Hc by assumption. symmetry. apply tile_pixel_aset_other; lia.
    + symmetry. apply andb_false_iff.
      destruct (Z.leb_spec (ty * 8) (y * 8 + x)); [right; apply Z.ltb_ge; lia | left; reflexivity].
Qed.

Lemma write_vram_cached_fst (e : Emulator) (c : VideoCache) (addr value : Z) :
  fst (write_vram_cached e c addr value) = write_vram e addr value.
Proof.
  unfold write_vram_cached, write_vram.
  destruct (LCDMode_eqb (mode (stat (lcd e))) LCD_MODE_USING_OAM_VRAM); [reflexivity |].
  cbv zeta. destruct (addr <? 0x1800); [| reflexivity].
  destruct ((128 <=? Z.shiftr addr 4) && (Z.shiftr addr 4 <? 256)); reflexivity.
Qed.

(** X27.  The decoded copy of the video RAM follows the raw bytes.  If the
    cached tiles and maps agree with the raw video RAM, they still do after
    [write_vram] has written a byte to an address of the video RAM: the row
    of the tile is decoded again, for the tiles 128 to 255 also in the
    repeated copy, or the entry of the map is stored.  The raw bytes are those
    of the modelled [write_vram]. *)
Theorem write_vram_keeps_cache_coherent (e : Emulator) (c : VideoCache) (addr value : Z) :
  0 <= addr < 0x2000 ->
  cache_coherent (vram_data e) c ->
  fst (write_vram_cached e c addr value) = write_vram e addr value
  /\ cache_coherent (vram_data (fst (write_vram_cached e c addr value)))
                    (snd (write_vram_cached e c addr value)).
Proof.
  intros Ha (Ht & Hm & Hmap). split; [apply write_vram_cached_fst |].
  unfold write_vram_cached.
  destruct (LCDMode_eqb (mode (stat (lcd e))) LCD_MODE_USING_OAM_VRAM).
  { cbn [fst snd]. repeat split; assumption. }
  cbv zeta. destruct (Z.ltb_spec addr 0x1800) as [Hlo | Hhi].
  - destruct (tile_address_parts addr ltac:(lia)) as (Hti & Hty & Hpl & Haddr).
    set (ti := Z.shiftr addr 4) in *. set (ty := Z.land (Z.shiftr addr 1) 7) in *.
    set (pl := Z.land addr 1) in *.
    assert (Hfst : forall idx y x, 0 <= idx < 384 -> 0 <= y < 8 -> 0 <= x < 8 ->
              vc_tile (write_vram_tile_data c ti pl ty value) idx (y * 8 + x)
              = tile_pixel (aset (vram_data e) addr value) (16 * idx) y x).
    { intros idx y x Hidx Hy Hx. destruct (Z.eq_dec idx ti) as [-> | Hne].
      - rewrite Haddr at 1. apply tile_row_written; try assumption.
        intros y' x' Hy' Hx'. apply Ht; assumption.
      - rewrite write_vram_tile_data_tile.
        destruct (Z.eqb_spec idx ti); [contradiction |]. cbn [andb].
        rewrite Ht by assumption. symmetry. apply tile_pixel_aset_other; lia. }
    assert (Hother : forall idx j, idx <> ti ->
              vc_tile (write_vram_tile_data c ti pl ty value) idx j = vc_tile c idx j).
    { intros idx j Hne. rewrite write_vram_tile_data_tile.
      destruct (Z.eqb_spec idx ti); [contradiction | reflexivity]. }
    destruct (Z.leb_spec 128 ti) as [H128 | H128];
      destruct (Z.ltb_spec ti 256) as [H256 | H256]; cbn [andb fst snd vram_data set_vram_data].
    + (* a tile that is repeated *)
      split; [| split].
      * intros idx y x Hidx Hy Hx. rewrite write_vram_tile_data_tile.
        destruct (Z.eqb_spec idx (ti + 256)); [lia |]. cbn [andb].
        apply Hfst; assumption.
      * intros idx y x Hidx Hy Hx. destruct (Z.eq_dec idx ti) as [-> | Hne].
        -- rewrite Haddr at 1. apply tile_row_written; try assumption.
           intros y' x' Hy' Hx'. rewrite Hother by lia. apply Hm; [lia | assumption..].
        -- rewrite write_vram_tile_data_tile.
           destruct (Z.eqb_spec (idx + 256) (ti + 256)); [lia |]. cbn [andb].
           rewrite Hother by lia. rewrite Hm by assumption.
           symmetry. apply tile_pixel_aset_other; lia.
      * intros m i Hmi Hi. rewrite !write_vram_tile_data_map. rewrite Hmap by assumption.
        unfold aset. destruct (Z.eqb_spec (0x1800 + 1024 * m + i) addr); [lia | reflexivity].
    + split; [| split].
      * exact Hfst.
      * intros idx y x Hidx Hy Hx. rewrite Hother by lia. rewrite Hm by assumption.
        symmetry. apply tile_pixel_aset_other; lia.
      * intros m i Hmi Hi. rewrite write_vram_tile_data_map. rewrite Hmap by assumption.
        unfold aset. destruct (Z.eqb_spec (0x1800 + 1024 * m + i) addr); [lia | reflexivity].
    + split; [| split].
      * exact Hfst.
      * intros idx y x Hidx Hy Hx. rewrite Hother by lia. rewrite Hm by assumption.
        symmetry. apply tile_pixel_aset_other; lia.
      * intros m i Hmi Hi. rewrite write_vram_tile_data_map. rewrite Hmap by assumption.
        unfold aset. destruct (Z.eqb_spec (0x1800 + 1024 * m + i) addr); [lia | reflexivity].
    + lia.
  - destruct (map_address_parts addr ltac:(lia)) as (Hmi & Hi & Haddr).
    set (mi := Z.shiftr (addr - 0x1800) 10) in *.
    set (k := Z.land (addr - 0x1800) ADDR_MASK_1K) in *.
    cbn [fst snd vram_data set_vram_data vc_tile vc_map set_vc_map].
    split; [| split].
    + intros idx y x Hidx Hy Hx.
      change (vc_tile (set_vc_map ?m c)) with (vc_tile c). rewrite Ht by assumption.
      symmetry. apply tile_pixel_aset_other; lia.
    + intros idx y x Hidx Hy Hx.
      change (vc_tile (set_vc_map ?m c)) with (vc_tile c). rewrite Hm by assumption.
      symmetry. apply tile_pixel_aset_other; lia.
    + intros m i Hm' Hi'. change (vc_map (set_vc_map ?m c)) with m. unfold aset.
      destruct (Z.eqb_spec m mi) as [-> | Hne].
      * destruct (Z.eqb_spec i k) as [-> | Hne'].
        -- destruct (Z.eqb_spec (0x1800 + 1024 * mi + k) addr); [reflexivity | lia].
        -- destruct (Z.eqb_spec (0x1800 + 1024 * mi + i) addr); [lia |]. apply Hmap; assumption.
      * destruct (Z.eqb_spec (0x1800 + 1024 * m + i) addr); [lia |]. apply Hmap; assumption.
Qed.

Lemma zero_cache_coherent : cache_coherent (vram_data (boot rom_mbc3)) zero_cache.
Proof.
  assert (Hz : forall a, vram_data (boot rom_mbc3) a = 0) by (intros a; reflexivity).
  assert (Hp : forall a y x, tile_pixel (vram_data (boot rom_mbc3)) a y x = 0).
  { intros a y x. unfold tile_pixel. rewrite !Hz, !Z.shiftr_0_l. reflexivity. }
  unfold cache_coherent, zero_cache. cbn [vc_tile vc_map].
  split; [| split]; intros; rewrite ?Hp, ?Hz; reflexivity.
Qed.

(** X27 for a write to the first byte of the tile 128 on the started MBC3
    cartridge. *)
Lemma write_vram_keeps_cache_coherent_witness :
  fst (write_vram_cached (boot rom_mbc3) zero_cache 0x800 0x3C)
  = write_vram (boot rom_mbc3) 0x800 0x3C
  /\ cache_coherent
       (vram_data (fst (write_vram_cached (boot rom_mbc3) zero_cache 0x800 0x3C)))
       (snd (write_vram_cached (boot rom_mbc3) zero_cache 0x800 0x3C)).
Proof.
  apply (write_vram_keeps_cache_coherent (boot rom_mbc3) zero_cache 0x800 0x3C);
    [lia | apply zero_cache_coherent].
Defined.

Lemma lor_mul_add (hi lo n : Z) :
  0 <= n -> 0 <= lo < 2 ^ n -> Z.lor (hi * 2 ^ n) lo = hi * 2 ^ n + lo.
Proof.
  intros Hn Hlo. rewrite <- Z.shiftl_mul_pow2 by lia.
  assert (Hland : Z.land (Z.shiftl hi n) lo = 0).
  { apply Z.bits_inj'. intros k Hk. rewrite Z.land_spec, Z.bits_0.
    destruct (Z.ltb_spec k n) as [Hlt | Hge].
    - rewrite Z.shiftl_spec_low by lia. reflexivity.
    - rewrite <- (Z.mod_small lo (2 ^ n)) by lia.
      rewrite Z.mod_pow2_bits_high by lia. apply andb_false_r. }
  rewrite <- Z.lxor_lor by exact Hland.
  rewrite <- Z.add_nocarry_lxor by exact Hland. reflexivity.
Qed.

(** X28.  The background through the decoded copy.  With a coherent copy,
    the palette index that [render_line] finds for a column of a line of the
    background is the pixel decoded from the raw video RAM: the tile number
    is the byte of the selected map at row [bg_y / 8], column [bg_x / 8], and
    the tile is at [16 * n] from 0x8000, or, with the tile data at 0x8800
    selected, at [16 * n] from 0x9000 with [n] taken as a signed byte. *)
Theorem bg_palette_index_decodes (e : Emulator) (c : VideoCache) (line_y sx : Z) :
  cache_coherent (vram_data e) c ->
  bg_tile_map_select (lcdc (lcd e)) = 0 \/ bg_tile_map_select (lcdc (lcd e)) = 1 ->
  bg_tile_data_select (lcdc (lcd e)) = 0 \/ bg_tile_data_select (lcdc (lcd e)) = 1 ->
  0 <= vram_data e (bg_map_address e line_y sx) <= 0xFF ->
  bg_palette_index e c line_y sx
  = Some (tile_pixel (vram_data e)
            (bg_tile_address e (vram_data e (bg_map_address e line_y sx)))
            (u8 (line_y + SCY (lcd e)) mod 8) (u8 (SCX (lcd e) + sx) mod 8)).
Proof.
  intros (Ht & Hm & Hmap) Hms Hds Hn.
  unfold bg_palette_index, bg_map_address, bg_tile_address in *.
  pose proof (u8_range (line_y + SCY (lcd e))) as Hy.
  pose proof (u8_range (SCX (lcd e) + sx)) as Hx.
  set (by_ := u8 (line_y + SCY (lcd e))) in *. set (bx := u8 (SCX (lcd e) + sx)) in *.
  assert (Hidx : Z.lor (Z.shiftr by_ 3 * TILE_MAP_WIDTH) (Z.shiftr bx 3)
                 = 32 * (by_ / 8) + bx / 8).
  { rewrite !Z.shiftr_div_pow2 by lia. change (2 ^ 3) with 8.
    change TILE_MAP_WIDTH with (2 ^ 5).
    rewrite lor_mul_add; [change (2 ^ 5) with 32; lia | lia |].
    change (2 ^ 5) with 32. Z.to_euclidean_division_equations. lia. }
  assert (Hpix : Z.lor (Z.land by_ 7 * TILE_WIDTH) (Z.land bx 7) = by_ mod 8 * 8 + bx mod 8).
  { change 7 with (Z.ones 3). rewrite !Z.land_ones by lia. change (2 ^ 3) with 8.
    change TILE_WIDTH with (2 ^ 3).
    rewrite lor_mul_add; [reflexivity | lia |].
    change (2 ^ 3) with 8. apply Z.mod_pos_bound. lia. }
  assert (Hy8 : 0 <= by_ mod 8 < 8) by (apply Z.mod_pos_bound; lia).
  assert (Hx8 : 0 <= bx mod 8 < 8) by (apply Z.mod_pos_bound; lia).
  assert (Hrow : 0 <= 32 * (by_ / 8) + bx / 8 < 1024)
    by (Z.to_euclidean_division_equations; lia).
  destruct Hms as [Hms | Hms]; rewrite Hms in *; cbn [get_tile_map];
    destruct Hds as [Hds | Hds]; rewrite Hds in *; cbn [get_tile_data Z.eqb];
    unfold get_tile_map_palette_index; cbv zeta; rewrite Hidx, Hpix;
    rewrite Hmap by lia;
    match goal with
    | |- context [vram_data e ?a] =>
      match type of Hn with
      | context [vram_data e ?b] => replace a with b by lia
      end
    end;
    set (n := vram_data e _) in *; f_equal.
  - (* map 0, tile data from 0x8800 *)
    unfold s8. rewrite (u8_small n) by lia. destruct (Z.ltb_spec n 0x80).
    + rewrite Ht by lia. f_equal. lia.
    + replace (256 + n) with (n + 256) by lia. rewrite Hm by lia. f_equal. lia.
  - rewrite Ht by lia. reflexivity.
  - unfold s8. rewrite (u8_small n) by lia. destruct (Z.ltb_spec n 0x80).
    + rewrite Ht by lia. f_equal. lia.
    + replace (256 + n) with (n + 256) by lia. rewrite Hm by lia. f_equal. lia.
  - rewrite Ht by lia. reflexivity.
Qed.

(** X28 for the first pixel of the first line on the started MBC3
    cartridge. *)
Lemma bg_palette_index_decodes_witness :
  bg_palette_index (boot rom_mbc3) zero_cache 0 0
  = Some (tile_pixel (vram_data (boot rom_mbc3))
            (bg_tile_address (boot rom_mbc3)
               (vram_data (boot rom_mbc3) (bg_map_address (boot rom_mbc3) 0 0)))
            (u8 (0 + SCY (lcd (boot rom_mbc3))) mod 8)
            (u8 (SCX (lcd (boot rom_mbc3)) + 0) mod 8)).
Proof.
  apply (bg_palette_index_decodes (boot rom_mbc3) zero_cache 0 0);
    [ apply zero_cache_coherent
    | left; vm_compute; reflexivity
    | right; vm_compute; reflexivity
    | vm_compute; split; discriminate ].
Defined.

(** ** Decimal arithmetic *)

Lemma below_100_check (f : Z -> Z -> bool) :
  forallb (fun x => forallb (f x) below_100) below_100 = true ->
  forall x y, 0 <= x < 100 -> 0 <= y < 100 -> f x y = true.
Proof.
  intros H x y Hx Hy. rewrite forallb_forall in H.
  assert (Hin : forall z, 0 <= z < 100 -> In z below_100).
  { intros z Hz. unfold below_100. apply in_map_iff. exists (Z.to_nat z).
    split; [lia |]. apply in_seq. lia. }
  specialize (H x (Hin x Hx)). rewrite forallb_forall in H. apply H. apply Hin. exact Hy.
Qed.

Ltac by_table x y :=
  match goal with
  | |- ?B = true =>
    match eval pattern x, y in B with
    | ?f _ _ => apply (below_100_check f); [vm_compute; reflexivity | assumption | assumption]
    end
  end.

Ltac flags_simp :=
  cbn [RA FC FH FN FZ set_RA set_FC set_FH set_FN set_FZ FZ_EQ0 upd_flags upd_reg reg set_reg
       reg_A reg_F set_reg_A set_reg_F F_Z F_N F_H F_C set_F_Z set_F_N set_F_H set_F_C
       fst snd].

Lemma u8_u8 (x : Z) : u8 (u8 x) = u8 x.
Proof. unfold u8. apply Zmod_mod. Qed.

(** What DAA leaves in A and in the flags. *)
Lemma do_DAA_result (e : Emulator) :
  RA (do_DAA e) = u8 (RA e + (if FN e then - daa_adjust e else daa_adjust e))
  /\ FC (do_DAA e) = daa_carry e
  /\ FZ (do_DAA e) = (u8 (RA e + (if FN e then - daa_adjust e else daa_adjust e)) =? 0)
  /\ FH (do_DAA e) = false
  /\ FN (do_DAA e) = FN e.
Proof.
  unfold do_DAA, daa_adjust, daa_carry. cbv zeta.
  destruct (FC e) eqn:Hc; cbn [orb].
  - flags_simp. rewrite u8_u8. repeat split; reflexivity.
  - destruct (negb (FN e) && (0x99 <? RA e)); flags_simp; rewrite u8_u8;
      repeat split; try reflexivity; exact Hc.
Qed.

Lemma exec_ADD_DAA (e : Emulator) (r : R8) (pc : Z) :
  exec_ops [ADD_R r; DAA] e pc
  = Some (do_DAA (set_RA (u8 (RA e + REG r e)) (ADD_FLAGS (RA e) (REG r e) e)), pc).
Proof. destruct r; reflexivity. Qed.

Lemma exec_SUB_DAA (e : Emulator) (r : R8) (pc : Z) :
  exec_ops [SUB_R r; DAA] e pc
  = Some (do_DAA (set_RA (u8 (RA e - REG r e)) (SUB_FLAGS (RA e) (REG r e) e)), pc).
Proof. destruct r; reflexivity. Qed.

(** X29.  Decimal addition and subtraction.  For two numbers below 100 held
    as packed BCD in A and in a register, the macro ADD followed by DAA
    leaves in A the packed BCD of their sum modulo 100, with the carry set
    exactly when the sum reaches 100; SUB followed by DAA leaves the packed
    BCD of their difference modulo 100, with the carry set exactly when the
    difference is negative.  Z tells whether the result is 0, and H is
    cleared. *)
Theorem daa_after_add_and_sub (e : Emulator) (r : R8) (x y : Z) :
  0 <= x < 100 -> 0 <= y < 100 ->
  RA e = bcd x -> REG r e = bcd y ->
  (exists e1 pc,
     exec_ops [ADD_R r; DAA] e 0 = Some (e1, pc)
     /\ RA e1 = bcd ((x + y) mod 100)
     /\ FC e1 = (100 <=? x + y)
     /\ FZ e1 = ((x + y) mod 100 =? 0)
     /\ FH e1 = false)
  /\ (exists e1 pc,
        exec_ops [SUB_R r; DAA] e 0 = Some (e1, pc)
        /\ RA e1 = bcd ((x - y) mod 100)
        /\ FC e1 = (x <? y)
        /\ FZ e1 = ((x - y) mod 100 =? 0)
        /\ FH e1 = false).
Proof.
  intros Hx Hy Ha Hb. split.
  - rewrite exec_ADD_DAA, Ha, Hb. eexists. eexists. split; [reflexivity |].
    destruct (do_DAA_result (set_RA (u8 (bcd x + bcd y)) (ADD_FLAGS (bcd x) (bcd y) e)))
      as (HA & HC & HZ & HH & _).
    rewrite HA, HC, HZ, HH. clear HA HC HZ HH.
    unfold daa_adjust, daa_carry, ADD_FLAGS. cbv zeta. flags_simp.
    split; [| split; [| split; [| reflexivity]]].
    + apply Z.eqb_eq. by_table x y.
    + apply Bool.eqb_prop. by_table x y.
    + apply Bool.eqb_prop. by_table x y.
  - rewrite exec_SUB_DAA, Ha, Hb. eexists. eexists. split; [reflexivity |].
    destruct (do_DAA_result (set_RA (u8 (bcd x - bcd y)) (SUB_FLAGS (bcd x) (bcd y) e)))
      as (HA & HC & HZ & HH & _).
    rewrite HA, HC, HZ, HH. clear HA HC HZ HH.
    unfold daa_adjust, daa_carry, SUB_FLAGS. cbv zeta. flags_simp.
    split; [| split; [| split; [| reflexivity]]].
    + apply Z.eqb_eq. by_table x y.
    + apply Bool.eqb_prop. by_table x y.
    + apply Bool.eqb_prop. by_table x y.
Qed.

(** X29 for 1 + 0 on the started MBC3 cartridge, where A is 0x01 and B is
    0x00. *)
Lemma daa_after_add_and_sub_witness :
  (exists e1 pc,
     exec_ops [ADD_R rB; DAA] (boot rom_mbc3) 0 = Some (e1, pc)
     /\ RA e1 = bcd ((1 + 0) mod 100)
     /\ FC e1 = (100 <=? 1 + 0)
     /\ FZ e1 = ((1 + 0) mod 100 =? 0)
     /\ FH e1 = false)
  /\ (exists e1 pc,
        exec_ops [SUB_R rB; DAA] (boot rom_mbc3) 0 = Some (e1, pc)
        /\ RA e1 = bcd ((1 - 0) mod 100)
        /\ FC e1 = (1 <? 0)
        /\ FZ e1 = ((1 - 0) mod 100 =? 0)
        /\ FH e1 = false).
Proof.
  apply (daa_after_add_and_sub (boot rom_mbc3) rB 1 0);
    [lia | lia | vm_compute; reflexivity | vm_compute; reflexivity].
Defined.

(** ** The cycle update as a whole *)

(** X1.  [update_cycles] advances the devices and the clock only.  The
    configuration, the cartridge ROM and its bank controller, the CPU
    registers, the video RAM, the external RAM, the work RAM, the high RAM,
    the joypad, the serial port, IME, IE, a pending EI and the two HALT flags
    are as before, for every state and every number of cycles from 0 to 254
    (at 255 the loop of [update_sound_cycles] does not end); the cycle counter
    has advanced by that number, modulo 2^32. *)
Theorem update_cycles_changes_devices_only (e : Emulator) (ncycles : Z) :
  0 <= ncycles < 255 ->
  except_devices (update_cycles e ncycles) = except_devices e
  /\ cycles (update_cycles e ncycles) = u32 (cycles e + ncycles).
Proof.
  intros _. split; [apply except_devices_update_cycles |].
  unfold update_cycles. cbv zeta. cbn [cycles set_cycles]. f_equal. f_equal.
  rewrite (V_update_sound_cycles cycles) by reflexivity.
  rewrite (V_update_timer_cycles cycles) by reflexivity.
  rewrite (V_update_lcd_cycles cycles) by reflexivity.
  apply (V_update_dma_cycles cycles); reflexivity.
Qed.

(** X1 for the 12 cycles of a three-byte load, on the MBC3 cartridge with
    the timer about to overflow and an OAM DMA started: the timer, the LCD,
    the DMA and the sound unit all move, and what is listed is as before. *)
Lemma update_cycles_changes_devices_only_witness :
  let e := write_io mbc3_timer_about_to_overflow IO_DMA_ADDR 0xC0 in
  except_devices (update_cycles e 12) = except_devices e
  /\ cycles (update_cycles e 12) = u32 (cycles e + 12).
Proof.
  intros e. apply (update_cycles_changes_devices_only e 12). lia.
Defined.

(** ** The sound unit when it is off *)

(** X30.  With the sound unit off (bit 7 of NR52 clear), a CPU write to a
    sound register changes nothing at all, unless the register is one of
    the length registers NR11, NR21, NR31, NR41 or NR52 itself. *)
Theorem sound_off_ignores_writes (e : Emulator) (a v : Z) :
  sound_enabled (sound e) = false ->
  0xFF10 <= a <= 0xFF2F ->
  ~ In a sound_off_writable ->
  write_u8 e a v = Some e.
Proof.
  intros Hoff Ha Hnot. unfold write_u8. rewrite (map_address_full a) by lia. cbv zeta.
  destruct (negb (is_dma_access_ok e _)); [reflexivity |].
  cbn [pair_type pair_addr]. unfold region_of, region_base. case_ltb. cbv iota.
  f_equal. unfold write_apu, write_apu_body. rewrite Hoff. cbn [negb andb].
  unfold sound_off_writable in Hnot. cbn [In] in Hnot.
  unfold APU_NR11_ADDR, APU_NR21_ADDR, APU_NR31_ADDR, APU_NR41_ADDR, APU_NR52_ADDR.
  destruct (Z.eqb_spec (a - 0xFF10) 0x1); [exfalso; apply Hnot; lia |].
  destruct (Z.eqb_spec (a - 0xFF10) 0x6); [exfalso; apply Hnot; lia |].
  destruct (Z.eqb_spec (a - 0xFF10) 0xb); [exfalso; apply Hnot; lia |].
  destruct (Z.eqb_spec (a - 0xFF10) 0x10); [exfalso; apply Hnot; lia |].
  destruct (Z.eqb_spec (a - 0xFF10) 0x16); [exfalso; apply Hnot; lia |].
  reflexivity.
Qed.

(** X30 for a write to NR12 with the sound unit off. *)
Lemma sound_off_ignores_writes_witness :
  write_u8 mbc3_sound_off 0xFF12 0xF3 = Some mbc3_sound_off.
Proof.
  apply (sound_off_ignores_writes mbc3_sound_off 0xFF12 0xF3);
    [reflexivity | lia | simpl; lia].
Defined.
